(* ===== verification/_CoqProject ===== *)
-Q . S2P
Prelude.v
Text.v
Config.v
Cli.v
Values.v
Csv.v
World.v
Store.v
StateMachine.v
Probe.v
Connectivity.v
Report.v
SpeedTest.v
Schema.v
Rendered.v
Upload.v
Monitor.v
Spacing.v
Startup.v
Session.v
