(* ===== verification/Prelude.v ===== *)
(** * Verification of the internet connection monitor (src/internet_monitor.py)

    ** The program

    [InternetMonitor] is a single-threaded monitor of one network link.
    Every [ping_interval] seconds [run_monitor] calls [test_connectivity],
    which probes three hosts with [ping_test] and three URLs with
    [http_test], appends one row per probe to connectivity.csv, decides
    "connected" when more than half of the probes succeeded, and hands the
    verdict to [_handle_connection_state].  The handler keeps three fields
    ([is_connected], [disconnect_start], [last_successful_ping]) and writes
    one row to events.csv when a disconnection ends.  The [schedule] library
    runs [run_speedtest] every [speedtest_interval] seconds (a primary tool,
    a fallback tool, two JSON schemas, one row of speedtest.csv per run) and,
    when enabled, [upload_logs].  On [KeyboardInterrupt] the loop ends with
    [generate_report], which reads the three series back and writes a
    summary.  [main] parses the command line, builds the monitor, which
    reads or creates the configuration file, and switches uploads on, runs
    the report or runs the loop.

    ** The model

    The development is a shallow embedding: every method is a Rocq function
    in a state-and-exception monad, [M State A := State -> result A * State],
    defined in this file.  An exception is a value of [exn]; the state
    survives a raised exception, as assignments to [self] and writes to
    files do; [try_except body catches handler] is the try statement with
    the class of its except clause as a predicate ([is_Exception] does not
    hold of [KeyboardInterrupt]); an exception that its handler raises
    leaves the statement, whatever clauses follow.  Loops over lists are
    [for_each] and [fold_each]; the one unbounded loop, [while True] in
    [run_monitor], runs for a number of cycles given as fuel.

    The code under src/ is one file.  What it calls of the standard
    library and of the [schedule] package is modelled from these
    libraries as CPython 3.11 has them, as far as the program uses it, and
    is marked as such in the map of the project: [argparse] ([classify],
    [consume], [get_value], [store], [parse_args]), [configparser]
    ([config_get], [getboolean]), [csv] and the newlines of text files
    (all of Csv), [datetime] ([timedelta_of_seconds], [datetime_add]),
    [time.sleep] (the range in [sleep]) and [schedule] ([job],
    [every_seconds_do], [should_run], [run_job], [due_jobs], [sort_jobs],
    [run_pending]).

    Files and what they model:

    - Prelude (this file): exceptions, results, the monad and its notations
      ([let! x := c in k], [c ;; k], [let? x := r in k] on results), the
      classes [Respects R c] (the state [c] leaves is related by [R] to the
      state it started from), [Raises P c] (an exception that leaves [c]
      satisfies [P]), of which [Contained c] (no [Exception] leaves [c])
      and [Ordinary c] (no interrupt leaves [c]) are the two common cases,
      and [Returns c], with their composition instances and the tactics
      [respects], [raises], [contained], [ordinary], [returns] that walk
      down a program; the invariant rule of the loops ([fold_each_inv]);
      decoders and what they read back; sums of rationals; and two types
      of values that come from outside: [arg_value], what [argparse]
      stores for an option (the converted argument, or the empty list for
      an argument [--]), and [bytes], a captured stream as far as the
      program looks at it (UTF-8 text, which [decode] returns, or not,
      on which [decode] raises [UnicodeDecodeError]).
    - Text: [in], [split(sep)[1]] and [split()[0]] on strings (line 122),
      [str.lower], and the paths of [pathlib] as the program joins them
      ([path_text], [path_join]; lines 21, 64-66, 327, 411).
    - Config: [configparser] as the program uses it: a configuration is a
      finite map from section names to finite maps from option names to
      strings; [config_get], [getboolean] with its fallback (lines 390,
      439, 445), [config_set] (line 495) and the default configuration of
      lines 36-47.
    - Cli: the parser of [main] (lines 467-481): the seven options with
      their types and defaults, [int] on a string ([py_int]), and the two
      passes of [argparse] ([classify_all], then [consume]) with exact
      names, [name=value], unique prefixes, [-h], negative numbers, [--]
      and the exit codes 0 and 2.  An argument [--] given with [=] is
      removed before the conversion ([get_value]), so that
      [--log-dir=--] and [--ping-interval=--] store the empty list.
    - Values: timestamps (microseconds, [Z]) with the range of
      [datetime] and of [timedelta] ([timedelta_of_seconds] and
      [datetime_add] raise [OverflowError] outside it), JSON values, the
      cells of a CSV row, log records, the lines of a report.
    - Csv: the text of a series: [csv.writer] of the default dialect
      ([write_row]: commas, quotes around a field that needs them, quotes
      doubled, CR LF), the universal newlines of [open(path, 'r')]
      ([universal]) and the reader as the machine of six states of the csv
      module ([process_char], [read_from]), as the program uses them on
      lines 93-107, 196-205, 223-230, 292-314 and 331-365.
    - World: [State] (the connection fields of lines 70-73, the three files
      as a finite map from [series] to lists of rows, the report files, the
      log, the count of interactions), [Config] (the arguments of
      [__init__], the configuration, the targets of lines 76-86), and
      [Environment], the oracle for everything outside the process:
      [clock], [subprocess_run], [requests_get], [float_of_str],
      [json_loads], [time_sleep], [expanduser], each answer indexed by the
      count of interactions so that a run is a function of the
      environment.  A child process answers with its exit code, its
      standard output as text and its standard error as [bytes]
      ([CompletedProcess]); [check_process] is [check=True] and raises
      [CalledProcessError] with the code and the standard error.  [sleep]
      is [time.sleep] on the interval as stored: [TypeError] on the empty
      list, [OverflowError] beyond [sleep_max] seconds either side of 0,
      [ValueError] below 0, and an interaction otherwise.
      [EnvironmentLaws] (monotone clock, parsers raising their documented
      exception), [Uninterrupted] (no [KeyboardInterrupt]) and [Decodable]
      (no command fails with a standard error that is not UTF-8) are the
      hypotheses theorems name when they need them; [EnabledReadable cfg]
      says that the option [enabled] of section VPS, if present, is a
      boolean.
    - Store: [_init_csv_files] (lines 88-107), appending, and
      [csv.DictReader] as [generate_report] uses it (lines 331-333);
      [store_wf], the order [store_le] ("only appended"), the time a row
      is stamped with ([row_time]), and the text the file of a series
      holds ([file_text]).
    - StateMachine: [_handle_connection_state] (lines 212-244), the
      transition table of the specification ([spec_step], [spec_run]),
      the handler run over a sequence of verdicts ([handle_all], which is
      no code of the program but the sequence the table is run over), and
      the event a row of the events series stands for ([event_of_row]).
    - Probe: [ping_test] (109-133) and [http_test] (135-153).
    - Connectivity: [test_connectivity] (155-210), [verdict] (line 190),
      the entry a row of the connectivity series stands for
      ([probe_of_row]), and the checks a run made as the batches of entries
      its rows record ([audited], [majority]).
    - Report: [generate_report] (319-386) and its arithmetic.
    - SpeedTest: [run_speedtest] (246-317), the Python operations on JSON
      it relies on, the list of tool adapters of the specification
      ([spec_speedtest]), and the record a row of the speed test series
      stands for ([record_of_row]).
    - Schema: the schema of the three series as the rows that stand for a
      record of the data model ([row_typed]), typed stores
      ([store_typed], [files_typed]), the history a store holds
      ([probes_of], [events_of], [records_of]) and the report of the
      specification over a history ([reference_report]).
    - Rendered: the rows and the records [csv.DictReader] reads in the
      text of a series ([as_read], [text_records]), what the report needs
      of the way cells are written ([Rendering], [numbers_read]), and the
      sections of the report computed from the text.
    - Upload: [upload_logs] (388-432): the body of its [try]
      ([upload_body]), its two except clauses ([upload_failed], of which
      the first decodes the standard error, [scp_failure], line 430), and
      the plan of the commands it is to run ([upload_plan], [run_plan]).
    - Monitor: the jobs of [schedule] as the loop uses them, with the
      exceptions of an interval that cannot be scheduled
      ([every_seconds_do], [schedule_next_run]; [Schedulable cfg] says
      that none is raised), [run_monitor] (434-464) and the end of
      [__init__] (67-73).
    - Spacing: the distance between the runs of a scheduled job: rows
      stamped at least one interval apart ([spaced]), the bound the job
      list carries for the next row ([bound_after]), and the invariant of
      [run_pending], of a cycle and of the loop.
    - Startup: the process: [Process] holds the configuration files, what
      was printed and the state of the monitor; [__init__] reads or
      creates the configuration file (lines 29-49), after [Path] has
      taken the two paths ([path_of], [TypeError] on the empty list);
      [main] (466-506) parses the command line, builds the monitor and
      runs one of its three modes ([run_mode]): [--setup-vps], [--report]
      or the loop.
    - Session: a run of [run_monitor] as a whole against the transition
      table, typed stores across a session, and the report of the program
      as a function of the history.

    Components meet through classes: a component states that its
    operations append only ([AppendOnly]), keep the store well formed
    ([KeepsStore]), leave the connection fields alone ([KeepsConnection]) or
    keep them consistent, and are [Contained]; the scheduler is proved
    against [PeriodicAction], which the speed test and the upload
    discharge; the monitor is assembled from [Steady] parts.  The relations
    that [Respects] carries through a program are preorders on states:
    [quiet] (nothing but the log and the count of interactions changed),
    [only_series f], [report_only], [aside] (the connection fields and the
    events series are untouched), [grows f P] (the series [f] grew by rows
    that satisfy [P]), [tracks checks] (the connection fields and the
    events series moved as the table does on [checks]) and [later] (the
    count of interactions did not decrease, so that a monotone clock reads
    no earlier).  The monitor runs inside the process through the lens
    [on_monitor].

    ** What is proved

    - State machine: the invariant "[disconnect_start] is set exactly when
      disconnected" in every reachable state; refinement of the
      specification's table by any sequence of handler calls, events rows
      included; one event per outage, timed from the first failed check;
      repeated successes only advance [last_successful_ping]; the durations
      written add up to the time spent disconnected; durations are not
      negative when the clock is monotone, and the row of an outage that
      ends while the clock reads less than its start has a negative one.
    - Connectivity: the verdict is the strict majority of the rows written
      (2 of 4 is disconnected, 3 of 4 connected); one row per target, in
      order; the check always returns unless interrupted, and an
      interrupted check writes nothing.
    - Probes: only an interrupt escapes; success only on exit code 0 or on
      one of six status codes; a reply whose time does not parse is a
      failed probe; the response time is present exactly when the probe
      succeeded.
    - Speed test: exactly one record per run unless interrupted; the record
      is the one the specification's list of adapters produces; the Ookla
      and the fallback row on their success branches, for figures in the
      range of a float (beyond it the division raises and the test is
      recorded as failed); the fallback is run twice when it is missing
      after the primary failed; an empty document is a success of 0 Mbps.
    - Text of the series: whatever text the cells are written as, the
      reader gives back the rows written, field by field, with CR LF and a
      lone CR read as LF (the files are written with [newline=''] and
      read without it), and unchanged when no field holds a carriage
      return; the reader raises no error on a file opened in text mode;
      creating a file and appending to it do to its text what they do to
      the rows of the store; on a typed store the analyses of the report
      give the same sections from the text of the files as from the rows
      of the store, when [float] reads back the numbers written.
    - Store and report: a row appended under a header is read back, a row
      appended to a missing file is lost; the report holds the sections in
      order, counts exactly the outages the state machine completed, fails
      as a whole when one field does not parse; success rate and speed
      statistics within their bounds.
    - Typed series: every row the monitor writes stands for a record of
      the data model, and a row that stands for a record is the row of
      that record (the decoders and the row constructors are inverse); on a
      typed store the analyses of [generate_report] raise nothing and give
      the report of the specification over the records read; [main] keeps
      the log directory typed in each of its modes, never removes a row and
      ends with consistent connection fields.
    - Command line and configuration: a namespace whose paths are not
      [--], written out as a command line, parses back to itself, so every
      integer can be given as an interval; an error of the command line
      or the help exits before anything is touched; a path given as [--]
      with [=] ends [main] with a [TypeError]; [--setup-vps] leaves a file
      in which [enabled] reads as true, and fails with [NoSectionError] on
      a file without section VPS; an option [enabled] that is no boolean
      stops the monitor before its loop.
    - Upload: with uploads enabled and its options present, [upload_logs]
      runs the commands of its plan in order until one fails (the remote
      directory, one copy per series that exists, the latest report), logs
      how it ended and changes nothing else; the first failure stops it.
      Three exceptions reach the caller and no other: an interrupt, the
      [ValueError] of an option [enabled] that is no boolean, and the
      [UnicodeDecodeError] of line 430, raised while the failure of a
      command is logged when the standard error it left is not UTF-8.
    - Monitor: a run of any length keeps the invariant and only appends;
      the loop is still running after any number of cycles when no
      interrupt arrives, [enabled] is readable, the intervals are ones
      [time.sleep] and the scheduler accept and the standard error of
      failed commands is UTF-8, and examples show a run that ends when
      one of the last two fails; an interrupt in the loop ends with one
      report; an interrupt during the first speed test, an interval the
      scheduler cannot hold or one [time.sleep] refuses ends without one;
      an interrupt that stays pending ends every run that is long enough,
      with the same result whatever the fuel beyond that; the due jobs
      run in the order of the stable sort by next run.
    - Spacing: on a monotone clock the speed tests run by the schedule
      keep their interval, whatever the tools answer and however the run
      ends: after the row of the first test, made at once, the first row is
      stamped at least one interval after the start of the run and each
      next one at least one interval after the one before.  Nothing is
      claimed between the first test and the first scheduled one: the job
      is scheduled before the first test runs, so these two can be closer
      than the interval by the time the first test takes.
    - Session: whatever the environment does, a run refines the transition
      table on a sequence of at most one check per cycle, each the majority
      verdict of the batch of entries, one per configured target, that the
      connectivity series records for it; in a log
      directory whose series, where they exist, are typed, [main] without
      flags, interrupted in the loop, exits with code 0 and leaves a
      complete report whose sections are those of the probes, the outages
      and the speed tests of the earlier runs followed by the probes made,
      the outages the table completes and the speed tests run.

    ** Bounds and idealisations

    - Fuel counts cycles of [while True].  [run_monitor cfg fuel] answers
      [Running] when the loop is still going after [fuel] cycles and
      [Stopped] or an exception otherwise; a loop that ended does not
      depend on the fuel ([monitor_loop_raised]), and by
      [pending_interrupt_stops_monitor] any fuel beyond the interaction
      from which the interrupt is pending gives the run of the program.
    - Floats are exact rationals ([Q]) within the range of a double: a
      division or a conversion of an integer whose result is at least
      2^1024 - 2^970 in magnitude raises [OverflowError] ([fits_float]).
      Rounding, NaN and the infinities, which [json.loads] can return,
      and the one-decimal rendering of the f-strings are not modelled.
      Statistics are stated up to [Qeq].
    - A timestamp is a count of microseconds on one clock: time zones and
      the difference between [datetime.now()] and [time.time()] are not
      modelled.  The clock of the environment is any function; the one of
      the examples that run for any number of cycles stops at the year
      2100, so that the dates the scheduler computes exist.
    - [time.sleep] is modelled on integers, the only values the command
      line stores.  At [sleep_max] itself, 9223372036 seconds, the
      conversion succeeds and the answer is that of the system, which is
      left to the environment.
    - The latest report of [upload_logs] is the file of the greatest
      modification time; the model takes the one of the greatest stamp in
      its name, which is the same when the clock does not go backwards,
      a hypothesis of the theorem on the plan of an upload.
    - The store keeps a CSV row as a list of typed cells, and a cell read
      back is the cell written.  Csv and Rendered justify this for the
      report: the text of the cells is read back whatever it is, and the
      analyses see in it what they see in the typed rows.  How a number or
      a timestamp is written ([repr], [isoformat]) is not modelled; that
      [float] reads a written number back is a hypothesis of the theorem
      that needs it.  The csv module is modelled as CPython 3.11
      implements it for the default dialect; the limit on the size of a
      field is left out.
    - An interrupt arrives during an interaction with the outside (a child
      process, a request, a parser, the sleep), not between two statements
      of the program.
    - Records below the INFO threshold are dropped by [logger], as
      [logging.basicConfig(level=logging.INFO)] does.
    - The [schedule] library is modelled by the behaviour the loop relies
      on: [every(n).seconds.do(f)] schedules the first run one interval from
      now and raises [OverflowError] when the interval does not fit a
      [timedelta] or leads past the last date, [TypeError] when it is the
      empty list; [run_pending] runs the due jobs sorted by next run and
      reschedules each one interval after it ended.
    - [argparse], [configparser], [int] and [pathlib] are modelled as
      CPython 3.11 implements them, on ASCII text; later versions of
      [argparse] keep an argument [--] given with [=].  A configuration
      file is
      the configuration it holds, keyed by the text of its path: the INI
      syntax, the DEFAULT section and interpolation with [%] are not
      modelled; a file that cannot be parsed is a file that holds an
      exception.  The help text and the usage message of [argparse] are
      not modelled, only the exit code.

    ** Not modelled

    The creation of the log directory (line 23), the set-up of logging
    (lines 52-60) apart from its threshold, I/O errors on the CSV, report
    and configuration files, the log file itself, the text of a
    [CalledProcessError] with an empty standard error, and what the remote
    host does with an upload. *)

From Stdlib Require Export QArith Qminmax Lqa.
From stdpp Require Export base tactics option list strings gmap.

(** * Prelude: exceptions as values, the state-and-exception monad of the
    model, the tactics and hint databases of the development, and the
    lemmas on lists of rationals that the components share. *)

Declare Scope py_scope.
Delimit Scope py_scope with py.

(** ** Values the command line stored

    What [argparse] stores for an option that takes one argument: the
    argument after its conversion, or the empty list that the parser of
    CPython up to 3.11 stores when the argument is [--] given with [=]. *)

Inductive arg_value (A : Type) : Type :=
| Stored (a : A)
| EmptyList.
Arguments Stored {A} a.
Arguments EmptyList {A}.

#[export] Instance arg_value_eq_dec {A} `{EqDecision A} : EqDecision (arg_value A).
Proof. solve_decision. Defined.

(** ** Captured bytes

    What a child process wrote on a stream that is captured without
    [text=True], as far as the program looks at it: the UTF-8 encoding of
    a text, or bytes that are not UTF-8. *)

Inductive bytes : Type :=
| Utf8 (text : string)
| NotUtf8.

#[export] Instance bytes_eq_dec : EqDecision bytes.
Proof. solve_decision. Defined.

(** The truth value of [bytes]: false when empty. *)
Definition bytes_truth (b : bytes) : bool :=
  match b with Utf8 "" => false | _ => true end.

(** ** Python exceptions

    Only the classes that the monitor raises, catches or lets through are
    distinguished.  [KeyboardInterrupt] derives from [BaseException]: an
    [except Exception] clause does not catch it.  [UnicodeDecodeError]
    derives from [ValueError]; no clause of the monitor names either.  A
    [CalledProcessError] carries the exit code and the captured standard
    error of the command. *)

Inductive exn : Type :=
| PlainException (msg : string)
| FileNotFoundError
| TimeoutExpired
| CalledProcessError (returncode : Z) (stderr : bytes)
| OSError
| RequestException
| ValueError
| UnicodeDecodeError
| OverflowError
| JSONDecodeError
| KeyError (key : string)
| IndexError
| TypeError
| AttributeError
| ZeroDivisionError
| NoOptionError (option : string)
| NoSectionError (section : string)
| RuntimeError
| CsvError
| KeyboardInterrupt.

#[export] Instance exn_eq_dec : EqDecision exn.
Proof. solve_decision. Defined.

(** [except Exception] *)
Definition is_Exception (e : exn) : bool :=
  match e with KeyboardInterrupt => false | _ => true end.

(** [except FileNotFoundError] *)
Definition is_FileNotFoundError (e : exn) : bool :=
  match e with FileNotFoundError => true | _ => false end.

(** [except subprocess.TimeoutExpired] *)
Definition is_TimeoutExpired (e : exn) : bool :=
  match e with TimeoutExpired => true | _ => false end.

(** [except requests.exceptions.RequestException] *)
Definition is_RequestException (e : exn) : bool :=
  match e with RequestException => true | _ => false end.

(** [except subprocess.CalledProcessError] *)
Definition is_CalledProcessError (e : exn) : bool :=
  match e with CalledProcessError _ _ => true | _ => false end.

(** An exception whose captured standard error, if it has one, can be
    decoded. *)
Definition decodable (e : exn) : bool :=
  match e with CalledProcessError _ NotUtf8 => false | _ => true end.

(** [except KeyboardInterrupt] *)
Definition is_KeyboardInterrupt (e : exn) : bool :=
  match e with KeyboardInterrupt => true | _ => false end.

(** ** Results: a value or a raised exception *)

Inductive result (A : Type) : Type :=
| Ok (a : A)
| Raise (e : exn).
Arguments Ok {A} a.
Arguments Raise {A} e.

(** [b.decode()] *)
Definition decode (b : bytes) : result string :=
  match b with Utf8 text => Ok text | NotUtf8 => Raise UnicodeDecodeError end.

Definition is_Ok {A} (r : result A) : bool :=
  match r with Ok _ => true | Raise _ => false end.

Definition result_bind {A B} (r : result A) (f : A -> result B) : result B :=
  match r with Ok a => f a | Raise e => Raise e end.

#[export] Instance result_ret : MRet result := @Ok.
#[export] Instance result_mbind : MBind result :=
  fun A B f r => result_bind r f.
#[export] Instance result_fmap : FMap result :=
  fun A B f r => match r with Ok a => Ok (f a) | Raise e => Raise e end.

(** ** The monad of the model

    A Python statement runs in a state, produces a value or raises, and
    leaves a state: a raised exception keeps the writes made before it
    (nothing is rolled back), so the state is returned on both branches. *)

Definition M (S A : Type) : Type := S -> result A * S.

Section Monad.
Context {S : Type}.

Definition ret {A} (a : A) : M S A := fun s => (Ok a, s).

Definition bind {A B} (c : M S A) (f : A -> M S B) : M S B :=
  fun s => match c s with
           | (Ok a, s') => f a s'
           | (Raise e, s') => (Raise e, s')
           end.

Definition raise {A} (e : exn) : M S A := fun s => (Raise e, s).

Definition lift {A} (r : result A) : M S A := fun s => (r, s).

Definition get : M S S := fun s => (Ok s, s).
Definition gets {A} (f : S -> A) : M S A := fun s => (Ok (f s), s).
Definition modify (f : S -> S) : M S unit := fun s => (Ok tt, f s).

(** [try: body / except <class> as e: handler e]: the handler runs in the
    state the body left. *)
Definition try_except {A} (body : M S A) (catches : exn -> bool)
    (handler : exn -> M S A) : M S A :=
  fun s => match body s with
           | (Ok a, s') => (Ok a, s')
           | (Raise e, s') => if catches e then handler e s' else (Raise e, s')
           end.

(** [for x in xs: body x] *)
Fixpoint for_each {A} (xs : list A) (body : A -> M S unit) : M S unit :=
  match xs with
  | [] => ret tt
  | x :: xs' => bind (body x) (fun _ => for_each xs' body)
  end.

(** [for x in xs: acc = body(acc, x)]: a loop that updates local
    variables. *)
Fixpoint fold_each {A B} (xs : list A) (acc : B) (body : B -> A -> M S B)
    : M S B :=
  match xs with
  | [] => ret acc
  | x :: xs' => bind (body acc x) (fun acc' => fold_each xs' acc' body)
  end.

(** The state a computation leaves, and its outcome. *)
Definition exec {A} (c : M S A) (s : S) : S := snd (c s).
Definition eval {A} (c : M S A) (s : S) : result A := fst (c s).
End Monad.

(** ** Computations that respect a relation on states

    [Respects R c]: whatever the state [s], the state [c] leaves is related
    to [s] by [R].  With [R] a preorder this composes along the structure of
    a program, so that "only appends to the files" or "leaves these fields
    alone" is proved of the effects once and follows for every handler. *)

Class Respects {S A} (R : relation S) (c : M S A) : Prop :=
  respects : forall s, R s (exec c s).

(** [Contained c]: no [Exception] leaves [c]; only an interrupt can. *)
Class Contained {S A} (c : M S A) : Prop :=
  contained : forall s e, eval c s = Raise e -> is_Exception e = false.

(** [Ordinary c]: what [c] raises is an [Exception], never an interrupt. *)
Class Ordinary {S A} (c : M S A) : Prop :=
  ordinary : forall s e, eval c s = Raise e -> is_Exception e = true.

(** [Returns c]: [c] returns a value, whatever the state. *)
Class Returns {S A} (c : M S A) : Prop :=
  returns : forall s, is_Ok (eval c s) = true.

(** [Raises P c]: every exception that leaves [c] satisfies [P]. *)
Class Raises {S A} (P : exn -> Prop) (c : M S A) : Prop :=
  raises_only : forall s e, eval c s = Raise e -> P e.

(** ** Lists of rationals *)

(** [sum(xs)] of Python: from 0, left to right. *)
Definition Qsum (xs : list Q) : Q := fold_left Qplus xs 0%Q.

(** Lists of rationals that agree up to [Qeq], element by element. *)
Definition Qlist_eq : relation (list Q) := Forall2 Qeq.

Notation "'let!' x ':=' c 'in' k" := (bind c (fun x => k))
  (at level 10, x pattern, c at level 100, k at level 200,
   format "'[v' 'let!'  x  :=  c  'in'  '/' k ']'") : py_scope.
Notation "'let?' x ':=' r 'in' k" := (result_bind r (fun x => k))
  (at level 10, x pattern, r at level 100, k at level 200,
   format "'[v' 'let?'  x  :=  r  'in'  '/' k ']'") : py_scope.
Notation "c ;; k" := (bind c (fun _ => k))
  (at level 100, right associativity,
   format "'[v' c  ;;  '/' k ']'") : py_scope.

#[global] Open Scope py_scope.

(** ** Tactics *)

(** Invert a hypothesis and clean up. *)
Ltac invert H := inversion H; subst; clear H.

(** Split the pair a monadic computation returns, naming the equation. *)
Ltac run_as c s r s' E := destruct (c s) as [r s'] eqn:E.

(** Case analysis on the outermost [match] or [if] of the goal. *)
Ltac break_match :=
  match goal with
  | |- context [match ?x with _ => _ end] =>
      lazymatch x with
      | context [match _ with _ => _ end] => fail
      | _ => destruct x eqn:?
      end
  end.

(** Case analysis on what a decoder reads, one field at a time: the
    branches in which it reads nothing are closed as they appear. *)
Ltac decode_cases := repeat (case_match; try done); simplify_eq.

Create HintDb monitor discriminated.
Create Rewrite HintDb run.

(** ** Lemmas on the monad *)

Section MonadLemmas.
Context {S : Type}.
Implicit Types s : S.

Lemma run_ret {A} (a : A) s : ret a s = (Ok a, s).
Proof. reflexivity. Qed.

Lemma run_raise {A} (e : exn) s : @raise S A e s = (Raise e, s).
Proof. reflexivity. Qed.

Lemma run_bind_ok {A B} (c : M S A) (f : A -> M S B) s a s' :
  c s = (Ok a, s') -> bind c f s = f a s'.
Proof. unfold bind. by intros ->. Qed.

Lemma run_bind_raise {A B} (c : M S A) (f : A -> M S B) s e s' :
  c s = (Raise e, s') -> bind c f s = (Raise e, s').
Proof. unfold bind. by intros ->. Qed.

Lemma bind_ret_l {A B} (a : A) (f : A -> M S B) s : bind (ret a) f s = f a s.
Proof. reflexivity. Qed.

Lemma bind_assoc {A B C} (c : M S A) (f : A -> M S B) (g : B -> M S C) s :
  bind (bind c f) g s = bind c (fun a => bind (f a) g) s.
Proof. unfold bind. by destruct (c s) as [[a|e] s']. Qed.

Lemma try_except_ok {A} (c : M S A) p h s a s' :
  c s = (Ok a, s') -> try_except c p h s = (Ok a, s').
Proof. unfold try_except. by intros ->. Qed.

Lemma try_except_caught {A} (c : M S A) p h s e s' :
  c s = (Raise e, s') -> p e = true -> try_except c p h s = h e s'.
Proof. unfold try_except. by intros -> ->. Qed.

Lemma try_except_passed {A} (c : M S A) p h s e s' :
  c s = (Raise e, s') -> p e = false -> try_except c p h s = (Raise e, s').
Proof. unfold try_except. by intros -> ->. Qed.

(** A handler that never raises, guarding against every [Exception]:
    only an interrupt escapes. *)
Lemma try_except_total {A} (c : M S A) (h : exn -> M S A) s e s' :
  (forall e0 s0, is_Ok (fst (h e0 s0)) = true) ->
  try_except c is_Exception h s = (Raise e, s') -> e = KeyboardInterrupt.
Proof.
  unfold try_except. intros Hh. destruct (c s) as [[a|e0] s0]; [done|].
  destruct (is_Exception e0) eqn:Hc; intros H.
  - specialize (Hh e0 s0). by rewrite H in Hh.
  - invert H. by destruct e.
Qed.

Lemma for_each_app {A} (xs ys : list A) (body : A -> M S unit) s :
  for_each (xs ++ ys) body s
  = bind (for_each xs body) (fun _ => for_each ys body) s.
Proof.
  revert s. induction xs as [|x xs IH]; intros s; simpl; [done|].
  unfold bind. destruct (body x s) as [[[]|e] s1]; [|done].
  by rewrite IH.
Qed.
End MonadLemmas.

(** ** Invariants of loops

    A loop over a list keeps an invariant [I done acc s] of the elements
    done, the accumulator and the state when its body does; when the body
    raises, the loop ends at once, in a state of [J]. *)

Section LoopInvariant.
Context {S A B : Type} (I : list A -> B -> S -> Prop) (J : S -> Prop).
Context (xs : list A) (body : B -> A -> M S B).
Hypothesis body_keeps : forall done x rest b s,
  xs = done ++ x :: rest -> I done b s ->
  match body b x s with
  | (Ok b', s') => I (done ++ [x]) b' s'
  | (Raise _, s') => J s'
  end.

Lemma fold_each_from done rest acc s :
  xs = done ++ rest -> I done acc s ->
  match fold_each rest acc body s with
  | (Ok b', s') => I xs b' s'
  | (Raise _, s') => J s'
  end.
Proof.
  revert done acc s. induction rest as [|x rest IH]; intros done acc s Hxs Hi.
  - rewrite app_nil_r in Hxs. by subst.
  - simpl. unfold bind. pose proof (body_keeps done x rest acc s Hxs Hi) as Hb.
    destruct (body acc x s) as [[b'|e] s']; [|done].
    apply (IH (done ++ [x])); [by rewrite <- app_assoc|done].
Qed.

Lemma fold_each_inv acc s :
  I [] acc s ->
  match fold_each xs acc body s with
  | (Ok b', s') => I xs b' s'
  | (Raise _, s') => J s'
  end.
Proof. by apply (fold_each_from []). Qed.
End LoopInvariant.

#[export] Hint Rewrite @run_ret @run_raise @bind_ret_l : run.

(** Unfold the operations of the monad. *)
Ltac unfold_monad :=
  unfold bind, ret, raise, get, gets, modify, lift, try_except, exec, eval in *.

(** ** How [Respects] and [Contained] compose *)

Section Composition.
Context {S : Type} (R : relation S) `{!PreOrder R}.

#[export] Instance ret_respects {A} (a : A) : Respects R (ret a).
Proof. intros s. reflexivity. Qed.

#[export] Instance raise_respects {A} e : Respects R (@raise S A e).
Proof. intros s. reflexivity. Qed.

#[export] Instance lift_respects {A} (r : result A) : Respects R (lift r).
Proof. intros s. reflexivity. Qed.

#[export] Instance get_respects : Respects R get.
Proof. intros s. reflexivity. Qed.

#[export] Instance gets_respects {A} (f : S -> A) : Respects R (gets f).
Proof. intros s. reflexivity. Qed.

#[export] Instance bind_respects {A B} (c : M S A) (f : A -> M S B) :
  Respects R c -> (forall a, Respects R (f a)) -> Respects R (bind c f).
Proof.
  intros Hc Hf s. specialize (Hc s). unfold exec, bind in *.
  destruct (c s) as [[a|e] s1]; simpl in *; [|done].
  etrans; [exact Hc|]. apply Hf.
Qed.

#[export] Instance try_except_respects {A} (c : M S A) p (h : exn -> M S A) :
  Respects R c -> (forall e, Respects R (h e)) -> Respects R (try_except c p h).
Proof.
  intros Hc Hh s. specialize (Hc s). unfold exec, try_except in *.
  destruct (c s) as [[a|e] s1]; simpl in *; [done|].
  destruct (p e); [|done]. etrans; [exact Hc|]. apply Hh.
Qed.

#[export] Instance for_each_respects {A} (xs : list A) (body : A -> M S unit) :
  (forall x, Respects R (body x)) -> Respects R (for_each xs body).
Proof. intros Hb. induction xs; simpl; apply _. Qed.

#[export] Instance fold_each_respects {A B} (xs : list A) (acc : B)
    (body : B -> A -> M S B) :
  (forall b x, Respects R (body b x)) -> Respects R (fold_each xs acc body).
Proof. intros Hb. revert acc. induction xs; intros acc; simpl; apply _. Qed.

Lemma modify_respects (f : S -> S) : (forall s, R s (f s)) -> Respects R (modify f).
Proof. intros H s. apply H. Qed.

Lemma respects_weaken {A} (R' : relation S) (c : M S A) :
  (forall s s', R' s s' -> R s s') -> Respects R' c -> Respects R c.
Proof. intros H Hc s. apply H, Hc. Qed.
End Composition.

Section Containment.
Context {S : Type}.

#[export] Instance ret_contained {A} (a : A) : Contained (@ret S A a).
Proof. by intros s e. Qed.

#[export] Instance get_contained : Contained (@get S).
Proof. by intros s e. Qed.

#[export] Instance gets_contained {A} (f : S -> A) : Contained (gets f).
Proof. by intros s e. Qed.

#[export] Instance modify_contained (f : S -> S) : Contained (modify f).
Proof. by intros s e. Qed.

#[export] Instance bind_contained {A B} (c : M S A) (f : A -> M S B) :
  Contained c -> (forall a, Contained (f a)) -> Contained (bind c f).
Proof.
  intros Hc Hf s e. specialize (Hc s). unfold eval, bind in *.
  destruct (c s) as [[a|e0] s1]; simpl in *; [apply Hf|].
  intros [= <-]. by apply Hc.
Qed.

#[export] Instance for_each_contained {A} (xs : list A) (body : A -> M S unit) :
  (forall x, Contained (body x)) -> Contained (for_each xs body).
Proof. intros Hb. induction xs; simpl; apply _. Qed.

#[export] Instance fold_each_contained {A B} (xs : list A) (acc : B)
    (body : B -> A -> M S B) :
  (forall b x, Contained (body b x)) -> Contained (fold_each xs acc body).
Proof. intros Hb. revert acc. induction xs; intros acc; simpl; apply _. Qed.

#[export] Instance lift_ok_contained {A} (a : A) : Contained (@lift S A (Ok a)).
Proof. by intros s e. Qed.

(** [try: c / except Exception as e: h e] lets out what [h] lets out. *)
#[export] Instance try_except_contained {A} (c : M S A) (h : exn -> M S A) :
  (forall e, Contained (h e)) -> Contained (try_except c is_Exception h).
Proof.
  intros Hh s e. unfold eval, try_except.
  destruct (c s) as [[a|e0] s1]; simpl; [done|].
  destruct (is_Exception e0) eqn:He0; [apply Hh|]. by intros [= <-].
Qed.

(** So does a [try] whose clauses together catch every [Exception]. *)
Lemma try_except_contained_all {A} (c : M S A) p (h : exn -> M S A) :
  (forall e, is_Exception e = true -> p e = true) ->
  (forall e, Contained (h e)) -> Contained (try_except c p h).
Proof.
  intros Hp Hh s e. unfold eval, try_except.
  destruct (c s) as [[a|e0] s1]; simpl; [done|].
  destruct (p e0) eqn:He0; [apply Hh|]. intros [= <-].
  destruct (is_Exception e0) eqn:He; [|done]. apply Hp in He. congruence.
Qed.

(** A narrower [except] clause around a contained body stays contained. *)
Lemma try_except_contained_body {A} (c : M S A) p (h : exn -> M S A) :
  Contained c -> (forall e, Contained (h e)) -> Contained (try_except c p h).
Proof.
  intros Hc Hh s e. specialize (Hc s). unfold eval, try_except in *.
  destruct (c s) as [[a|e0] s1]; simpl in *; [done|].
  destruct (p e0); [apply Hh|]. intros [= <-]. by apply Hc.
Qed.
End Containment.

Lemma is_Exception_false e : is_Exception e = false <-> e = KeyboardInterrupt.
Proof. by destruct e. Qed.

(** ** Computations that return *)

Section Returning.
Context {S : Type}.

Lemma returns_run {A} (c : M S A) `{!Returns c} s :
  exists a, c s = (Ok a, exec c s).
Proof.
  pose proof (returns (c := c) s) as H. unfold eval, exec in *.
  destruct (c s) as [[a|e] s']; [by exists a|done].
Qed.

#[export] Instance ret_returns {A} (a : A) : Returns (@ret S A a).
Proof. by intros s. Qed.

#[export] Instance get_returns : Returns (@get S).
Proof. by intros s. Qed.

#[export] Instance gets_returns {A} (f : S -> A) : Returns (gets f).
Proof. by intros s. Qed.

#[export] Instance modify_returns (f : S -> S) : Returns (modify f).
Proof. by intros s. Qed.

#[export] Instance bind_returns {A B} (c : M S A) (f : A -> M S B) :
  Returns c -> (forall a, Returns (f a)) -> Returns (bind c f).
Proof.
  intros Hc Hf s. destruct (returns_run c s) as [a Ha].
  unfold eval, bind. rewrite Ha. apply Hf.
Qed.

#[export] Instance for_each_returns {A} (xs : list A) (body : A -> M S unit) :
  (forall x, Returns (body x)) -> Returns (for_each xs body).
Proof. intros Hb. induction xs; simpl; apply _. Qed.

#[export] Instance fold_each_returns {A B} (xs : list A) (acc : B)
    (body : B -> A -> M S B) :
  (forall b x, Returns (body b x)) -> Returns (fold_each xs acc body).
Proof. intros Hb. revert acc. induction xs; intros acc; simpl; apply _. Qed.

(** A handler that returns makes the whole [try] return when it catches
    everything the body raises. *)
Lemma try_except_returns {A} (c : M S A) p (h : exn -> M S A) :
  (forall s e, eval c s = Raise e -> p e = true) ->
  (forall e, Returns (h e)) -> Returns (try_except c p h).
Proof.
  intros Hp Hh s. specialize (Hp s). unfold eval, try_except in *.
  destruct (c s) as [[a|e] s']; simpl in *; [done|].
  rewrite (Hp e eq_refl). apply Hh.
Qed.

(** ** Computations that raise ordinary exceptions only *)

#[export] Instance returns_ordinary {A} (c : M S A) : Returns c -> Ordinary c | 10.
Proof. intros Hc s e He. specialize (Hc s). by rewrite He in Hc. Qed.

Lemma lift_ordinary {A} (r : result A) :
  (forall e, r = Raise e -> is_Exception e = true) -> Ordinary (@lift S A r).
Proof. intros Hr s e. apply Hr. Qed.

Lemma raise_ordinary {A} e :
  is_Exception e = true -> Ordinary (@raise S A e).
Proof. by intros He s e' [= <-]. Qed.

#[export] Instance bind_ordinary {A B} (c : M S A) (f : A -> M S B) :
  Ordinary c -> (forall a, Ordinary (f a)) -> Ordinary (bind c f).
Proof.
  intros Hc Hf s e. specialize (Hc s). unfold eval, bind in *.
  destruct (c s) as [[a|e0] s1]; simpl in *; [apply Hf|].
  intros [= <-]. by apply Hc.
Qed.

#[export] Instance try_except_ordinary {A} (c : M S A) p (h : exn -> M S A) :
  Ordinary c -> (forall e, Ordinary (h e)) -> Ordinary (try_except c p h).
Proof.
  intros Hc Hh s e. specialize (Hc s). unfold eval, try_except in *.
  destruct (c s) as [[a|e0] s1]; simpl in *; [done|].
  destruct (p e0); [apply Hh|]. intros [= <-]. by apply Hc.
Qed.

#[export] Instance for_each_ordinary {A} (xs : list A) (body : A -> M S unit) :
  (forall x, Ordinary (body x)) -> Ordinary (for_each xs body).
Proof. intros Hb. induction xs; simpl; apply _. Qed.

#[export] Instance fold_each_ordinary {A B} (xs : list A) (acc : B)
    (body : B -> A -> M S B) :
  (forall b x, Ordinary (body b x)) -> Ordinary (fold_each xs acc body).
Proof. intros Hb. revert acc. induction xs; intros acc; simpl; apply _. Qed.

(** A [try] whose body raises ordinary exceptions only, whose clauses
    catch every [Exception] and whose handlers return, returns. *)
Lemma try_except_returns_all {A} (c : M S A) p (h : exn -> M S A) :
  Ordinary c -> (forall e, is_Exception e = true -> p e = true) ->
  (forall e, Returns (h e)) -> Returns (try_except c p h).
Proof.
  intros Hc Hp Hh. apply try_except_returns; [|done].
  intros s e He. by apply Hp, (Hc s).
Qed.

(** ** What a computation can raise *)

Lemma returns_raises {A} P (c : M S A) : Returns c -> Raises P c.
Proof. intros Hc s e He. specialize (Hc s). by rewrite He in Hc. Qed.

Lemma ordinary_raises {A} (c : M S A) :
  Ordinary c -> Raises (fun e => is_Exception e = true) c.
Proof. done. Qed.

Lemma raises_weaken {A} (P Q : exn -> Prop) (c : M S A) :
  (forall e, P e -> Q e) -> Raises P c -> Raises Q c.
Proof. intros HPQ Hc s e He. by apply HPQ, (Hc s). Qed.

Lemma raises_and {A} (P Q : exn -> Prop) (c : M S A) :
  Raises P c -> Raises Q c -> Raises (fun e => P e /\ Q e) c.
Proof. intros HP HQ s e He. split; [by apply (HP s)|by apply (HQ s)]. Qed.

Lemma lift_raises {A} P (r : result A) :
  (forall e, r = Raise e -> P e) -> Raises P (@lift S A r).
Proof. intros Hr s e. apply Hr. Qed.

Lemma raise_raises {A} (P : exn -> Prop) e : P e -> Raises P (@raise S A e).
Proof. by intros He s e' [= <-]. Qed.

Lemma bind_raises {A B} P (c : M S A) (f : A -> M S B) :
  Raises P c -> (forall a, Raises P (f a)) -> Raises P (bind c f).
Proof.
  intros Hc Hf s e. specialize (Hc s). unfold eval, bind in *.
  destruct (c s) as [[a|e0] s1]; simpl in *; [apply Hf|].
  intros [= <-]. by apply Hc.
Qed.

Lemma for_each_raises {A} P (xs : list A) (body : A -> M S unit) :
  (forall x, Raises P (body x)) -> Raises P (for_each xs body).
Proof.
  intros Hb. induction xs; simpl; [by apply returns_raises, _|by apply bind_raises].
Qed.

Lemma fold_each_raises {A B} P (xs : list A) (acc : B) (body : B -> A -> M S B) :
  (forall b x, Raises P (body b x)) -> Raises P (fold_each xs acc body).
Proof.
  intros Hb. revert acc.
  induction xs; intros acc; simpl; [by apply returns_raises, _|by apply bind_raises].
Qed.

(** What leaves a [try]: what its clauses do not catch, and what its
    handlers raise. *)
Lemma try_except_raises {A} (P Q : exn -> Prop) (c : M S A) p (h : exn -> M S A) :
  Raises P c ->
  (forall e, P e -> p e = true -> Raises Q (h e)) ->
  (forall e, P e -> p e = false -> Q e) ->
  Raises Q (try_except c p h).
Proof.
  intros Hc Hh Hp s e. specialize (Hc s). unfold eval, try_except in *.
  destruct (c s) as [[a|e0] s1]; simpl in *; [done|].
  destruct (p e0) eqn:He0; [by apply (Hh e0 (Hc e0 eq_refl))|].
  intros [= <-]. by apply (Hp e0 (Hc e0 eq_refl)).
Qed.

(** An exception that leaves a [try] passed its clauses or was raised by
    a handler. *)
Lemma try_except_raise_inv {A} (c : M S A) p (h : exn -> M S A) s e :
  eval (try_except c p h) s = Raise e ->
  (eval c s = Raise e /\ p e = false) \/
  (exists e0, eval c s = Raise e0 /\ p e0 = true /\ eval (h e0) (exec c s) = Raise e).
Proof.
  unfold eval, exec, try_except. destruct (c s) as [[a|e0] s1]; simpl; [done|].
  destruct (p e0) eqn:He0; [by right; exists e0|]. intros [= <-]. by left.
Qed.

(** A [try] returns when its clauses catch what its body can raise and
    the handlers of that return. *)
Lemma try_except_returns_when {A} (P : exn -> Prop) (c : M S A) p (h : exn -> M S A) :
  Raises P c -> (forall e, P e -> p e = true) -> (forall e, P e -> Returns (h e)) ->
  Returns (try_except c p h).
Proof.
  intros Hc Hp Hh s. specialize (Hc s). unfold eval, try_except in *.
  destruct (c s) as [[a|e] s']; simpl in *; [done|].
  rewrite (Hp e (Hc e eq_refl)). apply (Hh e (Hc e eq_refl)).
Qed.

(** What a bind does when its first part returns. *)
Lemma exec_bind {A B} (c : M S A) (f : A -> M S B) s a :
  eval c s = Ok a -> exec (bind c f) s = exec (f a) (exec c s).
Proof. unfold eval, exec, bind. destruct (c s) as [r s']. simpl. by intros ->. Qed.

Lemma eval_bind {A B} (c : M S A) (f : A -> M S B) s a :
  eval c s = Ok a -> eval (bind c f) s = eval (f a) (exec c s).
Proof. unfold eval, exec, bind. destruct (c s) as [r s']. simpl. by intros ->. Qed.

(** Sequencing after a computation that returns. *)
Lemma run_seq {A B} (c : M S A) (k : M S B) `{!Returns c} s :
  bind c (fun _ => k) s = k (exec c s).
Proof. destruct (returns_run c s) as [a Ha]. unfold exec, bind. by rewrite Ha. Qed.

Lemma exec_seq {A B} (c : M S A) (k : M S B) `{!Returns c} s :
  exec (bind c (fun _ => k)) s = exec k (exec c s).
Proof. destruct (returns_run c s) as [a Ha]. unfold exec, bind. by rewrite Ha. Qed.

Lemma eval_seq {A B} (c : M S A) (k : M S B) `{!Returns c} s :
  eval (bind c (fun _ => k)) s = eval k (exec c s).
Proof.
  destruct (returns_run c s) as [a Ha]. unfold eval, exec, bind. by rewrite Ha.
Qed.

(** The state a bind leaves, by the outcome of its first part. *)
Lemma exec_bind_cases {A B} (c : M S A) (f : A -> M S B) s :
  exec (bind c f) s
  = match eval c s with
    | Ok a => exec (f a) (exec c s)
    | Raise _ => exec c s
    end.
Proof. unfold exec, eval, bind. by destruct (c s) as [[a|e] s']. Qed.

(** The state a [try] leaves, by the outcome of its body. *)
Lemma exec_try_except {A} (c : M S A) p (h : exn -> M S A) s :
  exec (try_except c p h) s
  = match eval c s with
    | Ok _ => exec c s
    | Raise e => if p e then exec (h e) (exec c s) else exec c s
    end.
Proof.
  unfold exec, eval, try_except. destruct (c s) as [[a|e] s']; simpl; [done|].
  by destruct (p e).
Qed.

(** A computation whose value is mapped. *)
Lemma exec_bind_ret {A B} (c : M S A) (g : A -> B) s :
  exec (bind c (fun a => ret (g a))) s = exec c s.
Proof. unfold exec, bind. by destruct (c s) as [[a|e] s']. Qed.

Lemma eval_bind_ret {A B} (c : M S A) (g : A -> B) s :
  eval (bind c (fun a => ret (g a))) s
  = match eval c s with Ok a => Ok (g a) | Raise e => Raise e end.
Proof. unfold eval, bind. by destruct (c s) as [[a|e] s']. Qed.

(** A bind that returns: its first part returned. *)
Lemma eval_bind_Ok {A B} (c : M S A) (f : A -> M S B) s b :
  eval (bind c f) s = Ok b ->
  exists a, eval c s = Ok a /\ eval (f a) (exec c s) = Ok b.
Proof.
  unfold eval, exec, bind. destruct (c s) as [[a|e] s']; simpl; [eauto|done].
Qed.

Lemma eval_bind_raise {A B} (c : M S A) (f : A -> M S B) s e :
  eval c s = Raise e -> eval (bind c f) s = Raise e.
Proof. unfold eval, bind. destruct (c s) as [r s']. simpl. by intros ->. Qed.

Lemma exec_bind_raise {A B} (c : M S A) (f : A -> M S B) s e :
  eval c s = Raise e -> exec (bind c f) s = exec c s.
Proof. unfold eval, exec, bind. destruct (c s) as [r s']. simpl. by intros ->. Qed.
End Returning.

(** ** Lemmas on lists *)

Lemma last_cons_default {A} (l : list A) (x d : A) :
  List.last (x :: l) d = List.last l x.
Proof.
  revert x d. induction l as [|y l IH]; intros x d; [done|].
  change (List.last (x :: y :: l) d) with (List.last (y :: l) d).
  by rewrite !(IH y).
Qed.

Lemma filter_Forall_id {A} (P : A -> Prop) `{!forall x, Decision (P x)} (l : list A) :
  Forall P l -> filter P l = l.
Proof.
  induction 1 as [|x l Hx _ IH]; [done|].
  by rewrite filter_cons_True, IH.
Qed.

(** ** Decoders

    A decoder reads back what an encoder wrote; the elements it reads
    are the well-typed ones. *)

Section Decoders.
Context {A B : Type} (dec : B -> option A) (enc : A -> B).
Hypothesis canonical : forall y x, dec y = Some x -> y = enc x.
Hypothesis round_trip : forall x, dec (enc x) = Some x.

Lemma decoded_length (ys : list B) :
  Forall (fun y => is_Some (dec y)) ys -> length (omap dec ys) = length ys.
Proof. induction 1 as [|y ys [x Hx] _ IH]; simpl; [done|]. by rewrite Hx, <- IH. Qed.

(** A list of well-typed elements is the encoding of what is read
    from it. *)
Lemma encode_decoded (ys : list B) :
  Forall (fun y => is_Some (dec y)) ys -> map enc (omap dec ys) = ys.
Proof.
  induction 1 as [|y ys [x Hx] _ IH]; simpl; [done|]. rewrite Hx. simpl.
  f_equal; [by rewrite (canonical y x Hx)|exact IH].
Qed.

(** What was encoded is read back. *)
Lemma decode_written (xs : list A) :
  Forall (fun x => dec (enc x) = Some x) xs -> omap dec (map enc xs) = xs.
Proof.
  induction 1 as [|x xs Hx _ IH]; simpl; [done|]. rewrite Hx. simpl.
  f_equal. exact IH.
Qed.

Lemma decode_encoded (xs : list A) : omap dec (map enc xs) = xs.
Proof. apply decode_written, Forall_forall. intros x _. apply round_trip. Qed.
End Decoders.

(** ** Lemmas on sums of rationals *)

#[export] Instance Qlist_eq_equiv : Equivalence Qlist_eq.
Proof.
  unfold Qlist_eq. split.
  - intros l. induction l; constructor; [reflexivity|done].
  - intros l1 l2 H. induction H; constructor; [by symmetry|done].
  - intros l1 l2 l3 H. revert l3.
    induction H; intros l3 H3; invert H3; constructor; [by etrans|auto].
Qed.

Lemma fold_left_Qplus_acc (xs : list Q) (a : Q) :
  (fold_left Qplus xs a == a + Qsum xs)%Q.
Proof.
  unfold Qsum. revert a. induction xs as [|x xs IH]; intros a; simpl.
  - ring.
  - rewrite (IH (a + x)%Q), (IH (0 + x)%Q). ring.
Qed.

Lemma Qsum_nil : Qsum [] = 0%Q.
Proof. reflexivity. Qed.

Lemma Qsum_cons (x : Q) (xs : list Q) : (Qsum (x :: xs) == x + Qsum xs)%Q.
Proof. unfold Qsum at 1. simpl. rewrite fold_left_Qplus_acc. ring. Qed.

Lemma Qsum_app (xs ys : list Q) : (Qsum (xs ++ ys) == Qsum xs + Qsum ys)%Q.
Proof.
  induction xs as [|x xs IH]; simpl.
  - rewrite Qsum_nil. ring.
  - rewrite !Qsum_cons, IH. ring.
Qed.

#[export] Instance Qsum_proper : Proper (Qlist_eq ==> Qeq) Qsum.
Proof.
  intros l1 l2 H. induction H as [|x y l1 l2 Hxy _ IH]; [reflexivity|].
  by rewrite !Qsum_cons, Hxy, IH.
Qed.

Lemma Qsum_nonneg (xs : list Q) : Forall (fun x => 0 <= x)%Q xs -> (0 <= Qsum xs)%Q.
Proof.
  induction 1 as [|x xs Hx _ IH]; [by rewrite Qsum_nil|].
  rewrite Qsum_cons. lra.
Qed.

#[export] Hint Rewrite Qsum_nil Qsum_cons Qsum_app : run.

(** ** Automation for [Respects] and [Contained]

    Walk down the structure of a program: binds, handlers and loops by the
    composition instances, branches by case analysis, the effects by
    instance search, field updates by the hints of [monitor]. *)

Ltac respects_step :=
  lazymatch goal with
  | |- Respects _ (bind _ _) => apply bind_respects; [typeclasses eauto| |]
  | |- Respects _ (try_except _ _ _) =>
      apply try_except_respects; [typeclasses eauto| |]
  | |- Respects _ (for_each _ _) => apply for_each_respects; [typeclasses eauto|]
  | |- Respects _ (fold_each _ _ _) => apply fold_each_respects; [typeclasses eauto|]
  | |- Respects _ (modify _) =>
      first [ solve [typeclasses eauto]
            | apply modify_respects; intros; solve [eauto with monitor] ]
  | |- Respects _ (match ?x with _ => _ end) => destruct x
  | |- Respects _ _ => solve [typeclasses eauto]
  | |- _ => progress intros
  end.

Ltac respects := repeat respects_step.

Ltac contained_step :=
  lazymatch goal with
  | |- Contained (bind _ _) => apply bind_contained
  | |- Contained (try_except _ is_Exception _) => apply try_except_contained
  | |- Contained (for_each _ _) => apply for_each_contained
  | |- Contained (fold_each _ _ _) => apply fold_each_contained
  | |- Contained (match ?x with _ => _ end) => destruct x
  | |- Contained _ => solve [typeclasses eauto]
  | |- _ => progress intros
  end.

Ltac contained := repeat contained_step.

Ltac returns_step :=
  lazymatch goal with
  | |- Returns (bind _ _) => apply bind_returns
  | |- Returns (for_each _ _) => apply for_each_returns
  | |- Returns (fold_each _ _ _) => apply fold_each_returns
  | |- Returns (match ?x with _ => _ end) => destruct x
  | |- Returns _ => solve [typeclasses eauto]
  | |- _ => progress intros
  end.

Ltac returns := repeat returns_step.

Ltac ordinary_step :=
  lazymatch goal with
  | |- Ordinary (bind _ _) => apply bind_ordinary
  | |- Ordinary (try_except _ _ _) => apply try_except_ordinary
  | |- Ordinary (for_each _ _) => apply for_each_ordinary
  | |- Ordinary (fold_each _ _ _) => apply fold_each_ordinary
  | |- Ordinary (raise _) => apply raise_ordinary; reflexivity
  | |- Ordinary (match ?x with _ => _ end) => destruct x
  | |- Ordinary _ => solve [typeclasses eauto]
  | |- _ => progress intros
  end.

Ltac ordinary := repeat ordinary_step.

Ltac raises_step :=
  lazymatch goal with
  | |- Raises _ (bind _ _) => apply bind_raises
  | |- Raises _ (for_each _ _) => apply for_each_raises
  | |- Raises _ (fold_each _ _ _) => apply fold_each_raises
  | |- Raises _ (match ?x with _ => _ end) => destruct x
  | |- Raises _ _ =>
      first [ solve [typeclasses eauto]
            | apply returns_raises; solve [typeclasses eauto] ]
  | |- _ => progress intros
  end.

Ltac raises := repeat raises_step.
