(* ===== verification/Text.v ===== *)
(** * Text: the string operations the program relies on

    [sep in s], [s.split(sep)[1]] and [s.split()[0]] of Python on byte
    strings, as the probes use them, with the lemmas that tie them to
    concatenation; [str.lower], [str.startswith], [str.split(sep)] and
    [sep.join] on ASCII text, as the libraries that read the configuration
    and the command line use them; and the text of a [pathlib] path and of
    a path joined with [/]. *)

From S2P Require Import Prelude.

(** [s] without its prefix [p], when it starts with [p]. *)
Fixpoint strip_prefix (p s : string) : option string :=
  match p, s with
  | EmptyString, _ => Some s
  | String a p', String b s' =>
      if Ascii.eqb a b then strip_prefix p' s' else None
  | String _ _, EmptyString => None
  end.

(** [s] cut at the first occurrence of [sep]: what comes before it and
    what comes after it. *)
Fixpoint split_first (sep s : string) : option (string * string) :=
  match strip_prefix sep s with
  | Some rest => Some (EmptyString, rest)
  | None =>
      match s with
      | EmptyString => None
      | String c s' =>
          match split_first sep s' with
          | Some (a, b) => Some (String c a, b)
          | None => None
          end
      end
  end.

(** [sep in s] *)
Definition contains (sep s : string) : bool :=
  match split_first sep s with Some _ => true | None => false end.

(** [s.split(sep)[1]]: the text between the first occurrence of [sep] and
    the next one; [None] when [sep] does not occur ([IndexError]). *)
Definition split_item1 (sep s : string) : option string :=
  match split_first sep s with
  | None => None
  | Some (_, rest) =>
      Some (match split_first sep rest with Some (a, _) => a | None => rest end)
  end.

(** The ASCII characters [str.split()] treats as white space. *)
Definition is_space (a : Ascii.ascii) : bool :=
  let n := Ascii.nat_of_ascii a in
  ((9 <=? n) && (n <=? 13)) || ((28 <=? n) && (n <=? 32)).

(** The characters of [s] up to the first white space. *)
Fixpoint take_token (s : string) : string :=
  match s with
  | EmptyString => EmptyString
  | String c s' => if is_space c then EmptyString else String c (take_token s')
  end.

(** [s.split()[0]]: the first run of characters that are not white space;
    [None] when there is none ([IndexError]). *)
Fixpoint first_token (s : string) : option string :=
  match s with
  | EmptyString => None
  | String c s' =>
      if is_space c then first_token s' else Some (String c (take_token s'))
  end.

(** [c.lower()] on an ASCII letter; the other characters are left alone. *)
Definition lower_ascii (c : Ascii.ascii) : Ascii.ascii :=
  let n := Ascii.nat_of_ascii c in
  if (65 <=? n) && (n <=? 90) then Ascii.ascii_of_nat (n + 32) else c.

(** [s.lower()], on ASCII text. *)
Fixpoint lower (s : string) : string :=
  match s with
  | EmptyString => EmptyString
  | String c s' => String (lower_ascii c) (lower s')
  end.

(** Whether [s] ends with the character [c]. *)
Fixpoint ends_with (c : Ascii.ascii) (s : string) : bool :=
  match s with
  | EmptyString => false
  | String a EmptyString => Ascii.eqb a c
  | String _ s' => ends_with c s'
  end.

(** [s.startswith(p)] *)
Definition starts_with (p s : string) : bool :=
  match strip_prefix p s with Some _ => true | None => false end.

(** [s.split(sep)] for a separator of one character. *)
Fixpoint split_on (sep : Ascii.ascii) (s : string) : list string :=
  match s with
  | EmptyString => [EmptyString]
  | String c s' =>
      if Ascii.eqb c sep then EmptyString :: split_on sep s'
      else match split_on sep s' with
           | part :: parts => String c part :: parts
           | [] => [String c EmptyString]
           end
  end.

(** [sep.join(parts)] *)
Definition join (sep : string) (parts : list string) : string :=
  match parts with
  | [] => EmptyString
  | part :: rest => fold_left (fun acc p => acc +:+ sep +:+ p) rest part
  end.

(** The separator of paths. *)
Definition slash : Ascii.ascii := Ascii.ascii_of_nat 47.

(** [str(Path(dir) / name)] for the text [dir] of a path and a file name
    [name]: the current directory contributes nothing, and the root brings
    its own separator. *)
Definition path_join (dir name : string) : string :=
  if String.eqb dir "." then name
  else if ends_with slash dir then dir +:+ name
  else dir +:+ "/" +:+ name.

(** [str(Path(s))] on a POSIX system: repeated separators and the
    components [.] are dropped, a root of exactly two separators is kept,
    and the empty path is the current directory. *)
Definition path_text (s : string) : string :=
  let root :=
    if starts_with "//" s && negb (starts_with "///" s) then "//"
    else if starts_with "/" s then "/" else "" in
  let parts :=
    filter (fun p => p <> EmptyString /\ p <> "."%string) (split_on slash s) in
  let text := root +:+ join "/" parts in
  if String.eqb text "" then "." else text.

(** No character of [s] is white space. *)
Fixpoint no_space (s : string) : bool :=
  match s with
  | EmptyString => true
  | String c s' => negb (is_space c) && no_space s'
  end.

(** ** Lemmas *)

Lemma append_nil_l s : "" +:+ s = s.
Proof. reflexivity. Qed.

Lemma append_cons c a s : String c a +:+ s = String c (a +:+ s).
Proof. reflexivity. Qed.

Lemma append_nil_r s : s +:+ "" = s.
Proof. induction s as [|c s IH]; [done|]. by rewrite append_cons, IH. Qed.

Lemma append_assoc a b c : (a +:+ b) +:+ c = a +:+ b +:+ c.
Proof. induction a as [|x a IH]; [done|]. by rewrite !append_cons, IH. Qed.

Lemma strip_prefix_Some p s r : strip_prefix p s = Some r <-> s = p +:+ r.
Proof.
  revert s. induction p as [|a p IH]; intros s; simpl.
  - split; [by intros [= ->]|by intros ->].
  - rewrite append_cons. destruct s as [|b s]; [split; intros; discriminate|].
    destruct (Ascii.eqb_spec a b) as [->|Hne].
    + rewrite IH. split; [by intros ->|by intros [= ->]].
    + split; [done|]. intros [= -> _]. done.
Qed.

Lemma split_first_Some sep s a b :
  split_first sep s = Some (a, b) -> s = a +:+ sep +:+ b.
Proof.
  revert a. induction s as [|c s IH]; intros a; cbn.
  - destruct (strip_prefix sep "") eqn:Hp; [|done].
    intros [= <- <-]. rewrite append_nil_l. by apply strip_prefix_Some.
  - destruct (strip_prefix sep (String c s)) eqn:Hp.
    + intros [= <- <-]. rewrite append_nil_l. by apply strip_prefix_Some.
    + destruct (split_first sep s) as [[a' b']|]; [|done].
      intros [= <- <-]. rewrite append_cons. f_equal. by apply IH.
Qed.

Lemma split_first_None sep s a b :
  split_first sep s = None -> s <> a +:+ sep +:+ b.
Proof.
  revert a. induction s as [|c s IH]; intros a; cbn.
  - destruct (strip_prefix sep "") eqn:Hp; [done|]. intros _ Heq.
    destruct a; [|done]. rewrite append_nil_l in Heq.
    apply strip_prefix_Some in Heq. congruence.
  - destruct (strip_prefix sep (String c s)) eqn:Hp; [done|].
    destruct (split_first sep s) as [[a' b']|] eqn:Hs; [done|]. intros _ Heq.
    destruct a as [|c' a].
    + rewrite append_nil_l in Heq. apply strip_prefix_Some in Heq. congruence.
    + rewrite append_cons in Heq. injection Heq as -> Heq. by eapply IH.
Qed.

(** [contains] decides whether [sep] occurs in [s]. *)
Lemma contains_spec sep s :
  contains sep s = true <-> exists a b, s = a +:+ sep +:+ b.
Proof.
  unfold contains. destruct (split_first sep s) as [[a b]|] eqn:H.
  - split; [|done]. intros _. exists a, b. by apply split_first_Some.
  - split; [done|]. intros (a & b & Heq). by eapply split_first_None in H.
Qed.

Lemma split_item1_contains sep s :
  contains sep s = true -> is_Some (split_item1 sep s).
Proof.
  unfold contains, split_item1. destruct (split_first sep s) as [[a b]|]; [eauto|done].
Qed.

Lemma take_token_no_space s : no_space (take_token s) = true.
Proof.
  induction s as [|c s IH]; simpl; [done|].
  destruct (is_space c) eqn:Hc; simpl; [done|]. by rewrite Hc.
Qed.

(** The first token is not empty and holds no white space. *)
Lemma first_token_spec s t :
  first_token s = Some t -> t <> EmptyString /\ no_space t = true.
Proof.
  induction s as [|c s IH]; simpl; [done|].
  destruct (is_space c) eqn:Hc; [done|]. intros [= <-].
  split; [done|]. simpl. by rewrite Hc, take_token_no_space.
Qed.

Lemma lower_ascii_idemp c : lower_ascii (lower_ascii c) = lower_ascii c.
Proof. by destruct c as [[] [] [] [] [] [] [] []]. Qed.

(** Lowering twice is lowering once. *)
Lemma lower_idemp s : lower (lower s) = lower s.
Proof. induction s as [|c s IH]; simpl; [done|]. by rewrite lower_ascii_idemp, IH. Qed.

Lemma lower_length s : String.length (lower s) = String.length s.
Proof. induction s as [|c s IH]; simpl; [done|]. by rewrite IH. Qed.

Example lower_mixed : lower "Yes, TRUE or On [1]" = "yes, true or on [1]"%string.
Proof. reflexivity. Qed.

Example path_text_examples :
  path_text "internet_logs" = "internet_logs"%string /\
  path_text "logs//today/./" = "logs/today"%string /\
  path_text "" = "."%string /\ path_text "./" = "."%string /\
  path_text "/var/log/" = "/var/log"%string /\
  path_text "//host/share" = "//host/share"%string /\
  path_text "///var" = "/var"%string /\ path_text "a/../b" = "a/../b"%string.
Proof. by vm_compute. Qed.

Example split_item1_ping :
  split_item1 "time=" "64 bytes from 8.8.8.8: icmp_seq=1 ttl=117 time=12.3 ms"
  = Some "12.3 ms"%string.
Proof. reflexivity. Qed.

Example first_token_ping : first_token "12.3 ms" = Some "12.3"%string.
Proof. reflexivity. Qed.
