(* ===== verification/Config.v ===== *)
(** * Config: the configuration object

    [self.config] of src/internet_monitor.py: a [configparser.ConfigParser],
    seen through the three calls the program makes on it ([get],
    [getboolean] with a fallback, [set]) and the sections [__init__] writes
    when there is no configuration file.  A configuration is a finite map
    from section names to finite maps from option names to values.  Option
    names are in lower case, as the parser stores them; the section
    [DEFAULT] and the interpolation of [%] in values are not modelled: the
    values are those [get] returns. *)

From S2P Require Import Prelude Text.

Abbreviation options := (gmap string string).
Abbreviation ini := (gmap string (gmap string string)).

(** The configuration [__init__] builds when the file does not exist
    (lines 35-47). *)
Definition default_ini : ini :=
  {[ "VPS" := {[ "enabled" := "false";
                 "hostname" := "your-vps-hostname.com";
                 "username" := "your-username";
                 "key_file" := "~/.ssh/id_rsa";
                 "remote_directory" := "/opt/internet-monitor";
                 "port" := "22" ]};
     "MONITOR" := {[ "location_name" := "Home Network";
                     "timezone" := "UTC" ]} ]}%string.

(** [config.get(section, option)] *)
Definition config_get (section option : string) (c : ini) : result string :=
  match c !! section with
  | None => Raise (NoSectionError section)
  | Some opts =>
      match opts !! option with
      | None => Raise (NoOptionError option)
      | Some value => Ok value
      end
  end.

(** [ConfigParser.BOOLEAN_STATES] *)
Definition BOOLEAN_STATES : list (string * bool) :=
  [ ("1", true); ("yes", true); ("true", true); ("on", true);
    ("0", false); ("no", false); ("false", false); ("off", false) ]%string.

(** [BOOLEAN_STATES[key]] *)
Fixpoint boolean_state (key : string) (states : list (string * bool)) : option bool :=
  match states with
  | [] => None
  | (k, b) :: rest => if String.eqb k key then Some b else boolean_state key rest
  end.

(** [ConfigParser._convert_to_boolean]: any case is accepted, any other
    word is a [ValueError]. *)
Definition convert_to_boolean (value : string) : result bool :=
  match boolean_state (lower value) BOOLEAN_STATES with
  | Some b => Ok b
  | None => Raise ValueError
  end.

(** [config.getboolean(section, option, fallback=fallback)]: the fallback
    stands for a missing section or option only; a value that is no boolean
    raises. *)
Definition getboolean (section option : string) (fallback : bool) (c : ini)
    : result bool :=
  match config_get section option c with
  | Ok value => convert_to_boolean value
  | Raise (NoSectionError _) | Raise (NoOptionError _) => Ok fallback
  | Raise e => Raise e
  end.

(** [config.set(section, option, value)]: the section must exist. *)
Definition config_set (section option value : string) (c : ini) : result ini :=
  match c !! section with
  | None => Raise (NoSectionError section)
  | Some opts => Ok (<[section := <[option := value]> opts]> c)
  end.

(** ** Lemmas *)

Lemma config_get_Ok section option c value :
  config_get section option c = Ok value <->
  exists opts, c !! section = Some opts /\ opts !! option = Some value.
Proof.
  unfold config_get. destruct (c !! section) as [opts|]; [|split; [done|by intros (? & ? & ?)]].
  destruct (opts !! option) as [v|] eqn:Hv.
  - split; [intros [= <-]; eauto|]. by intros (? & [= <-] & ?); simplify_eq.
  - split; [done|]. intros (? & [= <-] & ?). congruence.
Qed.

(** [get] raises the two lookup errors only. *)
Lemma config_get_raises section option c e :
  config_get section option c = Raise e ->
  e = NoSectionError section \/ e = NoOptionError option.
Proof.
  unfold config_get. destruct (c !! section) as [opts|]; [|intros [= <-]; by left].
  destruct (opts !! option); [done|]. intros [= <-]. by right.
Qed.

(** The eight words of a boolean, and nothing else. *)
Lemma convert_to_boolean_true value :
  convert_to_boolean value = Ok true <->
  lower value ∈ ["1"; "yes"; "true"; "on"]%string.
Proof.
  unfold convert_to_boolean, BOOLEAN_STATES, boolean_state.
  rewrite !elem_of_cons, elem_of_nil.
  repeat (match goal with
          | |- context [String.eqb ?k (lower value)] =>
              destruct (String.eqb_spec k (lower value)) as [<-|?]
          end;
          [simpl; split;
           [intros ?; first [done|by repeat first [left; reflexivity|right]]
           |intros H; by repeat destruct H as [H|H]]|]).
  split; [done|]. intros H. repeat destruct H as [H|H]; first [done|by symmetry in H].
Qed.

Lemma convert_to_boolean_raises value e :
  convert_to_boolean value = Raise e -> e = ValueError.
Proof. unfold convert_to_boolean. destruct (boolean_state _ _); by intros [= <-]. Qed.

(** The case of the word does not matter. *)
Lemma convert_to_boolean_lower value :
  convert_to_boolean (lower value) = convert_to_boolean value.
Proof. unfold convert_to_boolean. by rewrite lower_idemp. Qed.

(** [getboolean] raises only on a value that is no boolean. *)
Lemma getboolean_raises section option fallback c e :
  getboolean section option fallback c = Raise e ->
  e = ValueError /\ exists value, config_get section option c = Ok value /\
                                  convert_to_boolean value = Raise ValueError.
Proof.
  unfold getboolean. destruct (config_get section option c) as [v|e'] eqn:Hg.
  - intros H. pose proof (convert_to_boolean_raises _ _ H) as ->. eauto.
  - destruct (config_get_raises _ _ _ _ Hg) as [-> | ->]; done.
Qed.

(** The fallback is the answer exactly when the section or the option is
    missing. *)
Lemma getboolean_missing section option fallback c :
  (forall value, config_get section option c <> Ok value) ->
  getboolean section option fallback c = Ok fallback.
Proof.
  unfold getboolean. intros H. destruct (config_get _ _ _) as [v|e] eqn:Hg; [by destruct (H v)|].
  by destruct (config_get_raises _ _ _ _ Hg) as [-> | ->].
Qed.

(** What was set is what is read; the other options are as before. *)
Lemma config_get_set section option value c c' :
  config_set section option value c = Ok c' ->
  config_get section option c' = Ok value.
Proof.
  unfold config_set, config_get. destruct (c !! section) as [opts|]; [|done].
  intros [= <-]. by rewrite !lookup_insert_eq.
Qed.

Lemma config_get_set_ne section option value c c' section' option' :
  config_set section option value c = Ok c' ->
  (section', option') <> (section, option) ->
  config_get section' option' c' = config_get section' option' c.
Proof.
  unfold config_set, config_get. destruct (c !! section) as [opts|] eqn:Hs; [|done].
  intros [= <-] Hne. destruct (decide (section' = section)) as [->|Hsec].
  - rewrite lookup_insert_eq, Hs, lookup_insert_ne; [done|congruence].
  - by rewrite lookup_insert_ne.
Qed.

(** The file [__init__] writes has uploads disabled. *)
Example default_ini_disabled : getboolean "VPS" "enabled" false default_ini = Ok false.
Proof. by vm_compute. Qed.

Example getboolean_any_case :
  getboolean "VPS" "enabled" false {[ "VPS" := {[ "enabled" := "Yes" ]} ]}%string = Ok true.
Proof. by vm_compute. Qed.

Example getboolean_not_a_boolean :
  getboolean "VPS" "enabled" false {[ "VPS" := {[ "enabled" := "enabled" ]} ]}%string
  = Raise ValueError.
Proof. by vm_compute. Qed.
