(* ===== verification/Cli.v ===== *)
(** * Cli: the command line

    The parser [main] builds (lines 467-483 of src/internet_monitor.py):
    seven options and the help, read by [argparse].  [option_table] is the
    table of the [add_argument] calls; [parse_args] is what the library does
    with it on a list of arguments, as CPython 3.8 to 3.11 implement it: a
    first pass classifies every argument (an option, by its exact name, its
    name before [=], or a prefix that fits one name only; a value; an
    unknown option), a second pass runs the options in order.  When the
    argument of an option is [--], which can only be given with [=], the
    parser removes it and stores the empty list, without converting
    anything.  An error ends the program with code 2 and the help with code
    0, before [main] does anything else.  Arguments are ASCII text. *)

From stdpp Require Import pretty.
From S2P Require Import Prelude Text.

(** ** [int(text)] *)

Definition digit_value (c : Ascii.ascii) : option Z :=
  let n := Ascii.nat_of_ascii c in
  if (48 <=? n) && (n <=? 57) then Some (Z.of_nat (n - 48)) else None.

Definition underscore : Ascii.ascii := Ascii.ascii_of_nat 95.
Definition minus_sign : Ascii.ascii := Ascii.ascii_of_nat 45.
Definition plus_sign : Ascii.ascii := Ascii.ascii_of_nat 43.
Definition full_stop : Ascii.ascii := Ascii.ascii_of_nat 46.

(** The digits of a literal after its first: each is a digit, or an
    underscore followed by a digit. *)
Fixpoint digits_from (acc : Z) (s : string) : option Z :=
  match s with
  | EmptyString => Some acc
  | String c s' =>
      match digit_value c with
      | Some d => digits_from (10 * acc + d) s'
      | None =>
          if Ascii.eqb c underscore then
            match s' with
            | String c' s'' =>
                match digit_value c' with
                | Some d => digits_from (10 * acc + d) s''
                | None => None
                end
            | EmptyString => None
            end
          else None
      end
  end.

(** An unsigned decimal literal. *)
Definition unsigned_literal (s : string) : option Z :=
  match s with
  | String c s' =>
      match digit_value c with
      | Some d => digits_from d s'
      | None => None
      end
  | EmptyString => None
  end.

(** [s.strip()] *)
Fixpoint lstrip (s : string) : string :=
  match s with
  | String c s' => if is_space c then lstrip s' else s
  | EmptyString => EmptyString
  end.

Fixpoint rstrip (s : string) : string :=
  match s with
  | String c s' =>
      match rstrip s' with
      | EmptyString => if is_space c then EmptyString else String c EmptyString
      | r => String c r
      end
  | EmptyString => EmptyString
  end.

(** [int(s)], [None] for the [ValueError]: white space around, a sign,
    digits that single underscores may separate. *)
Definition py_int (s : string) : option Z :=
  match rstrip (lstrip s) with
  | String c s' =>
      if Ascii.eqb c minus_sign then Z.opp <$> unsigned_literal s'
      else if Ascii.eqb c plus_sign then unsigned_literal s'
      else unsigned_literal (String c s')
  | EmptyString => None
  end.

(** ** The options *)

(** The attributes of the namespace [parse_args] returns. *)
Record Args : Type := mkArgs {
  arg_ping_interval : arg_value Z;
  arg_speedtest_interval : arg_value Z;
  arg_upload_interval : arg_value Z;
  arg_log_dir : arg_value string;
  arg_config : arg_value string;
  arg_report : bool;
  arg_setup_vps : bool;
}.

(** The defaults of the [add_argument] calls. *)
Definition default_args : Args :=
  mkArgs (Stored 30%Z) (Stored 3600%Z) (Stored 300%Z)
         (Stored "internet_logs") (Stored "monitor_config.ini") false false.

Inductive dest : Type :=
| PingInterval | SpeedtestInterval | UploadInterval
| LogDir | ConfigPath | Report | SetupVps | Help.

#[export] Instance dest_eq_dec : EqDecision dest.
Proof. solve_decision. Defined.

(** What an option takes: an argument converted by [int], an argument
    kept as text, or nothing ([store_true] and the help). *)
Inductive arity : Type := TakesInt | TakesText | TakesNothing.

Definition dest_arity (d : dest) : arity :=
  match d with
  | PingInterval | SpeedtestInterval | UploadInterval => TakesInt
  | LogDir | ConfigPath => TakesText
  | Report | SetupVps | Help => TakesNothing
  end.

(** The option strings, in the order the parser registers them: the help
    first, then the [add_argument] calls of lines 468-481. *)
Definition option_table : list (string * dest) :=
  [ ("-h", Help); ("--help", Help);
    ("--ping-interval", PingInterval);
    ("--speedtest-interval", SpeedtestInterval);
    ("--upload-interval", UploadInterval);
    ("--log-dir", LogDir);
    ("--config", ConfigPath);
    ("--report", Report);
    ("--setup-vps", SetupVps) ]%string.

Fixpoint lookup_option (name : string) (table : list (string * dest)) : option dest :=
  match table with
  | [] => None
  | (n, d) :: rest => if String.eqb n name then Some d else lookup_option name rest
  end.

(** ** The first pass: what each argument is *)

Inductive token : Type :=
| Value (text : string)
| Separator
| Opt (name : string) (d : dest) (explicit : option string)
| UnknownOpt (text : string).

Fixpoint all_digits (s : string) : bool :=
  match s with
  | EmptyString => true
  | String c s' =>
      match digit_value c with Some _ => all_digits s' | None => false end
  end.

(** The pattern of a negative number, [-\d+] or [-\d*\.\d+]. *)
Definition negative_number (s : string) : bool :=
  match s with
  | String c body =>
      Ascii.eqb c minus_sign &&
      ((negb (String.eqb body "") && all_digits body) ||
       match split_first "." body with
       | Some (whole, frac) =>
           all_digits whole && negb (String.eqb frac "") && all_digits frac
       | None => false
       end)
  | EmptyString => false
  end.

(** The name and the explicit argument of [name=argument]. *)
Definition split_explicit (arg : string) : string * option string :=
  match split_first "=" arg with
  | Some (name, explicit) => (name, Some explicit)
  | None => (arg, None)
  end.

(** The options an abbreviation can stand for.  After two dashes: the
    names that begin with what comes before [=].  After one dash: the name
    made of the first two characters, the rest being its argument, and the
    names that begin with the whole text. *)
Definition candidates (arg : string) : list (string * dest * option string) :=
  if starts_with "--" arg then
    let '(prefix, explicit) := split_explicit arg in
    omap (fun '(n, d) => if starts_with prefix n then Some (n, d, explicit) else None)
         option_table
  else
    let short := String.substring 0 2 arg in
    let rest := String.substring 2 (String.length arg - 2) arg in
    omap (fun '(n, d) =>
            if String.eqb n short then Some (n, d, Some rest)
            else if starts_with arg n then Some (n, d, None)
            else None)
         option_table.

(** [_parse_optional]: [None] is the error of an ambiguous abbreviation. *)
Definition classify (arg : string) : option token :=
  if negb (starts_with "-" arg) then Some (Value arg)
  else
    match lookup_option arg option_table with
    | Some d => Some (Opt arg d None)
    | None =>
        if String.eqb arg "-" then Some (Value arg)
        else
          let '(name, explicit) := split_explicit arg in
          match explicit, lookup_option name option_table with
          | Some e, Some d => Some (Opt name d (Some e))
          | _, _ =>
              match candidates arg with
              | [(n, d, e)] => Some (Opt n d e)
              | _ :: _ :: _ => None
              | [] =>
                  if negative_number arg then Some (Value arg)
                  else if contains " " arg then Some (Value arg)
                  else Some (UnknownOpt arg)
              end
          end
    end.

(** Every argument is classified before any option runs; what follows
    [--] is a value. *)
Fixpoint classify_all (argv : list string) : option (list token) :=
  match argv with
  | [] => Some []
  | arg :: rest =>
      if String.eqb arg "--" then Some (Separator :: map Value rest)
      else
        match classify arg, classify_all rest with
        | Some t, Some ts => Some (t :: ts)
        | _, _ => None
        end
  end.

(** ** The second pass: the options in order *)

(** How the parser ends: a namespace, or the exit of the process. *)
Inductive parsed : Type :=
| Parsed (a : Args)
| ParseExit (code : Z).

(** [_get_values] for an option that takes one argument: the argument
    [--] is removed and the empty list is the value; any other argument is
    converted, [None] being the error of a value the conversion rejects. *)
Definition get_value {A} (convert : string -> option A) (text : string)
    : option (arg_value A) :=
  if String.eqb text "--" then Some EmptyList else Stored <$> convert text.

(** [setattr(namespace, dest, value)]; [None] is the error of a value
    [int] rejects. *)
Definition store (d : dest) (text : string) (a : Args) : option Args :=
  match d with
  | PingInterval =>
      n ← get_value py_int text;
      Some (mkArgs n (arg_speedtest_interval a) (arg_upload_interval a)
                   (arg_log_dir a) (arg_config a) (arg_report a) (arg_setup_vps a))
  | SpeedtestInterval =>
      n ← get_value py_int text;
      Some (mkArgs (arg_ping_interval a) n (arg_upload_interval a)
                   (arg_log_dir a) (arg_config a) (arg_report a) (arg_setup_vps a))
  | UploadInterval =>
      n ← get_value py_int text;
      Some (mkArgs (arg_ping_interval a) (arg_speedtest_interval a) n
                   (arg_log_dir a) (arg_config a) (arg_report a) (arg_setup_vps a))
  | LogDir =>
      v ← get_value Some text;
      Some (mkArgs (arg_ping_interval a) (arg_speedtest_interval a)
                   (arg_upload_interval a) v (arg_config a)
                   (arg_report a) (arg_setup_vps a))
  | ConfigPath =>
      v ← get_value Some text;
      Some (mkArgs (arg_ping_interval a) (arg_speedtest_interval a)
                   (arg_upload_interval a) (arg_log_dir a) v
                   (arg_report a) (arg_setup_vps a))
  | Report | SetupVps | Help => Some a
  end.

(** [store_true] *)
Definition store_true (d : dest) (a : Args) : Args :=
  match d with
  | Report =>
      mkArgs (arg_ping_interval a) (arg_speedtest_interval a) (arg_upload_interval a)
             (arg_log_dir a) (arg_config a) true (arg_setup_vps a)
  | SetupVps =>
      mkArgs (arg_ping_interval a) (arg_speedtest_interval a) (arg_upload_interval a)
             (arg_log_dir a) (arg_config a) (arg_report a) true
  | _ => a
  end.

(** The letters that follow [-h] in one argument are flags of one letter
    each: only [h] is one. *)
Fixpoint all_help (s : string) : bool :=
  match s with
  | EmptyString => true
  | String c s' => Ascii.eqb c (Ascii.ascii_of_nat 104) && all_help s'
  end.

(** An option that takes nothing, with the explicit argument it was
    given, if any: the help ends the process with code 0; an explicit
    argument is an error, but after [-h] it is read as more flags. *)
Definition run_flag (name : string) (d : dest) (explicit : option string)
    (a : Args) : parsed :=
  match explicit with
  | Some e =>
      if String.eqb name "-h" && negb (String.eqb e "") && all_help e
      then ParseExit 0 else ParseExit 2
  | None =>
      match d with
      | Help => ParseExit 0
      | _ => Parsed (store_true d a)
      end
  end.

(** [consume_optional] over the arguments, [extras] telling whether an
    argument was left over: a value that no option takes, [--] or an unknown
    option, reported when every option has run. *)
Fixpoint consume (tokens : list token) (a : Args) (extras : bool) : parsed :=
  match tokens with
  | [] => if extras then ParseExit 2 else Parsed a
  | Value _ :: rest | Separator :: rest | UnknownOpt _ :: rest => consume rest a true
  | Opt name d explicit :: rest =>
      match dest_arity d with
      | TakesNothing =>
          match run_flag name d explicit a with
          | Parsed a' => consume rest a' extras
          | ParseExit code => ParseExit code
          end
      | _ =>
          match explicit, rest with
          | Some text, _ =>
              match store d text a with
              | Some a' => consume rest a' extras
              | None => ParseExit 2
              end
          | None, Value text :: rest' =>
              match store d text a with
              | Some a' => consume rest' a' extras
              | None => ParseExit 2
              end
          | None, _ => ParseExit 2
          end
      end
  end.

(** [parser.parse_args()] on the arguments after the program name. *)
Definition parse_args (argv : list string) : parsed :=
  match classify_all argv with
  | Some tokens => consume tokens default_args false
  | None => ParseExit 2
  end.

(** The argument that makes the parser store [v]: [--] for the empty
    list. *)
Definition stored_text {A} (print : A -> string) (v : arg_value A) : string :=
  match v with Stored a => print a | EmptyList => "--" end.

(** A command line that gives every option, each with [=]. *)
Definition args_argv (a : Args) : list string :=
  [ "--ping-interval=" +:+ stored_text pretty (arg_ping_interval a);
    "--speedtest-interval=" +:+ stored_text pretty (arg_speedtest_interval a);
    "--upload-interval=" +:+ stored_text pretty (arg_upload_interval a);
    "--log-dir=" +:+ stored_text id (arg_log_dir a);
    "--config=" +:+ stored_text id (arg_config a) ]
  ++ (if arg_report a then ["--report"] else [])
  ++ (if arg_setup_vps a then ["--setup-vps"] else []).

(** ** Reading back a printed number *)

Lemma digit_value_pretty (d : N) :
  (d < 10)%N -> digit_value (pretty_N_char d) = Some (Z.of_N d).
Proof.
  intros Hd. rewrite <- (N2Nat.id d). assert (N.to_nat d < 10) as Hn by lia.
  revert Hn. generalize (N.to_nat d). intros n Hn.
  do 10 (destruct n as [|n]; [done|]). lia.
Qed.

Lemma digit_not_space c d : digit_value c = Some d -> is_space c = false.
Proof.
  unfold digit_value, is_space.
  destruct (_ && _) eqn:H; [|done]. intros _.
  apply andb_true_iff in H as [H1%Nat.leb_le H2%Nat.leb_le].
  apply orb_false_iff. split; apply andb_false_iff.
  - right. apply Nat.leb_gt. lia.
  - right. apply Nat.leb_gt. lia.
Qed.

(** What [pretty] prints for a positive number is made of digits. *)
Lemma all_digits_pretty_go x s : all_digits (pretty_N_go x s) = all_digits s.
Proof.
  revert s. induction (N.lt_wf_0 x) as [x _ IH]; intros s.
  destruct (decide (x = 0)%N) as [->|Hx]; [done|].
  rewrite pretty_N_go_step by lia. rewrite IH by (apply N.div_lt; lia).
  simpl. by rewrite digit_value_pretty by (apply N.mod_lt; lia).
Qed.

(** Reading it digit by digit gives the number back. *)
Lemma digits_from_pretty_go x :
  exists k, forall s acc,
    digits_from acc (pretty_N_go x s) = digits_from (acc * k + Z.of_N x) s.
Proof.
  induction (N.lt_wf_0 x) as [x _ IH].
  destruct (decide (x = 0)%N) as [->|Hx].
  { exists 1%Z. intros s acc. rewrite pretty_N_go_0. f_equal. lia. }
  destruct (IH (x `div` 10)%N) as [k Hk]; [apply N.div_lt; lia|].
  exists (10 * k)%Z. intros s acc. rewrite pretty_N_go_step, Hk by lia.
  simpl. rewrite digit_value_pretty by (apply N.mod_lt; lia). f_equal.
  pose proof (N.div_mod x 10 ltac:(lia)). lia.
Qed.

Lemma all_digits_no_space s : all_digits s = true -> no_space s = true.
Proof.
  induction s as [|c s IH]; simpl; [done|].
  destruct (digit_value c) as [d|] eqn:Hc; [|done].
  intros Hs. by rewrite (digit_not_space c d), IH.
Qed.

Lemma lstrip_no_space s : no_space s = true -> lstrip s = s.
Proof. destruct s as [|c s]; simpl; [done|]. by destruct (is_space c). Qed.

Lemma rstrip_no_space s : no_space s = true -> rstrip s = s.
Proof.
  induction s as [|c s IH]; simpl; [done|]. intros [Hc Hs]%andb_true_iff.
  rewrite IH by done. apply negb_true_iff in Hc. rewrite Hc. by destruct s.
Qed.

(** A literal made of digits is read from its first digit on. *)
Lemma unsigned_literal_digits s :
  s <> EmptyString -> all_digits s = true -> unsigned_literal s = digits_from 0 s.
Proof.
  destruct s as [|c s]; [done|]. simpl. intros _.
  by destruct (digit_value c) as [d|].
Qed.

Lemma pretty_go_nonempty x s :
  s <> EmptyString -> pretty_N_go x s <> EmptyString.
Proof.
  revert s. induction (N.lt_wf_0 x) as [x _ IH]; intros s Hs.
  destruct (decide (x = 0)%N) as [->|Hx]; [done|].
  rewrite pretty_N_go_step by lia. apply IH; [apply N.div_lt; lia|done].
Qed.

Lemma pretty_go_positive p :
  let s := pretty_N_go (N.pos p) "" in
  no_space s = true /\ unsigned_literal s = Some (Z.pos p).
Proof.
  intros s. assert (all_digits s = true) as Hd by (subst s; by rewrite all_digits_pretty_go).
  split; [by apply all_digits_no_space|].
  rewrite unsigned_literal_digits; [|subst s|done].
  - destruct (digits_from_pretty_go (N.pos p)) as [k Hk]. subst s. by rewrite Hk.
  - rewrite pretty_N_go_step by lia. by apply pretty_go_nonempty.
Qed.

(** [int(str(n))] is [n]. *)
Lemma py_int_pretty (z : Z) : py_int (pretty z) = Some z.
Proof.
  destruct z as [|p|p]; [done| |].
  - destruct (pretty_go_positive p) as [Hs Hv].
    change (pretty (Z.pos p)) with (pretty_N_go (N.pos p) "").
    unfold py_int. rewrite lstrip_no_space, rstrip_no_space by done.
    destruct (pretty_N_go (N.pos p) "") as [|c s] eqn:Hp; [done|].
    simpl in Hv. destruct (digit_value c) as [d|] eqn:Hc; [|done].
    destruct (Ascii.eqb_spec c minus_sign) as [->|_]; [done|].
    destruct (Ascii.eqb_spec c plus_sign) as [->|_]; [done|].
    simpl. by rewrite Hc.
  - destruct (pretty_go_positive p) as [Hs Hv].
    change (pretty (Z.neg p)) with (String minus_sign (pretty_N_go (N.pos p) "")).
    unfold py_int. rewrite lstrip_no_space, rstrip_no_space by (simpl; done).
    rewrite Ascii.eqb_refl, Hv. done.
Qed.

(** ** The parser *)

(** Without arguments the namespace holds the defaults. *)
Lemma parse_args_nil : parse_args [] = Parsed default_args.
Proof. reflexivity. Qed.

Lemma run_flag_exit name d explicit a code :
  run_flag name d explicit a = ParseExit code -> code = 0%Z \/ code = 2%Z.
Proof.
  unfold run_flag. destruct explicit as [e|]; [destruct (_ && _)|destruct d];
    intros [= <-]; first [by left|by right].
Qed.

(** The process ends with code 0 (the help) or 2 (an error). *)
Lemma consume_exit tokens a extras code :
  consume tokens a extras = ParseExit code -> code = 0%Z \/ code = 2%Z.
Proof.
  revert a extras.
  induction tokens as [tokens IH] using (induction_ltof1 _ (@length token)).
  unfold ltof in IH. intros a extras.
  assert (forall rest a' extras', length rest < length tokens ->
            consume rest a' extras' = ParseExit code -> code = 0%Z \/ code = 2%Z)
    as Hrec by (intros; by eapply IH).
  clear IH. destruct tokens as [|[text| |name d explicit|text] rest]; simpl in *;
    [destruct extras; [intros [= <-]; by right|done]
    |apply Hrec; lia..| |apply Hrec; lia].
  destruct (run_flag name d explicit a) as [a'|c] eqn:Hflag.
  2: apply run_flag_exit in Hflag.
  all: destruct (dest_arity d), explicit as [e|]; repeat case_match; subst;
    first [apply Hrec; simpl; lia
          |intros [= <-]; first [by right|done]].
Qed.

Lemma parse_args_exit argv code :
  parse_args argv = ParseExit code -> code = 0%Z \/ code = 2%Z.
Proof.
  unfold parse_args. destruct (classify_all argv); [apply consume_exit|].
  intros [= <-]. by right.
Qed.

(** An option written with [=] is read as this option, whatever follows
    the sign. *)
Lemma classify_explicit text :
  classify ("--ping-interval=" +:+ text)
  = Some (Opt "--ping-interval" PingInterval (Some text)) /\
  classify ("--speedtest-interval=" +:+ text)
  = Some (Opt "--speedtest-interval" SpeedtestInterval (Some text)) /\
  classify ("--upload-interval=" +:+ text)
  = Some (Opt "--upload-interval" UploadInterval (Some text)) /\
  classify ("--log-dir=" +:+ text) = Some (Opt "--log-dir" LogDir (Some text)) /\
  classify ("--config=" +:+ text) = Some (Opt "--config" ConfigPath (Some text)).
Proof. by vm_compute. Qed.

Lemma classify_all_cons arg rest t :
  classify arg = Some t -> String.eqb arg "--" = false ->
  classify_all (arg :: rest) = (t ::.) <$> classify_all rest.
Proof. intros Ht Hs. simpl. rewrite Hs, Ht. by destruct (classify_all rest). Qed.

(** The first pass over a command line that gives the five options that
    take an argument, each with [=]. *)
Lemma classify_all_explicit p s u l c rest :
  classify_all (("--ping-interval=" +:+ p) :: ("--speedtest-interval=" +:+ s)
                :: ("--upload-interval=" +:+ u) :: ("--log-dir=" +:+ l)
                :: ("--config=" +:+ c) :: rest)
  = ([ Opt "--ping-interval" PingInterval (Some p);
       Opt "--speedtest-interval" SpeedtestInterval (Some s);
       Opt "--upload-interval" UploadInterval (Some u);
       Opt "--log-dir" LogDir (Some l);
       Opt "--config" ConfigPath (Some c) ] ++.) <$> classify_all rest.
Proof.
  rewrite (classify_all_cons _ _ _ (proj1 (classify_explicit p)) eq_refl).
  rewrite (classify_all_cons _ _ _
             (proj1 (proj2 (classify_explicit s))) eq_refl).
  rewrite (classify_all_cons _ _ _
             (proj1 (proj2 (proj2 (classify_explicit u)))) eq_refl).
  rewrite (classify_all_cons _ _ _
             (proj1 (proj2 (proj2 (proj2 (classify_explicit l))))) eq_refl).
  rewrite (classify_all_cons _ _ _
             (proj2 (proj2 (proj2 (proj2 (classify_explicit c))))) eq_refl).
  by destruct (classify_all rest).
Qed.

(** A number in decimal is not [--], and is stored as the number. *)
Lemma get_value_pretty (z : Z) : get_value py_int (pretty z) = Some (Stored z).
Proof.
  unfold get_value. destruct (String.eqb_spec (pretty z) "--") as [Hz|_].
  - pose proof (py_int_pretty z) as H. by rewrite Hz in H.
  - by rewrite py_int_pretty.
Qed.

(** What is stored for the argument that stands for a value is that
    value, unless the value is the text [--]. *)
Lemma get_value_stored_text {A} (convert : string -> option A) print (v : arg_value A) :
  (forall a, v = Stored a -> get_value convert (print a) = Some (Stored a)) ->
  get_value convert (stored_text print v) = Some v.
Proof. destruct v as [a|]; simpl; [by intros ->|done]. Qed.

(** The command line round trip.  A namespace written out as a command
    line, every option given with [=], numbers printed in decimal, the empty
    list as [--], the two flags present when set, is parsed back to the same
    namespace, provided no path is the text [--], which stands for the
    empty list: every other value of every option can be given, negative
    intervals and directories that begin with a dash included. *)
Theorem parse_args_roundtrip (a : Args) :
  arg_log_dir a <> Stored "--"%string -> arg_config a <> Stored "--"%string ->
  parse_args (args_argv a) = Parsed a.
Proof.
  destruct a as [p s u l c r v]. unfold parse_args, args_argv.
  cbn [arg_ping_interval arg_speedtest_interval arg_upload_interval arg_log_dir
       arg_config arg_report arg_setup_vps app]. intros Hl Hc.
  rewrite classify_all_explicit.
  assert (forall x : arg_value Z, get_value py_int (stored_text pretty x) = Some x) as HZ
    by (intros x; apply get_value_stored_text; intros z _; apply get_value_pretty).
  assert (forall x : arg_value string, x <> Stored "--"%string ->
            get_value Some (stored_text id x) = Some x) as HS.
  { intros x Hx. apply get_value_stored_text. intros t ->. unfold get_value, id.
    destruct (String.eqb_spec t "--") as [->|_]; [done|done]. }
  destruct r, v; cbn -[get_value stored_text]; by rewrite !HZ, (HS l Hl), (HS c Hc).
Qed.

(** ** Worked examples *)

(** Abbreviations, a negative interval, and the flag. *)
Example parse_abbreviated :
  parse_args ["--ping"; "-5"; "--re"]
  = Parsed (mkArgs (Stored (-5)%Z) (Stored 3600%Z) (Stored 300%Z) (Stored "internet_logs")
                   (Stored "monitor_config.ini") true false).
Proof. by vm_compute. Qed.

(** [--s] fits two options: an error, even after the help. *)
Example parse_ambiguous : parse_args ["--help"; "--s"; "5"] = ParseExit 2.
Proof. by vm_compute. Qed.

(** An argument that looks like an option is not taken as a value; a
    leftover argument is reported at the end only, after the help. *)
Example parse_order :
  parse_args ["--log-dir"; "-x"; "--help"] = ParseExit 2 /\
  parse_args ["extra"; "--help"] = ParseExit 0 /\
  parse_args ["extra"] = ParseExit 2 /\
  parse_args ["--"; "--help"] = ParseExit 2.
Proof. by vm_compute. Qed.

(** What [int] accepts. *)
Example py_int_literals :
  py_int " +1_000 " = Some 1000%Z /\ py_int "007" = Some 7%Z /\
  py_int "-0" = Some 0%Z /\ py_int "1__0" = None /\ py_int "_5" = None /\
  py_int "5_" = None /\ py_int "5 5" = None /\ py_int "" = None /\
  py_int "30s" = None.
Proof. by vm_compute. Qed.

Example parse_errors :
  parse_args ["--ping-interval"; "30s"] = ParseExit 2 /\
  parse_args ["--ping-interval"] = ParseExit 2 /\
  parse_args ["--report=yes"] = ParseExit 2 /\
  parse_args ["-hh"] = ParseExit 0 /\
  parse_args ["-hx"] = ParseExit 2.
Proof. by vm_compute. Qed.

(** The argument [--] given with [=] is removed and the empty list is
    stored, for a path and for an interval alike; given after a space it is
    an error. *)
Example parse_double_dash :
  parse_args ["--log-dir=--"]
  = Parsed (mkArgs (Stored 30%Z) (Stored 3600%Z) (Stored 300%Z) EmptyList
                   (Stored "monitor_config.ini") false false) /\
  parse_args ["--ping-interval=--"]
  = Parsed (mkArgs EmptyList (Stored 3600%Z) (Stored 300%Z) (Stored "internet_logs")
                   (Stored "monitor_config.ini") false false) /\
  parse_args ["--log-dir=a"; "--log-dir=--"]
  = Parsed (mkArgs (Stored 30%Z) (Stored 3600%Z) (Stored 300%Z) EmptyList
                   (Stored "monitor_config.ini") false false) /\
  parse_args ["--log-dir=-- "]
  = Parsed (mkArgs (Stored 30%Z) (Stored 3600%Z) (Stored 300%Z) (Stored "-- ")
                   (Stored "monitor_config.ini") false false) /\
  parse_args ["--log-dir"; "--"] = ParseExit 2 /\
  parse_args ["--log-dir"; "--"; "--config"; "a"] = ParseExit 2.
Proof. by vm_compute. Qed.

Lemma parse_args_roundtrip_witness :
  let a := mkArgs (Stored (-5)%Z) EmptyList (Stored 300%Z) (Stored "-logs")
                  (Stored "monitor config.ini") true false in
  parse_args (args_argv a) = Parsed a.
Proof.
  by apply (parse_args_roundtrip
              (mkArgs (Stored (-5)%Z) EmptyList (Stored 300%Z) (Stored "-logs")
                      (Stored "monitor config.ini") true false)).
Defined.
