(* ===== verification/Values.v ===== *)
(** * Values: the Python data the monitor handles

    Timestamps and durations, JSON documents as [json.loads] returns them,
    the texts the program formats, the cells and rows of the CSV series,
    and the records the logger receives. *)

From S2P Require Import Prelude.

(** ** Time

    [datetime.now()] has microsecond resolution and the difference of two
    timestamps is an exact [timedelta]: both are counted in microseconds.
    [timedelta.total_seconds()] is the count divided by 10^6. *)

Definition datetime : Type := Z.
Definition timedelta : Type := Z.
Bind Scope Z_scope with datetime timedelta.

Definition total_seconds (d : timedelta) : Q := d # 1000000.

(** A [datetime] is counted from 1970-01-01T00:00:00 in the time of the
    clock; [datetime_min] is 0001-01-01T00:00:00 and [datetime_max] is
    9999-12-31T23:59:59.999999. *)
Definition datetime_min : datetime := -62135596800000000.
Definition datetime_max : datetime := 253402300799999999.

(** The days a [timedelta] can hold, either side of 0. *)
Definition timedelta_max_days : Z := 999999999.

(** [timedelta(seconds=n)] of an integer: [OverflowError] when the days do
    not fit. *)
Definition timedelta_of_seconds (n : Z) : result timedelta :=
  if (Z.abs (n / 86400) <=? timedelta_max_days)%Z then Ok (n * 1000000)%Z
  else Raise OverflowError.

(** [t + d]: [OverflowError] when the date is out of range. *)
Definition datetime_add (t : datetime) (d : timedelta) : result datetime :=
  if ((datetime_min <=? t + d) && (t + d <=? datetime_max))%Z then Ok (t + d)%Z
  else Raise OverflowError.

(** ** JSON documents *)

#[warnings="-register-all"]
Inductive json : Type :=
| JNull
| JBool (b : bool)
| JNum (q : Q)
| JStr (s : string)
| JArr (items : list json)
| JObj (fields : list (string * json)).

(** ** Formatted texts

    One constructor per f-string of the source whose arguments are not
    plain strings, and one for [str] of a JSON value; the arguments are
    kept, the rendering is not modelled. *)

Inductive text : Type :=
| DisconnectedFromTo (start now : datetime)
    (* f"Disconnected from {start} to {now}" *)
| FailedWith (e : exn)
    (* f'failed: {str(e)}' *)
| ServerLabel (a b : json)
    (* f"{a} - {b}" *)
| StrOf (j : json).
    (* str(j): a list or a dict as csv.writer writes it *)

(** ** Cells and rows of a CSV series

    A cell is a field as [csv.writer] received it and as [csv.DictReader]
    gives it back: [None] is written as the empty field, a number by its
    [repr], which [float] reads back to the same number. *)

Inductive cell : Type :=
| CEmpty
| CStr (s : string)
| CNum (q : Q)
| CTime (t : datetime)        (* datetime.isoformat() *)
| CText (t : text).

Definition row : Type := list cell.

(** [c == lit] for a cell read back and one of the literals the program
    compares with (['disconnected'], ['disconnect'], ['success']): none of
    them is empty, a number, a timestamp or a formatted text. *)
Definition cell_is (lit : string) (c : cell) : bool :=
  match c with
  | CStr s => String.eqb s lit
  | CEmpty => String.eqb "" lit
  | CNum _ | CTime _ | CText _ => false
  end.

(** ** Log records *)

Inductive level : Type := DEBUG | INFO | WARNING | ERROR.

Definition level_rank (l : level) : nat :=
  match l with DEBUG => 10 | INFO => 20 | WARNING => 30 | ERROR => 40 end.

(** One constructor per logging call of the source. *)
Inductive log_msg : Type :=
| PingFailedCode (target : string) (returncode : Z)
| PingTimedOut (target : string)
| PingFailed (target : string) (e : exn)
| HttpStatus (url : string) (status : Z)
| HttpFailed (url : string) (e : exn)
| ConnectivityTested (successful total : nat) (connected : bool)
| ConnectionRestored (duration : Q)
| ConnectionLost
| RunningSpeedTest
| SpeedTestDone (download upload ping : Q)
| SpeedTestError (e : exn)
| ReportGenerated (stamp : datetime)
| ReportFailed (e : exn)
| UploadingLogs (username hostname remote_dir : string)
| Uploaded (file : string)
| NotFoundLocally (file : string)
| UploadedReport (stamp : datetime)
| UploadCompleted
| ScpUploadFailed (detail : string + exn)
| LogUploadFailed (e : exn)
| MonitorStarting
| PingIntervalIs (seconds : arg_value Z)
| SpeedTestIntervalIs (seconds : arg_value Z)
| UploadIntervalIs (seconds : arg_value Z) (enabled : bool)
| LogsDirectoryIs
| MonitoringStopped.

Record log_record : Type := LogRecord { log_level : level; log_text : log_msg }.

(** ** Lines of the report document

    One constructor per [f.write] of [generate_report]; the numbers are kept
    exact (the one-decimal rendering of the f-strings is not modelled). *)

Inductive report_line : Type :=
| RTitle
| RRule
| RGenerated (t : datetime)
| RConnectivityHeader
| RTotalTests (n : nat)
| RFailedTests (n : nat)
| RSuccessRate (pct : Q)
| RDisconnectionHeader
| RTotalDisconnections (n : nat)
| RTotalDowntime (seconds minutes : Q)
| RAverageDisconnect (seconds : Q)
| RSpeedHeader
| RTotalSpeedTests (n : nat)
| RSuccessfulTests (n : nat)
| RAverageDownload (mbps : Q)
| RAverageUpload (mbps : Q)
| RMinDownload (mbps : Q)
| RMaxDownload (mbps : Q).

(** A period of [n] seconds is [n] million microseconds, when it fits. *)
Lemma timedelta_of_seconds_spec n d :
  timedelta_of_seconds n = Ok d <->
  (d = n * 1000000 /\ -86400 * timedelta_max_days <= n < 86400 * (timedelta_max_days + 1))%Z.
Proof.
  unfold timedelta_of_seconds, timedelta_max_days.
  destruct (Z.leb_spec (Z.abs (n / 86400)) 999999999) as [H|H].
  - split; [intros [= <-]; split; [done|]|by intros [-> _]].
    pose proof (Z.mul_div_le n 86400). pose proof (Z.mod_pos_bound n 86400).
    pose proof (Z.div_mod n 86400). lia.
  - split; [done|]. intros [_ Hn]. exfalso.
    assert (-999999999 <= n / 86400)%Z by (apply Z.div_le_lower_bound; lia).
    assert (n / 86400 < 1000000000)%Z by (apply Z.div_lt_upper_bound; lia). lia.
Qed.

Lemma datetime_add_spec t d t' :
  datetime_add t d = Ok t' <->
  (t' = t + d /\ datetime_min <= t + d <= datetime_max)%Z.
Proof.
  unfold datetime_add.
  destruct (Z.leb_spec datetime_min (t + d)), (Z.leb_spec (t + d) datetime_max);
    simpl; (split; [intros [= <-]|intros [-> ?]]); try done; lia.
Qed.

(** What the two raise is an [OverflowError]. *)
Lemma timedelta_of_seconds_raises n e : timedelta_of_seconds n = Raise e -> e = OverflowError.
Proof. unfold timedelta_of_seconds. case_match; [done|]. by intros [= <-]. Qed.

Lemma datetime_add_raises t d e : datetime_add t d = Raise e -> e = OverflowError.
Proof. unfold datetime_add. case_match; [done|]. by intros [= <-]. Qed.

Lemma total_seconds_nonneg (d : timedelta) : (0 <= d)%Z -> (0 <= total_seconds d)%Q.
Proof. unfold total_seconds, Qle. simpl. lia. Qed.

Lemma total_seconds_add (d1 d2 : timedelta) :
  (total_seconds (d1 + d2)%Z == total_seconds d1 + total_seconds d2)%Q.
Proof. unfold total_seconds, Qeq, Qplus. simpl. lia. Qed.
