(* ===== verification/Csv.v ===== *)
(** * Csv: the text of a series

    The program writes its rows with [csv.writer(f).writerow] on files
    opened with [newline=''] (lines 93-107, 196-205, 223-230, 292-314) and
    reads them back with [csv.DictReader] on files opened with
    [open(path, 'r')] (lines 331-333, 346-348, 363-365).  This file models
    the text in between: the writer of the default dialect (fields joined
    by commas, a field that holds a comma, a quote or a line break put in
    quotes with its quotes doubled, rows ended by CR LF), the universal
    newlines of a file opened for reading in text mode, and the reader, a
    machine of six states fed character by character with an end-of-line
    mark after every line.  The theorems say what the reader gives back of
    what the writer wrote. *)

From S2P Require Import Prelude Text Values.

(** ** Characters *)

Definition delimiter : Ascii.ascii := Ascii.ascii_of_nat 44.
Definition quotechar : Ascii.ascii := Ascii.ascii_of_nat 34.
Definition cr : Ascii.ascii := Ascii.ascii_of_nat 13.
Definition lf : Ascii.ascii := Ascii.ascii_of_nat 10.

(** The line terminator of the default dialect. *)
Definition crlf : string := String cr (String lf "").

(** What a character is to the writer and to the reader. *)
Inductive char_kind : Type := Delimiter | Quote | Newline | Plain.

Definition kind_of (c : Ascii.ascii) : char_kind :=
  if Ascii.eqb c delimiter then Delimiter
  else if Ascii.eqb c quotechar then Quote
  else if Ascii.eqb c cr || Ascii.eqb c lf then Newline
  else Plain.

(** ** The writer *)

(** The characters that make the writer quote a field ([QUOTE_MINIMAL]):
    the delimiter, the quote and the characters of the line terminator. *)
Definition special (c : Ascii.ascii) : bool :=
  match kind_of c with Plain => false | _ => true end.

Fixpoint needs_quotes (s : string) : bool :=
  match s with
  | EmptyString => false
  | String c s' => special c || needs_quotes s'
  end.

(** [doublequote]: a quote inside a field is written twice. *)
Fixpoint double_quotes (s : string) : string :=
  match s with
  | EmptyString => EmptyString
  | String c s' =>
      if Ascii.eqb c quotechar then String c (String c (double_quotes s'))
      else String c (double_quotes s')
  end.

(** One field as the writer appends it to the record. *)
Definition write_field (s : string) : string :=
  if needs_quotes s
  then String quotechar (double_quotes s +:+ String quotechar "")
  else s.

(** The fields of a record, a delimiter before each but the first. *)
Fixpoint join_fields (fs : list string) : string :=
  match fs with
  | [] => EmptyString
  | f :: fs' =>
      match fs' with
      | [] => write_field f
      | _ => write_field f +:+ String delimiter (join_fields fs')
      end
  end.

(** [writer.writerow(r)] with line terminator [term]: a record of one
    empty field is written as a pair of quotes, so that it is no empty
    line. *)
Definition write_row (term : string) (r : list string) : string :=
  (if bool_decide (r = [EmptyString]) then String quotechar (String quotechar "")
   else join_fields r) +:+ term.

(** The text of a file after one [writerow] per row. *)
Fixpoint write_rows (term : string) (rows : list (list string)) : string :=
  match rows with
  | [] => EmptyString
  | r :: rows' => write_row term r +:+ write_rows term rows'
  end.

(** ** Universal newlines

    A file opened with [open(path, 'r')] gives CR LF and a lone CR as LF.
    [after_cr] says that the character before was a CR, whose LF has
    been given already. *)
Fixpoint translate (after_cr : bool) (s : string) : string :=
  match s with
  | EmptyString => EmptyString
  | String c s' =>
      if Ascii.eqb c cr then String lf (translate true s')
      else if Ascii.eqb c lf && after_cr then translate false s'
      else String c (translate false s')
  end.

Definition universal (s : string) : string := translate false s.

(** No carriage return in [s]. *)
Fixpoint no_cr (s : string) : bool :=
  match s with
  | EmptyString => true
  | String c s' => negb (Ascii.eqb c cr) && no_cr s'
  end.

(** ** The reader *)

Inductive parser_state : Type :=
| START_RECORD
| START_FIELD
| IN_FIELD
| IN_QUOTED_FIELD
| QUOTE_IN_QUOTED_FIELD
| EAT_CRNL.

#[export] Instance parser_state_eq_dec : EqDecision parser_state.
Proof. solve_decision. Defined.

(** The reader between two characters: its state, the field it is in
    and the fields of the record so far. *)
Record reader : Type := Reader {
  rd_state : parser_state;
  rd_field : string;
  rd_fields : list string;
}.

(** [parse_reset] *)
Definition reset : reader := Reader START_RECORD "" [].

Definition set_state (st : parser_state) (r : reader) : reader :=
  Reader st (rd_field r) (rd_fields r).

(** [parse_save_field], followed by the new state. *)
Definition save_field (st : parser_state) (r : reader) : reader :=
  Reader st "" (rd_fields r ++ [rd_field r]).

(** [parse_add_char], followed by the new state. *)
Definition add_char (st : parser_state) (c : Ascii.ascii) (r : reader) : reader :=
  Reader st (rd_field r +:+ String c "") (rd_fields r).

(** The case [START_FIELD] of [parse_process_char]; [None] is the
    end-of-line mark. *)
Definition start_field (r : reader) (c : option Ascii.ascii) : reader :=
  match c with
  | None => save_field START_RECORD r
  | Some a =>
      match kind_of a with
      | Newline => save_field EAT_CRNL r
      | Quote => set_state IN_QUOTED_FIELD r
      | Delimiter => save_field START_FIELD r
      | Plain => add_char IN_FIELD a r
      end
  end.

(** [parse_process_char] for the default dialect, not strict: the only
    error is a character after a line break outside quotes, in the same
    line. *)
Definition process_char (r : reader) (c : option Ascii.ascii) : result reader :=
  match rd_state r, c with
  | START_RECORD, None => Ok r
  | START_RECORD, Some a =>
      match kind_of a with
      | Newline => Ok (set_state EAT_CRNL r)
      | _ => Ok (start_field r c)
      end
  | START_FIELD, _ => Ok (start_field r c)
  | IN_FIELD, None => Ok (save_field START_RECORD r)
  | IN_FIELD, Some a =>
      match kind_of a with
      | Newline => Ok (save_field EAT_CRNL r)
      | Delimiter => Ok (save_field START_FIELD r)
      | _ => Ok (add_char IN_FIELD a r)
      end
  | IN_QUOTED_FIELD, None => Ok r
  | IN_QUOTED_FIELD, Some a =>
      match kind_of a with
      | Quote => Ok (set_state QUOTE_IN_QUOTED_FIELD r)
      | _ => Ok (add_char IN_QUOTED_FIELD a r)
      end
  | QUOTE_IN_QUOTED_FIELD, None => Ok (save_field START_RECORD r)
  | QUOTE_IN_QUOTED_FIELD, Some a =>
      match kind_of a with
      | Quote => Ok (add_char IN_QUOTED_FIELD a r)
      | Delimiter => Ok (save_field START_FIELD r)
      | Newline => Ok (save_field EAT_CRNL r)
      | Plain => Ok (add_char IN_FIELD a r)
      end
  | EAT_CRNL, None => Ok (set_state START_RECORD r)
  | EAT_CRNL, Some a =>
      match kind_of a with
      | Newline => Ok r
      | _ => Raise CsvError
      end
  end.

(** The end of a line: the end-of-line mark; the record is complete when
    the reader is back at the start of a record, and the next record
    starts from [reset]. *)
Definition end_of_line (r : reader) : result (list (list string) * reader) :=
  let? r' := process_char r None in
  Ok (if bool_decide (rd_state r' = START_RECORD) then ([rd_fields r'], reset)
      else ([], r')).

(** The end of the input: a field that was begun is saved and the record
    given, as the reader does when it is not strict. *)
Definition end_of_input (r : reader) : list (list string) :=
  if bool_decide (rd_field r <> EmptyString \/ rd_state r = IN_QUOTED_FIELD)
  then [rd_fields (save_field START_RECORD r)]
  else [].

(** [list(csv.reader(f))] over the text [f] gives, line by line.  The
    text is that of a file opened in text mode, which holds no CR: a line
    ends after a LF and at the end of the text.  [mid] says that a line
    has been begun. *)
Fixpoint read_from (text : string) (mid : bool) (r : reader)
    : result (list (list string)) :=
  match text with
  | EmptyString =>
      if mid then
        let? final := end_of_line r in
        Ok (final.1 ++ end_of_input final.2)
      else Ok (end_of_input r)
  | String c text' =>
      let? r1 := process_char r (Some c) in
      if Ascii.eqb c lf then
        let? line := end_of_line r1 in
        let? more := read_from text' false line.2 in
        Ok (line.1 ++ more)
      else read_from text' true r1
  end.

Definition read_csv (text : string) : result (list (list string)) :=
  read_from text false reset.

(** [with open(path, 'r') as csvfile: list(csv.reader(csvfile))] on a file
    that holds [text]. *)
Definition read_file (text : string) : result (list (list string)) :=
  read_csv (universal text).

(** The text of a file that holds [rows], each cell written as [str]
    gives it. *)
Definition stored (str : cell -> string) (rows : list row) : string :=
  write_rows crlf (map (map str) rows).

(** ** Characters *)

Lemma kind_of_plain c :
  special c = false ->
  kind_of c = Plain /\ Ascii.eqb c quotechar = false /\
  Ascii.eqb c cr = false /\ Ascii.eqb c lf = false.
Proof.
  unfold special, kind_of.
  destruct (Ascii.eqb c delimiter); [done|]. destruct (Ascii.eqb c quotechar); [done|].
  by destruct (Ascii.eqb c cr), (Ascii.eqb c lf).
Qed.

Lemma kind_of_lf : kind_of lf = Newline.
Proof. reflexivity. Qed.

Lemma kind_of_quote c : Ascii.eqb c quotechar = true -> kind_of c = Quote.
Proof. by intros ->%Ascii.eqb_eq. Qed.

(** Inside quotes every character but the quote is kept. *)
Lemma kind_of_kept c :
  Ascii.eqb c quotechar = false -> kind_of c <> Quote.
Proof.
  unfold kind_of. intros ->. by destruct (Ascii.eqb c delimiter), (Ascii.eqb c cr || Ascii.eqb c lf).
Qed.

Lemma join_fields_cons f f' fs :
  join_fields (f :: f' :: fs)
  = write_field f +:+ String delimiter (join_fields (f' :: fs)).
Proof. reflexivity. Qed.

(** ** Universal newlines *)

Lemma universal_cons_plain c s :
  Ascii.eqb c cr = false -> Ascii.eqb c lf = false ->
  universal (String c s) = String c (universal s).
Proof. unfold universal. simpl. by intros -> ->. Qed.

Lemma universal_app_plain s rest :
  needs_quotes s = false -> universal (s +:+ rest) = s +:+ universal rest.
Proof.
  induction s as [|c s IH]; intros H; [done|].
  simpl in H. apply orb_false_elim in H as [Hc Hs].
  destruct (kind_of_plain c Hc) as (_ & _ & Hcr & Hlf).
  by rewrite !append_cons, universal_cons_plain, IH.
Qed.

(** A field without a line break is read as it is. *)
Lemma universal_no_cr s : no_cr s = true -> universal s = s.
Proof.
  unfold universal. induction s as [|c s IH]; simpl; [done|].
  intros [Hc Hs]%andb_prop. apply negb_true_iff in Hc. rewrite Hc, andb_false_r.
  by rewrite IH.
Qed.

Lemma translate_no_cr b s : no_cr (translate b s) = true.
Proof.
  revert b. induction s as [|c s IH]; intros b; simpl; [done|].
  destruct (Ascii.eqb c cr) eqn:Hc; simpl; [by rewrite IH|].
  destruct (Ascii.eqb c lf && b); simpl; [done|]. by rewrite Hc, IH.
Qed.

Lemma needs_quotes_universal s : needs_quotes (universal s) = needs_quotes s.
Proof.
  unfold universal. induction s as [|c s IH]; simpl; [done|].
  destruct (Ascii.eqb_spec c cr) as [->|Hc]; [done|].
  rewrite andb_false_r. simpl. by rewrite IH.
Qed.

Lemma universal_empty s : universal s = EmptyString <-> s = EmptyString.
Proof.
  unfold universal. destruct s as [|c s]; simpl; [done|].
  destruct (Ascii.eqb c cr); [done|]. by rewrite andb_false_r.
Qed.

Lemma translate_quoted b s rest :
  translate b (double_quotes s +:+ String quotechar rest)
  = double_quotes (translate b s) +:+ String quotechar (universal rest).
Proof.
  revert b. induction s as [|c s IH]; intros b; [done|]. simpl.
  destruct (Ascii.eqb_spec c quotechar) as [->|Hq].
  - rewrite !append_cons. simpl. by rewrite IH.
  - rewrite append_cons. simpl. destruct (Ascii.eqb_spec c cr) as [->|Hc].
    + simpl. by rewrite IH.
    + destruct (Ascii.eqb c lf && b); [done|]. simpl.
      destruct (Ascii.eqb_spec c quotechar); [done|]. by rewrite append_cons, IH.
Qed.

Lemma universal_plain s : needs_quotes s = false -> universal s = s.
Proof.
  intros H. rewrite <- (append_nil_r s) at 1. by rewrite universal_app_plain, append_nil_r.
Qed.

Lemma universal_field s rest :
  universal (write_field s +:+ rest) = write_field (universal s) +:+ universal rest.
Proof.
  unfold write_field. rewrite needs_quotes_universal.
  destruct (needs_quotes s) eqn:Hs.
  - rewrite !append_cons, !append_assoc, !append_cons, !append_nil_l.
    unfold universal at 1. simpl. by rewrite translate_quoted.
  - by rewrite universal_app_plain, (universal_plain s).
Qed.

Lemma universal_fields fs rest :
  universal (join_fields fs +:+ rest)
  = join_fields (map universal fs) +:+ universal rest.
Proof.
  induction fs as [|f fs IH]; [done|].
  destruct fs as [|f' fs]; [apply universal_field|].
  cbn [map]. rewrite !join_fields_cons, !append_assoc, universal_field, !append_cons.
  rewrite universal_cons_plain by done. by rewrite IH.
Qed.

Lemma universal_crlf rest : universal (crlf +:+ rest) = String lf (universal rest).
Proof. reflexivity. Qed.

Lemma map_universal_empty r :
  map universal r = [EmptyString] <-> r = [EmptyString].
Proof.
  destruct r as [|f [|f' r]]; simpl; [done| |done].
  split; intros [= H]; f_equal; by apply universal_empty.
Qed.

(** What [open(path, 'r')] gives of a row: the row of the translated
    fields, ended by a line feed. *)
Lemma universal_row r rest :
  universal (write_row crlf r +:+ rest)
  = write_row (String lf "") (map universal r) +:+ universal rest.
Proof.
  unfold write_row. rewrite !append_assoc, append_cons, append_nil_l.
  rewrite (bool_decide_ext _ _ (map_universal_empty r)). case_bool_decide.
  - by rewrite !append_cons, append_nil_l, !universal_cons_plain, universal_crlf.
  - by rewrite universal_fields, universal_crlf.
Qed.

Lemma universal_rows rows :
  universal (write_rows crlf rows)
  = write_rows (String lf "") (map (map universal) rows).
Proof.
  induction rows as [|r rows IH]; [done|]. simpl. by rewrite universal_row, IH.
Qed.

(** ** The reader, step by step *)

Lemma result_bind_Ok {A} (r : result A) : (let? x := r in Ok x) = r.
Proof. by destruct r. Qed.

(** A character that is no line feed does not end the line. *)
Lemma read_from_cons c text mid r r1 :
  process_char r (Some c) = Ok r1 -> Ascii.eqb c lf = false ->
  read_from (String c text) mid r = read_from text true r1.
Proof. simpl. by intros -> ->. Qed.

(** A line feed inside quotes: the record goes on with the next line. *)
Lemma read_from_lf_quoted text mid acc fs :
  read_from (String lf text) mid (Reader IN_QUOTED_FIELD acc fs)
  = read_from text false (Reader IN_QUOTED_FIELD (acc +:+ String lf "") fs).
Proof. simpl. apply result_bind_Ok. Qed.

(** A line feed after a field: the record is complete. *)
Lemma read_from_lf_end text mid r r1 :
  process_char r (Some lf) = Ok r1 -> rd_state r1 = EAT_CRNL ->
  read_from (String lf text) mid r
  = let? more := read_from text false reset in Ok (rd_fields r1 :: more).
Proof.
  simpl. intros -> H. destruct r1 as [st fld fs]. simpl in H. by subst st.
Qed.

(** At the start of a record a character that is no line break starts a
    field. *)
Lemma read_from_start_record c text mid fs :
  kind_of c <> Newline ->
  read_from (String c text) mid (Reader START_RECORD "" fs)
  = read_from (String c text) mid (Reader START_FIELD "" fs).
Proof. intros H. simpl. unfold process_char. simpl. by destruct (kind_of c). Qed.

(** The characters of a quoted field up to the closing quote. *)
Lemma read_quoted f rest mid acc fs :
  read_from (double_quotes f +:+ String quotechar rest) mid
            (Reader IN_QUOTED_FIELD acc fs)
  = read_from rest true (Reader QUOTE_IN_QUOTED_FIELD (acc +:+ f) fs).
Proof.
  revert mid acc. induction f as [|c f IH]; intros mid acc.
  - by rewrite append_nil_l, append_nil_r.
  - replace (acc +:+ String c f) with ((acc +:+ String c "") +:+ f)
      by by rewrite append_assoc.
    simpl. destruct (Ascii.eqb_spec c quotechar) as [->|Hq].
    + rewrite !append_cons.
      rewrite (read_from_cons _ _ _ _ (Reader QUOTE_IN_QUOTED_FIELD acc fs)) by done.
      by rewrite (read_from_cons _ _ _ _
                    (Reader IN_QUOTED_FIELD (acc +:+ String quotechar "") fs)).
    + rewrite append_cons. destruct (Ascii.eqb_spec c lf) as [->|Hl].
      * by rewrite read_from_lf_quoted.
      * apply Ascii.eqb_neq in Hq, Hl.
        rewrite (read_from_cons _ _ _ _
                   (Reader IN_QUOTED_FIELD (acc +:+ String c "") fs)); [done| |done].
        unfold process_char. simpl. pose proof (kind_of_kept c Hq).
        by destruct (kind_of c).
Qed.

(** The characters of a field written without quotes. *)
Lemma read_plain f d rest mid acc fs :
  needs_quotes f = false ->
  read_from (f +:+ String d rest) mid (Reader IN_FIELD acc fs)
  = read_from (String d rest) true (Reader IN_FIELD (acc +:+ f) fs).
Proof.
  revert mid acc. induction f as [|c f IH]; intros mid acc H.
  - by rewrite append_nil_l, append_nil_r.
  - simpl in H. apply orb_false_elim in H as [Hc Hf].
    destruct (kind_of_plain c Hc) as (Hk & _ & _ & Hl).
    replace (acc +:+ String c f) with ((acc +:+ String c "") +:+ f)
      by by rewrite append_assoc.
    rewrite append_cons.
    rewrite (read_from_cons _ _ _ _ (Reader IN_FIELD (acc +:+ String c "") fs));
      [by apply IH| |done].
    unfold process_char. simpl. by rewrite Hk.
Qed.

(** A written field is empty or begins with a character that is no line
    break. *)
Lemma write_field_head f :
  write_field f = EmptyString \/
  exists c t, write_field f = String c t /\ kind_of c <> Newline.
Proof.
  unfold write_field. destruct (needs_quotes f) eqn:H; [right; by eexists _, _|].
  destruct f as [|c f]; [by left|right]. simpl in H.
  apply orb_false_elim in H as [[Hk _]%kind_of_plain _].
  exists c, f. by rewrite Hk.
Qed.

(** A written field up to the state the reader is in before the character
    that follows it. *)
Lemma read_field f d rest mid fs :
  exists st,
    (st = START_FIELD /\ f = EmptyString \/ st = IN_FIELD \/ st = QUOTE_IN_QUOTED_FIELD) /\
    read_from (write_field f +:+ String d rest) mid (Reader START_FIELD "" fs)
    = read_from (String d rest) true (Reader st f fs).
Proof.
  unfold write_field. destruct (needs_quotes f) eqn:H.
  - exists QUOTE_IN_QUOTED_FIELD. split; [by auto|].
    rewrite append_cons, append_assoc, append_cons, append_nil_l.
    rewrite (read_from_cons _ _ _ _ (Reader IN_QUOTED_FIELD "" fs)) by done.
    by rewrite read_quoted, append_nil_l.
  - destruct f as [|c f]; [exists START_FIELD; split; [by auto|done]|].
    exists IN_FIELD. split; [by auto|]. pose proof H as H'. simpl in H'.
    apply orb_false_elim in H' as [(Hk & _ & _ & Hl)%kind_of_plain Hf].
    rewrite append_cons.
    rewrite (read_from_cons _ _ _ _ (Reader IN_FIELD (String c "") fs));
      [|by unfold process_char; simpl; rewrite Hk|done].
    by rewrite read_plain.
Qed.

(** A field and the delimiter after it. *)
Lemma read_field_delimiter f rest mid fs :
  read_from (write_field f +:+ String delimiter rest) mid (Reader START_FIELD "" fs)
  = read_from rest true (Reader START_FIELD "" (fs ++ [f])).
Proof.
  destruct (read_field f delimiter rest mid fs) as (st & Hst & ->).
  by destruct Hst as [[-> ->]|[->| ->]].
Qed.

(** The last field of a record and the line feed after it. *)
Lemma read_field_end f rest mid fs :
  read_from (write_field f +:+ String lf rest) mid (Reader START_FIELD "" fs)
  = let? more := read_from rest false reset in Ok ((fs ++ [f]) :: more).
Proof.
  destruct (read_field f lf rest mid fs) as (st & Hst & ->).
  by destruct Hst as [[-> ->]|[->| ->]].
Qed.

(** The fields of a record and the line feed after them. *)
Lemma read_fields f fs rest mid done :
  read_from (join_fields (f :: fs) +:+ String lf rest) mid (Reader START_FIELD "" done)
  = let? more := read_from rest false reset in Ok ((done ++ f :: fs) :: more).
Proof.
  revert f mid done. induction fs as [|f' fs IH]; intros f mid done.
  - apply read_field_end.
  - rewrite join_fields_cons, append_assoc, append_cons, read_field_delimiter, IH.
    by rewrite <- app_assoc.
Qed.

(** A written record that is no empty line begins with a character that
    is no line break. *)
Lemma join_fields_head r :
  r <> [] -> r <> [EmptyString] ->
  exists c t, join_fields r = String c t /\ kind_of c <> Newline.
Proof.
  destruct r as [|f [|f' r]]; [done| |]; intros _ Hr.
  - destruct (write_field_head f) as [H|H]; [|done].
    unfold write_field in H. destruct (needs_quotes f); [done|]. by subst f.
  - rewrite join_fields_cons.
    destruct (write_field_head f) as [->|(c & t & -> & Hc)]; by eexists _, _.
Qed.

(** One record, written with a line feed at its end, is read back and the
    reader starts the next one afresh. *)
Lemma read_row r rest :
  read_from (write_row (String lf "") r +:+ rest) false reset
  = let? more := read_from rest false reset in Ok (r :: more).
Proof.
  unfold write_row. rewrite append_assoc, append_cons, append_nil_l.
  case_bool_decide as Hr; [by subst r|].
  destruct r as [|f fs]; [done|].
  destruct (join_fields_head (f :: fs)) as (c & t & Heq & Hc); [done..|].
  unfold reset. rewrite Heq, append_cons, read_from_start_record by done.
  rewrite <- append_cons, <- Heq. apply (read_fields f fs rest false []).
Qed.

(** What is written with line feeds is read back as it is. *)
Lemma read_csv_rows rows : read_csv (write_rows (String lf "") rows) = Ok rows.
Proof.
  unfold read_csv. induction rows as [|r rows IH]; [done|].
  cbn [write_rows]. by rewrite read_row, IH.
Qed.

Lemma write_rows_app term rows rows' :
  write_rows term (rows ++ rows') = write_rows term rows +:+ write_rows term rows'.
Proof.
  induction rows as [|r rows IH]; [done|].
  cbn [app write_rows]. by rewrite IH, append_assoc.
Qed.

(** ** The reader never fails on a file opened in text mode *)

Lemma kind_of_newline c :
  kind_of c = Newline -> Ascii.eqb c cr = true \/ Ascii.eqb c lf = true.
Proof.
  unfold kind_of. destruct (Ascii.eqb c delimiter), (Ascii.eqb c quotechar); try done.
  destruct (Ascii.eqb c cr), (Ascii.eqb c lf); try done; auto.
Qed.

(** Outside the state that eats line breaks every character is accepted,
    and only a line break leads there. *)
Lemma process_char_accepts r c :
  rd_state r <> EAT_CRNL ->
  exists r1, process_char r (Some c) = Ok r1 /\
             (kind_of c <> Newline -> rd_state r1 <> EAT_CRNL).
Proof.
  destruct r as [st fld fs]. unfold process_char, start_field. simpl.
  intros H. destruct st, (kind_of c); try done; by eexists.
Qed.

(** The end of a line is always accepted, and never leaves the reader
    eating line breaks. *)
Lemma end_of_line_accepts r :
  exists line, end_of_line r = Ok line /\ rd_state line.2 <> EAT_CRNL.
Proof.
  destruct r as [st fld fs]. unfold end_of_line, process_char. simpl.
  destruct st; simpl; by eexists.
Qed.

Lemma read_from_accepts text mid r :
  no_cr text = true -> rd_state r <> EAT_CRNL ->
  exists rows, read_from text mid r = Ok rows.
Proof.
  revert mid r. induction text as [|c text IH]; intros mid r Ht Hr; simpl.
  - destruct mid; [|by eexists].
    destruct (end_of_line_accepts r) as (line & -> & _). by eexists.
  - simpl in Ht. apply andb_prop in Ht as [Hc%negb_true_iff Ht].
    destruct (process_char_accepts r c Hr) as (r1 & -> & Hr1). simpl.
    destruct (Ascii.eqb c lf) eqn:Hl.
    + destruct (end_of_line_accepts r1) as (line & -> & Hline). simpl.
      destruct (IH false line.2 Ht Hline) as (rows & ->). by eexists.
    + apply IH; [done|]. apply Hr1. intros [?|?]%kind_of_newline; congruence.
Qed.

(** Whatever a series holds, reading it raises no error of the reader:
    after the translation of line breaks a line break is always the end
    of its line. *)
Lemma read_file_accepts text : exists rows, read_file text = Ok rows.
Proof. apply read_from_accepts; [apply translate_no_cr|done]. Qed.

(** ** What is read back *)

(** The rows of texts read back from the file they were written to. *)
Lemma read_translated rows :
  read_file (write_rows crlf rows) = Ok (map (map universal) rows).
Proof. unfold read_file. by rewrite universal_rows, read_csv_rows. Qed.

Lemma universal_cells (str : cell -> string) rows :
  map (map universal) (map (map str) rows)
  = map (map (fun c => universal (str c))) rows.
Proof. rewrite map_map. apply map_ext. intros r. apply map_map. Qed.

Section Rendering.
Context (str : cell -> string).

(** C15: the rows of a series read back.  Whatever text the cells are
    written as, commas, quotes and line breaks included, a file written row
    by row by [csv.writer] on a file opened with [newline=''] and read by
    [csv.reader] on a file opened in text mode gives back as many rows, of
    as many fields, each the text written with its line breaks
    translated: CR LF and a lone CR are read as LF. *)
Theorem read_written rows :
  read_file (stored str rows) = Ok (map (map (fun c => universal (str c))) rows).
Proof.
  unfold stored. by rewrite read_translated, universal_cells.
Qed.

(** Rows whose cells hold no carriage return are read back as written. *)
Lemma read_written_exact rows :
  Forall (Forall (fun c => no_cr (str c) = true)) rows ->
  read_file (stored str rows) = Ok (map (map str) rows).
Proof.
  intros H. unfold stored. rewrite read_translated, universal_cells. f_equal.
  apply map_ext_Forall. eapply Forall_impl; [exact H|]. intros r Hr.
  apply map_ext_Forall. eapply Forall_impl; [exact Hr|]. intros c Hc.
  by apply universal_no_cr.
Qed.
End Rendering.

(** ** Worked examples *)

(** A server label with a comma and quotes is put in quotes, its quotes
    doubled, and read back as it was. *)
Example label_with_comma_and_quotes :
  let label := ("Acme, Inc. - " +:+ String quotechar ("East" +:+ String quotechar ""))%string in
  write_row crlf ["2024-01-01T00:00:00"; "93.5"; label]%string
  = ("2024-01-01T00:00:00,93.5,"
     +:+ String quotechar ("Acme, Inc. - " +:+ String quotechar (String quotechar ("East"
     +:+ String quotechar (String quotechar (String quotechar crlf))))))%string /\
  read_file (write_row crlf ["2024-01-01T00:00:00"; "93.5"; label]%string)
  = Ok [["2024-01-01T00:00:00"; "93.5"; label]%string].
Proof. by vm_compute. Qed.

(** The four empty fields of a failed speed test, and a row of one empty
    field. *)
Example empty_fields :
  write_row crlf ["t"; ""; ""; ""; ""; "failed: x"]%string = ("t,,,,,failed: x" +:+ crlf)%string /\
  read_file (write_rows crlf [["t"; ""; ""; ""; ""; "failed: x"]; [""]]%string)
  = Ok [["t"; ""; ""; ""; ""; "failed: x"]; [""]]%string.
Proof. by vm_compute. Qed.

(** A carriage return in a field is read back as a line feed: the series
    are written with [newline=''] and read without it. *)
Example carriage_return_read_as_line_feed :
  read_file (write_rows crlf [["a"; String cr "b"; "c"]; ["d"]]%string)
  = Ok [["a"; String lf "b"; "c"]; ["d"]]%string.
Proof. by vm_compute. Qed.
