(* ===== verification/World.v ===== *)
(** * World: the state of a run and its environment

    [State] holds what a run of the monitor can change: the connection
    fields of the [InternetMonitor] object, the files of the log directory,
    the log, and the count of interactions with the outside.  [Environment]
    is what the outside answers: the clock, child processes, HTTP requests,
    the two library parsers the program calls on text, the sleep, and the
    home directory [expanduser] puts in a path.  [Config] holds the
    attributes [__init__] sets from its arguments, the configuration
    object among them. *)

From S2P Require Import Prelude Text Config Values.

(** ** Files of the log directory *)

(** The three CSV series ([connectivity.csv], [speedtest.csv],
    [events.csv]), by the attribute of the object that holds their path. *)
Inductive series : Type := connectivity_log | speedtest_log | events_log.

#[export] Instance series_eq_dec : EqDecision series.
Proof. solve_decision. Defined.

Definition series_code (f : series) : nat :=
  match f with connectivity_log => 0 | speedtest_log => 1 | events_log => 2 end.

Definition series_decode (n : nat) : series :=
  match n with 0 => connectivity_log | 1 => speedtest_log | _ => events_log end.

#[export] Instance series_countable : Countable series.
Proof. apply (inj_countable' series_code series_decode). by intros []. Defined.

(** ** The state *)

Record State : Type := mkState {
  is_connected : bool;
  disconnect_start : option datetime;
  last_successful_ping : datetime;
  files : gmap series (list row);
  reports : gmap Z (list report_line);
  log : list log_record;
  tick : nat;
}.

Definition set_connection (c : bool) (d : option datetime) (l : datetime)
    (s : State) : State :=
  mkState c d l (files s) (reports s) (log s) (tick s).

Definition set_files (fs : gmap series (list row)) (s : State) : State :=
  mkState (is_connected s) (disconnect_start s) (last_successful_ping s)
          fs (reports s) (log s) (tick s).

Definition set_reports (rs : gmap Z (list report_line)) (s : State) : State :=
  mkState (is_connected s) (disconnect_start s) (last_successful_ping s)
          (files s) rs (log s) (tick s).

Definition set_log (l : list log_record) (s : State) : State :=
  mkState (is_connected s) (disconnect_start s) (last_successful_ping s)
          (files s) (reports s) l (tick s).

Definition bump (s : State) : State :=
  mkState (is_connected s) (disconnect_start s) (last_successful_ping s)
          (files s) (reports s) (log s) (S (tick s)).

(** ** The configuration

    The attributes [__init__] sets and nothing changes afterwards.  The
    three intervals are kept as the command line stored them: an integer,
    or the empty list. *)

Record Config : Type := mkConfig {
  ping_interval : arg_value Z;
  speedtest_interval : arg_value Z;
  upload_interval : arg_value Z;
  config : ini;
  log_dir : string;
  ping_targets : list string;
  http_targets : list string;
}.

(** The defaults of [__init__] and of the command line, with the
    configuration [__init__] builds when there is no file. *)
Definition default_config : Config := {|
  ping_interval := Stored 30%Z;
  speedtest_interval := Stored 3600%Z;
  upload_interval := Stored 300%Z;
  config := default_ini;
  log_dir := "internet_logs";
  ping_targets := ["8.8.8.8"; "1.1.1.1"; "208.67.222.222"]%string;
  http_targets :=
    ["https://www.google.com"; "https://www.cloudflare.com";
     "https://httpbin.org/get"]%string;
|}.

(** [self.config.getboolean('VPS', 'enabled', fallback=False)] (lines 390,
    439 and 445). *)
Definition vps_enabled (cfg : Config) : result bool :=
  getboolean "VPS" "enabled" false (config cfg).

(** A configuration whose option [enabled] can be read: it is missing, or
    one of the words of a boolean. *)
Class EnabledReadable (cfg : Config) : Prop :=
  enabled_readable : exists b, vps_enabled cfg = Ok b.

(** ** The environment *)

(** What [subprocess.run(..., capture_output=True)] returns: the exit
    code, the standard output as the text that [text=True] makes of it, and
    the standard error as the bytes captured when [text=True] is not
    given. *)
Record CompletedProcess : Type := Completed {
  returncode : Z;
  stdout : string;
  stderr : bytes;
}.

(** Every answer is indexed by the number of interactions that came before
    it, so that a run is a function of the environment.  [expanduser p]
    is [str(Path(p).expanduser())], a question to the account database that
    does not depend on the moment. *)
Class Environment : Type := {
  clock : nat -> datetime;
  subprocess_run : nat -> list string -> result CompletedProcess;
  requests_get : nat -> string -> result Z;
  float_of_str : string -> result Q;
  json_loads : string -> result json;
  time_sleep : nat -> Z -> result unit;
  expanduser : string -> result string;
}.

(** What the program may rely on: a clock that does not go backwards,
    parsers that fail with their documented exception only, and a sleep
    that only an interrupt cuts short. *)
Class EnvironmentLaws (E : Environment) : Prop := {
  clock_mono : forall i j, i <= j -> (clock i <= clock j)%Z;
  float_of_str_raises : forall s e, float_of_str s = Raise e -> e = ValueError;
  json_loads_raises : forall s e, json_loads s = Raise e -> e = JSONDecodeError;
  time_sleep_raises : forall n d e, time_sleep n d = Raise e -> e = KeyboardInterrupt;
  expanduser_raises : forall p e, expanduser p = Raise e -> e = RuntimeError;
}.

(** No interrupt arrives while a child process, a request or a parser
    runs. *)
Class Uninterrupted (E : Environment) : Prop := {
  run_uninterrupted : forall n argv, subprocess_run n argv <> Raise KeyboardInterrupt;
  get_uninterrupted : forall n url, requests_get n url <> Raise KeyboardInterrupt;
  float_uninterrupted : forall s, float_of_str s <> Raise KeyboardInterrupt;
  json_uninterrupted : forall s, json_loads s <> Raise KeyboardInterrupt;
  sleep_uninterrupted : forall n d, time_sleep n d = Ok tt;
  expanduser_uninterrupted : forall p, expanduser p <> Raise KeyboardInterrupt;
}.

(** What a command that fails writes on its standard error is UTF-8, and
    so is what an exception of the environment carries. *)
Class Decodable (E : Environment) : Prop := {
  stderr_decodable : forall n argv r,
    subprocess_run n argv = Ok r -> returncode r <> 0%Z -> stderr r <> NotUtf8;
  run_decodable : forall n argv e, subprocess_run n argv = Raise e -> decodable e = true;
  expanduser_decodable : forall p e, expanduser p = Raise e -> decodable e = true;
}.

Section Effects.
Context {E : Environment}.

(** [datetime.now()] *)
Definition datetime_now : M State datetime :=
  fun s => (Ok (clock (tick s)), bump s).

(** [time.time()], read off the same clock. *)
Definition time_time : M State datetime := datetime_now.

(** [subprocess.run(argv, capture_output=True, text=True, timeout=_)] *)
Definition run_process (argv : list string) : M State CompletedProcess :=
  fun s => (subprocess_run (tick s) argv, bump s).

(** [subprocess.run(argv, check=True, capture_output=True)]: a non-zero
    exit code is a [CalledProcessError] that carries the code and the
    captured standard error. *)
Definition check_process (argv : list string) : M State CompletedProcess :=
  let! result := run_process argv in
  if (returncode result =? 0)%Z then ret result
  else raise (CalledProcessError (returncode result) (stderr result)).

(** The longest sleep in seconds: the count of nanoseconds is a signed
    64-bit integer. *)
Definition sleep_max : Z := 9223372036.

(** [time.sleep(seconds)]: a list is a [TypeError]; an integer that does
    not fit is an [OverflowError] and a negative one a [ValueError]; all
    three are raised before anything is asked of the system. *)
Definition sleep (seconds : arg_value Z) : M State unit :=
  match seconds with
  | EmptyList => raise TypeError
  | Stored n =>
      if (sleep_max <? Z.abs n)%Z then raise OverflowError
      else if (n <? 0)%Z then raise ValueError
      else fun s => (time_sleep (tick s) n, bump s)
  end.

(** A length [time.sleep] accepts. *)
Definition sleepable (seconds : arg_value Z) : Prop :=
  exists n, seconds = Stored n /\ (0 <= n <= sleep_max)%Z.

(** What [time.sleep] raises by itself for a length it refuses. *)
Definition sleep_error (seconds : arg_value Z) : exn :=
  match seconds with
  | EmptyList => TypeError
  | Stored n => if (sleep_max <? Z.abs n)%Z then OverflowError else ValueError
  end.

(** [requests.get(url, timeout=5, allow_redirects=False).status_code] *)
Definition http_get (url : string) : M State Z :=
  fun s => (requests_get (tick s) url, bump s).

(** The level [logging.basicConfig] sets: records below it are dropped. *)
Definition log_threshold : level := INFO.

(** [self.logger.<level>(msg)] *)
Definition logger (lvl : level) (m : log_msg) : M State unit :=
  modify (fun s =>
    if level_rank log_threshold <=? level_rank lvl
    then set_log (log s ++ [LogRecord lvl m]) s else s).

(** [path.exists()] *)
Definition path_exists (f : series) : M State bool :=
  gets (fun s => bool_decide (is_Some (files s !! f))).

(** [with open(path, 'w', newline='') as f: csv.writer(f).writerow(r)] *)
Definition csv_create (f : series) (r : row) : M State unit :=
  modify (fun s => set_files (<[f := [r]]> (files s)) s).

(** [with open(path, 'a', newline='') as f: csv.writer(f).writerow(r)]:
    mode ['a'] creates a missing file, empty. *)
Definition csv_append (f : series) (r : row) : M State unit :=
  modify (fun s => set_files (<[f := default [] (files s !! f) ++ [r]]> (files s)) s).
(** [with open(path, 'a', newline='') as f:] followed by one
    [csv.writer(f).writerow] per row. *)
Definition csv_append_all (f : series) (rs : list row) : M State unit :=
  modify (fun s => set_files (<[f := default [] (files s !! f) ++ rs]> (files s)) s).
End Effects.

(** The rows of a series, empty when the file is missing. *)
Definition rows_of (f : series) (s : State) : list row :=
  default [] (files s !! f).

(** ** States that differ on the outside only

    [quiet s s']: [s'] has the connection fields, the series and the reports
    of [s]; the log and the count of interactions may differ. *)
Definition quiet (s s' : State) : Prop :=
  is_connected s' = is_connected s /\
  disconnect_start s' = disconnect_start s /\
  last_successful_ping s' = last_successful_ping s /\
  files s' = files s /\ reports s' = reports s.

(** [same_connection s s']: the connection fields agree. *)
Definition same_connection (s s' : State) : Prop :=
  is_connected s' = is_connected s /\
  disconnect_start s' = disconnect_start s /\
  last_successful_ping s' = last_successful_ping s.

(** [same_reports s s']: no report was written or changed. *)
Definition same_reports (s s' : State) : Prop := reports s' = reports s.

(** [later s s']: [s'] comes after as many interactions with the outside
    as [s], or more. *)
Definition later (s s' : State) : Prop := tick s <= tick s'.

Lemma later_same_tick s s' : tick s' = tick s -> later s s'.
Proof. unfold later. lia. Qed.

Lemma same_reports_intro s s' : reports s' = reports s -> same_reports s s'.
Proof. done. Qed.

#[export] Hint Resolve later_same_tick same_reports_intro : monitor.

(** Reading a readable option returns. *)
#[export] Instance vps_enabled_returns cfg `{!EnabledReadable cfg} :
  Returns (@lift State bool (vps_enabled cfg)).
Proof. intros s. by destruct (enabled_readable (cfg := cfg)) as [b ->]. Qed.

#[export] Instance vps_enabled_contained cfg `{!EnabledReadable cfg} :
  Contained (@lift State bool (vps_enabled cfg)).
Proof. intros s e. by destruct (enabled_readable (cfg := cfg)) as [b ->]. Qed.

(** ** Environments for the worked examples *)

(** A clock that advances by [step] microseconds per interaction from
    [start]; no tool is installed, no host answers, nothing parses. *)
Definition idle_env (start step : Z) : Environment := {|
  clock n := (start + step * Z.of_nat n)%Z;
  subprocess_run _ _ := Raise FileNotFoundError;
  requests_get _ _ := Raise RequestException;
  float_of_str _ := Raise ValueError;
  json_loads _ := Raise JSONDecodeError;
  time_sleep _ _ := Ok tt;
  expanduser p := Ok p;
|}.

(** A state before anything ran: no file, no log record. *)
Definition blank (connected : bool) (start : option datetime) : State :=
  mkState connected start 0 ∅ ∅ [] 0.

(** ** Lemmas on the effects *)

Ltac unfold_effects :=
  unfold datetime_now, time_time, run_process, check_process, sleep, http_get,
    logger, path_exists,
    csv_create, csv_append, csv_append_all, rows_of in *.

Lemma idle_env_laws start step : (0 <= step)%Z -> EnvironmentLaws (idle_env start step).
Proof.
  intros Hs. split; simpl.
  - intros i j Hij. nia.
  - by intros s e [= <-].
  - by intros s e [= <-].
  - done.
  - done.
Qed.

#[export] Instance quiet_equiv : Equivalence quiet.
Proof.
  unfold quiet. split.
  - by intros s.
  - intros s s' (-> & -> & -> & -> & ->). done.
  - intros s1 s2 s3 (? & ? & ? & ? & ?) (? & ? & ? & ? & ?).
    repeat split; congruence.
Qed.

#[export] Instance same_connection_equiv : Equivalence same_connection.
Proof.
  unfold same_connection. split.
  - by intros s.
  - intros s s' (-> & -> & ->). done.
  - intros s1 s2 s3 (? & ? & ?) (? & ? & ?). repeat split; congruence.
Qed.

Lemma quiet_same_connection s s' : quiet s s' -> same_connection s s'.
Proof. intros (? & ? & ? & _). by repeat split. Qed.

#[export] Instance idle_env_uninterrupted start step :
  Uninterrupted (idle_env start step).
Proof. by split. Qed.

#[export] Instance idle_env_decodable start step : Decodable (idle_env start step).
Proof. split; simpl; [done|by intros ??? [= <-]|done]. Qed.

(** [n] interactions that change nothing else. *)
(** A sleep of a length that is accepted asks the system; any other
    raises at once. *)
Lemma sleep_run {E : Environment} n s :
  (0 <= n <= sleep_max)%Z -> sleep (Stored n) s = (time_sleep (tick s) n, bump s).
Proof.
  intros Hn. unfold sleep.
  by rewrite (proj2 (Z.ltb_ge _ _)), (proj2 (Z.ltb_ge _ _)) by lia.
Qed.

Lemma sleep_refused {E : Environment} seconds s :
  ~ sleepable seconds -> sleep seconds s = (Raise (sleep_error seconds), s).
Proof.
  intros Hn. destruct seconds as [n|]; [|done]. unfold sleep, sleep_error.
  destruct (Z.ltb_spec sleep_max (Z.abs n)); [done|].
  destruct (Z.ltb_spec n 0); [done|]. destruct Hn. exists n. split; [done|lia].
Qed.

(** A sleep that returns passed one interaction. *)
Lemma sleep_ok {E : Environment} seconds s s' :
  sleep seconds s = (Ok tt, s') ->
  s' = bump s /\ exists n, seconds = Stored n /\ time_sleep (tick s) n = Ok tt.
Proof.
  destruct seconds as [n|]; [|done]. unfold sleep. repeat case_match; try done.
  intros [= Ht <-]. eauto.
Qed.

Lemma iter_bump_state n s :
  Nat.iter n bump s
  = mkState (is_connected s) (disconnect_start s) (last_successful_ping s)
            (files s) (reports s) (log s) (n + tick s).
Proof.
  induction n as [|n IH]; simpl; [by destruct s|]. by rewrite IH.
Qed.

Lemma tick_iter_bump n s : tick (Nat.iter n bump s) = n + tick s.
Proof. by rewrite iter_bump_state. Qed.

Lemma reports_iter_bump n s : reports (Nat.iter n bump s) = reports s.
Proof. by rewrite iter_bump_state. Qed.

Lemma log_iter_bump n s : log (Nat.iter n bump s) = log s.
Proof. by rewrite iter_bump_state. Qed.

Lemma iter_bump_bump n s : Nat.iter n bump (bump s) = Nat.iter (S n) bump s.
Proof. by rewrite !iter_bump_state; simpl; rewrite Nat.add_succ_r. Qed.

Lemma iter_bump_add n m s : Nat.iter m bump (Nat.iter n bump s) = Nat.iter (n + m) bump s.
Proof. rewrite !iter_bump_state. simpl. f_equal. lia. Qed.

Section EffectLemmas.
Context {E : Environment}.
Implicit Types (s : State) (f : series).

Lemma rows_of_csv_append f r s :
  rows_of f (exec (csv_append f r) s) = rows_of f s ++ [r].
Proof. unfold_effects. unfold_monad. simpl. by rewrite lookup_insert_eq. Qed.

Lemma rows_of_csv_append_ne f g r s :
  f <> g -> rows_of g (exec (csv_append f r) s) = rows_of g s.
Proof.
  intros Hne. unfold_effects. unfold_monad. simpl. by rewrite lookup_insert_ne.
Qed.

Lemma rows_of_logger f lvl m s : rows_of f (exec (logger lvl m) s) = rows_of f s.
Proof. unfold_effects. unfold_monad. simpl. by case_match. Qed.

Lemma rows_of_bump f s : rows_of f (bump s) = rows_of f s.
Proof. done. Qed.

#[export] Instance datetime_now_quiet : Respects quiet datetime_now.
Proof. by intros s. Qed.

#[export] Instance run_process_quiet argv : Respects quiet (run_process argv).
Proof. by intros s. Qed.

#[export] Instance http_get_quiet url : Respects quiet (http_get url).
Proof. by intros s. Qed.

#[export] Instance check_process_quiet argv : Respects quiet (check_process argv).
Proof.
  intros s. unfold check_process, exec, bind, run_process. simpl.
  destruct (subprocess_run _ _) as [[rc out err]|e]; simpl; [|done]. by case_match.
Qed.

#[export] Instance sleep_quiet seconds : Respects quiet (sleep seconds).
Proof. intros s. unfold sleep. by repeat case_match. Qed.

#[export] Instance logger_quiet lvl m : Respects quiet (logger lvl m).
Proof. intros s. unfold_effects. unfold_monad. simpl. by case_match. Qed.

#[export] Instance path_exists_quiet f : Respects quiet (path_exists f).
Proof. by intros s. Qed.

#[export] Instance csv_append_same_connection f r :
  Respects same_connection (csv_append f r).
Proof. by intros s. Qed.

#[export] Instance csv_append_all_same_connection f rs :
  Respects same_connection (csv_append_all f rs).
Proof. by intros s. Qed.

#[export] Instance csv_append_all_contained f rs : Contained (csv_append_all f rs).
Proof. by intros s e. Qed.

Lemma rows_of_csv_append_all f rs s :
  rows_of f (exec (csv_append_all f rs) s) = rows_of f s ++ rs.
Proof. unfold_effects. unfold_monad. simpl. by rewrite lookup_insert_eq. Qed.

Lemma rows_of_csv_append_all_ne f g rs s :
  f <> g -> rows_of g (exec (csv_append_all f rs) s) = rows_of g s.
Proof.
  intros Hne. unfold_effects. unfold_monad. simpl. by rewrite lookup_insert_ne.
Qed.

#[export] Instance csv_create_same_connection f r :
  Respects same_connection (csv_create f r).
Proof. by intros s. Qed.

(** The count of interactions never goes down. *)
#[export] Instance later_preorder : PreOrder later.
Proof. unfold later. split; [by intros s|intros s1 s2 s3; lia]. Qed.

#[export] Instance datetime_now_later : Respects later datetime_now.
Proof. intros s. unfold later. simpl. lia. Qed.

#[export] Instance run_process_later argv : Respects later (run_process argv).
Proof. intros s. unfold later. simpl. lia. Qed.

#[export] Instance http_get_later url : Respects later (http_get url).
Proof. intros s. unfold later. simpl. lia. Qed.

#[export] Instance check_process_later argv : Respects later (check_process argv).
Proof.
  intros s. unfold later, check_process, exec, bind, run_process. simpl.
  destruct (subprocess_run _ _) as [[rc out err]|e]; simpl; [case_match; simpl|]; lia.
Qed.

#[export] Instance sleep_later seconds : Respects later (sleep seconds).
Proof. intros s. unfold later, sleep, exec. repeat case_match; simpl; lia. Qed.

#[export] Instance logger_later lvl m : Respects later (logger lvl m).
Proof. intros s. unfold_effects. unfold_monad. unfold later. simpl. by case_match. Qed.

#[export] Instance path_exists_later f : Respects later (path_exists f).
Proof. intros s. by unfold later. Qed.

#[export] Instance csv_append_later f r : Respects later (csv_append f r).
Proof. intros s. by unfold later. Qed.

#[export] Instance csv_append_all_later f rs : Respects later (csv_append_all f rs).
Proof. intros s. by unfold later. Qed.

#[export] Instance csv_create_later f r : Respects later (csv_create f r).
Proof. intros s. by unfold later. Qed.

#[export] Instance same_reports_equiv : Equivalence same_reports.
Proof. unfold same_reports. split; [by intros s|by intros s s'|intros s1 s2 s3; congruence]. Qed.

#[export] Instance quiet_respects_same_reports {A} (c : M State A) :
  Respects quiet c -> Respects same_reports c | 10.
Proof. apply respects_weaken. by intros s s' (_ & _ & _ & _ & ?). Qed.

#[export] Instance csv_append_same_reports f r : Respects same_reports (csv_append f r).
Proof. by intros s. Qed.

#[export] Instance csv_append_all_same_reports f rs :
  Respects same_reports (csv_append_all f rs).
Proof. by intros s. Qed.

#[export] Instance csv_create_same_reports f r : Respects same_reports (csv_create f r).
Proof. by intros s. Qed.

(** What is quiet leaves the connection fields alone. *)
#[export] Instance quiet_respects_same_connection {A} (c : M State A) :
  Respects quiet c -> Respects same_connection c | 10.
Proof. apply respects_weaken, quiet_same_connection. Qed.

#[export] Instance datetime_now_returns : Returns datetime_now.
Proof. by intros s. Qed.

#[export] Instance logger_returns lvl m : Returns (logger lvl m).
Proof. by intros s. Qed.

#[export] Instance path_exists_returns f : Returns (path_exists f).
Proof. by intros s. Qed.

#[export] Instance csv_append_returns f r : Returns (csv_append f r).
Proof. by intros s. Qed.

#[export] Instance csv_append_all_returns f rs : Returns (csv_append_all f rs).
Proof. by intros s. Qed.

#[export] Instance csv_create_returns f r : Returns (csv_create f r).
Proof. by intros s. Qed.

#[export] Instance datetime_now_contained : Contained datetime_now.
Proof. by intros s e. Qed.

#[export] Instance logger_contained lvl m : Contained (logger lvl m).
Proof. by intros s e. Qed.

#[export] Instance path_exists_contained f : Contained (path_exists f).
Proof. by intros s e. Qed.

#[export] Instance csv_append_contained f r : Contained (csv_append f r).
Proof. by intros s e. Qed.

#[export] Instance csv_create_contained f r : Contained (csv_create f r).
Proof. by intros s e. Qed.
End EffectLemmas.

(** ** With no interrupt, the effects raise ordinary exceptions only *)

Section Uninterrupted.
Context {E : Environment} {U : Uninterrupted E}.

#[export] Instance run_process_ordinary argv : Ordinary (run_process argv).
Proof.
  intros s e He. destruct e; try done. by apply run_uninterrupted in He.
Qed.

#[export] Instance check_process_ordinary argv : Ordinary (check_process argv).
Proof. unfold check_process. ordinary. Qed.

#[export] Instance http_get_ordinary url : Ordinary (http_get url).
Proof.
  intros s e He. destruct e; try done. by apply get_uninterrupted in He.
Qed.

#[export] Instance sleep_ordinary seconds : Ordinary (sleep seconds).
Proof.
  intros s e. unfold sleep, eval. repeat case_match; simpl; try by intros [= <-].
  by rewrite sleep_uninterrupted.
Qed.

(** A sleep of a length that is accepted returns. *)
Lemma sleep_returns seconds : sleepable seconds -> Returns (sleep seconds).
Proof.
  intros (n & -> & Hn) s. unfold eval. rewrite sleep_run by done. simpl.
  by rewrite sleep_uninterrupted.
Qed.
End Uninterrupted.

(** ** With a standard error that decodes, so is every exception *)

Section Decodable.
Context {E : Environment} {D : Decodable E}.

#[export] Instance check_process_decodable argv :
  Raises (fun e => decodable e = true) (check_process argv).
Proof.
  intros s e. unfold check_process, run_process, eval, bind. simpl.
  destruct (subprocess_run (tick s) argv) as [r|e0] eqn:Hrun; simpl.
  - destruct (Z.eqb_spec (returncode r) 0) as [|Hrc]; [done|]. intros [= <-].
    pose proof (stderr_decodable _ _ _ Hrun Hrc). simpl. by destruct (stderr r).
  - intros [= <-]. by apply run_decodable in Hrun.
Qed.
End Decodable.
