(* ===== verification/Store.v ===== *)
(** * Store: the three CSV series

    [_init_csv_files] of src/internet_monitor.py, the reading of a series
    with [csv.DictReader] as [generate_report] does it, the well-formedness
    of the store (every series begins with its header) and the order "only
    grew" on stores, with the classes through which the other components
    state that they append only and keep the store well formed, and the
    text of the files, which the operations on rows stand for. *)

From S2P Require Import Prelude Text Values Csv World.

(** ** Headers *)

Definition connectivity_header : row :=
  [CStr "timestamp"; CStr "status"; CStr "target"; CStr "response_time_ms";
   CStr "method"].

Definition speedtest_header : row :=
  [CStr "timestamp"; CStr "download_mbps"; CStr "upload_mbps"; CStr "ping_ms";
   CStr "server"; CStr "status"].

Definition events_header : row :=
  [CStr "timestamp"; CStr "event_type"; CStr "duration_seconds"; CStr "details"].

Definition header_of (f : series) : row :=
  match f with
  | connectivity_log => connectivity_header
  | speedtest_log => speedtest_header
  | events_log => events_header
  end.

(** ** Initialisation *)

Section Init.
Context {E : Environment}.

(** [if not path.exists(): open(path, 'w'); writer.writerow(header)] *)
Definition init_csv_file (f : series) : M State unit :=
  let! present := path_exists f in
  if negb present then csv_create f (header_of f) else ret tt.

Definition _init_csv_files : M State unit :=
  init_csv_file connectivity_log ;;
  init_csv_file speedtest_log ;;
  init_csv_file events_log.
End Init.

(** ** Reading a series with [csv.DictReader]

    The first row gives the field names.  Each later row that is not empty
    becomes a dictionary [dict(zip(fieldnames, row))]: a later column of the
    same name wins, the fields a short row lacks are [None], and a key that
    is no field name raises [KeyError]. *)

Record record : Type := Rec { fieldnames : row; values : row }.

(** The value [dict(zip(header, r))] holds for [key], if any. *)
Fixpoint zip_lookup (key : string) (header r : row) : option cell :=
  match header, r with
  | h :: header', c :: r' =>
      match zip_lookup key header' r' with
      | Some c' => Some c'
      | None => if cell_is key h then Some c else None
      end
  | _, _ => None
  end.

(** [d[key]]: [None] of Python is [None] here. *)
Definition dict_get (d : record) (key : string) : result (option cell) :=
  if existsb (cell_is key) (drop (length (values d)) (fieldnames d)) then Ok None
  else match zip_lookup key (fieldnames d) (values d) with
       | Some c => Ok (Some c)
       | None => Raise (KeyError key)
       end.

Definition nonempty_row (r : row) : bool :=
  match r with [] => false | _ => true end.

(** [list(csv.DictReader(csvfile))] over the rows of a file. *)
Definition dict_rows (rows : list row) : list record :=
  match rows with
  | [] => []
  | header :: data => map (Rec header) (filter (fun r => nonempty_row r = true) data)
  end.

(** [with open(path, 'r') as csvfile: list(csv.DictReader(csvfile))] *)
Definition csv_read_dicts (f : series) : M State (list record) :=
  fun s => match files s !! f with
           | Some rows => (Ok (dict_rows rows), s)
           | None => (Raise FileNotFoundError, s)
           end.

(** [d[key] == lit] *)
Definition field_is (key lit : string) (d : record) : result bool :=
  match dict_get d key with
  | Ok (Some c) => Ok (cell_is lit c)
  | Ok None => Ok false
  | Raise e => Raise e
  end.

(** The timestamp of a row: the first column of each series. *)
Definition row_time (r : row) : option datetime :=
  match r with CTime t :: _ => Some t | _ => None end.

(** The text the file of a series holds, each cell written as [str]
    gives it; [None] when the file is missing. *)
Definition file_text (str : cell -> string) (f : series) (s : State) : option string :=
  stored str <$> files s !! f.

(** ** Well-formed stores and stores that only grew *)

(** Every series exists and begins with its header. *)
Definition store_wf (s : State) : Prop :=
  forall f, exists data, files s !! f = Some (header_of f :: data).

(** The series that exist begin with their header. *)
Definition store_ok (s : State) : Prop :=
  forall f rows, files s !! f = Some rows -> exists data, rows = header_of f :: data.

(** [s'] has every row of [s], in place: rows were only appended. *)
Definition store_le (s s' : State) : Prop :=
  forall f, rows_of f s `prefix_of` rows_of f s' /\
            (is_Some (files s !! f) -> is_Some (files s' !! f)).

(** A store that stays well formed if it was. *)
Definition keeps_wf (s s' : State) : Prop := store_wf s -> store_wf s'.

(** [s'] differs from [s] in the series [f] at most, the log and the count
    of interactions apart. *)
Definition only_series (f : series) (s s' : State) : Prop :=
  same_connection s s' /\ reports s' = reports s /\
  forall g, g <> f -> files s' !! g = files s !! g.

(** [grows f P s s']: the series [f] of [s'] is that of [s] followed by
    rows that satisfy [P]. *)
Definition grows (f : series) (P : row -> Prop) (s s' : State) : Prop :=
  exists rows, rows_of f s' = rows_of f s ++ rows /\ Forall P rows.

(** A computation that only appends to the series. *)
Abbreviation AppendOnly c := (Respects store_le c).

(** A computation that keeps a well-formed store well formed. *)
Abbreviation KeepsStore c := (Respects keeps_wf c).

(** A computation that leaves the connection fields alone. *)
Abbreviation KeepsConnection c := (Respects same_connection c).

(** A row shaped like those of the events series, for the worked examples. *)
Definition event_like_row (seconds : Z) : row :=
  [CTime 0; CStr "disconnect"; CNum (inject_Z seconds); CStr "details"].

(** ** The order on stores *)

#[export] Instance store_le_preorder : PreOrder store_le.
Proof.
  split.
  - intros s f. done.
  - intros s1 s2 s3 H12 H23 f. destruct (H12 f), (H23 f).
    split; [by etrans|auto].
Qed.

Section Order.
Context {E : Environment}.
Implicit Types (s : State) (f : series).

Lemma store_le_files s s' : files s = files s' -> store_le s s'.
Proof. intros H f. unfold rows_of. by rewrite H. Qed.

Lemma store_le_append f r s : store_le s (exec (csv_append f r) s).
Proof.
  intros g. unfold_effects. unfold_monad. simpl.
  destruct (decide (f = g)) as [->|Hne].
  - rewrite lookup_insert_eq. simpl. split; [by apply prefix_app_r|eauto].
  - by rewrite lookup_insert_ne.
Qed.

Lemma store_wf_ok s : store_wf s -> store_ok s.
Proof. intros H f rows Hf. destruct (H f) as [data Hd]. exists data. congruence. Qed.

Lemma store_wf_append f r s : store_wf s -> store_wf (exec (csv_append f r) s).
Proof.
  intros H g. unfold_effects. unfold_monad. simpl.
  destruct (H g) as [data Hg].
  destruct (decide (f = g)) as [->|Hne].
  - rewrite lookup_insert_eq, Hg. simpl. eauto.
  - rewrite lookup_insert_ne by done. eauto.
Qed.
End Order.

(** ** Instances for the effects *)

#[export] Instance keeps_wf_preorder : PreOrder keeps_wf.
Proof. unfold keeps_wf. split; [by intros s|]. intros s1 s2 s3 H12 H23. auto. Qed.

Lemma quiet_store_le s s' : quiet s s' -> store_le s s'.
Proof. intros (_ & _ & _ & Hf & _). by apply store_le_files. Qed.

Lemma quiet_keeps_wf s s' : quiet s s' -> keeps_wf s s'.
Proof. intros (_ & _ & _ & Hf & _) H f. rewrite Hf. apply H. Qed.

Lemma keeps_wf_files s s' : files s = files s' -> keeps_wf s s'.
Proof. intros Hf H f. rewrite <- Hf. apply H. Qed.

#[export] Hint Extern 1 (store_le _ _) => apply store_le_files; reflexivity : monitor.
#[export] Hint Extern 1 (keeps_wf _ _) => apply keeps_wf_files; reflexivity : monitor.

Section Instances.
Context {E : Environment}.

#[export] Instance quiet_append_only {A} (c : M State A) :
  Respects quiet c -> AppendOnly c | 10.
Proof. apply respects_weaken, quiet_store_le. Qed.

#[export] Instance quiet_keeps_store {A} (c : M State A) :
  Respects quiet c -> KeepsStore c | 10.
Proof. apply respects_weaken, quiet_keeps_wf. Qed.

#[export] Instance csv_append_append_only f r : AppendOnly (csv_append f r).
Proof. intros s. apply store_le_append. Qed.

#[export] Instance csv_append_keeps_store f r : KeepsStore (csv_append f r).
Proof. intros s H. by apply store_wf_append. Qed.

#[export] Instance csv_append_all_append_only f rs : AppendOnly (csv_append_all f rs).
Proof.
  intros s g. unfold_effects. unfold_monad. simpl.
  destruct (decide (f = g)) as [->|Hne].
  - rewrite lookup_insert_eq. simpl. split; [by apply prefix_app_r|eauto].
  - by rewrite lookup_insert_ne.
Qed.

#[export] Instance csv_append_all_keeps_store f rs : KeepsStore (csv_append_all f rs).
Proof.
  intros s H g. unfold_effects. unfold_monad. simpl.
  destruct (H g) as [data Hg].
  destruct (decide (f = g)) as [->|Hne].
  - rewrite lookup_insert_eq, Hg. simpl. eauto.
  - rewrite lookup_insert_ne by done. eauto.
Qed.

#[export] Instance csv_read_dicts_quiet f : Respects quiet (csv_read_dicts f).
Proof. intros s. unfold exec, csv_read_dicts. by case_match. Qed.

#[export] Instance only_series_preorder f : PreOrder (only_series f).
Proof.
  split; [by intros s|].
  intros s1 s2 s3 (Hc & Hr & Hf) (Hc' & Hr' & Hf'). split; [by etrans|].
  split; [congruence|]. intros g Hg. by rewrite Hf', Hf.
Qed.

Lemma quiet_only_series f s s' : quiet s s' -> only_series f s s'.
Proof.
  intros Hq. split; [by apply quiet_same_connection|].
  destruct Hq as (_ & _ & _ & Hf & Hr). split; [done|]. by rewrite Hf.
Qed.

#[export] Instance quiet_respects_only_series {A} f (c : M State A) :
  Respects quiet c -> Respects (only_series f) c | 10.
Proof. apply respects_weaken, quiet_only_series. Qed.

#[export] Instance csv_append_only_series f r :
  Respects (only_series f) (csv_append f r).
Proof.
  intros s. split; [done|]. split; [done|]. intros g Hg.
  unfold_effects. unfold_monad. simpl. by rewrite lookup_insert_ne.
Qed.

Lemma only_series_rows f g s s' :
  only_series f s s' -> g <> f -> rows_of g s' = rows_of g s.
Proof. intros (_ & _ & Hf) Hg. unfold rows_of. by rewrite Hf. Qed.
End Instances.

(** ** Series that grow by rows of one kind *)

#[export] Instance grows_preorder f P : PreOrder (grows f P).
Proof.
  split.
  - intros s. exists []. by rewrite app_nil_r.
  - intros s1 s2 s3 (rows1 & H1 & P1) (rows2 & H2 & P2). exists (rows1 ++ rows2).
    split; [by rewrite H2, H1, app_assoc|by apply Forall_app].
Qed.

Lemma grows_files f P s s' : files s' = files s -> grows f P s s'.
Proof. intros Hf. exists []. unfold rows_of. by rewrite Hf, app_nil_r. Qed.

#[export] Instance quiet_grows {A} f P (c : M State A) :
  Respects quiet c -> Respects (grows f P) c | 10.
Proof.
  apply respects_weaken. intros s s' (_ & _ & _ & Hf & _). by apply grows_files.
Qed.

(** A row appended to the series itself, and to another series. *)
(** A series that grew by rows of no kind is as it was. *)
Lemma grows_nothing f s s' : grows f (fun _ => False) s s' -> rows_of f s' = rows_of f s.
Proof. intros ([|r rows] & Hr & Hn); [by rewrite app_nil_r in Hr|by inversion Hn]. Qed.

Lemma csv_append_grows f P r : P r -> Respects (grows f P) (csv_append f r).
Proof.
  intros Hr s. exists [r]. split; [apply rows_of_csv_append|by constructor].
Qed.

Lemma csv_append_grows_other f g P r :
  g <> f -> Respects (grows f P) (csv_append g r).
Proof.
  intros Hne s. exists []. by rewrite rows_of_csv_append_ne, app_nil_r.
Qed.

Lemma csv_append_all_grows f P rs :
  Forall P rs -> Respects (grows f P) (csv_append_all f rs).
Proof. intros Hr s. exists rs. split; [apply rows_of_csv_append_all|done]. Qed.

Lemma csv_append_all_grows_other f g P rs :
  g <> f -> Respects (grows f P) (csv_append_all g rs).
Proof.
  intros Hne s. exists []. by rewrite rows_of_csv_append_all_ne, app_nil_r.
Qed.

#[export] Hint Extern 1 (grows _ _ _ _) => apply grows_files; reflexivity : monitor.
#[export] Hint Extern 2 (Respects (grows _ _) (csv_append _ _)) =>
  apply csv_append_grows_other; discriminate : typeclass_instances.
#[export] Hint Extern 2 (Respects (grows _ _) (csv_append_all _ _)) =>
  apply csv_append_all_grows_other; discriminate : typeclass_instances.

(** ** Initialisation *)

Section InitTheorems.
Context {E : Environment}.
Implicit Types (s : State) (f : series).

Lemma init_csv_file_present f s :
  is_Some (files s !! f) -> exec (init_csv_file f) s = s.
Proof.
  intros H. unfold init_csv_file. unfold_effects. unfold_monad. simpl.
  by rewrite bool_decide_eq_true_2.
Qed.

Lemma init_csv_file_missing f s :
  files s !! f = None ->
  files (exec (init_csv_file f) s) = <[f := [header_of f]]> (files s).
Proof.
  intros H. unfold init_csv_file. unfold_effects. unfold_monad. simpl.
  rewrite bool_decide_eq_false_2; [done|]. rewrite H. by intros [? ?].
Qed.

Lemma init_csv_file_lookup f s :
  files (exec (init_csv_file f) s) !! f
  = Some (default [header_of f] (files s !! f)).
Proof.
  destruct (files s !! f) as [rows|] eqn:Hf.
  - rewrite init_csv_file_present by eauto. by rewrite Hf.
  - rewrite init_csv_file_missing by done. by rewrite lookup_insert_eq.
Qed.

Lemma init_csv_file_lookup_ne f g s :
  f <> g -> files (exec (init_csv_file f) s) !! g = files s !! g.
Proof.
  intros Hne. destruct (files s !! f) as [rows|] eqn:Hf.
  - by rewrite init_csv_file_present by eauto.
  - rewrite init_csv_file_missing by done. by rewrite lookup_insert_ne.
Qed.

#[export] Instance init_csv_file_contained f : Contained (init_csv_file f).
Proof. unfold init_csv_file. contained. Qed.

Lemma init_csv_file_returns f s :
  init_csv_file f s = (Ok tt, exec (init_csv_file f) s).
Proof.
  unfold init_csv_file. unfold_effects. unfold_monad. simpl. by case_match.
Qed.

Lemma init_csv_files_exec s :
  exec _init_csv_files s
  = exec (init_csv_file events_log)
      (exec (init_csv_file speedtest_log) (exec (init_csv_file connectivity_log) s)).
Proof.
  unfold _init_csv_files, exec at 1, bind.
  rewrite (init_csv_file_returns connectivity_log s).
  by rewrite (init_csv_file_returns speedtest_log).
Qed.

(** What [_init_csv_files] leaves in each series: the rows that were
    there, or the header alone for a series that did not exist. *)
Lemma init_csv_files_lookup f s :
  files (exec _init_csv_files s) !! f
  = Some (default [header_of f] (files s !! f)).
Proof.
  rewrite init_csv_files_exec.
  destruct f;
    repeat first [ rewrite init_csv_file_lookup | rewrite init_csv_file_lookup_ne by done ];
    done.
Qed.

(** After [_init_csv_files] every series exists and begins with its
    header, provided the series that existed before did. *)
Lemma init_csv_files_wf s :
  store_ok s -> store_wf (exec _init_csv_files s).
Proof.
  intros Hok f. rewrite init_csv_files_lookup.
  destruct (files s !! f) as [rows|] eqn:Hf; simpl; [|by eexists].
  destruct (Hok f rows Hf) as [data ->]. by eexists.
Qed.

(** [_init_csv_files] never truncates: every row a series held is still
    there, in place. *)
#[export] Instance init_csv_files_append_only : AppendOnly _init_csv_files.
Proof.
  intros s f. unfold rows_of. rewrite init_csv_files_lookup.
  destruct (files s !! f) as [rows|]; simpl; [done|].
  split; [apply prefix_nil|]. by intros [? ?].
Qed.

Lemma init_csv_files_idempotent s :
  store_wf s -> files (exec _init_csv_files s) = files s.
Proof.
  intros Hwf. apply map_eq. intros f. rewrite init_csv_files_lookup.
  destruct (Hwf f) as [data ->]. done.
Qed.

#[export] Instance init_csv_files_keeps_store : KeepsStore _init_csv_files.
Proof. intros s Hwf. by apply init_csv_files_wf, store_wf_ok. Qed.

#[export] Instance init_csv_files_keeps_connection : KeepsConnection _init_csv_files.
Proof. unfold _init_csv_files, init_csv_file. respects. Qed.
End InitTheorems.

(** ** Reading back what was appended *)

Section Reading.
Context {E : Environment}.
Implicit Types (s : State) (f : series).

Lemma dict_rows_app header data r :
  nonempty_row r = true ->
  dict_rows ((header :: data) ++ [r]) = dict_rows (header :: data) ++ [Rec header r].
Proof.
  intros Hr. simpl. rewrite filter_app, map_app. f_equal.
  by rewrite filter_cons_True, filter_nil.
Qed.

(** A row appended to a series that has its header is read back by
    [csv.DictReader] as one more record, after the records that were
    there, with the header's field names and the row's cells. *)
Theorem read_after_append f r s data :
  files s !! f = Some (header_of f :: data) ->
  nonempty_row r = true ->
  eval (csv_read_dicts f) (exec (csv_append f r) s)
  = Ok (dict_rows (header_of f :: data) ++ [Rec (header_of f) r]).
Proof.
  intros Hf Hr. unfold csv_read_dicts, csv_append. unfold_monad. simpl.
  rewrite lookup_insert_eq, Hf. simpl default. by rewrite dict_rows_app.
Qed.

(** C38: a row appended to a series whose file is missing is not read
    back at all: mode ['a'] creates the file without a header, and
    [csv.DictReader] takes the row for the field names. *)
Theorem append_to_missing_series_is_lost f r s :
  files s !! f = None ->
  eval (csv_read_dicts f) (exec (csv_append f r) s) = Ok [].
Proof.
  intros Hf. unfold csv_read_dicts, csv_append. unfold_monad. simpl.
  by rewrite lookup_insert_eq, Hf.
Qed.
End Reading.

Lemma read_after_append_witness :
  eval (csv_read_dicts events_log)
       (exec (csv_append events_log (event_like_row 7))
             (exec _init_csv_files (blank true None)))
  = Ok (dict_rows (header_of events_log :: []) ++ [Rec events_header (event_like_row 7)]).
Proof.
  apply (read_after_append events_log (event_like_row 7) _ []); by vm_compute.
Defined.

Lemma append_to_missing_series_is_lost_witness :
  eval (csv_read_dicts events_log)
       (exec (csv_append events_log (event_like_row 7)) (blank true None))
  = Ok [].
Proof. apply append_to_missing_series_is_lost. by vm_compute. Defined.

(** ** The files as text

    The store keeps the rows of a file; the file holds their text.  The
    three ways the program touches a file do to its text what they do to
    its rows: mode ['w'] replaces it by the text of one row, mode ['a']
    leaves it as it is and adds the text of the row at its end, and
    reading gives back the rows of the store. *)

Section TextStore.
Context {E : Environment} (str : cell -> string).
Implicit Types (s : State) (f : series).

Lemma csv_create_text f r s :
  file_text str f (exec (csv_create f r) s) = Some (write_row crlf (map str r)).
Proof.
  unfold file_text, csv_create, stored. unfold_monad. simpl.
  rewrite lookup_insert_eq. cbn [fmap option_fmap option_map map write_rows].
  by rewrite append_nil_r.
Qed.

Lemma csv_append_all_text f rs s :
  file_text str f (exec (csv_append_all f rs) s)
  = Some (default "" (file_text str f s) +:+ write_rows crlf (map (map str) rs)).
Proof.
  unfold file_text, csv_append_all, stored. unfold_monad. simpl.
  rewrite lookup_insert_eq. cbn [fmap option_fmap option_map].
  rewrite map_app, write_rows_app. by destruct (files s !! f).
Qed.

Lemma csv_append_text f r s :
  file_text str f (exec (csv_append f r) s)
  = Some (default "" (file_text str f s) +:+ write_row crlf (map str r)).
Proof.
  rewrite <- (append_nil_r (write_row crlf (map str r))).
  apply (csv_append_all_text f [r]).
Qed.

(** What [generate_report] reads of a file is the rows the store keeps
    for it, cell by cell, as text with its line breaks translated. *)
Lemma file_text_read f s text :
  file_text str f s = Some text ->
  exists rows, files s !! f = Some rows /\
    read_file text = Ok (map (map (fun c => universal (str c))) rows).
Proof.
  unfold file_text. destruct (files s !! f) as [rows|]; [|done].
  intros [= <-]. exists rows. split; [done|].
  unfold stored. by rewrite read_translated, universal_cells.
Qed.
End TextStore.
