(* ===== verification/StateMachine.v ===== *)
(** * StateMachine: the connected/disconnected state machine

    [_handle_connection_state] of src/internet_monitor.py with the state it
    keeps, the transition table of the specification as a pure function, and
    the theorems that relate them: the invariant of the connection fields,
    the refinement of the table by the handler, what is written to the
    events series and when, and the accounting of downtime. *)

From S2P Require Import Prelude Values World Store.

(** ** The handler *)

(** The row [writer.writerow] appends to the events series when the
    connection is restored. *)
Definition event_row (start now : datetime) : row :=
  [ CTime start; CStr "disconnect"; CNum (total_seconds (now - start));
    CText (DisconnectedFromTo start now) ].

Section Handler.
Context {E : Environment}.

(** The connection fields as [__init__] sets them: optimistic start. *)
Definition init_connection : M State unit :=
  let! now := datetime_now in
  modify (set_connection true None now).

Definition _handle_connection_state (connected : bool) : M State unit :=
  let! now := datetime_now in
  let! s := get in
  if connected && negb (is_connected s) then
    (match disconnect_start s with
     | Some start =>
         logger WARNING (ConnectionRestored (total_seconds (now - start))) ;;
         csv_append events_log (event_row start now)
     | None => ret tt
     end) ;;
    modify (set_connection true None now)
  else if negb connected && is_connected s then
    logger ERROR ConnectionLost ;;
    modify (fun s => set_connection false (Some now) (last_successful_ping s) s)
  else if connected then
    modify (fun s => set_connection (is_connected s) (disconnect_start s) now s)
  else ret tt.

(** A sequence of connectivity checks, as the loop feeds their verdicts to
    the handler. *)
Definition handle_all (verdicts : list bool) : M State unit :=
  for_each verdicts _handle_connection_state.
End Handler.

(** ** The transition table of the specification *)

Inductive phase : Type :=
| CONNECTED
| DISCONNECTED (since : datetime).

Record ConnectionState : Type := mkConn {
  conn_phase : phase;
  last_successful_probe : datetime;
}.

Record DisconnectEvent : Type := mkEvent {
  event_start : datetime;
  duration_seconds : Q;
  details : text;
}.

Definition spec_step (c : ConnectionState) (verdict : bool) (now : datetime)
    : ConnectionState * option DisconnectEvent :=
  match conn_phase c, verdict with
  | CONNECTED, true => (mkConn CONNECTED now, None)
  | CONNECTED, false => (mkConn (DISCONNECTED now) (last_successful_probe c), None)
  | DISCONNECTED t, false => (c, None)
  | DISCONNECTED t, true =>
      (mkConn CONNECTED now,
       Some (mkEvent t (total_seconds (now - t)) (DisconnectedFromTo t now)))
  end.

(** The table run over a sequence of verdicts with their timestamps; the
    events come out in the order they are emitted. *)
Fixpoint spec_run (c : ConnectionState) (checks : list (bool * datetime))
    : ConnectionState * list DisconnectEvent :=
  match checks with
  | [] => (c, [])
  | (v, now) :: rest =>
      let '(c1, ev) := spec_step c v now in
      let '(c2, evs) := spec_run c1 rest in
      (c2, option_list ev ++ evs)
  end.

(** ** Invariant and abstraction *)

(** [disconnect_start] is set exactly when the monitor is disconnected. *)
Definition conn_inv (s : State) : Prop :=
  is_connected s = true <-> disconnect_start s = None.

(** A state that stays consistent if it was. *)
Definition keeps_conn_inv (s s' : State) : Prop := conn_inv s -> conn_inv s'.

#[export] Instance conn_inv_dec s : Decision (conn_inv s).
Proof. unfold conn_inv. apply _. Defined.

(** The state of the table that a state of the monitor stands for. *)
Definition abs_conn (s : State) : ConnectionState :=
  mkConn (match disconnect_start s with
          | Some t => if is_connected s then CONNECTED else DISCONNECTED t
          | None => CONNECTED
          end)
         (last_successful_ping s).

(** The row an event of the table is stored as. *)
Definition row_of_event (ev : DisconnectEvent) : row :=
  [ CTime (event_start ev); CStr "disconnect"; CNum (duration_seconds ev);
    CText (details ev) ].

(** The event a row of the events series stands for: a timestamp, the
    event type [disconnect], a duration and the details. *)
Definition event_of_row (r : row) : option DisconnectEvent :=
  match r with
  | [CTime t; CStr event_type; CNum seconds; CText d] =>
      if String.eqb event_type "disconnect" then Some (mkEvent t seconds d) else None
  | _ => None
  end.

(** The rows of the events series that stand for an event. *)
Definition is_event_row (r : row) : Prop := is_Some (event_of_row r).

(** The checks a run makes from interaction [n] on: the handler reads the
    clock once per verdict. *)
Fixpoint stamped {E : Environment} (verdicts : list bool) (n : nat)
    : list (bool * datetime) :=
  match verdicts with
  | [] => []
  | v :: vs => (v, clock n) :: stamped vs (S n)
  end.

(** [aside s s']: the connection fields and the events series of [s'] are
    those of [s]. *)
Definition aside (s s' : State) : Prop :=
  same_connection s s' /\ rows_of events_log s' = rows_of events_log s.

(** [tracks checks s s']: between [s] and [s'] the monitor did to its
    connection fields and to the events series what the table does on
    [checks], and [s'] is consistent. *)
Definition tracks (checks : list (bool * datetime)) (s s' : State) : Prop :=
  abs_conn s' = fst (spec_run (abs_conn s) checks) /\
  rows_of events_log s'
  = rows_of events_log s ++ map row_of_event (snd (spec_run (abs_conn s) checks)) /\
  conn_inv s'.

(** The states a sequence of checks can reach from a state. *)
Inductive conn_reachable {E : Environment} (s0 : State) : State -> Prop :=
| conn_reach_refl : conn_reachable s0 s0
| conn_reach_step s v :
    conn_reachable s0 s ->
    conn_reachable s0 (exec (_handle_connection_state v) s).

(** ** Accounting of downtime *)

Definition next_phase (p : phase) (v : bool) (now : datetime) : phase :=
  match p, v with
  | CONNECTED, true => CONNECTED
  | CONNECTED, false => DISCONNECTED now
  | DISCONNECTED t, false => DISCONNECTED t
  | DISCONNECTED _, true => CONNECTED
  end.

(** Microseconds spent in the disconnected phase between consecutive checks:
    the time from each check made while disconnected to the next check. *)
Fixpoint time_disconnected (p : phase) (prev : datetime)
    (checks : list (bool * datetime)) : timedelta :=
  match checks with
  | [] => 0
  | (v, now) :: rest =>
      (match p with DISCONNECTED _ => now - prev | CONNECTED => 0 end
       + time_disconnected (next_phase p v now) now rest)%Z
  end.

(** The part of an outage still open at time [t]. *)
Definition open_outage (p : phase) (t : datetime) : timedelta :=
  match p with DISCONNECTED since => (t - since)%Z | CONNECTED => 0%Z end.

(** The time of the last check, [prev] when there is none. *)
Definition last_stamp (prev : datetime) (checks : list (bool * datetime)) : datetime :=
  List.last (map snd checks) prev.

(** The start of an outage in progress is a clock reading of the past. *)
Definition start_in_past {E : Environment} (s : State) : Prop :=
  forall t, disconnect_start s = Some t -> (t <= clock (tick s))%Z.

(** The duration cell of an events row is not negative. *)
Definition nonneg_duration (r : row) : Prop :=
  match r !! 2%nat with Some (CNum q) => (0 <= q)%Q | _ => True end.

(** A clock that runs backwards: 100 s, then one second less at each
    interaction. *)
Definition backwards_env : Environment := idle_env 100000000 (-1000000).

(** ** The handler, branch by branch *)

Ltac run_handler :=
  unfold _handle_connection_state, init_connection, datetime_now, logger,
    csv_append, rows_of;
  unfold_monad; simpl.

(** Case analysis on the verdict and the connection fields. *)
Ltac conn_cases v s :=
  let Hc := fresh "Hc" in
  let Hd := fresh "Hd" in
  destruct v, (is_connected s) eqn:Hc, (disconnect_start s) eqn:Hd;
  simpl; rewrite ?Hc, ?Hd; simpl.

Section HandlerLemmas.
Context {E : Environment}.
Implicit Types (s : State) (v : bool).

Lemma handle_returns v s : eval (_handle_connection_state v) s = Ok tt.
Proof.
  run_handler. destruct v, (is_connected s); simpl; try done.
  by destruct (disconnect_start s).
Qed.

Lemma handle_tick v s : tick (exec (_handle_connection_state v) s) = S (tick s).
Proof.
  run_handler. destruct v, (is_connected s); simpl; try done.
  by destruct (disconnect_start s).
Qed.

(** Restored after an outage that began at [t]. *)
Lemma handle_restored s t :
  is_connected s = false -> disconnect_start s = Some t ->
  let now := clock (tick s) in
  let s' := exec (_handle_connection_state true) s in
  is_connected s' = true /\ disconnect_start s' = None /\
  last_successful_ping s' = now /\
  rows_of events_log s' = rows_of events_log s ++ [event_row t now].
Proof.
  intros Hc Hd. run_handler. rewrite Hc, Hd. simpl.
  by rewrite lookup_insert_eq.
Qed.

(** Restored with no start recorded: the fields are reset, nothing is
    written. *)
Lemma handle_restored_unknown s :
  is_connected s = false -> disconnect_start s = None ->
  let s' := exec (_handle_connection_state true) s in
  is_connected s' = true /\ disconnect_start s' = None /\
  last_successful_ping s' = clock (tick s) /\ files s' = files s.
Proof. intros Hc Hd. run_handler. by rewrite Hc, Hd. Qed.

Lemma handle_lost s :
  is_connected s = true ->
  let s' := exec (_handle_connection_state false) s in
  is_connected s' = false /\ disconnect_start s' = Some (clock (tick s)) /\
  last_successful_ping s' = last_successful_ping s /\ files s' = files s.
Proof. intros Hc. run_handler. by rewrite Hc. Qed.

Lemma handle_still_connected s :
  is_connected s = true ->
  let s' := exec (_handle_connection_state true) s in
  is_connected s' = true /\ disconnect_start s' = disconnect_start s /\
  last_successful_ping s' = clock (tick s) /\ files s' = files s /\
  log s' = log s.
Proof. intros Hc. run_handler. by rewrite Hc. Qed.

Lemma handle_still_disconnected s :
  is_connected s = false ->
  exec (_handle_connection_state false) s = bump s.
Proof. intros Hc. run_handler. by rewrite Hc. Qed.

Lemma handle_all_cons v vs s :
  exec (handle_all (v :: vs)) s
  = exec (handle_all vs) (exec (_handle_connection_state v) s).
Proof.
  unfold handle_all, exec. simpl. unfold bind.
  pose proof (handle_returns v s) as H. unfold eval in H.
  destruct (_handle_connection_state v s) as [r s1]. simpl in *. by subst.
Qed.

Lemma handle_all_returns vs s : eval (handle_all vs) s = Ok tt.
Proof.
  revert s. induction vs as [|v vs IH]; intros s; [done|].
  unfold handle_all, eval in *. simpl. unfold bind.
  pose proof (handle_returns v s) as H. unfold eval in H.
  destruct (_handle_connection_state v s) as [r s1]. simpl in *. subst.
  apply IH.
Qed.
End HandlerLemmas.

(** ** What the handler leaves alone *)

Section HandlerFrame.
Context {E : Environment}.

#[export] Instance handle_append_only v : AppendOnly (_handle_connection_state v).
Proof. unfold _handle_connection_state. respects. Qed.

#[export] Instance handle_keeps_store v : KeepsStore (_handle_connection_state v).
Proof. unfold _handle_connection_state. respects. Qed.

#[export] Instance handle_contained v : Contained (_handle_connection_state v).
Proof. unfold _handle_connection_state. contained. Qed.

#[export] Instance handle_returns_inst v : Returns (_handle_connection_state v).
Proof. intros s. by rewrite handle_returns. Qed.

(** The handler writes to the events series only. *)
Lemma handle_other_series v f s :
  f <> events_log ->
  rows_of f (exec (_handle_connection_state v) s) = rows_of f s.
Proof.
  intros Hne. run_handler. conn_cases v s; try done.
  by rewrite lookup_insert_ne.
Qed.

#[export] Instance handle_grows_connectivity P v :
  Respects (grows connectivity_log P) (_handle_connection_state v).
Proof. unfold _handle_connection_state. respects. Qed.

#[export] Instance handle_grows_speedtest P v :
  Respects (grows speedtest_log P) (_handle_connection_state v).
Proof. unfold _handle_connection_state. respects. Qed.

#[export] Instance init_connection_append_only : AppendOnly init_connection.
Proof. unfold init_connection. respects. Qed.

#[export] Instance init_connection_keeps_store : KeepsStore init_connection.
Proof. unfold init_connection. respects. Qed.
End HandlerFrame.

(** ** Invariant *)

Section Invariant.
Context {E : Environment}.
Implicit Types (s : State) (v : bool).

(** One call keeps the connection fields consistent. *)
Lemma handle_inv v s :
  conn_inv s -> conn_inv (exec (_handle_connection_state v) s).
Proof.
  unfold conn_inv. run_handler. conn_cases v s; intuition congruence.
Qed.

#[export] Instance keeps_conn_inv_preorder : PreOrder keeps_conn_inv.
Proof. unfold keeps_conn_inv. split; [by intros s|]. intros s1 s2 s3. auto. Qed.

Lemma same_connection_keeps_conn_inv s s' :
  same_connection s s' -> keeps_conn_inv s s'.
Proof. unfold keeps_conn_inv, conn_inv. by intros (-> & -> & _). Qed.

#[export] Instance keeps_connection_keeps_conn_inv {A} (c : M State A) :
  KeepsConnection c -> Respects keeps_conn_inv c | 20.
Proof. apply respects_weaken, same_connection_keeps_conn_inv. Qed.

Lemma init_connection_inv s : conn_inv (exec init_connection s).
Proof. by unfold conn_inv; run_handler. Qed.

#[export] Instance init_connection_keeps_conn_inv :
  Respects keeps_conn_inv init_connection.
Proof. intros s _. apply init_connection_inv. Qed.

Lemma handle_all_inv vs s :
  conn_inv s -> conn_inv (exec (handle_all vs) s).
Proof.
  revert s. induction vs as [|v vs IH]; intros s Hs; [done|].
  rewrite handle_all_cons. by apply IH, handle_inv.
Qed.

(** C2: the connection fields stay consistent: [disconnect_start] is set
    exactly when [is_connected] is false, in every state that a sequence of
    calls of [_handle_connection_state] reaches from a consistent state. *)
Theorem conn_inv_reachable s0 s :
  conn_inv s0 -> conn_reachable s0 s -> conn_inv s.
Proof.
  intros H0 Hr. induction Hr as [|s v _ IH]; [done|].
  by apply handle_inv.
Qed.

#[export] Instance handle_keeps_conn_inv v :
  Respects keeps_conn_inv (_handle_connection_state v).
Proof. intros s H. by apply handle_inv. Qed.
End Invariant.

(** ** Refinement of the transition table *)

Section Refinement.
Context {E : Environment}.
Implicit Types (s : State) (v : bool).

(** From a consistent state, one call of the handler with verdict [v] is
    one step of the transition table at the time the handler reads the
    clock. *)
Lemma handle_step v s :
  conn_inv s ->
  abs_conn (exec (_handle_connection_state v) s)
    = fst (spec_step (abs_conn s) v (clock (tick s))) /\
  rows_of events_log (exec (_handle_connection_state v) s)
    = rows_of events_log s
      ++ map row_of_event (option_list (snd (spec_step (abs_conn s) v (clock (tick s))))).
Proof.
  unfold conn_inv, abs_conn. run_handler.
  conn_cases v s; intros [H1 H2]; rewrite ?app_nil_r, ?lookup_insert_eq;
    try done; try (by specialize (H1 eq_refl)); by specialize (H2 eq_refl).
Qed.

Lemma spec_run_cons c v now rest :
  spec_run c ((v, now) :: rest)
  = (fst (spec_run (fst (spec_step c v now)) rest),
     option_list (snd (spec_step c v now))
     ++ snd (spec_run (fst (spec_step c v now)) rest)).
Proof.
  simpl. destruct (spec_step c v now) as [c1 ev]. simpl.
  by destruct (spec_run c1 rest).
Qed.

(** The same over a sequence of checks. *)
Lemma handle_all_run vs s :
  conn_inv s ->
  abs_conn (exec (handle_all vs) s)
    = fst (spec_run (abs_conn s) (stamped vs (tick s))) /\
  rows_of events_log (exec (handle_all vs) s)
    = rows_of events_log s
      ++ map row_of_event (snd (spec_run (abs_conn s) (stamped vs (tick s)))).
Proof.
  revert s. induction vs as [|v vs IH]; intros s Hs.
  { simpl. by rewrite app_nil_r. }
  rewrite handle_all_cons. simpl stamped. rewrite spec_run_cons. simpl.
  destruct (handle_step v s Hs) as [Ha Hr].
  destruct (IH _ (handle_inv v s Hs)) as [Ha' Hr'].
  rewrite handle_tick, Ha in Ha', Hr'.
  split; [done|]. by rewrite Hr', Hr, map_app, app_assoc.
Qed.

(** C1: the handler refines the transition table of the specification.
    From a consistent state, a sequence of checks leaves the connection
    fields that stand for the table's state after the same verdicts, stamped
    with the clock readings of the run; the events series grows by exactly
    the rows of the events the table emits, in order; and the state stays
    consistent. *)
Theorem handle_refines_spec vs s :
  conn_inv s ->
  abs_conn (exec (handle_all vs) s)
    = fst (spec_run (abs_conn s) (stamped vs (tick s))) /\
  rows_of events_log (exec (handle_all vs) s)
    = rows_of events_log s
      ++ map row_of_event (snd (spec_run (abs_conn s) (stamped vs (tick s)))) /\
  conn_inv (exec (handle_all vs) s).
Proof.
  intros Hs. destruct (handle_all_run vs s Hs) as [Ha Hr].
  by split; [|split; [|apply handle_all_inv]].
Qed.
(** ** Tracking the table across the other operations *)

#[export] Instance aside_preorder : PreOrder aside.
Proof.
  split; [by intros s|].
  intros s1 s2 s3 [Hc1 Hr1] [Hc2 Hr2]. split; [by etrans|congruence].
Qed.

Lemma quiet_aside s s' : quiet s s' -> aside s s'.
Proof.
  intros Hq. split; [by apply quiet_same_connection|].
  destruct Hq as (_ & _ & _ & Hf & _). unfold rows_of. by rewrite Hf.
Qed.

Lemma only_series_aside f s s' : f <> events_log -> only_series f s s' -> aside s s'.
Proof.
  intros Hne (Hc & _ & Hf). split; [done|]. unfold rows_of. by rewrite Hf.
Qed.

#[export] Instance quiet_respects_aside {A} (c : M State A) :
  Respects quiet c -> Respects aside c | 10.
Proof. apply respects_weaken, quiet_aside. Qed.

#[export] Instance speedtest_row_aside r :
  Respects aside (csv_append speedtest_log r).
Proof.
  intros s. apply (only_series_aside speedtest_log); [done|].
  apply csv_append_only_series.
Qed.

#[export] Instance connectivity_rows_aside rs :
  Respects aside (csv_append_all connectivity_log rs).
Proof.
  intros s. split; [done|]. unfold_effects. unfold_monad. simpl.
  by rewrite lookup_insert_ne.
Qed.

Lemma abs_conn_same s s' : same_connection s s' -> abs_conn s' = abs_conn s.
Proof. unfold abs_conn. by intros (-> & -> & ->). Qed.

Lemma spec_run_app c checks1 checks2 :
  spec_run c (checks1 ++ checks2)
  = (fst (spec_run (fst (spec_run c checks1)) checks2),
     snd (spec_run c checks1) ++ snd (spec_run (fst (spec_run c checks1)) checks2)).
Proof.
  revert c. induction checks1 as [|[v now] checks1 IH]; intros c.
  { simpl. by destruct (spec_run c checks2). }
  rewrite <- app_comm_cons, !spec_run_cons, IH. simpl. by rewrite app_assoc.
Qed.

Lemma tracks_nil s s' : conn_inv s -> aside s s' -> tracks [] s s'.
Proof.
  intros Hs [Hc Hr]. split; [by apply abs_conn_same|].
  split; [simpl; by rewrite app_nil_r|].
  by apply (same_connection_keeps_conn_inv s).
Qed.

Lemma tracks_aside checks s s1 s2 :
  tracks checks s s1 -> aside s1 s2 -> tracks checks s s2.
Proof.
  intros (Ha & Hr & Hi) [Hc Hr']. split; [by rewrite (abs_conn_same s1)|].
  split; [congruence|]. by apply (same_connection_keeps_conn_inv s1).
Qed.

Lemma aside_tracks checks s s1 s2 :
  aside s s1 -> tracks checks s1 s2 -> tracks checks s s2.
Proof.
  intros [Hc Hr'] (Ha & Hr & Hi). rewrite (abs_conn_same s s1 Hc) in Ha, Hr.
  split; [done|]. split; [congruence|done].
Qed.

Lemma tracks_app checks1 checks2 s s1 s2 :
  tracks checks1 s s1 -> tracks checks2 s1 s2 -> tracks (checks1 ++ checks2) s s2.
Proof.
  intros (Ha1 & Hr1 & _) (Ha2 & Hr2 & Hi). unfold tracks.
  rewrite spec_run_app. simpl.
  rewrite Ha1 in Ha2, Hr2. split; [done|]. split; [|done].
  by rewrite Hr2, Hr1, map_app, app_assoc.
Qed.

(** One call of the handler is one check of the table. *)
Lemma handle_tracks v s :
  conn_inv s -> tracks [(v, clock (tick s))] s (exec (_handle_connection_state v) s).
Proof.
  intros Hs. destruct (handle_step v s Hs) as [Ha Hr].
  split; [|split; [|by apply handle_inv]]; simpl;
    destruct (spec_step (abs_conn s) v (clock (tick s))) as [c1 ev]; simpl in *;
    by rewrite ?app_nil_r.
Qed.
End Refinement.

(** ** The rows of the events series *)

(** An event is read back from its row. *)
Lemma event_of_row_of_event ev : event_of_row (row_of_event ev) = Some ev.
Proof. by destruct ev. Qed.

(** A row that stands for an event is the row of that event. *)
Lemma event_of_row_Some r ev : event_of_row r = Some ev -> r = row_of_event ev.
Proof.
  unfold event_of_row. decode_cases. intros [= <-].
  by match goal with H : String.eqb _ _ = true |- _ => apply String.eqb_eq in H as -> end.
Qed.

(** The rows the table adds to the events series stand for events. *)
Lemma tracks_grows checks s s' : tracks checks s s' -> grows events_log is_event_row s s'.
Proof.
  intros (_ & Hr & _). eexists. split; [exact Hr|].
  apply Forall_map, Forall_forall. intros ev _.
  unfold is_event_row. by rewrite event_of_row_of_event.
Qed.

(** ** Outage cycles *)

Section Cycles.
Context {E : Environment}.
Implicit Types (s : State) (v : bool).

Lemma handle_all_app vs ws s :
  exec (handle_all (vs ++ ws)) s = exec (handle_all ws) (exec (handle_all vs) s).
Proof.
  revert s. induction vs as [|v vs IH]; intros s; [done|].
  simpl app. by rewrite !handle_all_cons, IH.
Qed.

Lemma handle_all_tick vs s : tick (exec (handle_all vs) s) = tick s + length vs.
Proof.
  revert s. induction vs as [|v vs IH]; intros s; simpl; [done|].
  rewrite handle_all_cons, IH, handle_tick. lia.
Qed.

(** While disconnected, failed checks change nothing but the count of
    clock readings. *)
Lemma handle_all_still_disconnected k s :
  is_connected s = false ->
  let s' := exec (handle_all (replicate k false)) s in
  is_connected s' = false /\ disconnect_start s' = disconnect_start s /\
  files s' = files s /\ tick s' = tick s + k.
Proof.
  revert s. induction k as [|k IH]; intros s Hc; simpl.
  { repeat split; try done; lia. }
  rewrite handle_all_cons, handle_still_disconnected by done.
  destruct (IH (bump s) Hc) as (? & ? & ? & Ht).
  repeat split; try done. rewrite Ht. simpl. lia.
Qed.

(** C4: an outage of [k+1] failed checks followed by a successful one
    writes exactly one row to the events series; the outage starts at the
    first failed check, not at a later one, and its duration runs from
    that reading of the clock to the reading of the check that succeeds. *)
Theorem outage_cycle_one_event k s :
  is_connected s = true ->
  let s' := exec (handle_all (false :: replicate k false ++ [true])) s in
  rows_of events_log s'
    = rows_of events_log s
      ++ [event_row (clock (tick s)) (clock (tick s + S k))] /\
  is_connected s' = true /\ disconnect_start s' = None.
Proof.
  intros Hc. rewrite handle_all_cons, handle_all_app. simpl.
  destruct (handle_lost s Hc) as (Hc1 & Hd1 & _ & Hf1).
  destruct (handle_all_still_disconnected k _ Hc1) as (Hc2 & Hd2 & Hf2 & Ht2).
  rewrite Hd1 in Hd2. rewrite handle_tick in Ht2.
  rewrite handle_all_cons. change (exec (handle_all []) ?x) with x.
  destruct (handle_restored _ _ Hc2 Hd2) as (? & ? & _ & Hr).
  repeat split; try done.
  rewrite Hr. unfold rows_of. rewrite Hf2, Hf1, Ht2.
  by replace (S (tick s) + k) with (tick s + S k) by lia.
Qed.

(** Successful checks while connected never write to the events
    series and never log; they only move [last_successful_ping] to the
    latest reading of the clock. *)
Theorem still_connected_only_advances k s :
  is_connected s = true ->
  let s' := exec (handle_all (replicate (S k) true)) s in
  is_connected s' = true /\ disconnect_start s' = disconnect_start s /\
  files s' = files s /\ log s' = log s /\
  last_successful_ping s' = clock (tick s + k).
Proof.
  revert s. induction k as [|k IH]; intros s Hc.
  - simpl. rewrite handle_all_cons.
    destruct (handle_still_connected s Hc) as (? & ? & ? & ? & ?).
    change (exec (handle_all []) ?x) with x. rewrite Nat.add_0_r. done.
  - change (replicate (S (S k)) true) with (true :: replicate (S k) true).
    rewrite handle_all_cons.
    destruct (handle_still_connected s Hc) as (Hc1 & Hd1 & _ & Hf1 & Hl1).
    destruct (IH _ Hc1) as (? & Hd2 & Hf2 & Hl2 & Hp).
    rewrite handle_tick in Hp.
    repeat split; try congruence.
    rewrite Hp. by replace (S (tick s) + k) with (tick s + S k) by lia.
Qed.
End Cycles.

(** ** Downtime *)

Section Downtime.
Context {E : Environment}.
Implicit Types (s : State) (v : bool).

Lemma spec_step_phase c v now :
  conn_phase (fst (spec_step c v now)) = next_phase (conn_phase c) v now.
Proof. unfold spec_step. by destruct (conn_phase c) eqn:Hp, v. Qed.

Lemma spec_step_durations c v now :
  (Qsum (map duration_seconds (option_list (snd (spec_step c v now))))
   == total_seconds (open_outage (conn_phase c) now
                     - open_outage (next_phase (conn_phase c) v now) now))%Q.
Proof.
  unfold spec_step. destruct (conn_phase c) eqn:Hp, v; simpl;
    rewrite ?Qsum_cons, ?Qsum_nil; unfold total_seconds, Qeq; simpl; lia.
Qed.

(** The durations of the events the table emits, with the part of an
    outage still open at the last check, add up to the time spent
    disconnected between checks, with the part that was open before the
    first. *)
Lemma spec_run_accounting c prev checks :
  (Qsum (map duration_seconds (snd (spec_run c checks)))
   + total_seconds (open_outage (conn_phase (fst (spec_run c checks)))
                                (last_stamp prev checks))
   == total_seconds (time_disconnected (conn_phase c) prev checks
                     + open_outage (conn_phase c) prev))%Q.
Proof.
  revert c prev. induction checks as [|[v now] rest IH]; intros c prev.
  { simpl. rewrite Qsum_nil. unfold last_stamp. simpl. ring_simplify.
    by rewrite Z.add_0_l. }
  rewrite spec_run_cons. simpl fst. simpl snd.
  rewrite map_app, Qsum_app, spec_step_durations.
  assert (last_stamp prev ((v, now) :: rest) = last_stamp now rest) as ->.
  { unfold last_stamp. simpl map. apply last_cons_default. }
  specialize (IH (fst (spec_step c v now)) now).
  rewrite spec_step_phase in IH.
  rewrite <- Qplus_assoc, IH. simpl time_disconnected.
  rewrite <- total_seconds_add. unfold total_seconds, Qeq. simpl.
  destruct (conn_phase c), v; simpl; lia.
Qed.

Lemma abs_conn_phase s :
  conn_inv s ->
  conn_phase (abs_conn s)
  = match disconnect_start s with Some t => DISCONNECTED t | None => CONNECTED end.
Proof.
  unfold conn_inv, abs_conn. simpl.
  destruct (is_connected s), (disconnect_start s); intuition congruence.
Qed.

(** C6: downtime is accounted for exactly.  Over any sequence of checks
    run from a consistent state, the durations of the rows added to the
    events series, plus the part of an outage still open at the last
    check, equal the time spent disconnected between the checks plus the
    part of an outage that was already open at the start. *)
Theorem downtime_accounting vs s :
  conn_inv s ->
  exists evs,
    rows_of events_log (exec (handle_all vs) s)
      = rows_of events_log s ++ map row_of_event evs /\
    (Qsum (map duration_seconds evs)
     + total_seconds
         (open_outage (conn_phase (abs_conn (exec (handle_all vs) s)))
                      (last_stamp (clock (tick s)) (stamped vs (tick s))))
     == total_seconds
          (time_disconnected (conn_phase (abs_conn s)) (clock (tick s))
                             (stamped vs (tick s))
           + open_outage (conn_phase (abs_conn s)) (clock (tick s))))%Q.
Proof.
  intros Hs. destruct (handle_all_run vs s Hs) as [Ha Hr].
  eexists; split; [exact Hr|]. rewrite Ha. apply spec_run_accounting.
Qed.
End Downtime.

(** ** Durations are not negative when the clock does not go backwards *)

Section Durations.
Context {E : Environment} {L : EnvironmentLaws E}.
Implicit Types (s : State) (v : bool).

Lemma handle_preserves_start_in_past v s :
  start_in_past s -> start_in_past (exec (_handle_connection_state v) s).
Proof.
  unfold start_in_past. intros Hs t. pose proof (clock_mono (tick s) (S (tick s))).
  run_handler. conn_cases v s; intros [= <-]; try lia.
  all: specialize (Hs _ eq_refl); lia.
Qed.

Lemma event_row_nonneg start now :
  (start <= now)%Z -> nonneg_duration (event_row start now).
Proof. intros H. apply total_seconds_nonneg. lia. Qed.

Lemma handle_durations_nonneg v s :
  start_in_past s ->
  Forall nonneg_duration (rows_of events_log s) ->
  Forall nonneg_duration (rows_of events_log (exec (_handle_connection_state v) s)).
Proof.
  unfold start_in_past. intros Hp Hr. run_handler.
  conn_cases v s; try done.
  rewrite lookup_insert_eq. simpl. apply Forall_app; split; [done|].
  apply Forall_singleton, event_row_nonneg. auto.
Qed.

(** With a clock that does not go backwards, every row that a
    sequence of checks adds to the events series carries a duration that
    is not negative. *)
Theorem handle_all_durations_nonneg vs s :
  start_in_past s ->
  Forall nonneg_duration (rows_of events_log s) ->
  Forall nonneg_duration (rows_of events_log (exec (handle_all vs) s)).
Proof.
  revert s. induction vs as [|v vs IH]; intros s Hp Hr; [done|].
  rewrite handle_all_cons.
  by apply IH; [apply handle_preserves_start_in_past | apply handle_durations_nonneg].
Qed.
End Durations.

(** ** Durations when the clock goes backwards *)

Section BackwardClock.
Context {E : Environment}.
Implicit Types (s : State) (start : datetime).

Lemma event_row_negative start now :
  (now < start)%Z -> ~ nonneg_duration (event_row start now).
Proof.
  unfold nonneg_duration, event_row, total_seconds, Qle. simpl. lia.
Qed.

(** C32: the duration is the difference of two readings of the wall clock,
    with no guard: when the connection is restored at a moment at which the
    clock reads less than the recorded start of the outage (the clock was
    set back meanwhile), the handler appends to the events series the row
    of that outage, and the duration of that row is negative. *)
Theorem negative_duration_on_backward_clock s start :
  is_connected s = false -> disconnect_start s = Some start ->
  (clock (tick s) < start)%Z ->
  let s' := exec (_handle_connection_state true) s in
  rows_of events_log s'
  = rows_of events_log s ++ [event_row start (clock (tick s))] /\
  ~ Forall nonneg_duration (rows_of events_log s') /\
  (total_seconds (clock (tick s) - start) < 0)%Q.
Proof.
  intros Hc Hd Hlt s'.
  destruct (handle_restored s start Hc Hd) as (_ & _ & _ & Hrows).
  fold s' in Hrows. rewrite Hrows. split_and!; [done| |].
  - intros [_ Hlast]%Forall_app. rewrite Forall_singleton in Hlast.
    by apply (event_row_negative start (clock (tick s))).
  - unfold total_seconds, Qlt. simpl. lia.
Qed.
End BackwardClock.

(** ** Worked examples *)

Example backward_clock_scenario :
  rows_of events_log
    (exec (@handle_all backwards_env [false; true]) (blank true None))
  = [ [CTime 100000000; CStr "disconnect"; CNum (-1000000 # 1000000);
       CText (DisconnectedFromTo 100000000 99000000)] ].
Proof. by vm_compute. Qed.

(** The scenario of the specification: verdicts true, false, false, true at
    0 s, 30 s, 60 s and 90 s give one event, of 60 s, starting at 30 s. *)
Example scenario_true_false_false_true :
  rows_of events_log
    (exec (@handle_all (idle_env 0 30000000) [true; false; false; true])
          (blank true None))
  = [ event_row 30000000 90000000 ].
Proof. by vm_compute. Qed.

Lemma negative_duration_on_backward_clock_witness :
  let s := exec (@_handle_connection_state backwards_env false) (blank true None) in
  let s' := exec (@_handle_connection_state backwards_env true) s in
  rows_of events_log s' = [event_row 100000000 99000000] /\
  ~ Forall nonneg_duration (rows_of events_log s') /\
  (total_seconds (99000000 - 100000000) < 0)%Q.
Proof.
  exact (@negative_duration_on_backward_clock backwards_env
           (exec (@_handle_connection_state backwards_env false) (blank true None))
           100000000 eq_refl eq_refl eq_refl).
Defined.

Lemma conn_inv_reachable_witness :
  conn_inv (exec (@_handle_connection_state (idle_env 0 1) true)
                 (exec (@_handle_connection_state (idle_env 0 1) false)
                       (blank true None))).
Proof.
  apply (@conn_inv_reachable (idle_env 0 1) (blank true None)); [by vm_compute|].
  do 2 apply conn_reach_step. apply conn_reach_refl.
Defined.

Lemma handle_refines_spec_witness :
  abs_conn (exec (@handle_all (idle_env 0 1) [false; true]) (blank true None))
    = mkConn CONNECTED 1 /\
  rows_of events_log
    (exec (@handle_all (idle_env 0 1) [false; true]) (blank true None))
    = [] ++ [event_row 0 1] /\
  conn_inv (exec (@handle_all (idle_env 0 1) [false; true]) (blank true None)).
Proof.
  apply (@handle_refines_spec (idle_env 0 1) [false; true] (blank true None)).
  by vm_compute.
Defined.

Lemma outage_cycle_one_event_witness :
  rows_of events_log
    (exec (@handle_all (idle_env 0 30000000) [false; false; true]) (blank true None))
  = [] ++ [event_row 0 60000000] /\
  is_connected
    (exec (@handle_all (idle_env 0 30000000) [false; false; true]) (blank true None))
  = true /\
  disconnect_start
    (exec (@handle_all (idle_env 0 30000000) [false; false; true]) (blank true None))
  = None.
Proof.
  apply (@outage_cycle_one_event (idle_env 0 30000000) 1 (blank true None)).
  reflexivity.
Defined.

Lemma still_connected_only_advances_witness :
  let s' := exec (@handle_all (idle_env 0 7) [true; true; true]) (blank true None) in
  is_connected s' = true /\ disconnect_start s' = None /\
  files s' = ∅ /\ log s' = [] /\ last_successful_ping s' = 14%Z.
Proof.
  apply (@still_connected_only_advances (idle_env 0 7) 2 (blank true None)).
  reflexivity.
Defined.

Lemma downtime_accounting_witness :
  exists evs,
    rows_of events_log
      (exec (@handle_all (idle_env 0 1000000) [false; false; true]) (blank true None))
    = [] ++ map row_of_event evs /\
    (Qsum (map duration_seconds evs) + total_seconds 0 == total_seconds (2000000 + 0))%Q.
Proof.
  apply (@downtime_accounting (idle_env 0 1000000) [false; false; true] (blank true None)).
  by vm_compute.
Defined.

Lemma handle_all_durations_nonneg_witness :
  Forall nonneg_duration
    (rows_of events_log
       (exec (@handle_all (idle_env 0 1) [false; true]) (blank true None))).
Proof.
  apply (@handle_all_durations_nonneg (idle_env 0 1) (idle_env_laws 0 1 ltac:(lia))).
  - by intros t [=].
  - constructor.
Defined.
