(* ===== verification/Probe.v ===== *)
(** * Probe: the two reachability probes

    [ping_test] and [http_test] of src/internet_monitor.py: one child
    process or one HTTP request, every failure turned into the pair
    [(False, None)], and the theorems on what they return on each branch,
    on what they leave alone, and on what can escape them. *)

From S2P Require Import Prelude Text Config Values World Store.

(** The result of a probe: reachable or not, and the response time in
    milliseconds when there is one. *)
Definition probe_result : Type := (bool * option Q)%type.

(** [['ping', '-c', '1', '-W', '3', '-n', target]] *)
Definition ping_argv (target : string) : list string :=
  ["ping"; "-c"; "1"; "-W"; "3"; "-n"; target]%string.

(** [status_code in [200, 301, 302, 303, 307, 308]] *)
Definition reachable_status (code : Z) : bool :=
  bool_decide (code ∈ [200; 301; 302; 303; 307; 308]%Z).

(** [(time.time() - start_time) * 1000] *)
Definition elapsed_ms (start stop : datetime) : Q :=
  (total_seconds (stop - start) * 1000)%Q.

Section Probes.
Context {E : Environment}.

(** [float(output.split('time=')[1].split()[0])] *)
Definition parse_ping_time (output : string) : result Q :=
  match split_item1 "time=" output with
  | None => Raise IndexError
  | Some piece =>
      match first_token piece with
      | None => Raise IndexError
      | Some token => float_of_str token
      end
  end.

Definition ping_test (target : string) : M State probe_result :=
  try_except
    (let! result := run_process (ping_argv target) in
     if (returncode result =? 0)%Z then
       let output := stdout result in
       if contains "time=" output then
         let! ping_time := lift (parse_ping_time output) in
         ret (true, Some ping_time)
       else ret (true, Some 0%Q)
     else
       logger DEBUG (PingFailedCode target (returncode result)) ;;
       ret (false, None))
    (fun e => is_TimeoutExpired e || is_Exception e)
    (fun e =>
       if is_TimeoutExpired e
       then logger DEBUG (PingTimedOut target) ;; ret (false, None)
       else logger DEBUG (PingFailed target e) ;; ret (false, None)).

Definition http_test (url : string) : M State probe_result :=
  try_except
    (let! start_time := time_time in
     let! status_code := http_get url in
     let! stop_time := time_time in
     let response_time := elapsed_ms start_time stop_time in
     if reachable_status status_code then ret (true, Some response_time)
     else
       logger DEBUG (HttpStatus url status_code) ;;
       ret (false, None))
    (fun e => is_RequestException e || is_Exception e)
    (fun e => logger DEBUG (HttpFailed url e) ;; ret (false, None)).
End Probes.

(** A probe result is well formed when the response time is present
    exactly when the probe succeeded. *)
Definition probe_wf (r : probe_result) : Prop :=
  match r with
  | (true, Some _) | (false, None) => True
  | _ => False
  end.

(** An environment in which [ping] answers in 12.3 ms and every URL
    answers with [status]; one second passes per interaction. *)
Definition answering_env (status : Z) : Environment := {|
  clock n := (1000000 * Z.of_nat n)%Z;
  subprocess_run _ _ :=
    Ok (Completed 0 "64 bytes from 8.8.8.8: icmp_seq=1 ttl=117 time=12.3 ms" (Utf8 ""));
  requests_get _ _ := Ok status;
  float_of_str s := if String.eqb s "12.3" then Ok (123 # 10) else Raise ValueError;
  json_loads _ := Raise JSONDecodeError;
  time_sleep _ _ := Ok tt;
  expanduser p := Ok p;
|}.

(** An environment in which [ping] prints a reply that carries no number
    after [time=]. *)
Definition garbled_env : Environment := {|
  clock n := Z.of_nat n;
  subprocess_run _ _ := Ok (Completed 0 "64 bytes from 8.8.8.8: time=" (Utf8 ""));
  requests_get _ _ := Raise RequestException;
  float_of_str _ := Raise ValueError;
  json_loads _ := Raise JSONDecodeError;
  time_sleep _ _ := Ok tt;
  expanduser p := Ok p;
|}.

(** An environment in which the operator interrupts every child process
    and every request. *)
Definition interrupted_env : Environment := {|
  clock n := Z.of_nat n;
  subprocess_run _ _ := Raise KeyboardInterrupt;
  requests_get _ _ := Raise KeyboardInterrupt;
  float_of_str _ := Raise ValueError;
  json_loads _ := Raise JSONDecodeError;
  time_sleep _ _ := Ok tt;
  expanduser p := Ok p;
|}.

(** ** What the probes leave alone and what escapes them *)

Ltac run_probe :=
  unfold ping_test, http_test, parse_ping_time;
  unfold_effects; unfold_monad; simpl.

Section ProbeFrame.
Context {E : Environment}.

#[export] Instance ping_test_quiet target : Respects quiet (ping_test target).
Proof. unfold ping_test. respects. Qed.

#[export] Instance http_test_quiet url : Respects quiet (http_test url).
Proof. unfold http_test. respects. Qed.

#[export] Instance ping_test_contained target : Contained (ping_test target).
Proof.
  intros s e. run_probe.
  destruct (subprocess_run (tick s) (ping_argv target)) as [[rc out err]|e0]; simpl.
  - repeat (case_match; simpl; try done); intros [= <-];
      match goal with H : _ || _ = false |- _ => by apply orb_false_elim in H as [_ ?] end.
  - destruct e0; simpl; try done. by intros [= <-].
Qed.

#[export] Instance http_test_contained url : Contained (http_test url).
Proof.
  intros s e. run_probe.
  destruct (requests_get (S (tick s)) url) as [code|e0]; simpl.
  - by destruct (reachable_status code).
  - destruct e0; simpl; try done. by intros [= <-].
Qed.
End ProbeFrame.

(** ** What the probes return *)

Section ProbeResults.
Context {E : Environment}.
Implicit Types (s : State) (target url : string).

(** The result of [ping_test], by the outcome of the child process. *)
Lemma ping_test_eval target s :
  eval (ping_test target) s
  = match subprocess_run (tick s) (ping_argv target) with
    | Ok (Completed rc out _) =>
        if (rc =? 0)%Z then
          if contains "time=" out then
            match parse_ping_time out with
            | Ok q => Ok (true, Some q)
            | Raise e => if is_Exception e then Ok (false, None) else Raise e
            end
          else Ok (true, Some 0%Q)
        else Ok (false, None)
    | Raise e => if is_Exception e then Ok (false, None) else Raise e
    end.
Proof.
  unfold ping_test. unfold_effects. unfold_monad. simpl.
  destruct (subprocess_run _ _) as [[rc out err]|e0]; simpl.
  - destruct (rc =? 0)%Z; simpl; [|done].
    destruct (contains _ out); simpl; [|done].
    destruct (parse_ping_time out) as [q|e]; simpl; [done|]. by destruct e.
  - by destruct e0.
Qed.

(** The result of [http_test], by the outcome of the request. *)
Lemma http_test_eval url s :
  eval (http_test url) s
  = match requests_get (S (tick s)) url with
    | Ok code =>
        if reachable_status code
        then Ok (true, Some (elapsed_ms (clock (tick s)) (clock (S (S (tick s))))))
        else Ok (false, None)
    | Raise e => if is_Exception e then Ok (false, None) else Raise e
    end.
Proof.
  run_probe. destruct (requests_get _ _) as [code|e0]; simpl.
  - by destruct (reachable_status code).
  - by destruct e0.
Qed.

(** The probes never raise to their caller: whatever the child
    process or the request does and whatever the output holds, the only
    exception that can leave [ping_test] or [http_test] is an interrupt. *)
Theorem probes_only_interrupt_escapes s e :
  (forall target, eval (ping_test target) s = Raise e -> e = KeyboardInterrupt) /\
  (forall url, eval (http_test url) s = Raise e -> e = KeyboardInterrupt).
Proof.
  split; intros x; rewrite ?ping_test_eval, ?http_test_eval; intros H;
    apply is_Exception_false; repeat case_match; simplify_eq; done.
Qed.

(** [ping_test] reports a target reachable only when the [ping]
    process exited with code 0, and then the response time is present. *)
Theorem ping_test_true_only_on_exit_zero target s rt :
  eval (ping_test target) s = Ok (true, rt) ->
  exists out err, subprocess_run (tick s) (ping_argv target) = Ok (Completed 0 out err)
                  /\ is_Some rt.
Proof.
  rewrite ping_test_eval. intros H.
  destruct (subprocess_run _ _) as [[rc out err]|e0]; [|by case_match].
  destruct (Z.eqb_spec rc 0) as [->|?]; [|done].
  exists out, err. split; [done|]. repeat case_match; simplify_eq; eauto.
Qed.

(** C33: a reply whose time cannot be read counts as a failed probe: when
    [ping] exits with code 0 and prints [time=] followed by text that
    [float] rejects, [ping_test] returns [(False, None)]. *)
Theorem ping_test_unreadable_reply_fails target s out err e :
  subprocess_run (tick s) (ping_argv target) = Ok (Completed 0 out err) ->
  contains "time=" out = true ->
  parse_ping_time out = Raise e -> is_Exception e = true ->
  eval (ping_test target) s = Ok (false, None).
Proof. intros Hrun Hc Hp He. rewrite ping_test_eval, Hrun. simpl. by rewrite Hc, Hp, He. Qed.

(** [http_test] reports a URL reachable exactly when the request
    returns one of the status codes 200, 301, 302, 303, 307, 308, with the
    time between the two readings of the clock around the request. *)
Theorem http_test_true_iff url s rt :
  eval (http_test url) s = Ok (true, rt) <->
  exists code, requests_get (S (tick s)) url = Ok code /\
               reachable_status code = true /\
               rt = Some (elapsed_ms (clock (tick s)) (clock (S (S (tick s))))).
Proof.
  rewrite http_test_eval. destruct (requests_get _ _) as [code|e0].
  - destruct (reachable_status code) eqn:Hc.
    + split; [intros [= <-]; eauto|]. by intros (? & [= <-] & _ & ->).
    + split; [done|]. intros (? & [= <-] & ? & _). congruence.
  - split; [by case_match|]. by intros (? & ? & _).
Qed.

(** Every result of a probe is well formed: the response time is
    present exactly when the probe succeeded. *)
Theorem probe_results_wf target s r :
  eval (ping_test target) s = Ok r \/ eval (http_test target) s = Ok r ->
  probe_wf r.
Proof.
  rewrite ping_test_eval, http_test_eval.
  intros [H|H]; repeat case_match; simplify_eq; done.
Qed.
End ProbeResults.

Section ProbeReturns.
Context {E : Environment} {U : Uninterrupted E}.

Lemma parse_ping_time_Exception out e :
  parse_ping_time out = Raise e -> is_Exception e = true.
Proof.
  unfold parse_ping_time. repeat case_match; try by intros [= <-].
  intros Hf. destruct e; try done. by apply float_uninterrupted in Hf.
Qed.

(** With no interrupt, [ping_test] returns. *)
#[export] Instance ping_test_returns target : Returns (ping_test target).
Proof.
  intros s. rewrite ping_test_eval.
  destruct (subprocess_run _ _) as [[rc out err]|e] eqn:Hrun.
  - repeat case_match; try done.
    match goal with H : parse_ping_time _ = _ |- _ =>
      apply parse_ping_time_Exception in H end. congruence.
  - destruct e; try done. by apply run_uninterrupted in Hrun.
Qed.

(** With no interrupt, [http_test] returns. *)
#[export] Instance http_test_returns url : Returns (http_test url).
Proof.
  intros s. rewrite http_test_eval.
  destruct (requests_get _ _) as [code|e] eqn:Hget; [by case_match|].
  destruct e; try done. by apply get_uninterrupted in Hget.
Qed.
End ProbeReturns.

#[export] Instance answering_env_uninterrupted status :
  Uninterrupted (answering_env status).
Proof. split; try done. intros s. simpl. by case_match. Qed.

Section ProbeTimes.
Context {E : Environment} {L : EnvironmentLaws E}.

(** With a clock that does not go backwards, the response time
    [http_test] reports is not negative. *)
Theorem http_test_time_nonneg url s q :
  eval (http_test url) s = Ok (true, Some q) -> (0 <= q)%Q.
Proof.
  rewrite http_test_eval. intros H.
  assert (q = elapsed_ms (clock (tick s)) (clock (S (S (tick s))))) as ->
    by (repeat case_match; simplify_eq; done).
  pose proof (clock_mono (tick s) (S (S (tick s))) ltac:(lia)).
  unfold elapsed_ms, total_seconds, Qle. simpl. lia.
Qed.
End ProbeTimes.

(** ** Worked examples *)

Lemma answering_env_laws status : EnvironmentLaws (answering_env status).
Proof.
  split; simpl.
  - intros i j Hij. lia.
  - intros s e. by case_match; intros [= <-].
  - by intros s e [= <-].
  - done.
  - done.
Qed.

Example ping_test_reply :
  eval (@ping_test (answering_env 200) "8.8.8.8") (blank true None)
  = Ok (true, Some (123 # 10)).
Proof. by vm_compute. Qed.

Example http_test_redirect :
  eval (@http_test (answering_env 301) "https://www.google.com") (blank true None)
  = Ok (true, Some (elapsed_ms 0 2000000)).
Proof. by vm_compute. Qed.

Example http_test_server_error :
  eval (@http_test (answering_env 503) "https://www.google.com") (blank true None)
  = Ok (false, None).
Proof. by vm_compute. Qed.

Lemma probes_only_interrupt_escapes_witness :
  eval (@ping_test interrupted_env "8.8.8.8") (blank true None)
  = Raise KeyboardInterrupt /\
  eval (@http_test interrupted_env "https://a.example") (blank true None)
  = Raise KeyboardInterrupt /\
  KeyboardInterrupt = KeyboardInterrupt.
Proof.
  split; [by vm_compute|]. split; [by vm_compute|].
  apply (proj1 (@probes_only_interrupt_escapes interrupted_env (blank true None)
                  KeyboardInterrupt) "8.8.8.8").
  by vm_compute.
Defined.

Lemma ping_test_true_only_on_exit_zero_witness :
  exists out err,
    @subprocess_run (answering_env 200) 0 (ping_argv "8.8.8.8") = Ok (Completed 0 out err)
    /\ is_Some (Some (123 # 10)).
Proof.
  apply (@ping_test_true_only_on_exit_zero (answering_env 200) "8.8.8.8"
           (blank true None)).
  by vm_compute.
Defined.

Lemma ping_test_unreadable_reply_fails_witness :
  eval (@ping_test garbled_env "8.8.8.8") (blank true None) = Ok (false, None).
Proof.
  by apply (@ping_test_unreadable_reply_fails garbled_env "8.8.8.8" (blank true None)
              "64 bytes from 8.8.8.8: time=" (Utf8 "") IndexError).
Defined.

Lemma probe_results_wf_witness : probe_wf (true, Some (123 # 10)).
Proof.
  apply (@probe_results_wf (answering_env 200) "8.8.8.8" (blank true None)).
  left. by vm_compute.
Defined.

Lemma http_test_time_nonneg_witness : (0 <= elapsed_ms 0 2000000)%Q.
Proof.
  apply (@http_test_time_nonneg (answering_env 200) (answering_env_laws 200)
           "https://a.example" (blank true None)).
  by vm_compute.
Defined.
