(* ===== verification/Connectivity.v ===== *)
(** * Connectivity: one connectivity check

    [test_connectivity] of src/internet_monitor.py: the batch of probes, the
    majority verdict, the rows appended to the connectivity series, and the
    call of the state machine; with the theorems on the verdict, on the rows
    written, and on what a check leaves alone. *)

From S2P Require Import Prelude Text Config Values World Store StateMachine Probe.

(** ** The batch *)

(** One entry of [results]: the dictionary built after each probe. *)
Record probe_record : Type := ProbeRecord {
  r_timestamp : datetime;
  r_status : string;
  r_target : string;
  r_response_time_ms : option Q;
  r_method : string;
}.

(** The local variables of [test_connectivity]. *)
Record batch : Type := Batch {
  results : list probe_record;
  successful_tests : nat;
  total_tests : nat;
}.

(** ['connected' if success else 'disconnected'] *)
Definition status_of (success : bool) : string :=
  if success then "connected" else "disconnected".

(** [successful_tests > (total_tests * 0.5)] *)
Definition verdict (successful total : nat) : bool :=
  negb (Qle_bool (inject_Z (Z.of_nat successful))
                 (inject_Z (Z.of_nat total) * (1 # 2))).

(** The row [writer.writerow] writes for an entry of [results]. *)
Definition connectivity_row (r : probe_record) : row :=
  [ CTime (r_timestamp r); CStr (r_status r); CStr (r_target r);
    match r_response_time_ms r with Some q => CNum q | None => CEmpty end;
    CStr (r_method r) ].

Section Check.
Context {E : Environment}.

(** The body of one of the two probe loops. *)
Definition record_probe (method : string) (probe : string -> M State probe_result)
    (b : batch) (target : string) : M State batch :=
  let! r := probe target in
  let! now := datetime_now in
  ret (Batch (results b
              ++ [ProbeRecord now (status_of (fst r)) target (snd r) method])
             (if fst r then S (successful_tests b) else successful_tests b)
             (S (total_tests b))).

(** The two loops: the ping targets, then the HTTP targets. *)
Definition run_probes (cfg : Config) : M State batch :=
  let! b := fold_each (ping_targets cfg) (Batch [] 0 0) (record_probe "ping" ping_test) in
  fold_each (http_targets cfg) b (record_probe "http" http_test).

Definition test_connectivity (cfg : Config) : M State bool :=
  let! b := run_probes cfg in
  let connected := verdict (successful_tests b) (total_tests b) in
  logger DEBUG (ConnectivityTested (successful_tests b) (total_tests b) connected) ;;
  csv_append_all connectivity_log (map connectivity_row (results b)) ;;
  _handle_connection_state connected ;;
  ret connected.
End Check.

(** ** Counting *)

(** The rows of the connectivity series whose status is ['connected']. *)
Definition connected_row (r : row) : bool :=
  match r !! 1%nat with Some c => cell_is "connected" c | None => false end.

Definition count_connected (rows : list row) : nat :=
  length (filter (fun r => connected_row r = true) rows).

(** The entry a row of the connectivity series stands for: a timestamp, a
    status, a target and a method, the method one of the two the monitor
    has, and a response time exactly when the status is ['connected']. *)
Definition probe_of_row (r : row) : option probe_record :=
  match r with
  | [CTime t; CStr status; CStr target; rt; CStr method] =>
      let known := (String.eqb method "ping" || String.eqb method "http")%bool in
      match rt with
      | CNum q =>
          if (known && String.eqb status "connected")%bool
          then Some (ProbeRecord t status target (Some q) method) else None
      | CEmpty =>
          if (known && String.eqb status "disconnected")%bool
          then Some (ProbeRecord t status target None method) else None
      | _ => None
      end
  | _ => None
  end.

(** The rows of the connectivity series that stand for an entry. *)
Definition is_probe_row (r : row) : Prop := is_Some (probe_of_row r).

(** The entries of a batch are stored as rows that stand for them. *)
Definition batch_typed (b : batch) : Prop :=
  Forall (fun rec => probe_of_row (connectivity_row rec) = Some rec) (results b).

(** The entries of a check: one per configured target, the ping targets
    first, each stored as a row that stands for it. *)
Definition batch_ok (cfg : Config) (recs : list probe_record) : Prop :=
  map r_target recs = ping_targets cfg ++ http_targets cfg /\
  Forall (fun rec => probe_of_row (connectivity_row rec) = Some rec) recs.

(** The verdict of the aggregator of the specification on the entries of
    a batch: connected when more than half of them are. *)
Definition majority (recs : list probe_record) : bool :=
  bool_decide
    (length recs < 2 * length (filter (fun rec => r_status rec = "connected"%string) recs)).

(** A check as the connectivity series records it, with the time at
    which the handler received its verdict; the verdict and the rows of
    the check. *)
Definition check_of (b : list probe_record * datetime) : bool * datetime :=
  (majority b.1, b.2).

Definition batch_rows (b : list probe_record * datetime) : list row :=
  map connectivity_row b.1.

(** [audited cfg bs s s']: between [s] and [s'] the monitor made the
    checks [bs].  The connectivity series grew by their rows, one per
    configured target, and the connection fields and the events series
    moved as the transition table does on their majority verdicts. *)
Definition audited (cfg : Config) (bs : list (list probe_record * datetime))
    (s s' : State) : Prop :=
  tracks (map check_of bs) s s' /\
  rows_of connectivity_log s'
  = rows_of connectivity_log s ++ concat (map batch_rows bs) /\
  Forall (fun b => batch_ok cfg b.1) bs.

(** The counters of a batch agree with its entries. *)
Definition batch_wf (b : batch) : Prop :=
  total_tests b = length (results b) /\
  successful_tests b = count_connected (map connectivity_row (results b)).

(** [b'] is [b] with one more entry per target, in order, all of the same
    method, and the counters moved accordingly. *)
Definition batch_extends (method : string) (targets : list string) (b b' : batch)
    : Prop :=
  exists recs,
    results b' = results b ++ recs /\
    map r_target recs = targets /\
    Forall (fun r => r_method r = method) recs /\
    total_tests b' = total_tests b + length recs /\
    successful_tests b' = successful_tests b
                          + count_connected (map connectivity_row recs).

(** An environment where two of the three ping targets answer and no URL
    does: 2 of 6 probes succeed. *)
Definition two_of_six_env : Environment := {|
  clock n := (1000000 * Z.of_nat n)%Z;
  subprocess_run _ argv :=
    if bool_decide (last argv = Some "208.67.222.222"%string)
    then Ok (Completed 1 "" (Utf8 "")) else Ok (Completed 0 "reply" (Utf8 ""));
  requests_get _ _ := Raise RequestException;
  float_of_str _ := Raise ValueError;
  json_loads _ := Raise JSONDecodeError;
  time_sleep _ _ := Ok tt;
  expanduser p := Ok p;
|}.

(** An environment where the first ping target and both URLs answer. *)
Definition three_of_four_env : Environment := {|
  clock n := (1000000 * Z.of_nat n)%Z;
  subprocess_run _ argv :=
    if bool_decide (last argv = Some "208.67.222.222"%string)
    then Ok (Completed 1 "" (Utf8 "")) else Ok (Completed 0 "reply" (Utf8 ""));
  requests_get _ _ := Ok 200%Z;
  float_of_str _ := Raise ValueError;
  json_loads _ := Raise JSONDecodeError;
  time_sleep _ _ := Ok tt;
  expanduser p := Ok p;
|}.

(** An environment where the first ping target and the first URL answer. *)
Definition two_of_four_env : Environment := {|
  clock n := (1000000 * Z.of_nat n)%Z;
  subprocess_run _ argv :=
    if bool_decide (last argv = Some "208.67.222.222"%string)
    then Ok (Completed 1 "" (Utf8 "")) else Ok (Completed 0 "reply" (Utf8 ""));
  requests_get _ url :=
    if String.eqb url "https://a.example" then Ok 200%Z else Ok 503%Z;
  float_of_str _ := Raise ValueError;
  json_loads _ := Raise JSONDecodeError;
  time_sleep _ _ := Ok tt;
  expanduser p := Ok p;
|}.

(** A configuration with two targets of each kind. *)
Definition four_targets : Config :=
  mkConfig (Stored 30%Z) (Stored 3600%Z) (Stored 300%Z) default_ini "internet_logs" ["8.8.8.8"; "208.67.222.222"]%string
           ["https://a.example"; "https://b.example"]%string.

(** An environment where every ping target answers and every URL
    answers 200. *)
Definition all_up_env : Environment := answering_env 200.

(** ** The verdict *)

(** The comparison with half the total, in rationals as the source writes
    it, is the strict majority test on the counts. *)
Lemma verdict_spec successful total :
  verdict successful total = true <-> total < 2 * successful.
Proof.
  unfold verdict. rewrite negb_true_iff, <- not_true_iff_false, Qle_bool_iff.
  unfold Qle. simpl. lia.
Qed.

Lemma verdict_decide successful total :
  verdict successful total = bool_decide (total < 2 * successful).
Proof.
  destruct (verdict successful total) eqn:H.
  - symmetry. by apply bool_decide_eq_true, verdict_spec.
  - symmetry. apply bool_decide_eq_false. rewrite <- verdict_spec. congruence.
Qed.

(** ** What a check leaves alone, and what escapes it *)

Section CheckFrame.
Context {E : Environment}.

#[export] Instance record_probe_quiet m probe b t :
  (forall t, Respects quiet (probe t)) -> Respects quiet (record_probe m probe b t).
Proof. intros H. unfold record_probe. respects. Qed.

#[export] Instance run_probes_quiet cfg : Respects quiet (run_probes cfg).
Proof. unfold run_probes. respects. Qed.

#[export] Instance test_connectivity_append_only cfg : AppendOnly (test_connectivity cfg).
Proof. unfold test_connectivity. respects. Qed.

#[export] Instance test_connectivity_keeps_store cfg : KeepsStore (test_connectivity cfg).
Proof. unfold test_connectivity. respects. Qed.

#[export] Instance test_connectivity_grows_speedtest P cfg :
  Respects (grows speedtest_log P) (test_connectivity cfg).
Proof. unfold test_connectivity. respects. Qed.

#[export] Instance test_connectivity_keeps_conn_inv cfg :
  Respects keeps_conn_inv (test_connectivity cfg).
Proof. unfold test_connectivity. respects. Qed.

#[export] Instance record_probe_contained m probe b t :
  (forall t, Contained (probe t)) -> Contained (record_probe m probe b t).
Proof. intros H. unfold record_probe. contained. Qed.

#[export] Instance run_probes_contained cfg : Contained (run_probes cfg).
Proof. unfold run_probes. contained. Qed.

#[export] Instance test_connectivity_contained cfg : Contained (test_connectivity cfg).
Proof. unfold test_connectivity. contained. Qed.
End CheckFrame.

(** ** The batch of probes *)

Section BatchLemmas.
Context {E : Environment}.
Implicit Types (s : State) (b : batch).

Lemma count_connected_app rows1 rows2 :
  count_connected (rows1 ++ rows2) = count_connected rows1 + count_connected rows2.
Proof. unfold count_connected. by rewrite filter_app, length_app. Qed.

Lemma batch_extends_refl m b : batch_extends m [] b b.
Proof. exists []. rewrite app_nil_r. repeat split; try done; simpl; lia. Qed.

Lemma batch_extends_trans m ts1 ts2 b b1 b2 :
  batch_extends m ts1 b b1 -> batch_extends m ts2 b1 b2 ->
  batch_extends m (ts1 ++ ts2) b b2.
Proof.
  intros (r1 & Hr1 & Ht1 & Hm1 & Hn1 & Hk1) (r2 & Hr2 & Ht2 & Hm2 & Hn2 & Hk2).
  exists (r1 ++ r2). rewrite !map_app, count_connected_app, length_app.
  repeat split; [by rewrite Hr2, Hr1, app_assoc|congruence| |lia|lia].
  by apply Forall_app.
Qed.

Lemma batch_extends_wf m ts b b' : batch_wf b -> batch_extends m ts b b' -> batch_wf b'.
Proof.
  intros [Hn Hk] (r & Hr & _ & _ & Hn' & Hk'). unfold batch_wf.
  rewrite Hr, map_app, count_connected_app, length_app. lia.
Qed.

Lemma record_probe_extends m probe b t s b' :
  eval (record_probe m probe b t) s = Ok b' -> batch_extends m [t] b b'.
Proof.
  unfold record_probe. intros ([ok rt] & _ & H)%eval_bind_Ok.
  injection H as <-. eexists [_]. simpl. repeat split; try done; [by repeat constructor|lia|].
  destruct ok; simpl; unfold count_connected; simpl; lia.
Qed.

Lemma probe_loop_extends m probe targets b s b' :
  eval (fold_each targets b (record_probe m probe)) s = Ok b' ->
  batch_extends m targets b b'.
Proof.
  revert b s. induction targets as [|t targets IH]; intros b s; simpl.
  - intros [= <-]. apply batch_extends_refl.
  - intros (b1 & H1 & H2)%eval_bind_Ok.
    apply (batch_extends_trans m [t] targets b b1 b');
      [by eapply record_probe_extends|by eapply IH].
Qed.

(** What [run_probes] returns: one entry per target, ping targets first,
    with counters that agree with the entries. *)
Lemma run_probes_spec cfg s b :
  eval (run_probes cfg) s = Ok b ->
  batch_wf b /\
  exists pings https,
    results b = pings ++ https /\
    map r_target pings = ping_targets cfg /\
    map r_target https = http_targets cfg /\
    Forall (fun r => r_method r = "ping"%string) pings /\
    Forall (fun r => r_method r = "http"%string) https.
Proof.
  unfold run_probes. intros (b1 & H1 & H2)%eval_bind_Ok.
  apply probe_loop_extends in H1 as E1. apply probe_loop_extends in H2 as E2.
  split.
  - eapply batch_extends_wf; [|exact E2]. eapply batch_extends_wf; [|exact E1].
    by split.
  - destruct E1 as (r1 & Hr1 & ? & ? & _), E2 as (r2 & Hr2 & ? & ? & _).
    exists r1, r2. by rewrite Hr2, Hr1.
Qed.

(** The entry made after a probe is read back from its row. *)
Lemma probe_of_row_written now r target m :
  probe_wf r -> m = "ping"%string \/ m = "http"%string ->
  let rec := ProbeRecord now (status_of (fst r)) target (snd r) m in
  probe_of_row (connectivity_row rec) = Some rec.
Proof. by intros Hr [->| ->]; destruct r as [[] []]. Qed.

(** A row that stands for an entry is the row of that entry. *)
Lemma probe_of_row_Some r rec : probe_of_row r = Some rec -> r = connectivity_row rec.
Proof. unfold probe_of_row. decode_cases; by intros [= <-]. Qed.

Lemma record_probe_typed m probe b t s b' :
  m = "ping"%string \/ m = "http"%string ->
  (forall r, eval (probe t) s = Ok r -> probe_wf r) ->
  batch_typed b ->
  eval (record_probe m probe b t) s = Ok b' -> batch_typed b'.
Proof.
  unfold record_probe. intros Hm Hp Hb (r & Hr & H)%eval_bind_Ok.
  injection H as <-. apply Forall_app. split; [done|].
  constructor; [|done]. by apply probe_of_row_written; [apply Hp|].
Qed.

Lemma probe_loop_typed m probe targets b s b' :
  m = "ping"%string \/ m = "http"%string ->
  (forall t s r, eval (probe t) s = Ok r -> probe_wf r) ->
  batch_typed b ->
  eval (fold_each targets b (record_probe m probe)) s = Ok b' -> batch_typed b'.
Proof.
  intros Hm Hp. revert b s. induction targets as [|t targets IH]; intros b s Hb; simpl.
  - by intros [= <-].
  - intros (b1 & H1 & H2)%eval_bind_Ok.
    eapply IH; [|exact H2]. eapply record_probe_typed; [done| |done|exact H1]. apply Hp.
Qed.

(** Every entry of the batch [run_probes] returns is stored as a row that
    stands for it. *)
Lemma run_probes_typed cfg s b : eval (run_probes cfg) s = Ok b -> batch_typed b.
Proof.
  unfold run_probes. intros (b1 & H1 & H2)%eval_bind_Ok.
  assert (batch_typed b1) as Hb1.
  { eapply (probe_loop_typed "ping" ping_test _ (Batch [] 0 0) _ _ (or_introl eq_refl));
      [|by apply Forall_nil|exact H1].
    intros t s' r Hr. apply (probe_results_wf t s'). auto. }
  eapply (probe_loop_typed "http" http_test _ b1 _ _ (or_intror eq_refl));
    [|exact Hb1|exact H2].
  intros t s' r Hr. apply (probe_results_wf t s'). auto.
Qed.

(** A check that returns ran its probes to the end; its state is then the
    one the log record, the rows and the handler leave after them. *)
Lemma test_connectivity_Ok cfg s c :
  eval (test_connectivity cfg) s = Ok c ->
  exists b,
    eval (run_probes cfg) s = Ok b /\
    c = verdict (successful_tests b) (total_tests b) /\
    exec (test_connectivity cfg) s
    = exec (_handle_connection_state c)
        (exec (csv_append_all connectivity_log (map connectivity_row (results b)))
           (exec (logger DEBUG (ConnectivityTested (successful_tests b) (total_tests b) c))
              (exec (run_probes cfg) s))).
Proof.
  unfold test_connectivity. intros (b & Hb & H)%eval_bind_Ok.
  rewrite !eval_seq in H by apply _. injection H as <-.
  exists b. repeat split; [done|].
  rewrite (exec_bind _ _ _ _ Hb), !exec_seq by apply _. done.
Qed.

(** A check that raises was interrupted in a probe and wrote nothing. *)
Lemma test_connectivity_Raise cfg s e :
  eval (test_connectivity cfg) s = Raise e ->
  eval (run_probes cfg) s = Raise e /\
  exec (test_connectivity cfg) s = exec (run_probes cfg) s.
Proof.
  unfold test_connectivity. intros H.
  destruct (eval (run_probes cfg) s) as [b|e0] eqn:Hb.
  - rewrite (eval_bind _ _ _ _ Hb), !eval_seq in H by apply _. done.
  - rewrite (eval_bind_raise _ _ _ _ Hb) in H. injection H as <-.
    by rewrite (exec_bind_raise _ _ _ _ Hb).
Qed.
End BatchLemmas.

(** ** The check as a whole *)

Section CheckTheorems.
Context {E : Environment}.
Implicit Types (s : State) (b : batch).

Lemma rows_after_check cfg s c b :
  eval (run_probes cfg) s = Ok b ->
  exec (test_connectivity cfg) s
  = exec (_handle_connection_state c)
      (exec (csv_append_all connectivity_log (map connectivity_row (results b)))
         (exec (logger DEBUG (ConnectivityTested (successful_tests b) (total_tests b) c))
            (exec (run_probes cfg) s))) ->
  rows_of connectivity_log (exec (test_connectivity cfg) s)
  = rows_of connectivity_log s ++ map connectivity_row (results b).
Proof.
  intros Hb ->. rewrite handle_other_series by done.
  rewrite rows_of_csv_append_all, rows_of_logger. f_equal.
  destruct (respects (R := quiet) (c := run_probes cfg) s) as (_ & _ & _ & Hf & _).
  unfold rows_of. by rewrite Hf.
Qed.

(** A check adds to the connectivity series only rows that stand for an
    entry. *)
#[export] Instance test_connectivity_grows cfg :
  Respects (grows connectivity_log is_probe_row) (test_connectivity cfg).
Proof.
  intros s. destruct (eval (test_connectivity cfg) s) as [c|e] eqn:He.
  - apply test_connectivity_Ok in He as (b & Hb & -> & Hx).
    exists (map connectivity_row (results b)). split; [by eapply rows_after_check|].
    apply Forall_map. eapply Forall_impl; [exact (run_probes_typed _ _ _ Hb)|].
    intros rec Hrec. unfold is_probe_row. by rewrite Hrec.
  - apply test_connectivity_Raise in He as [_ ->]. apply grows_files.
    by destruct (respects (R := quiet) (c := run_probes cfg) s) as (_ & _ & _ & Hf & _).
Qed.

Lemma before_handler_same_connection cfg s lvl m rows :
  same_connection s
    (exec (csv_append_all connectivity_log rows)
       (exec (logger lvl m) (exec (run_probes cfg) s))).
Proof.
  etrans; [apply (respects (c := run_probes cfg))|].
  etrans; [apply (respects (c := logger lvl m))|].
  apply (respects (c := csv_append_all connectivity_log rows)).
Qed.

(** A check is at most one check of the table: one when it returns, with
    the verdict it returns, none when it is interrupted. *)
Lemma test_connectivity_tracks cfg s :
  conn_inv s ->
  exists checks,
    tracks checks s (exec (test_connectivity cfg) s) /\
    match eval (test_connectivity cfg) s with
    | Ok c => exists now, checks = [(c, now)]
    | Raise _ => checks = []
    end.
Proof.
  intros Hs. destruct (eval (test_connectivity cfg) s) as [c|e] eqn:He.
  - apply test_connectivity_Ok in He as (b & Hb & -> & ->).
    set (c := verdict _ _). set (s1 := exec (csv_append_all _ _) _).
    assert (aside s s1) as Hs1.
    { subst s1. etrans; [apply (respects (R := aside) (c := run_probes cfg))|].
      etrans; [apply (respects (R := aside)
                        (c := logger DEBUG (ConnectivityTested
                                (successful_tests b) (total_tests b) c)))|].
      apply (respects (R := aside)
               (c := csv_append_all connectivity_log (map connectivity_row (results b)))). }
    exists [(c, clock (tick s1))]. split; [|by eexists].
    apply (aside_tracks _ _ s1); [done|]. apply handle_tracks.
    by apply (same_connection_keeps_conn_inv s); [apply Hs1|].
  - apply test_connectivity_Raise in He as [_ ->]. exists []. split; [|done].
    apply tracks_nil; [done|]. apply (respects (c := run_probes cfg)).
Qed.

(** The rows with status ['connected'] are those of the entries with that
    status. *)
Lemma count_connected_entries recs :
  count_connected (map connectivity_row recs)
  = length (filter (fun rec => r_status rec = "connected"%string) recs).
Proof.
  unfold count_connected. induction recs as [|rec recs IH]; [done|].
  simpl map. rewrite !filter_cons.
  assert (connected_row (connectivity_row rec) = true
          <-> r_status rec = "connected"%string) as Hrec by apply String.eqb_eq.
  repeat case_decide; simpl; rewrite ?IH; tauto.
Qed.

(** The verdict computed from the counters is the majority of the entries. *)
Lemma verdict_majority b :
  batch_wf b -> verdict (successful_tests b) (total_tests b) = majority (results b).
Proof.
  intros [Hn Hk]. by rewrite verdict_decide, Hn, Hk, count_connected_entries.
Qed.

Lemma audited_nil cfg s s' :
  conn_inv s -> aside s s' -> grows connectivity_log (fun _ => False) s s' ->
  audited cfg [] s s'.
Proof.
  intros Hs Ha Hg%grows_nothing. split; [by apply tracks_nil|].
  split; [simpl; by rewrite app_nil_r|done].
Qed.

Lemma audited_aside cfg bs s s1 s2 :
  audited cfg bs s s1 -> aside s1 s2 -> grows connectivity_log (fun _ => False) s1 s2 ->
  audited cfg bs s s2.
Proof.
  intros (Ht & Hr & Hb) Ha Hg%grows_nothing. split; [by eapply tracks_aside|].
  split; [congruence|done].
Qed.

Lemma aside_audited cfg bs s s1 s2 :
  aside s s1 -> grows connectivity_log (fun _ => False) s s1 -> audited cfg bs s1 s2 ->
  audited cfg bs s s2.
Proof.
  intros Ha Hg%grows_nothing (Ht & Hr & Hb). split; [by eapply aside_tracks|].
  split; [congruence|done].
Qed.

Lemma audited_app cfg bs1 bs2 s s1 s2 :
  audited cfg bs1 s s1 -> audited cfg bs2 s1 s2 -> audited cfg (bs1 ++ bs2) s s2.
Proof.
  intros (Ht1 & Hr1 & Hb1) (Ht2 & Hr2 & Hb2). split; [|split].
  - rewrite map_app. by eapply tracks_app.
  - by rewrite Hr2, Hr1, map_app, concat_app, app_assoc.
  - by apply Forall_app.
Qed.

(** The entries of audited checks are read back from their rows. *)
Lemma decode_batches cfg bs :
  Forall (fun chk => batch_ok cfg chk.1) bs ->
  omap probe_of_row (concat (map batch_rows bs)) = concat (map fst bs).
Proof.
  induction 1 as [|chk bs [_ Hchk] _ IH]; [done|]. simpl.
  rewrite omap_app, IH. unfold batch_rows. by rewrite (decode_written _ _ _ Hchk).
Qed.

(** A check is at most one audited check: one when it returns, with the
    batch it wrote and the majority verdict it returns, none when it is
    interrupted. *)
Lemma test_connectivity_audited cfg s :
  conn_inv s ->
  exists bs,
    audited cfg bs s (exec (test_connectivity cfg) s) /\
    match eval (test_connectivity cfg) s with
    | Ok c => exists chk, bs = [chk] /\ c = majority chk.1
    | Raise _ => bs = []
    end.
Proof.
  intros Hs. destruct (test_connectivity_tracks cfg s Hs) as (checks & Ht & Hc).
  destruct (eval (test_connectivity cfg) s) as [c|e] eqn:He.
  - destruct Hc as [now ->].
    apply test_connectivity_Ok in He as (b & Hb & Hv & Hx).
    destruct (run_probes_spec _ _ _ Hb) as (Hwf & pings & https & Hr & Hp & Hh & _).
    rewrite (verdict_majority b Hwf) in Hv.
    exists [(results b, now)]. split; [|by eauto]. split; [by rewrite Hv in Ht|].
    split; [|repeat constructor; simpl;
             [by rewrite Hr, map_app, Hp, Hh|exact (run_probes_typed _ _ _ Hb)]].
    unfold batch_rows. simpl. rewrite app_nil_r. by eapply rows_after_check.
  - subst checks. exists []. split; [|done]. split; [done|].
    split; [|done]. simpl. rewrite app_nil_r.
    apply test_connectivity_Raise in He as [_ ->].
    destruct (respects (R := quiet) (c := run_probes cfg) s) as (_ & _ & _ & Hf & _).
    unfold rows_of. by rewrite Hf.
Qed.

(** C3: the verdict of a check is the strict majority of the probes it
    recorded: the check returns true exactly when more than half of the
    rows it appended to the connectivity series have status ['connected'];
    exactly half counts as disconnected. *)
Theorem test_connectivity_majority cfg s c :
  eval (test_connectivity cfg) s = Ok c ->
  exists rows,
    rows_of connectivity_log (exec (test_connectivity cfg) s)
      = rows_of connectivity_log s ++ rows /\
    c = bool_decide (length rows < 2 * count_connected rows).
Proof.
  intros (b & Hb & -> & Hx)%test_connectivity_Ok.
  exists (map connectivity_row (results b)).
  split; [by eapply rows_after_check|].
  destruct (run_probes_spec _ _ _ Hb) as [[Hn Hk] _].
  by rewrite verdict_decide, length_map, <- Hn, <- Hk.
Qed.

(** C8: a check that returns appended exactly one row per configured
    target to the connectivity series, the ping targets first and the HTTP
    targets after them, each row naming its target and its method. *)
Theorem test_connectivity_rows cfg s c :
  eval (test_connectivity cfg) s = Ok c ->
  exists pings https,
    rows_of connectivity_log (exec (test_connectivity cfg) s)
      = rows_of connectivity_log s
        ++ map connectivity_row pings ++ map connectivity_row https /\
    map r_target pings = ping_targets cfg /\
    map r_target https = http_targets cfg /\
    Forall (fun r => r_method r = "ping"%string) pings /\
    Forall (fun r => r_method r = "http"%string) https.
Proof.
  intros (b & Hb & -> & Hx)%test_connectivity_Ok.
  destruct (run_probes_spec _ _ _ Hb) as [_ (pings & https & Hr & ?)].
  exists pings, https. split; [|done].
  by rewrite (rows_after_check _ _ _ _ Hb Hx), Hr, map_app.
Qed.

(** C34: a check that is interrupted leaves every file as it was: the
    results of the probes already made are not written. *)
Theorem test_connectivity_interrupted cfg s e :
  eval (test_connectivity cfg) s = Raise e ->
  e = KeyboardInterrupt /\
  files (exec (test_connectivity cfg) s) = files s /\
  same_connection s (exec (test_connectivity cfg) s).
Proof.
  intros H. split; [by apply is_Exception_false, (contained _ _ H)|].
  apply test_connectivity_Raise in H as [_ ->].
  destruct (respects (R := quiet) (c := run_probes cfg) s) as (? & ? & ? & ? & _).
  by repeat split.
Qed.

(** A check feeds its verdict to the state machine: from a
    consistent state, the connection fields after the check are those of
    the specification's transition table applied to the verdict, and the
    state stays consistent. *)
Theorem test_connectivity_steps_machine cfg s c :
  conn_inv s ->
  eval (test_connectivity cfg) s = Ok c ->
  exists now,
    abs_conn (exec (test_connectivity cfg) s) = fst (spec_step (abs_conn s) c now) /\
    conn_inv (exec (test_connectivity cfg) s).
Proof.
  intros Hinv (b & Hb & -> & ->)%test_connectivity_Ok.
  set (c := verdict _ _). set (s1 := exec (csv_append_all _ _) _).
  destruct (before_handler_same_connection cfg s DEBUG
              (ConnectivityTested (successful_tests b) (total_tests b) c)
              (map connectivity_row (results b))) as (Hc & Hd & Hl).
  fold s1 in Hc, Hd, Hl.
  assert (conn_inv s1) as Hinv1 by (unfold conn_inv; by rewrite Hc, Hd).
  exists (clock (tick s1)). split; [|by apply handle_inv].
  destruct (handle_step c s1 Hinv1) as [-> _].
  unfold abs_conn. by rewrite Hc, Hd, Hl.
Qed.
End CheckTheorems.

Section CheckReturns.
Context {E : Environment} {U : Uninterrupted E}.

#[export] Instance record_probe_returns m probe b t :
  (forall t, Returns (probe t)) -> Returns (record_probe m probe b t).
Proof. intros H. unfold record_probe. returns. Qed.

#[export] Instance run_probes_returns cfg : Returns (run_probes cfg).
Proof. unfold run_probes. returns. Qed.

#[export] Instance test_connectivity_returns_inst cfg : Returns (test_connectivity cfg).
Proof. unfold test_connectivity. returns. Qed.

(** C7: with no interrupt, a check always returns its verdict: no failure
    of a probe, whatever it is, stops the batch or the check, and every
    configured target gets its row. *)
Theorem test_connectivity_returns cfg s :
  exists c,
    eval (test_connectivity cfg) s = Ok c /\
    length (rows_of connectivity_log (exec (test_connectivity cfg) s))
    = length (rows_of connectivity_log s)
      + length (ping_targets cfg) + length (http_targets cfg).
Proof.
  destruct (returns_run (test_connectivity cfg) s) as [c Hc].
  assert (eval (test_connectivity cfg) s = Ok c) as He by (unfold eval; by rewrite Hc).
  exists c. split; [done|].
  destruct (test_connectivity_Ok _ _ _ He) as (b & Hb & _ & Hx).
  rewrite (rows_after_check _ _ _ _ Hb Hx), length_app, length_map.
  destruct (run_probes_spec _ _ _ Hb) as [_ (pings & https & -> & <- & <- & _)].
  rewrite length_app, !length_map. lia.
Qed.
End CheckReturns.

(** ** Worked examples *)

#[export] Instance two_of_four_uninterrupted : Uninterrupted two_of_four_env.
Proof. split; try done; intros; simpl; by case_match. Qed.

(** The boundary of the specification: 2 of 4 is disconnected, 3 of 4 is
    connected. *)
Example verdict_two_of_four : verdict 2 4 = false.
Proof. reflexivity. Qed.

Example verdict_three_of_four : verdict 3 4 = true.
Proof. reflexivity. Qed.

Example check_two_of_four :
  eval (@test_connectivity two_of_four_env four_targets) (blank true None) = Ok false.
Proof. by vm_compute. Qed.

Example check_three_of_four :
  eval (@test_connectivity three_of_four_env four_targets) (blank true None) = Ok true.
Proof. by vm_compute. Qed.

Lemma test_connectivity_majority_witness :
  exists rows,
    rows_of connectivity_log
      (exec (@test_connectivity two_of_four_env four_targets) (blank true None))
    = rows_of connectivity_log (blank true None) ++ rows /\
    false = bool_decide (length rows < 2 * count_connected rows).
Proof.
  apply (@test_connectivity_majority two_of_four_env four_targets (blank true None) false).
  by vm_compute.
Defined.

Lemma test_connectivity_rows_witness :
  exists pings https,
    rows_of connectivity_log
      (exec (@test_connectivity two_of_four_env four_targets) (blank true None))
    = rows_of connectivity_log (blank true None)
      ++ map connectivity_row pings ++ map connectivity_row https /\
    map r_target pings = ping_targets four_targets /\
    map r_target https = http_targets four_targets /\
    Forall (fun r => r_method r = "ping"%string) pings /\
    Forall (fun r => r_method r = "http"%string) https.
Proof.
  apply (@test_connectivity_rows two_of_four_env four_targets (blank true None) false).
  by vm_compute.
Defined.

Lemma test_connectivity_steps_machine_witness :
  exists now,
    abs_conn (exec (@test_connectivity two_of_four_env four_targets) (blank true None))
    = fst (spec_step (abs_conn (blank true None)) false now) /\
    conn_inv (exec (@test_connectivity two_of_four_env four_targets) (blank true None)).
Proof.
  apply (@test_connectivity_steps_machine two_of_four_env four_targets
           (blank true None) false); by vm_compute.
Defined.

Lemma test_connectivity_returns_witness :
  exists c,
    eval (@test_connectivity two_of_four_env four_targets) (blank true None) = Ok c /\
    length (rows_of connectivity_log
              (exec (@test_connectivity two_of_four_env four_targets) (blank true None)))
    = length (rows_of connectivity_log (blank true None))
      + length (ping_targets four_targets) + length (http_targets four_targets).
Proof.
  apply (@test_connectivity_returns two_of_four_env two_of_four_uninterrupted).
Defined.

Lemma test_connectivity_interrupted_witness :
  KeyboardInterrupt = KeyboardInterrupt /\
  files (exec (@test_connectivity interrupted_env four_targets) (blank true None))
  = files (blank true None) /\
  same_connection (blank true None)
    (exec (@test_connectivity interrupted_env four_targets) (blank true None)).
Proof.
  apply (@test_connectivity_interrupted interrupted_env four_targets (blank true None)).
  by vm_compute.
Defined.
