(* ===== verification/Report.v ===== *)
(** * Report: the summary report

    [generate_report] of src/internet_monitor.py: the three series read
    back, the statistics computed from them, the lines written to the report
    file, and the single handler that turns any failure into [None]; with
    the theorems on the formulas, on the sections that are written or left
    out, and on what a malformed row does to the whole report. *)

From S2P Require Import Prelude Text Config Values World Store StateMachine.

(** ** Python built-ins on numbers *)

(** [min(x, *xs)]: the first smallest element. *)
Definition py_min (x : Q) (xs : list Q) : Q :=
  fold_left (fun m y => if Qlt_le_dec y m then y else m) xs x.

(** [max(x, *xs)]: the first largest element. *)
Definition py_max (x : Q) (xs : list Q) : Q :=
  fold_left (fun m y => if Qlt_le_dec m y then y else m) xs x.

(** [min(xs)] and [max(xs)]: [ValueError] on an empty list. *)
Definition list_min (xs : list Q) : result Q :=
  match xs with [] => Raise ValueError | x :: xs' => Ok (py_min x xs') end.

Definition list_max (xs : list Q) : result Q :=
  match xs with [] => Raise ValueError | x :: xs' => Ok (py_max x xs') end.

(** [sum(xs) / len(xs)] *)
Definition average (xs : list Q) : Q :=
  (Qsum xs / inject_Z (Z.of_nat (length xs)))%Q.

(** [((total - failed) / total * 100) if total > 0 else 0] *)
Definition success_rate (total_tests failed_tests : nat) : Q :=
  if 0 <? total_tests
  then (inject_Z (Z.of_nat total_tests - Z.of_nat failed_tests)
        / inject_Z (Z.of_nat total_tests) * 100)%Q
  else 0%Q.

(** ** Reading fields *)

(** [[d for d in ds if d[key] == lit]] *)
Fixpoint select (key lit : string) (ds : list record) : result (list record) :=
  match ds with
  | [] => Ok []
  | d :: ds' =>
      match field_is key lit d with
      | Raise e => Raise e
      | Ok keep =>
          match select key lit ds' with
          | Raise e => Raise e
          | Ok rest => Ok (if keep then d :: rest else rest)
          end
      end
  end.

Section Fields.
Context {E : Environment}.

(** [float(c)] for a field read back from a series. *)
Definition py_float (c : cell) : result Q :=
  match c with
  | CNum q => Ok q
  | CStr s => float_of_str s
  | CEmpty | CTime _ | CText _ => Raise ValueError
  end.

(** [float(d[key])] *)
Definition float_field (key : string) (d : record) : result Q :=
  match dict_get d key with
  | Ok (Some c) => py_float c
  | Ok None => Raise TypeError
  | Raise e => Raise e
  end.

(** [[float(d[key]) for d in ds]] *)
Fixpoint float_fields (key : string) (ds : list record) : result (list Q) :=
  match ds with
  | [] => Ok []
  | d :: ds' =>
      match float_field key d with
      | Raise e => Raise e
      | Ok q =>
          match float_fields key ds' with
          | Raise e => Raise e
          | Ok qs => Ok (q :: qs)
          end
      end
  end.

(** ** The sections of the report *)

(** The lines of the connectivity summary. *)
Definition connectivity_summary (connectivity_data : list record)
    : result (list report_line) :=
  match select "status" "disconnected" connectivity_data with
  | Raise e => Raise e
  | Ok failed =>
      let total_tests := length connectivity_data in
      let failed_tests := length failed in
      Ok [ RConnectivityHeader; RTotalTests total_tests; RFailedTests failed_tests;
           RSuccessRate (success_rate total_tests failed_tests) ]
  end.

(** The lines of the disconnection summary: none without a disconnect. *)
Definition disconnection_summary (events_data : list record)
    : result (list report_line) :=
  match select "event_type" "disconnect" events_data with
  | Raise e => Raise e
  | Ok [] => Ok []
  | Ok disconnects =>
      match float_fields "duration_seconds" disconnects with
      | Raise e => Raise e
      | Ok durations =>
          let total_downtime := Qsum durations in
          Ok [ RDisconnectionHeader; RTotalDisconnections (length disconnects);
               RTotalDowntime total_downtime (total_downtime / 60)%Q;
               RAverageDisconnect
                 (total_downtime / inject_Z (Z.of_nat (length disconnects)))%Q ]
      end
  end.

(** The lines of the speed test summary: none without a successful test. *)
Definition speedtest_summary (speedtest_data : list record)
    : result (list report_line) :=
  match select "status" "success" speedtest_data with
  | Raise e => Raise e
  | Ok [] => Ok []
  | Ok successful_tests =>
      match float_fields "download_mbps" successful_tests with
      | Raise e => Raise e
      | Ok download_speeds =>
          match float_fields "upload_mbps" successful_tests with
          | Raise e => Raise e
          | Ok upload_speeds =>
              match list_min download_speeds, list_max download_speeds with
              | Ok lo, Ok hi =>
                  Ok [ RSpeedHeader; RTotalSpeedTests (length speedtest_data);
                       RSuccessfulTests (length successful_tests);
                       RAverageDownload (average download_speeds);
                       RAverageUpload (average upload_speeds);
                       RMinDownload lo; RMaxDownload hi ]
              | Raise e, _ | _, Raise e => Raise e
              end
          end
      end
  end.

(** ** The report file *)

(** [strftime("%Y%m%d_%H%M%S")]: the name of the file has the resolution
    of a second. *)
Definition report_stamp (now : datetime) : Z := (now / 1000000)%Z.

(** [open(report_file, 'w')]: the file is created or emptied. *)
Definition report_open (stamp : Z) : M State unit :=
  modify (fun s => set_reports (<[stamp := []]> (reports s)) s).

(** [f.write(...)], a group of lines at a time. *)
Definition report_write (stamp : Z) (lines : list report_line) : M State unit :=
  modify (fun s =>
    set_reports (<[stamp := default [] (reports s !! stamp) ++ lines]> (reports s)) s).

(** One section: read the series if it exists, compute, write. *)
Definition report_section (stamp : Z) (f : series)
    (summary : list record -> result (list report_line)) : M State unit :=
  let! present := path_exists f in
  if present then
    let! data := csv_read_dicts f in
    let! lines := lift (summary data) in
    report_write stamp lines
  else ret tt.

(** The title, the rule and the date of generation. *)
Definition report_header (stamp : Z) : M State unit :=
  report_open stamp ;;
  report_write stamp [RTitle; RRule] ;;
  let! generated := datetime_now in
  report_write stamp [RGenerated generated].

(** The three analyses, in the order of the source. *)
Definition report_sections (stamp : Z) : M State unit :=
  report_section stamp connectivity_log connectivity_summary ;;
  report_section stamp events_log disconnection_summary ;;
  report_section stamp speedtest_log speedtest_summary.

Definition generate_report : M State (option Z) :=
  try_except
    (let! now := datetime_now in
     let report_file := report_stamp now in
     report_header report_file ;;
     report_sections report_file ;;
     logger INFO (ReportGenerated report_file) ;;
     ret (Some report_file))
    is_Exception
    (fun e => logger ERROR (ReportFailed e) ;; ret None).
End Fields.

(** The lines a section contributes in a state: none when the series is
    missing. *)
Definition section_lines (f : series)
    (summary : list record -> result (list report_line)) (s : State)
    : result (list report_line) :=
  match files s !! f with
  | None => Ok []
  | Some rows => summary (dict_rows rows)
  end.

(** The lines the three sections write in a state, and the exception that
    stops them, if any: a section that raises writes nothing, and no
    section after it runs. *)
Definition report_body {E : Environment} (s : State)
    : list report_line * option exn :=
  match section_lines connectivity_log connectivity_summary s with
  | Raise e => ([], Some e)
  | Ok conn =>
      match section_lines events_log disconnection_summary s with
      | Raise e => (conn, Some e)
      | Ok disc =>
          match section_lines speedtest_log speedtest_summary s with
          | Raise e => (conn ++ disc, Some e)
          | Ok speed => (conn ++ disc ++ speed, None)
          end
      end
  end.

(** The lines of the report written under [stamp], none if there is no
    such file. *)
Definition report_lines (stamp : Z) (s : State) : list report_line :=
  default [] (reports s !! stamp).

(** An events series with two outages, of 30 s and of 90 s. *)
Definition two_outages : State :=
  set_files {[ events_log :=
                 [ events_header; event_row 0 30000000;
                   event_row 100000000 190000000 ] ]}
            (blank true None).

(** A connectivity series of ten rows, three of them disconnected. *)
Definition ten_probes : State :=
  set_files {[ connectivity_log :=
                 connectivity_header
                 :: replicate 7 [CTime 0; CStr "connected"; CStr "8.8.8.8";
                                 CNum 12; CStr "ping"]
                 ++ replicate 3 [CTime 0; CStr "disconnected"; CStr "8.8.8.8";
                                 CEmpty; CStr "ping"] ]}
            (blank true None).

(** An events series in which one duration was blanked out, next to a
    connectivity series in good order. *)
Definition blanked_duration : State :=
  set_files {[ connectivity_log :=
                 [ connectivity_header;
                   [CTime 0; CStr "connected"; CStr "8.8.8.8"; CNum 12; CStr "ping"] ];
               events_log :=
                 [ events_header;
                   [CTime 0; CStr "disconnect"; CEmpty; CStr "edited"] ];
               speedtest_log :=
                 [ speedtest_header;
                   [CTime 0; CNum 500; CNum 40; CNum 9; CStr "server";
                    CStr "success"] ] ]}
            (blank true None).

(** The series may differ in nothing, and the connection fields neither:
    what a report may change is the reports, the log and the count of
    interactions. *)
Definition report_only (s s' : State) : Prop :=
  files s' = files s /\ same_connection s s'.

(** ** The formulas *)

Lemma success_rate_no_tests failed : success_rate 0 failed = 0%Q.
Proof. reflexivity. Qed.

Lemma inject_nat_pos n : 0 < n -> (0 < inject_Z (Z.of_nat n))%Q.
Proof. intros H. unfold Qlt. simpl. lia. Qed.

Lemma success_rate_formula total failed :
  0 < total ->
  (success_rate total failed * inject_Z (Z.of_nat total)
   == 100 * inject_Z (Z.of_nat total - Z.of_nat failed))%Q.
Proof.
  intros H. unfold success_rate. rewrite (proj2 (Nat.ltb_lt 0 total) H).
  pose proof (inject_nat_pos total H). field. lra.
Qed.

(** The success rate of the report is a percentage: 0 when there is
    no test at all, 100 when no test failed, and between 0 and 100 whenever
    the failed tests are among the tests. *)
Theorem success_rate_percentage total failed :
  failed <= total ->
  (0 <= success_rate total failed <= 100)%Q /\
  (total = 0 -> success_rate total failed = 0%Q) /\
  (0 < total -> failed = 0 -> (success_rate total failed == 100)%Q).
Proof.
  intros Hle. destruct (decide (total = 0)) as [->|Hpos].
  { by repeat split; try lia; rewrite success_rate_no_tests. }
  assert (0 < total) as H by lia.
  pose proof (success_rate_formula total failed H) as Hf.
  pose proof (inject_nat_pos total H) as Hp.
  assert (0 <= inject_Z (Z.of_nat total - Z.of_nat failed)
          <= inject_Z (Z.of_nat total))%Q as [Hlo Hhi]
    by (unfold Qle; simpl; lia).
  repeat split; [nra|nra|lia|]. intros _ ->.
  rewrite Z.sub_0_r in Hf. nra.
Qed.

Example success_rate_seven_of_ten : (success_rate 10 3 == 70)%Q.
Proof. reflexivity. Qed.

(** ** Selecting and converting fields *)

Section FieldLemmas.
Context {E : Environment}.

Lemma select_length key lit ds l :
  select key lit ds = Ok l -> length l <= length ds.
Proof.
  revert l. induction ds as [|d ds IH]; intros l; simpl; [by intros [= <-]|].
  destruct (field_is key lit d) as [keep|]; [|done].
  destruct (select key lit ds) as [rest|]; [|done].
  intros [= <-]. specialize (IH rest eq_refl). destruct keep; simpl; lia.
Qed.

Lemma select_all key lit ds :
  Forall (fun d => field_is key lit d = Ok true) ds -> select key lit ds = Ok ds.
Proof. induction 1 as [|d ds Hd _ IH]; simpl; [done|]. by rewrite Hd, IH. Qed.

Lemma float_fields_map key (f : record -> Q) ds :
  Forall (fun d => float_field key d = Ok (f d)) ds ->
  float_fields key ds = Ok (map f ds).
Proof. induction 1 as [|d ds Hd _ IH]; simpl; [done|]. by rewrite Hd, IH. Qed.

Lemma float_fields_length key ds qs :
  float_fields key ds = Ok qs -> length qs = length ds.
Proof.
  revert qs. induction ds as [|d ds IH]; intros qs; simpl; [by intros [= <-]|].
  destruct (float_field key d); [|done].
  destruct (float_fields key ds) as [qs'|]; [|done].
  intros [= <-]. simpl. by rewrite (IH qs').
Qed.
End FieldLemmas.

(** ** Minimum, maximum and average *)

Lemma py_min_spec x xs :
  Forall (fun y => py_min x xs <= y)%Q (x :: xs) /\ In (py_min x xs) (x :: xs).
Proof.
  revert x. induction xs as [|y xs IH]; intros x.
  { split; [constructor; [apply Qle_refl|constructor]|by left]. }
  unfold py_min. simpl. fold (py_min (if Qlt_le_dec y x then y else x) xs).
  destruct (IH (if Qlt_le_dec y x then y else x)) as [Hle Hin].
  apply Forall_cons in Hle as [Hm Hrest].
  split.
  - destruct (Qlt_le_dec y x); repeat constructor; try done; lra.
  - destruct Hin as [<-|Hin]; [|by right; right].
    destruct (Qlt_le_dec y x); [right; by left|by left].
Qed.

Lemma py_max_spec x xs :
  Forall (fun y => y <= py_max x xs)%Q (x :: xs) /\ In (py_max x xs) (x :: xs).
Proof.
  revert x. induction xs as [|y xs IH]; intros x.
  { split; [constructor; [apply Qle_refl|constructor]|by left]. }
  unfold py_max. simpl. fold (py_max (if Qlt_le_dec x y then y else x) xs).
  destruct (IH (if Qlt_le_dec x y then y else x)) as [Hle Hin].
  apply Forall_cons in Hle as [Hm Hrest].
  split.
  - destruct (Qlt_le_dec x y); repeat constructor; try done; lra.
  - destruct Hin as [<-|Hin]; [|by right; right].
    destruct (Qlt_le_dec x y); [right; by left|by left].
Qed.

Lemma Qsum_bounds lo hi xs :
  Forall (fun y => lo <= y <= hi)%Q xs ->
  (lo * inject_Z (Z.of_nat (length xs)) <= Qsum xs
   <= hi * inject_Z (Z.of_nat (length xs)))%Q.
Proof.
  induction 1 as [|x xs [Hlo Hhi] _ [IHlo IHhi]].
  { rewrite Qsum_nil. change (inject_Z (Z.of_nat (length []))) with 0%Q. lra. }
  rewrite Qsum_cons. simpl length. rewrite Nat2Z.inj_succ.
  assert (inject_Z (Z.succ (Z.of_nat (length xs)))
          == inject_Z (Z.of_nat (length xs)) + 1)%Q as ->
    by (unfold Z.succ; by rewrite inject_Z_plus).
  lra.
Qed.

(** The speed statistics of the report are consistent: the minimum
    and the maximum are speeds of the list, and the average lies between
    them. *)
Theorem speed_statistics_ordered xs lo hi :
  list_min xs = Ok lo -> list_max xs = Ok hi ->
  In lo xs /\ In hi xs /\ (lo <= average xs <= hi)%Q.
Proof.
  destruct xs as [|x xs]; [done|]. intros [= <-] [= <-].
  destruct (py_min_spec x xs) as [Hmin Hin], (py_max_spec x xs) as [Hmax Hax].
  repeat split; try done; unfold average.
  all: pose proof (inject_nat_pos (length (x :: xs)) ltac:(simpl; lia)) as Hn.
  all: assert (Forall (fun y => py_min x xs <= y <= py_max x xs)%Q (x :: xs)) as Hb
    by (rewrite Forall_forall in *; intros; split; auto).
  all: destruct (Qsum_bounds _ _ _ Hb) as [Hlo Hhi].
  - apply Qle_shift_div_l; [done|lra].
  - apply Qle_shift_div_r; [done|lra].
Qed.

(** ** What a report leaves alone *)

#[export] Instance report_only_preorder : PreOrder report_only.
Proof.
  unfold report_only. split; [by intros s|].
  intros s1 s2 s3 [Hf1 Hc1] [Hf2 Hc2]. split; [congruence|by etrans].
Qed.

Lemma quiet_report_only s s' : quiet s s' -> report_only s s'.
Proof. intros (? & ? & ? & ? & _). by repeat split. Qed.

Lemma report_only_append_only s s' : report_only s s' -> store_le s s'.
Proof. intros [Hf _]. by apply store_le_files. Qed.

#[export] Hint Extern 1 (report_only _ _) => by repeat split : monitor.

Section ReportFrame.
Context {E : Environment}.

#[export] Instance quiet_respects_report_only {A} (c : M State A) :
  Respects quiet c -> Respects report_only c | 10.
Proof. apply respects_weaken, quiet_report_only. Qed.

#[export] Instance report_only_respects_append_only {A} (c : M State A) :
  Respects report_only c -> AppendOnly c | 20.
Proof. apply respects_weaken, report_only_append_only. Qed.

#[export] Instance report_only_keeps_store {A} (c : M State A) :
  Respects report_only c -> KeepsStore c | 20.
Proof. apply respects_weaken. intros s s' [Hf _]. by apply keeps_wf_files. Qed.

#[export] Instance report_only_keeps_connection {A} (c : M State A) :
  Respects report_only c -> KeepsConnection c | 20.
Proof. apply respects_weaken. by intros s s' [_ Hc]. Qed.

#[export] Instance report_only_grows {A} f P (c : M State A) :
  Respects report_only c -> Respects (grows f P) c | 20.
Proof. apply respects_weaken. intros s s' [Hf _]. by apply grows_files. Qed.

#[export] Instance report_only_aside {A} (c : M State A) :
  Respects report_only c -> Respects aside c | 20.
Proof.
  apply respects_weaken. intros s s' [Hf Hc]. split; [done|].
  unfold rows_of. by rewrite Hf.
Qed.

#[export] Instance report_open_only stamp : Respects report_only (report_open stamp).
Proof. by intros s. Qed.

#[export] Instance report_write_only stamp lines :
  Respects report_only (report_write stamp lines).
Proof. by intros s. Qed.

#[export] Instance report_header_only stamp : Respects report_only (report_header stamp).
Proof. unfold report_header. respects. Qed.

#[export] Instance report_section_only stamp f summary :
  Respects report_only (report_section stamp f summary).
Proof. unfold report_section. respects. Qed.

#[export] Instance report_sections_only stamp :
  Respects report_only (report_sections stamp).
Proof. unfold report_sections. respects. Qed.

(** The report changes no series and no connection field. *)
#[export] Instance generate_report_only : Respects report_only generate_report.
Proof. unfold generate_report. respects. Qed.

#[export] Instance report_write_contained stamp lines :
  Contained (report_write stamp lines).
Proof. by intros s e. Qed.

(** No [Exception] leaves the report. *)
#[export] Instance generate_report_contained : Contained generate_report.
Proof. unfold generate_report. contained. Qed.
End ReportFrame.

(** ** Running the report *)

Section ReportRun.
Context {E : Environment}.
Implicit Types (s : State) (f : series).

Lemma report_lines_write stamp lines s :
  report_lines stamp (exec (report_write stamp lines) s)
  = report_lines stamp s ++ lines.
Proof. unfold report_lines, report_write. unfold_monad. simpl. by rewrite lookup_insert_eq. Qed.

Lemma section_lines_files f summary s s' :
  files s' = files s -> section_lines f summary s' = section_lines f summary s.
Proof. unfold section_lines. by intros ->. Qed.

(** The header: three lines in a fresh file. *)
Lemma report_header_run stamp s :
  exists s1,
    report_header stamp s = (Ok tt, s1) /\
    report_lines stamp s1 = [RTitle; RRule; RGenerated (clock (tick s))] /\
    files s1 = files s /\ log s1 = log s /\ tick s1 = S (tick s).
Proof.
  eexists. split; [reflexivity|]. unfold report_lines. simpl.
  by rewrite !lookup_insert_eq.
Qed.

(** A section either appends its lines, or raises and writes nothing. *)
Lemma report_section_run stamp f summary s :
  match section_lines f summary s with
  | Ok lines =>
      exists s1,
        report_section stamp f summary s = (Ok tt, s1) /\
        report_lines stamp s1 = report_lines stamp s ++ lines /\
        files s1 = files s /\ log s1 = log s /\ tick s1 = tick s
  | Raise e => report_section stamp f summary s = (Raise e, s)
  end.
Proof.
  unfold section_lines, report_section, path_exists, csv_read_dicts, gets, lift, bind.
  destruct (files s !! f) as [rows|] eqn:Hf.
  - rewrite bool_decide_eq_true_2 by eauto. rewrite Hf.
    destruct (summary (dict_rows rows)) as [lines|e]; [|done].
    exists (exec (report_write stamp lines) s). split; [done|].
    by rewrite report_lines_write.
  - rewrite bool_decide_eq_false_2 by (by intros [? ?]).
    exists s. by rewrite app_nil_r.
Qed.
(** The three sections: the lines of [report_body], up to the first
    section that raises. *)
Lemma report_sections_run stamp s :
  exists s1,
    report_sections stamp s
    = (match snd (report_body s) with None => Ok tt | Some e => Raise e end, s1) /\
    report_lines stamp s1 = report_lines stamp s ++ fst (report_body s) /\
    files s1 = files s /\ log s1 = log s /\ tick s1 = tick s.
Proof.
  unfold report_sections, report_body.
  pose proof (report_section_run stamp connectivity_log connectivity_summary s) as R1.
  destruct (section_lines connectivity_log _ s) as [conn|e].
  2: { exists s. rewrite (run_bind_raise _ _ _ _ _ R1), app_nil_r. done. }
  destruct R1 as (s1 & R1 & L1 & F1 & G1 & T1). rewrite (run_bind_ok _ _ _ _ _ R1).
  pose proof (report_section_run stamp events_log disconnection_summary s1) as R2.
  rewrite (section_lines_files _ _ s s1 F1) in R2.
  destruct (section_lines events_log _ s) as [disc|e].
  2: { exists s1. rewrite (run_bind_raise _ _ _ _ _ R2). done. }
  destruct R2 as (s2 & R2 & L2 & F2 & G2 & T2). rewrite (run_bind_ok _ _ _ _ _ R2).
  pose proof (report_section_run stamp speedtest_log speedtest_summary s2) as R3.
  rewrite (section_lines_files _ _ s s2) in R3 by congruence.
  destruct (section_lines speedtest_log _ s) as [speed|e].
  2: { exists s2. rewrite R3, L2, L1, <- app_assoc. repeat split; congruence. }
  destruct R3 as (s3 & -> & L3 & F3 & G3 & T3). exists s3.
  rewrite L3, L2, L1, <- !app_assoc. repeat split; congruence.
Qed.

(** The whole report: the header, then the lines of [report_body]; the
    name of the file when no section raised, [None] when one raised an
    [Exception]. *)
Lemma generate_report_run s :
  let stamp := report_stamp (clock (tick s)) in
  report_lines stamp (exec generate_report s)
  = [RTitle; RRule; RGenerated (clock (S (tick s)))] ++ fst (report_body s) /\
  eval generate_report s
  = match snd (report_body s) with
    | None => Ok (Some stamp)
    | Some e => if is_Exception e then Ok None else Raise e
    end.
Proof.
  intros stamp. unfold generate_report, eval, exec, try_except.
  rewrite (run_bind_ok datetime_now _ s _ (bump s) eq_refl).
  destruct (report_header_run stamp (bump s)) as (s1 & R1 & L1 & F1 & _).
  rewrite (run_bind_ok _ _ _ _ _ R1).
  destruct (report_sections_run stamp s1) as (s2 & R2 & L2 & _).
  assert (report_body s1 = report_body s) as Hb
    by (unfold report_body; by rewrite !(section_lines_files _ _ s s1 F1)).
  rewrite Hb in R2, L2. rewrite L1 in L2.
  destruct (report_body s) as [lines [e|]]; simpl in *.
  - rewrite (run_bind_raise _ _ _ _ _ R2). by destruct (is_Exception e).
  - rewrite (run_bind_ok _ _ _ _ _ R2). simpl. by rewrite <- L2.
Qed.
End ReportRun.

(** ** The report as a whole *)

Section ReportTheorems.
Context {E : Environment}.
Implicit Types (s : State).

(** When the three analyses succeed, the report is complete: it
    returns the name of its file, and the file holds the title, the rule and
    the date, then the connectivity, disconnection and speed test sections
    in this order, a section being empty when its series is missing or holds
    no matching row. *)
Theorem generate_report_complete s conn disc speed :
  section_lines connectivity_log connectivity_summary s = Ok conn ->
  section_lines events_log disconnection_summary s = Ok disc ->
  section_lines speedtest_log speedtest_summary s = Ok speed ->
  eval generate_report s = Ok (Some (report_stamp (clock (tick s)))) /\
  report_lines (report_stamp (clock (tick s))) (exec generate_report s)
  = [RTitle; RRule; RGenerated (clock (S (tick s)))] ++ conn ++ disc ++ speed.
Proof.
  intros Hc Hd Hs. destruct (generate_report_run s) as [Hl He].
  unfold report_body in *. rewrite Hc, Hd, Hs in *. done.
Qed.

(** C31: one row that cannot be analysed fails the whole report: when the
    analysis of the events series raises, [generate_report] returns [None],
    the file keeps the header and the connectivity section only, and the
    speed test section is never written, whatever the speed test series
    holds. *)
Theorem generate_report_fails_whole s conn e :
  section_lines connectivity_log connectivity_summary s = Ok conn ->
  section_lines events_log disconnection_summary s = Raise e ->
  is_Exception e = true ->
  eval generate_report s = Ok None /\
  report_lines (report_stamp (clock (tick s))) (exec generate_report s)
  = [RTitle; RRule; RGenerated (clock (S (tick s)))] ++ conn.
Proof.
  intros Hc Hd Hx. destruct (generate_report_run s) as [Hl He].
  unfold report_body in *. rewrite Hc, Hd in *. simpl in *. by rewrite Hx in He.
Qed.

(** [generate_report] never raises to its caller: the only
    exception that can leave it is an interrupt, and it changes no series
    and no connection field. *)
Theorem generate_report_safe s :
  (forall e, eval generate_report s = Raise e -> e = KeyboardInterrupt) /\
  files (exec generate_report s) = files s /\
  same_connection s (exec generate_report s).
Proof.
  split; [|apply (respects (R := report_only) (c := generate_report))].
  intros e He. by apply is_Exception_false, (contained _ _ He).
Qed.

Lemma event_record_type ev :
  field_is "event_type" "disconnect" (Rec events_header (row_of_event ev)) = Ok true.
Proof. reflexivity. Qed.

Lemma event_record_duration ev :
  float_field "duration_seconds" (Rec events_header (row_of_event ev))
  = Ok (duration_seconds ev).
Proof. reflexivity. Qed.

(** The disconnection section over the rows of a list of events. *)
Lemma disconnection_summary_events evs :
  disconnection_summary (dict_rows (events_header :: map row_of_event evs))
  = Ok (match evs with
        | [] => []
        | _ => [ RDisconnectionHeader; RTotalDisconnections (length evs);
                 RTotalDowntime (Qsum (map duration_seconds evs))
                                (Qsum (map duration_seconds evs) / 60)%Q;
                 RAverageDisconnect
                   (Qsum (map duration_seconds evs)
                    / inject_Z (Z.of_nat (length evs)))%Q ]
        end).
Proof.
  unfold disconnection_summary, dict_rows.
  rewrite filter_Forall_id by (apply Forall_map, Forall_forall; done).
  rewrite select_all
    by (apply Forall_map, Forall_map, Forall_forall; intros; apply event_record_type).
  destruct evs as [|ev evs]; [done|]. set (ds := map _ (map _ (ev :: evs))).
  rewrite (float_fields_map _ (fun d => match values d !! 2%nat with
                                        | Some (CNum q) => q | _ => 0%Q end) ds)
    by (apply Forall_map, Forall_map, Forall_forall; done).
  subst ds. rewrite !length_map, !map_map. done.
Qed.

(** C5: the report tells the truth about the run.  Starting with an
    events series that holds its header only, after any sequence of
    connectivity checks the disconnection section of the report counts
    exactly the outages that the transition table of the specification
    completes on the same verdicts, and its total downtime is the sum of
    their durations; without a completed outage the section is left out. *)
Theorem report_counts_outages vs s :
  conn_inv s ->
  files s !! events_log = Some [events_header] ->
  section_lines events_log disconnection_summary (exec (handle_all vs) s)
  = Ok (match snd (spec_run (abs_conn s) (stamped vs (tick s))) with
        | [] => []
        | evs => [ RDisconnectionHeader; RTotalDisconnections (length evs);
                   RTotalDowntime (Qsum (map duration_seconds evs))
                                  (Qsum (map duration_seconds evs) / 60)%Q;
                   RAverageDisconnect
                     (Qsum (map duration_seconds evs)
                      / inject_Z (Z.of_nat (length evs)))%Q ]
        end).
Proof.
  intros Hinv Hf. destruct (handle_all_run vs s Hinv) as [_ Hr].
  destruct (respects (R := store_le) (c := handle_all vs) s events_log) as [_ Hsome].
  destruct (Hsome ltac:(eauto)) as [rows Hrows].
  unfold rows_of in Hr. rewrite Hrows, Hf in Hr. simpl in Hr.
  unfold section_lines. rewrite Hrows, Hr, disconnection_summary_events.
  by destruct (snd _).
Qed.
End ReportTheorems.

(** ** Worked examples *)

(** The scenario of the specification: ten connectivity rows, three of
    them disconnected, give a success rate of 70. *)
Example report_seven_of_ten :
  exists rate,
    section_lines connectivity_log connectivity_summary ten_probes
    = Ok [RConnectivityHeader; RTotalTests 10; RFailedTests 3; RSuccessRate rate]
    /\ (rate == 70)%Q.
Proof. eexists. split; [by vm_compute|reflexivity]. Qed.

(** The scenario of the specification: two outages of 30 s and 90 s give a
    total downtime of 120 s and an average of 60 s. *)
Example report_two_outages :
  exists total minutes avg,
    section_lines events_log (@disconnection_summary (idle_env 0 1)) two_outages
    = Ok [RDisconnectionHeader; RTotalDisconnections 2;
          RTotalDowntime total minutes; RAverageDisconnect avg]
    /\ (total == 120)%Q /\ (minutes == 2)%Q /\ (avg == 60)%Q.
Proof. do 3 eexists. split; [by vm_compute|by repeat split]. Qed.

Lemma success_rate_percentage_witness :
  (0 <= success_rate 10 3 <= 100)%Q /\
  (10 = 0 -> success_rate 10 3 = 0%Q) /\
  (0 < 10 -> 3 = 0 -> (success_rate 10 3 == 100)%Q).
Proof. apply (success_rate_percentage 10 3). lia. Defined.

Lemma speed_statistics_ordered_witness :
  In 300%Q [500; 300; 400]%Q /\ In 500%Q [500; 300; 400]%Q /\
  (300 <= average [500; 300; 400] <= 500)%Q.
Proof. by apply (speed_statistics_ordered [500; 300; 400]%Q 300%Q 500%Q). Defined.

Lemma generate_report_complete_witness :
  eval (@generate_report (idle_env 5000000 1)) ten_probes = Ok (Some 5%Z) /\
  report_lines 5 (exec (@generate_report (idle_env 5000000 1)) ten_probes)
  = [RTitle; RRule; RGenerated 5000001]
    ++ [RConnectivityHeader; RTotalTests 10; RFailedTests 3;
        RSuccessRate (success_rate 10 3)] ++ [] ++ [].
Proof.
  by apply (@generate_report_complete (idle_env 5000000 1) ten_probes).
Defined.

Lemma generate_report_fails_whole_witness :
  eval (@generate_report (idle_env 5000000 1)) blanked_duration = Ok None /\
  report_lines 5 (exec (@generate_report (idle_env 5000000 1)) blanked_duration)
  = [RTitle; RRule; RGenerated 5000001]
    ++ [RConnectivityHeader; RTotalTests 1; RFailedTests 0;
        RSuccessRate (success_rate 1 0)].
Proof.
  by apply (@generate_report_fails_whole (idle_env 5000000 1) blanked_duration _ ValueError).
Defined.

Lemma report_counts_outages_witness :
  section_lines events_log (@disconnection_summary (idle_env 0 1000000))
    (exec (@handle_all (idle_env 0 1000000) [false; false; true])
          (exec _init_csv_files (blank true None)))
  = Ok (match snd (spec_run (abs_conn (exec _init_csv_files (blank true None)))
                            (@stamped (idle_env 0 1000000) [false; false; true] 0)) with
        | [] => []
        | evs => [ RDisconnectionHeader; RTotalDisconnections (length evs);
                   RTotalDowntime (Qsum (map duration_seconds evs))
                                  (Qsum (map duration_seconds evs) / 60)%Q;
                   RAverageDisconnect
                     (Qsum (map duration_seconds evs)
                      / inject_Z (Z.of_nat (length evs)))%Q ]
        end).
Proof.
  apply (@report_counts_outages (idle_env 0 1000000) [false; false; true]
           (exec _init_csv_files (blank true None))); by vm_compute.
Defined.
