(* ===== verification/SpeedTest.v ===== *)
(** * SpeedTest: the speed test runner

    [run_speedtest] of src/internet_monitor.py: the primary tool, the
    fallback tool, the two JSON schemas read into one measurement, the row
    appended to the speed test series on success and on failure; with the
    operations of Python on JSON values the parsing relies on, the
    specification of the runner as a list of tool adapters, and the theorems
    that relate the two. *)

From S2P Require Import Prelude Text Config Values World Store StateMachine.

(** ** JSON values as Python handles them

    [json.loads] returns a dict for an object: [fields] holds its items,
    whose keys are distinct, in insertion order. *)

Fixpoint assoc (key : string) (fields : list (string * json)) : option json :=
  match fields with
  | [] => None
  | (k, v) :: rest => if String.eqb k key then Some v else assoc key rest
  end.

(** [d.get(key, default)]: only a dict has [get]. *)
Definition py_get (key : string) (default : json) (d : json) : result json :=
  match d with
  | JObj fields => Ok (from_option id default (assoc key fields))
  | _ => Raise AttributeError
  end.

(** [d[key]]: a missing key of a dict is a [KeyError]; a list or a string
    indexed by a string, and a value that has no items, a [TypeError]. *)
Definition py_item (key : string) (d : json) : result json :=
  match d with
  | JObj fields =>
      match assoc key fields with
      | Some v => Ok v
      | None => Raise (KeyError key)
      end
  | _ => Raise TypeError
  end.

(** The operand of an arithmetic operator: a number, or a bool, which is an
    int. *)
Definition as_number (j : json) : result Q :=
  match j with
  | JNum q => Ok q
  | JBool b => Ok (if b then 1 else 0)%Q
  | _ => Raise TypeError
  end.

(** The least magnitude that rounds to no float: half way between the
    largest float and 2^1024. *)
Definition float_limit : Q := inject_Z (2 ^ 1024 - 2 ^ 970).

(** A number that a float holds, rounding aside.  A number of a JSON
    document beyond that is an integer: a float is below the limit. *)
Definition fits_float (q : Q) : bool :=
  negb (Qle_bool float_limit q) && negb (Qle_bool q (- float_limit)).
Arguments float_limit : simpl never.
Arguments fits_float : simpl never.

(** [x / 1_000_000]: the quotient of an integer too large for a float is
    an [OverflowError]. *)
Definition per_million (j : json) : result Q :=
  let? q := as_number j in
  if fits_float (q / 1000000) then Ok (q / 1000000)%Q else Raise OverflowError.

(** [f"{x:.1f}"]: the number formatted, an integer being converted to a
    float first, which is an [OverflowError] when it is too large; a string
    rejects the format code, the other values the format string. *)
Definition format_1f (j : json) : result Q :=
  match j with
  | JNum q => if fits_float q then Ok q else Raise OverflowError
  | JBool b => Ok (if b then 1 else 0)%Q
  | JStr _ => Raise ValueError
  | _ => Raise TypeError
  end.

(** The field [csv.writer] writes for a value: nothing for [None], the
    string itself, [str] of the others. *)
Definition json_cell (j : json) : cell :=
  match j with
  | JNull => CEmpty
  | JNum q => CNum q
  | JStr s => CStr s
  | JBool b => CStr (if b then "True" else "False")
  | JArr _ | JObj _ => CText (StrOf j)
  end.

(** ** The measurement and its rows *)

(** The four local variables of [run_speedtest]. *)
Record measurement : Type := Measurement {
  download_mbps : Q;
  upload_mbps : Q;
  ping_ms : json;
  server : text;
}.

(** [data.get(outer, {}).get(inner, default)] *)
Definition get2 (outer inner : string) (default : json) (data : json)
    : result json :=
  let? d := py_get outer (JObj []) data in py_get inner default d.

(** [data[outer][inner]] *)
Definition item2 (outer inner : string) (data : json) : result json :=
  let? d := py_item outer data in py_item inner d.

(** The Ookla schema (lines 258-261). *)
Definition parse_ookla (data : json) : result measurement :=
  let? download := result_bind (get2 "download" "bandwidth" (JNum 0) data) per_million in
  let? upload := result_bind (get2 "upload" "bandwidth" (JNum 0) data) per_million in
  let? ping := get2 "ping" "latency" (JNum 0) data in
  let? name := get2 "server" "name" (JStr "Unknown") data in
  let? location := get2 "server" "location" (JStr "") data in
  Ok (Measurement download upload ping (ServerLabel name location)).

(** The speedtest-cli schema (lines 269-272 and 282-285). *)
Definition parse_cli (data : json) : result measurement :=
  let? download := result_bind (py_item "download" data) per_million in
  let? upload := result_bind (py_item "upload" data) per_million in
  let? ping := py_item "ping" data in
  let? sponsor := item2 "server" "sponsor" data in
  let? name := item2 "server" "name" data in
  Ok (Measurement download upload ping (ServerLabel sponsor name)).

Definition success_row (now : datetime) (m : measurement) : row :=
  [ CTime now; CNum (download_mbps m); CNum (upload_mbps m);
    json_cell (ping_ms m); CText (server m); CStr "success" ].

Definition failure_row (now : datetime) (e : exn) : row :=
  [ CTime now; CEmpty; CEmpty; CEmpty; CEmpty; CText (FailedWith e) ].

(** ** The runner *)

Definition ookla_argv : list string := ["speedtest"; "--format=json"]%string.
Definition cli_argv : list string := ["speedtest-cli"; "--json"]%string.

Definition both_failed : string := "Both speedtest CLIs failed".
Definition not_found : string :=
  "speedtest CLI not found. Install with: curl -s https://packagecloud.io/install/repositories/ookla/speedtest-cli/script.deb.sh | sudo bash && sudo apt-get install speedtest".

Section Runner.
Context {E : Environment}.

(** The fallback tool, as the source runs it in two places (lines 265-274
    and 278-287), which differ by the text of the exception. *)
Definition run_fallback (msg : string) : M State measurement :=
  let! result := run_process cli_argv in
  if (returncode result =? 0)%Z then
    let! data := lift (json_loads (stdout result)) in
    lift (parse_cli data)
  else raise (PlainException msg).

(** The inner [try] (lines 252-287). *)
Definition measure : M State measurement :=
  try_except
    (let! result := run_process ookla_argv in
     if (returncode result =? 0)%Z then
       let! data := lift (json_loads (stdout result)) in
       lift (parse_ookla data)
     else run_fallback both_failed)
    is_FileNotFoundError
    (fun _ => run_fallback not_found).

Definition run_speedtest : M State bool :=
  try_except
    (logger INFO RunningSpeedTest ;;
     let! m := measure in
     let! ping := lift (format_1f (ping_ms m)) in
     logger INFO (SpeedTestDone (download_mbps m) (upload_mbps m) ping) ;;
     let! now := datetime_now in
     csv_append speedtest_log (success_row now m) ;;
     ret true)
    is_Exception
    (fun e =>
       logger ERROR (SpeedTestError e) ;;
       let! now := datetime_now in
       csv_append speedtest_log (failure_row now e) ;;
       ret false).
End Runner.

(** A measurement whose ping time the log line can format (line 289). *)
Definition check_ping (r : result measurement) : result measurement :=
  let? m := r in
  let? _ := format_1f (ping_ms m) in
  Ok m.

(** ** What the runner computes, as a function of the environment

    [measured n] is the outcome of the inner [try] when the primary tool is
    the [n]-th interaction: the fallback runs as the next one, and once more
    when the [except FileNotFoundError] clause catches what the fallback
    itself raised. *)

Section Outcome.
Context {E : Environment}.

Definition fallback_result (n : nat) (msg : string) : result measurement :=
  match subprocess_run n cli_argv with
  | Ok (Completed rc out _) =>
      if (rc =? 0)%Z then let? data := json_loads out in parse_cli data
      else Raise (PlainException msg)
  | Raise e => Raise e
  end.

Definition catch_missing (n : nat) (r : result measurement) : result measurement :=
  match r with
  | Raise e => if is_FileNotFoundError e then fallback_result n not_found else r
  | Ok _ => r
  end.

Definition measured (n : nat) : result measurement :=
  match subprocess_run n ookla_argv with
  | Ok (Completed rc out _) =>
      if (rc =? 0)%Z
      then catch_missing (S n) (let? data := json_loads out in parse_ookla data)
      else catch_missing (S (S n)) (fallback_result (S n) both_failed)
  | Raise e => catch_missing (S n) (Raise e)
  end.

(** Whether an outcome is the absence of a tool. *)
Definition missing (r : result measurement) : bool :=
  match r with Raise e => is_FileNotFoundError e | Ok _ => false end.

(** The number of tools the inner [try] ran. *)
Definition attempts (n : nat) : nat :=
  match subprocess_run n ookla_argv with
  | Ok (Completed rc out _) =>
      if (rc =? 0)%Z
      then if missing (let? data := json_loads out in parse_ookla data) then 2 else 1
      else if missing (fallback_result (S n) both_failed) then 3 else 2
  | Raise e => if is_FileNotFoundError e then 2 else 1
  end.

(** The measurement that passed the format of the log line (line 289). *)
Definition checked (n : nat) : result measurement := check_ping (measured n).

(** The row the outcome leaves in the series, stamped [t]. *)
Definition outcome_rows (t : datetime) (r : result measurement) : list row :=
  match r with
  | Ok m => [success_row t m]
  | Raise e => if is_Exception e then [failure_row t e] else []
  end.

(** The row of an outcome that is not an interrupt. *)
Definition outcome_row (t : datetime) (r : result measurement) : row :=
  match r with
  | Ok m => success_row t m
  | Raise e => failure_row t e
  end.

(** What the caller gets. *)
Definition outcome_value (r : result measurement) : result bool :=
  match r with
  | Ok _ => Ok true
  | Raise e => if is_Exception e then Ok false else Raise e
  end.
End Outcome.

(** ** The specification: an ordered list of tool adapters

    Section 4.4 of the specification and its design notes: each adapter
    runs a tool and parses its output; the list is walked while the tool is
    absent or exits with a non-zero code; the record is the first success or
    a failure with its reason. *)

Inductive reason : Type := ToolNotFound | NonZeroExit | ParseError | OtherFailure.

Inductive SpeedTestRecord : Type :=
| SUCCESS (download upload : Q) (ping : cell) (server_label : text)
| FAILED (why : reason).

Record adapter : Type := Adapter {
  tool : list string;
  schema : json -> result measurement;
}.

Definition adapters : list adapter :=
  [Adapter ookla_argv parse_ookla; Adapter cli_argv parse_cli].

Definition is_success (r : SpeedTestRecord) : bool :=
  match r with SUCCESS _ _ _ _ => true | FAILED _ => false end.

(** The reason a failure row carries, read off the exception it names. *)
Definition reason_of (e : exn) : reason :=
  match e with
  | FileNotFoundError => ToolNotFound
  | PlainException _ => NonZeroExit
  | JSONDecodeError | KeyError _ | TypeError | AttributeError | ValueError
  | OverflowError =>
      ParseError
  | _ => OtherFailure
  end.

(** The record an outcome of the runner stands for. *)
Definition record_of_outcome (r : result measurement) : SpeedTestRecord :=
  match r with
  | Ok m => SUCCESS (download_mbps m) (upload_mbps m) (json_cell (ping_ms m))
                    (server m)
  | Raise e => FAILED (reason_of e)
  end.

(** The record a row of the speed test series stands for. *)
Definition record_of_row (r : row) : option SpeedTestRecord :=
  match r with
  | [CTime _; CNum d; CNum u; p; CText label; CStr status] =>
      if String.eqb status "success" then Some (SUCCESS d u p label) else None
  | [CTime _; CEmpty; CEmpty; CEmpty; CEmpty; CText (FailedWith e)] =>
      Some (FAILED (reason_of e))
  | _ => None
  end.

(** The rows of the speed test series that stand for a record. *)
Definition is_speed_row (r : row) : Prop := is_Some (record_of_row r).

Section Spec.
Context {E : Environment}.

Definition adapter_parse (a : adapter) (out : string) : SpeedTestRecord :=
  match check_ping (let? data := json_loads out in schema a data) with
  | Ok m => SUCCESS (download_mbps m) (upload_mbps m) (json_cell (ping_ms m))
                    (server m)
  | Raise _ => FAILED ParseError
  end.

(** The adapters from the [n]-th interaction on; [why] is the reason the
    adapter before gave up. *)
Fixpoint spec_speedtest (tools : list adapter) (n : nat) (why : reason)
    : SpeedTestRecord :=
  match tools with
  | [] => FAILED why
  | a :: rest =>
      match subprocess_run n (tool a) with
      | Ok (Completed rc out _) =>
          if (rc =? 0)%Z then adapter_parse a out
          else spec_speedtest rest (S n) NonZeroExit
      | Raise e =>
          if is_FileNotFoundError e then spec_speedtest rest (S n) ToolNotFound
          else FAILED (reason_of e)
      end
  end.
End Spec.

(** What the runner adds to the log after the opening record. *)
Definition outcome_log (r : result measurement) : list log_record :=
  match r with
  | Ok m =>
      match format_1f (ping_ms m) with
      | Ok p => [LogRecord INFO (SpeedTestDone (download_mbps m) (upload_mbps m) p)]
      | Raise _ => []
      end
  | Raise e => if is_Exception e then [LogRecord ERROR (SpeedTestError e)] else []
  end.

(** ** Environments for the worked examples *)

(** A clock of one second per interaction, tools that answer as [run]
    says, and documents read as [docs] says. *)
Definition tools_env (run : nat -> list string -> result CompletedProcess)
    (docs : string -> result json) : Environment := {|
  clock n := (1000000 * Z.of_nat n)%Z;
  subprocess_run := run;
  requests_get _ _ := Raise RequestException;
  float_of_str _ := Raise ValueError;
  json_loads := docs;
  time_sleep _ _ := Ok tt;
  expanduser p := Ok p;
|}.

Definition ookla_document : json :=
  JObj [ ("download", JObj [("bandwidth", JNum 500000000)]);
         ("upload", JObj [("bandwidth", JNum 20000000)]);
         ("ping", JObj [("latency", JNum (123 # 10))]);
         ("server", JObj [("name", JStr "ISP"); ("location", JStr "Town")]) ]%string.

Definition cli_document : json :=
  JObj [ ("download", JNum 94000000); ("upload", JNum 11000000);
         ("ping", JNum 15);
         ("server", JObj [("sponsor", JStr "ISP"); ("name", JStr "Town")]) ]%string.

Definition documents (out : string) : result json :=
  if String.eqb out "ookla" then Ok ookla_document
  else if String.eqb out "cli" then Ok cli_document
  else if String.eqb out "empty" then Ok (JObj [])
  else Raise JSONDecodeError.

(** The primary tool answers. *)
Definition ookla_env : Environment :=
  tools_env (fun _ argv =>
               if bool_decide (argv = ookla_argv) then Ok (Completed 0 "ookla" (Utf8 ""))
               else Raise FileNotFoundError) documents.

(** The primary tool exits with code 1, the fallback answers. *)
Definition fallback_env : Environment :=
  tools_env (fun _ argv =>
               if bool_decide (argv = ookla_argv) then Ok (Completed 1 "" (Utf8 ""))
               else Ok (Completed 0 "cli" (Utf8 ""))) documents.

(** The primary tool is not installed, the fallback answers. *)
Definition missing_primary_env : Environment :=
  tools_env (fun _ argv =>
               if bool_decide (argv = ookla_argv) then Raise FileNotFoundError
               else Ok (Completed 0 "cli" (Utf8 ""))) documents.

(** The primary tool exits with code 1 and the fallback is not installed. *)
Definition missing_fallback_env : Environment :=
  tools_env (fun _ argv =>
               if bool_decide (argv = ookla_argv) then Ok (Completed 1 "" (Utf8 ""))
               else Raise FileNotFoundError) documents.

(** The primary tool exits with code 1; the fallback is installed between
    the first attempt to run it and the second. *)
Definition late_fallback_env : Environment :=
  tools_env (fun n argv =>
               if bool_decide (argv = ookla_argv) then Ok (Completed 1 "" (Utf8 ""))
               else if (n <=? 1)%nat then Raise FileNotFoundError
               else Ok (Completed 0 "cli" (Utf8 ""))) documents.

(** The primary tool exits with code 0 and prints an empty object. *)
Definition empty_document_env : Environment :=
  tools_env (fun _ _ => Ok (Completed 0 "empty" (Utf8 ""))) documents.

(** An interrupt arrives while the primary tool runs. *)
Definition interrupted_tool_env : Environment :=
  tools_env (fun _ _ => Raise KeyboardInterrupt) documents.

(** ** The runner as a function of the environment *)

Section RunnerLemmas.
Context {E : Environment}.
Implicit Types (s : State) (n : nat).

Lemma run_fallback_run msg s :
  run_fallback msg s = (fallback_result (tick s) msg, bump s).
Proof.
  unfold run_fallback, fallback_result. unfold_effects. unfold_monad. simpl.
  destruct (subprocess_run _ _) as [[rc out err]|e]; simpl; [|done].
  destruct (rc =? 0)%Z; simpl; [|done]. by destruct (json_loads out).
Qed.

Lemma measure_run_iter s :
  measure s = (measured (tick s), Nat.iter (attempts (tick s)) bump s).
Proof.
  unfold measure, measured, attempts, catch_missing, missing, try_except.
  unfold_effects. unfold_monad. simpl.
  destruct (subprocess_run (tick s) ookla_argv) as [[rc out err]|e]; simpl.
  - destruct (rc =? 0)%Z; simpl.
    + destruct (json_loads out) as [data|e]; simpl;
        [destruct (parse_ookla data) as [m|e]; simpl; [done|]|];
        rewrite run_fallback_run; by destruct (is_FileNotFoundError e).
    + rewrite !run_fallback_run. simpl.
      destruct (fallback_result _ _) as [m|e]; simpl; [done|].
      by destruct (is_FileNotFoundError e).
  - rewrite run_fallback_run. by destruct (is_FileNotFoundError e).
Qed.

Lemma attempts_bounds n : 1 <= attempts n <= 3.
Proof. unfold attempts. repeat case_match; lia. Qed.

Lemma iter_bump k s :
  tick (Nat.iter k bump s) = tick s + k /\ quiet s (Nat.iter k bump s) /\
  log (Nat.iter k bump s) = log s.
Proof.
  induction k as [|k (Ht & Hq & Hl)]; simpl; [by rewrite Nat.add_0_r|].
  rewrite Ht. split; [lia|]. split; [|done].
  etrans; [apply Hq|]. done.
Qed.

(** The inner [try] runs one to three tools and changes nothing else. *)
Lemma measure_run s :
  exists s', tick s' = tick s + attempts (tick s) /\ quiet s s' /\
    log s' = log s /\ measure s = (measured (tick s), s').
Proof.
  destruct (iter_bump (attempts (tick s)) s) as (? & ? & ?).
  exists (Nat.iter (attempts (tick s)) bump s). by rewrite measure_run_iter.
Qed.

(** What [run_speedtest] returns and the row it appends, stamped with the
    clock read after the tools ran. *)
Lemma run_speedtest_run s :
  eval run_speedtest s = outcome_value (checked (tick s)) /\
  rows_of speedtest_log (exec run_speedtest s)
  = rows_of speedtest_log s
    ++ outcome_rows (clock (tick s + attempts (tick s))) (checked (tick s)).
Proof.
  destruct (measure_run (exec (logger INFO RunningSpeedTest) s))
    as (s2 & Ht & (_ & _ & _ & Hf & _) & _ & Hm).
  revert Ht Hf Hm.
  unfold run_speedtest, checked, check_ping. unfold_effects. unfold_monad. simpl.
  intros Ht Hf ->.
  destruct (measured (tick s)) as [m|e]; simpl;
    [destruct (format_1f (ping_ms m)) as [p|e]; simpl|];
    try destruct (is_Exception e); simpl;
    rewrite ?lookup_insert_eq, ?Ht, ?Hf, ?app_nil_r; done.
Qed.

(** The interactions of a speed test: the tools have run when the row
    is stamped. *)
Lemma run_speedtest_tick s :
  tick s + attempts (tick s) <= tick (exec run_speedtest s).
Proof.
  destruct (measure_run (exec (logger INFO RunningSpeedTest) s))
    as (s2 & Ht & _ & _ & Hm).
  revert Ht Hm.
  unfold run_speedtest, checked, check_ping. unfold_effects. unfold_monad. simpl.
  intros Ht ->.
  destruct (measured (tick s)) as [m|e]; simpl;
    [destruct (format_1f (ping_ms m)) as [p|e]; simpl|];
    try destruct (is_Exception e); simpl; rewrite ?Ht; repeat case_match; simpl; lia.
Qed.

(** A speed test that returns wrote one row, stamped between its start
    and its end on a clock that does not go backwards; one that is
    interrupted wrote none. *)
Lemma run_speedtest_stamped {L : EnvironmentLaws E} s :
  let s' := exec run_speedtest s in
  match eval run_speedtest s with
  | Ok _ => exists r t,
      rows_of speedtest_log s' = rows_of speedtest_log s ++ [r] /\
      row_time r = Some t /\ (clock (tick s) <= t <= clock (tick s'))%Z
  | Raise _ => rows_of speedtest_log s' = rows_of speedtest_log s
  end.
Proof.
  intros s'. destruct (run_speedtest_run s) as [-> Hr]. fold s' in Hr. rewrite Hr.
  pose proof (run_speedtest_tick s) as Ht. fold s' in Ht.
  assert (forall r, row_time r = Some (clock (tick s + attempts (tick s))) ->
            exists r0 t, rows_of speedtest_log s ++ [r] = rows_of speedtest_log s ++ [r0] /\
              row_time r0 = Some t /\ (clock (tick s) <= t <= clock (tick s'))%Z) as Hrow.
  { intros r Hrow. exists r, (clock (tick s + attempts (tick s))).
    repeat split; [done|apply clock_mono; lia|by apply clock_mono]. }
  destruct (checked (tick s)) as [m|e]; simpl; [by apply Hrow|].
  destruct (is_Exception e); simpl; [by apply Hrow|by rewrite app_nil_r].
Qed.

Lemma run_speedtest_log s :
  log (exec run_speedtest s)
  = log s ++ LogRecord INFO RunningSpeedTest :: outcome_log (checked (tick s)).
Proof.
  destruct (measure_run (exec (logger INFO RunningSpeedTest) s))
    as (s2 & _ & _ & Hl & Hm).
  revert Hl Hm. unfold run_speedtest, checked, check_ping, outcome_log.
  unfold_effects. unfold_monad. simpl. intros Hl ->.
  destruct (measured (tick s)) as [m|e]; simpl;
    [destruct (format_1f (ping_ms m)) as [p|e] eqn:Hp; simpl; rewrite ?Hp|];
    try destruct (is_Exception e); simpl; rewrite ?Hl, <- ?app_assoc; done.
Qed.
End RunnerLemmas.

(** ** What the runner leaves alone *)

Section RunnerFrame.
Context {E : Environment}.
Implicit Types (s : State).

#[export] Instance run_fallback_quiet msg : Respects quiet (run_fallback msg).
Proof. unfold run_fallback. respects. Qed.

#[export] Instance measure_quiet : Respects quiet measure.
Proof. unfold measure. respects. Qed.

#[export] Instance run_speedtest_only_series :
  Respects (only_series speedtest_log) run_speedtest.
Proof. unfold run_speedtest. respects. Qed.

#[export] Instance run_speedtest_append_only : AppendOnly run_speedtest.
Proof. unfold run_speedtest. respects. Qed.

#[export] Instance run_speedtest_keeps_store : KeepsStore run_speedtest.
Proof. unfold run_speedtest. respects. Qed.

#[export] Instance run_speedtest_grows :
  Respects (grows speedtest_log is_speed_row) run_speedtest.
Proof. unfold run_speedtest. respects; apply csv_append_grows; by eexists. Qed.

#[export] Instance run_speedtest_grows_connectivity P :
  Respects (grows connectivity_log P) run_speedtest.
Proof. unfold run_speedtest. respects. Qed.

#[export] Instance run_speedtest_aside : Respects aside run_speedtest.
Proof. unfold run_speedtest. respects. Qed.

#[export] Instance run_speedtest_contained : Contained run_speedtest.
Proof. unfold run_speedtest. contained. Qed.
End RunnerFrame.

(** ** What the parsers raise *)

Lemma py_get_raises key d j e : py_get key d j = Raise e -> e = AttributeError.
Proof. unfold per_million, py_get. destruct j; simpl; congruence. Qed.

Lemma py_item_raises key j e :
  py_item key j = Raise e -> e = TypeError \/ e = KeyError key.
Proof. destruct j; simpl; try case_match; intros [= <-]; auto. Qed.

Lemma per_million_raises j e :
  per_million j = Raise e -> e = TypeError \/ e = OverflowError.
Proof.
  unfold per_million. destruct j; simpl; try case_match; intros [= <-]; auto.
Qed.

Lemma format_1f_raises j e :
  format_1f j = Raise e -> e = ValueError \/ e = TypeError \/ e = OverflowError.
Proof. destruct j; simpl; try case_match; intros [= <-]; auto. Qed.

(** A number a float holds is divided and formatted as it is. *)
Lemma per_million_fits q :
  fits_float (q / 1000000) = true -> per_million (JNum q) = Ok (q / 1000000)%Q.
Proof. unfold per_million. simpl. by intros ->. Qed.

Lemma format_1f_fits q : fits_float q = true -> format_1f (JNum q) = Ok q.
Proof. simpl. by intros ->. Qed.

Lemma get2_raises outer inner d data e :
  get2 outer inner d data = Raise e -> e = AttributeError.
Proof.
  unfold get2. destruct (py_get outer _ data) eqn:H1; simpl.
  - apply py_get_raises.
  - intros [= <-]. by apply py_get_raises in H1.
Qed.

Lemma item2_raises outer inner data e :
  item2 outer inner data = Raise e -> reason_of e = ParseError.
Proof.
  unfold item2. destruct (py_item outer data) eqn:H1; simpl.
  - by intros [->| ->]%py_item_raises.
  - intros [= <-]. by apply py_item_raises in H1 as [->| ->].
Qed.

(** Every exception of the two schemas and of the format is a parse
    error. *)
Lemma parse_ookla_reason data e : parse_ookla data = Raise e -> reason_of e = ParseError.
Proof.
  unfold parse_ookla.
  repeat (match goal with
          | |- context [get2 ?a ?b ?c ?d] =>
              let H := fresh in destruct (get2 a b c d) eqn:H; simpl;
              [|try apply get2_raises in H; intros [= <-]; by subst]
          | |- context [per_million ?j] =>
              let H := fresh in destruct (per_million j) eqn:H; simpl;
              [|apply per_million_raises in H as [->| ->]; by intros [= <-]]
          end).
  done.
Qed.

Lemma parse_cli_reason data e : parse_cli data = Raise e -> reason_of e = ParseError.
Proof.
  unfold parse_cli.
  repeat (match goal with
          | |- context [item2 ?a ?b ?d] =>
              let H := fresh in destruct (item2 a b d) eqn:H; simpl;
              [|apply item2_raises in H; by intros [= <-]]
          | |- context [py_item ?a ?d] =>
              let H := fresh in destruct (py_item a d) eqn:H; simpl;
              [|apply py_item_raises in H as [->| ->]; by intros [= <-]]
          | |- context [per_million ?j] =>
              let H := fresh in destruct (per_million j) eqn:H; simpl;
              [|apply per_million_raises in H as [->| ->]; by intros [= <-]]
          end).
  done.
Qed.

Lemma format_1f_reason j e : format_1f j = Raise e -> reason_of e = ParseError.
Proof. by intros [->|[->| ->]]%format_1f_raises. Qed.

Lemma reason_Exception e : reason_of e = ParseError -> is_Exception e = true.
Proof. by destruct e. Qed.

Lemma record_of_success_row t m :
  record_of_row (success_row t m)
  = Some (SUCCESS (download_mbps m) (upload_mbps m) (json_cell (ping_ms m)) (server m)).
Proof. done. Qed.

Lemma record_of_failure_row t e :
  record_of_row (failure_row t e) = Some (FAILED (reason_of e)).
Proof. done. Qed.

(** The record of the row an outcome is stored as. *)
Lemma record_of_outcome_row t o :
  record_of_row (outcome_row t o) = Some (record_of_outcome o).
Proof. by destruct o. Qed.

(** A row that stands for a record is a row of one of the two shapes the
    runner writes. *)
Lemma record_of_row_Some r rec :
  record_of_row r = Some rec ->
  (exists t d u p l,
      r = [CTime t; CNum d; CNum u; p; CText l; CStr "success"] /\ rec = SUCCESS d u p l)
  \/ (exists t e, r = failure_row t e /\ rec = FAILED (reason_of e)).
Proof.
  unfold record_of_row. decode_cases; intros [= <-]; [right; by eauto|left].
  match goal with H : String.eqb _ _ = true |- _ => apply String.eqb_eq in H as -> end.
  by eauto 10.
Qed.

(** ** With no interrupt *)

Section RunnerUninterrupted.
Context {E : Environment} {U : Uninterrupted E}.
Implicit Types (s : State) (n : nat).

Lemma fallback_result_Exception n msg e :
  fallback_result n msg = Raise e -> is_Exception e = true.
Proof.
  unfold fallback_result.
  destruct (subprocess_run n cli_argv) as [[rc out err]|e0] eqn:Hrun.
  - destruct (rc =? 0)%Z; [|by intros [= <-]].
    destruct (json_loads out) as [data|e1] eqn:Hj; simpl.
    + intros ?%parse_cli_reason. by apply reason_Exception.
    + intros [= <-]. destruct e1; try done. by apply json_uninterrupted in Hj.
  - intros [= <-]. destruct e0; try done. by apply run_uninterrupted in Hrun.
Qed.

Lemma catch_missing_Exception n r e :
  (forall e', r = Raise e' -> is_Exception e' = true) ->
  catch_missing n r = Raise e -> is_Exception e = true.
Proof.
  intros Hr. destruct r as [m|e0]; simpl; [done|].
  destruct (is_FileNotFoundError e0); [apply fallback_result_Exception|].
  intros [= <-]. by apply Hr.
Qed.

Lemma measured_Exception n e : measured n = Raise e -> is_Exception e = true.
Proof.
  unfold measured.
  destruct (subprocess_run n ookla_argv) as [[rc out err]|e0] eqn:Hrun.
  - destruct (rc =? 0)%Z; apply catch_missing_Exception.
    + intros e'. destruct (json_loads out) as [data|e1] eqn:Hj; simpl.
      * intros ?%parse_ookla_reason. by apply reason_Exception.
      * intros [= <-]. destruct e1; try done. by apply json_uninterrupted in Hj.
    + apply fallback_result_Exception.
  - apply catch_missing_Exception. intros e' [= <-].
    destruct e0; try done. by apply run_uninterrupted in Hrun.
Qed.

Lemma checked_Exception n e : checked n = Raise e -> is_Exception e = true.
Proof.
  unfold checked, check_ping. destruct (measured n) as [m|e0] eqn:Hm; simpl.
  - destruct (format_1f (ping_ms m)) eqn:Hf; simpl; [done|].
    intros [= <-]. by apply format_1f_reason, reason_Exception in Hf.
  - intros [= <-]. by apply measured_Exception in Hm.
Qed.

End RunnerUninterrupted.

(** ** The runner and the list of adapters *)

Section Refinement.
Context {E : Environment} {L : EnvironmentLaws E}.
Implicit Types (s : State) (n : nat).

(** Output that the tool printed on exit code 0, read by the schema of an
    adapter: the record of the specification. *)
Lemma parsed_record (a : adapter) out :
  (forall data e, schema a data = Raise e -> reason_of e = ParseError) ->
  record_of_outcome (check_ping (let? data := json_loads out in schema a data))
  = adapter_parse a out.
Proof.
  intros Ha. unfold adapter_parse.
  destruct (check_ping _) as [m|e] eqn:Hc; simpl; [done|]. f_equal.
  revert Hc. unfold check_ping.
  destruct (json_loads out) as [data|e1] eqn:Hj; simpl.
  - destruct (schema a data) as [m|e2] eqn:Hs; simpl.
    + destruct (format_1f (ping_ms m)) eqn:Hf; simpl; [done|].
      intros [= <-]. by apply format_1f_reason in Hf.
    + intros [= <-]. by apply Ha in Hs.
  - intros [= <-]. by apply json_loads_raises in Hj as ->.
Qed.

(** What an adapter parsed is not the absence of a tool. *)
Lemma parsed_not_missing (a : adapter) out n :
  (forall data e, schema a data = Raise e -> reason_of e = ParseError) ->
  catch_missing n (let? data := json_loads out in schema a data)
  = (let? data := json_loads out in schema a data).
Proof.
  intros Ha. destruct (json_loads out) as [data|e1] eqn:Hj; simpl.
  - destruct (schema a data) as [m|e2] eqn:Hs; simpl; [done|].
    apply Ha in Hs. by destruct e2.
  - by apply json_loads_raises in Hj as ->.
Qed.

Lemma spec_speedtest_cons a rest n why :
  spec_speedtest (a :: rest) n why
  = match subprocess_run n (tool a) with
    | Ok (Completed rc out _) =>
        if (rc =? 0)%Z then adapter_parse a out
        else spec_speedtest rest (S n) NonZeroExit
    | Raise e =>
        if is_FileNotFoundError e then spec_speedtest rest (S n) ToolNotFound
        else FAILED (reason_of e)
    end.
Proof. done. Qed.

(** The fallback tool as the last adapter of the list. *)
Lemma fallback_record n msg why :
  record_of_outcome (check_ping (fallback_result n msg))
  = spec_speedtest [Adapter cli_argv parse_cli] n why.
Proof.
  unfold fallback_result. simpl.
  destruct (subprocess_run n cli_argv) as [[rc out err]|e]; simpl.
  - destruct (rc =? 0)%Z; [|done].
    apply (parsed_record (Adapter cli_argv parse_cli)), parse_cli_reason.
  - by destruct e.
Qed.

(** The outcome of the runner is the record of the list of adapters, when
    a fallback tool found missing is still missing at the next attempt. *)
Lemma checked_spec n :
  (subprocess_run (S n) cli_argv = Raise FileNotFoundError ->
   subprocess_run (S (S n)) cli_argv = Raise FileNotFoundError) ->
  record_of_outcome (checked n) = spec_speedtest adapters n OtherFailure.
Proof.
  intros Hstable. unfold checked, measured, adapters.
  rewrite spec_speedtest_cons. cbn [tool].
  destruct (subprocess_run n ookla_argv) as [[rc out err]|e].
  - destruct (rc =? 0)%Z.
    + rewrite (parsed_not_missing (Adapter ookla_argv parse_ookla))
        by apply parse_ookla_reason.
      apply (parsed_record (Adapter ookla_argv parse_ookla)), parse_ookla_reason.
    + rewrite <- (fallback_record (S n) both_failed).
      destruct (fallback_result (S n) both_failed) as [m|e] eqn:Hf; simpl; [done|].
      destruct (is_FileNotFoundError e) eqn:He; [|done].
      destruct e; try done. revert Hf. unfold fallback_result.
      destruct (subprocess_run (S n) cli_argv) as [[rc' out']|e'] eqn:Hrun.
      * destruct (rc' =? 0)%Z; [|done].
        destruct (json_loads out') as [data|e1] eqn:Hj; simpl.
        -- by intros ?%parse_cli_reason.
        -- intros [= ->]. by apply json_loads_raises in Hj.
      * intros [= ->]. by rewrite (Hstable eq_refl).
  - cbn [catch_missing]. destruct (is_FileNotFoundError e) eqn:He; [|done].
    apply fallback_record.
Qed.
End Refinement.

(** ** Theorems on the runner *)

Section RunnerTheorems.
Context {E : Environment}.
Implicit Types (s : State) (n : nat).

(** An outcome that is not an interrupt leaves one row, which stands for
    the record of the outcome. *)
Lemma outcome_record t r :
  (forall e, r = Raise e -> is_Exception e = true) ->
  exists row,
    outcome_rows t r = [row] /\
    record_of_row row = Some (record_of_outcome r) /\
    outcome_value r = Ok (is_success (record_of_outcome r)).
Proof.
  intros Hr. destruct r as [m|e]; simpl; [by eexists|].
  rewrite (Hr e eq_refl). by eexists.
Qed.

(** C10: with no interrupt [run_speedtest] returns and leaves exactly one
    more row in the speed test series, a success row when it returns [True]
    and a failure row when it returns [False]; the other series, the
    reports and the connection fields are as they were. *)
Theorem run_speedtest_one_record {U : Uninterrupted E} s :
  exists row rec,
    eval run_speedtest s = Ok (is_success rec) /\
    rows_of speedtest_log (exec run_speedtest s)
    = rows_of speedtest_log s ++ [row] /\
    record_of_row row = Some rec /\
    only_series speedtest_log s (exec run_speedtest s).
Proof.
  destruct (run_speedtest_run s) as [-> ->].
  destruct (outcome_record (clock (tick s + attempts (tick s))) (checked (tick s)))
    as (row & -> & Hrec & ->); [apply checked_Exception|].
  exists row, (record_of_outcome (checked (tick s))).
  repeat split; try done; apply run_speedtest_only_series.
Qed.

(** C9: the record [run_speedtest] leaves is the one the list of adapters
    of the specification produces in the same environment, and the value
    returned says whether it is a success; provided no interrupt arrives and
    a fallback tool found missing is still missing when it is run again. *)
Theorem run_speedtest_refines_adapters
    {L : EnvironmentLaws E} {U : Uninterrupted E} s :
  (subprocess_run (S (tick s)) cli_argv = Raise FileNotFoundError ->
   subprocess_run (S (S (tick s))) cli_argv = Raise FileNotFoundError) ->
  eval run_speedtest s
  = Ok (is_success (spec_speedtest adapters (tick s) OtherFailure)) /\
  exists row,
    rows_of speedtest_log (exec run_speedtest s)
    = rows_of speedtest_log s ++ [row] /\
    record_of_row row = Some (spec_speedtest adapters (tick s) OtherFailure).
Proof.
  intros Hstable. rewrite <- (checked_spec _ Hstable).
  destruct (run_speedtest_run s) as [-> ->].
  destruct (outcome_record (clock (tick s + attempts (tick s))) (checked (tick s)))
    as (row & -> & Hrec & ->); [apply checked_Exception|]. eauto.
Qed.

(** C28: only an interrupt leaves [run_speedtest], and then no row is
    written: the invocation leaves no record. *)
Theorem run_speedtest_interrupted s e :
  eval run_speedtest s = Raise e ->
  e = KeyboardInterrupt /\
  forall f, rows_of f (exec run_speedtest s) = rows_of f s.
Proof.
  intros He. split; [by apply is_Exception_false, (contained s)|].
  intros f. destruct (decide (f = speedtest_log)) as [->|Hne];
    [|by apply (only_series_rows speedtest_log f s);
         [apply run_speedtest_only_series|]].
  destruct (run_speedtest_run s) as [Hv ->]. rewrite Hv in He.
  destruct (checked (tick s)) as [m|e0]; simpl in *; [done|].
  destruct (is_Exception e0); [done|]. by rewrite app_nil_r.
Qed.

(** A measurement that the log line can format ends the run with [True],
    the success row and two INFO records. *)
Lemma run_speedtest_success s m p :
  measured (tick s) = Ok m -> format_1f (ping_ms m) = Ok p ->
  eval run_speedtest s = Ok true /\
  rows_of speedtest_log (exec run_speedtest s)
  = rows_of speedtest_log s ++ [success_row (clock (tick s + attempts (tick s))) m] /\
  log (exec run_speedtest s)
  = log s ++ [LogRecord INFO RunningSpeedTest;
              LogRecord INFO (SpeedTestDone (download_mbps m) (upload_mbps m) p)].
Proof.
  intros Hm Hp. destruct (run_speedtest_run s) as [-> ->].
  rewrite run_speedtest_log. unfold checked, check_ping.
  by rewrite Hm; simpl; rewrite Hp; simpl; rewrite Hp.
Qed.

(** C27: the Ookla schema: when the primary tool exits with code 0 and its
    document holds numbers for the two bandwidths and the latency, the
    bandwidths being such that a float holds their millionth and the
    latency such that a float holds it, [run_speedtest] returns [True] and
    the row holds the bandwidths divided by 1,000,000, the latency as it
    is, and the label made of the name and the location of the server. *)
Theorem ookla_row_normalised s out err data d u p a b :
  subprocess_run (tick s) ookla_argv = Ok (Completed 0 out err) ->
  json_loads out = Ok data ->
  get2 "download" "bandwidth" (JNum 0) data = Ok (JNum d) ->
  get2 "upload" "bandwidth" (JNum 0) data = Ok (JNum u) ->
  get2 "ping" "latency" (JNum 0) data = Ok (JNum p) ->
  fits_float (d / 1000000) = true -> fits_float (u / 1000000) = true ->
  fits_float p = true ->
  get2 "server" "name" (JStr "Unknown") data = Ok a ->
  get2 "server" "location" (JStr "") data = Ok b ->
  eval run_speedtest s = Ok true /\
  rows_of speedtest_log (exec run_speedtest s)
  = rows_of speedtest_log s
    ++ [[ CTime (clock (S (tick s))); CNum (d / 1000000); CNum (u / 1000000);
          CNum p; CText (ServerLabel a b); CStr "success" ]].
Proof.
  intros Hrun Hj Hd Hu Hp Hfd Hfu Hfp Ha Hb.
  assert (parse_ookla data
          = Ok (Measurement (d / 1000000) (u / 1000000) (JNum p) (ServerLabel a b)))
    as Hparse.
  { unfold parse_ookla. rewrite Hd, Hu, Hp, Ha, Hb. cbn [result_bind].
    by rewrite !per_million_fits. }
  assert (measured (tick s) = Ok (Measurement (d / 1000000) (u / 1000000) (JNum p) (ServerLabel a b))) as Hm
    by (unfold measured; by rewrite Hrun, Hj; simpl; rewrite Hparse).
  destruct (run_speedtest_success s _ p Hm (format_1f_fits p Hfp)) as (-> & -> & _).
  unfold attempts. rewrite Hrun, Hj. simpl. rewrite Hparse. simpl.
  by rewrite Nat.add_1_r.
Qed.

(** When the primary tool is missing or exits with a non-zero code
    and the fallback tool then exits with code 0 and prints a document its
    schema reads, [run_speedtest] returns [True], the row is the success row
    of the fallback's measurement, and no error is logged. *)
Theorem fallback_after_primary_failure s r out err data m p :
  subprocess_run (tick s) ookla_argv = r ->
  (r = Raise FileNotFoundError \/
   exists rc out0 err0, r = Ok (Completed rc out0 err0) /\ rc <> 0%Z) ->
  subprocess_run (S (tick s)) cli_argv = Ok (Completed 0 out err) ->
  json_loads out = Ok data -> parse_cli data = Ok m ->
  format_1f (ping_ms m) = Ok p ->
  eval run_speedtest s = Ok true /\
  rows_of speedtest_log (exec run_speedtest s)
  = rows_of speedtest_log s ++ [success_row (clock (S (S (tick s)))) m] /\
  log (exec run_speedtest s)
  = log s ++ [LogRecord INFO RunningSpeedTest;
              LogRecord INFO (SpeedTestDone (download_mbps m) (upload_mbps m) p)].
Proof.
  intros Hr Hcase Hrun Hj Hparse Hp.
  assert (forall msg, fallback_result (S (tick s)) msg = Ok m) as Hf
    by (intros msg; unfold fallback_result; by rewrite Hrun, Hj).
  assert (measured (tick s) = Ok m /\ attempts (tick s) = 2) as [Hm Hk].
  { unfold measured, attempts. rewrite Hr.
    destruct Hcase as [->|(rc & out0 & err0 & -> & Hrc)]; simpl; [by rewrite Hf|].
    apply Z.eqb_neq in Hrc. by rewrite Hrc, Hf. }
  destruct (run_speedtest_success s m p Hm Hp) as (-> & -> & ->).
  rewrite Hk. by replace (tick s + 2) with (S (S (tick s))) by lia.
Qed.

(** C29: when the primary tool exits with a non-zero code and the fallback
    tool is missing, the clause for a missing primary tool catches the
    exception of the fallback and runs the fallback a second time: three
    tools have run, and the outcome is that of the second run. *)
Theorem missing_fallback_runs_twice s rc out err :
  subprocess_run (tick s) ookla_argv = Ok (Completed rc out err) -> rc <> 0%Z ->
  subprocess_run (S (tick s)) cli_argv = Raise FileNotFoundError ->
  eval measure s = fallback_result (S (S (tick s))) not_found /\
  tick (exec measure s) = tick s + 3.
Proof.
  intros Hrun Hrc%Z.eqb_neq Hmiss.
  destruct (measure_run s) as (s' & Ht & _ & _ & Hm).
  assert (fallback_result (S (tick s)) both_failed = Raise FileNotFoundError)
    as Hf by (unfold fallback_result; by rewrite Hmiss).
  unfold eval, exec. rewrite Hm. simpl. rewrite Ht.
  unfold measured, attempts. by rewrite Hrun, Hrc, Hf.
Qed.

(** C30: an empty JSON object printed by the primary tool on exit code 0
    is recorded as a successful test of 0 Mbps: every field of the Ookla
    schema has a default. *)
Theorem empty_document_is_success s out err :
  subprocess_run (tick s) ookla_argv = Ok (Completed 0 out err) ->
  json_loads out = Ok (JObj []) ->
  eval run_speedtest s = Ok true /\
  rows_of speedtest_log (exec run_speedtest s)
  = rows_of speedtest_log s
    ++ [[ CTime (clock (S (tick s))); CNum (0 / 1000000); CNum (0 / 1000000);
          CNum 0; CText (ServerLabel (JStr "Unknown") (JStr "")); CStr "success" ]].
Proof.
  intros Hrun Hj.
  assert (measured (tick s)
          = Ok (Measurement (0 / 1000000) (0 / 1000000) (JNum 0)
                            (ServerLabel (JStr "Unknown") (JStr "")))) as Hm
    by (unfold measured; by rewrite Hrun, Hj).
  destruct (run_speedtest_success s _ 0 Hm eq_refl) as (-> & -> & _).
  unfold attempts. rewrite Hrun, Hj. simpl. by rewrite Nat.add_1_r.
Qed.
End RunnerTheorems.

Section RunnerReturns.
Context {E : Environment} {U : Uninterrupted E}.

(** With no interrupt, [run_speedtest] returns. *)
#[export] Instance run_speedtest_returns : Returns run_speedtest.
Proof.
  intros s. destruct (run_speedtest_run s) as [-> _].
  destruct (checked (tick s)) as [m|e] eqn:Hc; simpl; [done|].
  by rewrite (checked_Exception _ _ Hc).
Qed.
End RunnerReturns.

(** ** Worked examples *)

Lemma tools_env_laws run : EnvironmentLaws (tools_env run documents).
Proof.
  split; simpl.
  - intros i j Hij. lia.
  - by intros s e [= <-].
  - intros s e. unfold documents. by repeat case_match; intros [= <-].
  - done.
  - done.
Qed.

Lemma tools_env_uninterrupted run :
  (forall n argv, run n argv <> Raise KeyboardInterrupt) ->
  Uninterrupted (tools_env run documents).
Proof.
  intros Hrun. split; simpl; try done.
  intros s. unfold documents. by repeat case_match.
Qed.

#[export] Instance ookla_env_uninterrupted : Uninterrupted ookla_env.
Proof. apply tools_env_uninterrupted. intros n argv. by case_match. Qed.

#[export] Instance fallback_env_uninterrupted : Uninterrupted fallback_env.
Proof. apply tools_env_uninterrupted. intros n argv. by case_match. Qed.

(** A raw bandwidth of 500,000,000 is recorded as 500. *)
Example ookla_500_mbps :
  exists m, parse_ookla ookla_document = Ok m /\
            (download_mbps m == 500)%Q /\ (upload_mbps m == 20)%Q.
Proof. eexists. split; [reflexivity|]. by split. Qed.

(** The primary tool answers: one success row, stamped after the tool
    ran. *)
Example speedtest_primary :
  @run_speedtest ookla_env (blank true None)
  = (Ok true,
     mkState true None 0
       {[ speedtest_log :=
            [[ CTime 1000000; CNum (500000000 / 1000000); CNum (20000000 / 1000000);
               CNum (123 # 10); CText (ServerLabel (JStr "ISP") (JStr "Town"));
               CStr "success" ]] ]} ∅
       [ LogRecord INFO RunningSpeedTest;
         LogRecord INFO (SpeedTestDone (500000000 / 1000000) (20000000 / 1000000)
                                       (123 # 10)) ] 2).
Proof. by vm_compute. Qed.

(** A bandwidth written with 400 digits is an integer whose millionth no
    float holds: the division raises and the test is recorded as failed.
    The largest integer whose millionth a float holds is just below
    (2^1024 - 2^970) * 10^6. *)
Example huge_bandwidth_fails :
  per_million (JNum (inject_Z (10 ^ 400))) = Raise OverflowError /\
  per_million (JNum (inject_Z ((2 ^ 1024 - 2 ^ 970) * 10 ^ 6))) = Raise OverflowError /\
  is_Ok (per_million (JNum (inject_Z ((2 ^ 1024 - 2 ^ 970) * 10 ^ 6 - 1)))) = true /\
  parse_ookla (JObj [("download", JObj [("bandwidth", JNum (inject_Z (10 ^ 400)))])]%string)
  = Raise OverflowError /\
  format_1f (JNum (inject_Z (2 ^ 1024 - 2 ^ 970))) = Raise OverflowError.
Proof. by vm_compute. Qed.

(** No tool is installed: one failure row naming the missing file. *)
Example speedtest_no_tool :
  eval (@run_speedtest (idle_env 0 1000000)) (blank true None) = Ok false /\
  rows_of speedtest_log (exec (@run_speedtest (idle_env 0 1000000)) (blank true None))
  = [failure_row 2000000 FileNotFoundError].
Proof. by vm_compute. Qed.

(** Without the proviso the runner and the list of adapters differ:
    when the fallback tool is found missing after the primary tool failed
    and is there when it is run again, [run_speedtest] records a success
    where the specification records a failure with reason tool-not-found. *)
Theorem late_fallback_diverges :
  eval (@run_speedtest late_fallback_env) (blank true None) = Ok true /\
  @spec_speedtest late_fallback_env adapters 0 OtherFailure = FAILED ToolNotFound.
Proof. by vm_compute. Qed.

Lemma run_speedtest_one_record_witness :
  exists row rec,
    eval (@run_speedtest ookla_env) (blank true None) = Ok (is_success rec) /\
    rows_of speedtest_log (exec (@run_speedtest ookla_env) (blank true None))
    = rows_of speedtest_log (blank true None) ++ [row] /\
    record_of_row row = Some rec /\
    only_series speedtest_log (blank true None)
      (exec (@run_speedtest ookla_env) (blank true None)).
Proof.
  apply (@run_speedtest_one_record ookla_env ookla_env_uninterrupted).
Defined.

Lemma run_speedtest_refines_adapters_witness :
  eval (@run_speedtest fallback_env) (blank true None)
  = Ok (is_success (@spec_speedtest fallback_env adapters 0 OtherFailure)) /\
  exists row,
    rows_of speedtest_log (exec (@run_speedtest fallback_env) (blank true None))
    = rows_of speedtest_log (blank true None) ++ [row] /\
    record_of_row row = Some (@spec_speedtest fallback_env adapters 0 OtherFailure).
Proof.
  apply (@run_speedtest_refines_adapters fallback_env (tools_env_laws _)
           fallback_env_uninterrupted (blank true None)).
  by vm_compute.
Defined.

Lemma run_speedtest_interrupted_witness :
  eval (@run_speedtest interrupted_tool_env) (blank true None)
  = Raise KeyboardInterrupt /\
  KeyboardInterrupt = KeyboardInterrupt /\
  forall f, rows_of f (exec (@run_speedtest interrupted_tool_env) (blank true None))
            = rows_of f (blank true None).
Proof.
  split; [by vm_compute|].
  apply (@run_speedtest_interrupted interrupted_tool_env (blank true None)).
  by vm_compute.
Defined.

Lemma ookla_row_normalised_witness :
  eval (@run_speedtest ookla_env) (blank true None) = Ok true /\
  rows_of speedtest_log (exec (@run_speedtest ookla_env) (blank true None))
  = rows_of speedtest_log (blank true None)
    ++ [[ CTime 1000000; CNum (500000000 / 1000000); CNum (20000000 / 1000000);
          CNum (123 # 10); CText (ServerLabel (JStr "ISP") (JStr "Town"));
          CStr "success" ]].
Proof.
  by apply (@ookla_row_normalised ookla_env (blank true None) "ookla" (Utf8 "") ookla_document).
Defined.

Lemma fallback_after_primary_failure_witness :
  eval (@run_speedtest fallback_env) (blank true None) = Ok true /\
  rows_of speedtest_log (exec (@run_speedtest fallback_env) (blank true None))
  = rows_of speedtest_log (blank true None)
    ++ [success_row 2000000
          (Measurement (94000000 / 1000000) (11000000 / 1000000) (JNum 15)
                       (ServerLabel (JStr "ISP") (JStr "Town")))] /\
  log (exec (@run_speedtest fallback_env) (blank true None))
  = log (blank true None)
    ++ [LogRecord INFO RunningSpeedTest;
        LogRecord INFO (SpeedTestDone (94000000 / 1000000) (11000000 / 1000000) 15)].
Proof.
  apply (@fallback_after_primary_failure fallback_env (blank true None)
           (Ok (Completed 1 "" (Utf8 ""))) "cli" (Utf8 "") cli_document); try done.
  right. by exists 1%Z, ""%string, (Utf8 "").
Defined.

Lemma missing_fallback_runs_twice_witness :
  eval (@measure missing_fallback_env) (blank true None)
  = @fallback_result missing_fallback_env 2 not_found /\
  tick (exec (@measure missing_fallback_env) (blank true None)) = 3.
Proof.
  by apply (@missing_fallback_runs_twice missing_fallback_env (blank true None) 1 "" (Utf8 "")).
Defined.

Lemma empty_document_is_success_witness :
  eval (@run_speedtest empty_document_env) (blank true None) = Ok true /\
  rows_of speedtest_log (exec (@run_speedtest empty_document_env) (blank true None))
  = rows_of speedtest_log (blank true None)
    ++ [[ CTime 1000000; CNum (0 / 1000000); CNum (0 / 1000000);
          CNum 0; CText (ServerLabel (JStr "Unknown") (JStr "")); CStr "success" ]].
Proof.
  by apply (@empty_document_is_success empty_document_env (blank true None) "empty" (Utf8 "")).
Defined.
