(* ===== verification/Schema.v ===== *)
(** * Schema: typed series and the report over the history they hold

    A row of a series is typed when it stands for a record of the data
    model: an entry of a probe batch in the connectivity series, a
    disconnect event in the events series, a speed test record in the speed
    test series.  A store is typed when its three series exist, begin with
    their headers and hold typed rows only.  The report of a typed store
    never fails, and it is the report of the specification over the
    history the store holds. *)

From S2P Require Import Prelude Text Config Values World Store StateMachine Probe.
From S2P Require Import Connectivity Report SpeedTest.

(** ** Typed rows and typed stores *)

(** A row of the series [f] stands for a record of the kind [f] holds. *)
Definition row_typed (f : series) (r : row) : Prop :=
  match f with
  | connectivity_log => is_probe_row r
  | speedtest_log => is_speed_row r
  | events_log => is_event_row r
  end.

#[export] Instance row_typed_dec f r : Decision (row_typed f r).
Proof. destruct f; apply _. Defined.

(** The rows of a file of the series [f]: the header, then typed rows. *)
Definition series_typed (f : series) (rows : list row) : Prop :=
  exists data, rows = header_of f :: data /\ Forall (row_typed f) data.

(** Every series exists and is typed. *)
Definition store_typed (s : State) : Prop :=
  forall f, exists rows, files s !! f = Some rows /\ series_typed f rows.

(** The series that exist are typed: a log directory that earlier runs of
    the monitor left, complete or not. *)
Definition files_typed (s : State) : Prop :=
  forall f rows, files s !! f = Some rows -> series_typed f rows.

(** ** The history a store holds *)

(** The rows of a series after its header. *)
Definition data_of (f : series) (s : State) : list row := tail (rows_of f s).

Definition probes_of (s : State) : list probe_record :=
  omap probe_of_row (data_of connectivity_log s).

Definition events_of (s : State) : list DisconnectEvent :=
  omap event_of_row (data_of events_log s).

Definition records_of (s : State) : list SpeedTestRecord :=
  omap record_of_row (data_of speedtest_log s).

(** ** The report of the specification over a history *)

(** The connectivity section over the probes made. *)
Definition connectivity_lines (recs : list probe_record) : list report_line :=
  let failed := length (filter (fun rec => r_status rec = "disconnected"%string) recs) in
  [ RConnectivityHeader; RTotalTests (length recs); RFailedTests failed;
    RSuccessRate (success_rate (length recs) failed) ].

(** The disconnection section over the outages completed. *)
Definition disconnection_lines (evs : list DisconnectEvent) : list report_line :=
  match evs with
  | [] => []
  | _ => [ RDisconnectionHeader; RTotalDisconnections (length evs);
           RTotalDowntime (Qsum (map duration_seconds evs))
                          (Qsum (map duration_seconds evs) / 60)%Q;
           RAverageDisconnect
             (Qsum (map duration_seconds evs) / inject_Z (Z.of_nat (length evs)))%Q ]
  end.

(** The download and upload speeds of the records with status SUCCESS. *)
Definition successes (rs : list SpeedTestRecord) : list (Q * Q) :=
  omap (fun r => match r with
                 | SUCCESS download upload _ _ => Some (download, upload)
                 | FAILED _ => None
                 end) rs.

(** The speed test section over the speed tests run. *)
Definition speed_lines (rs : list SpeedTestRecord) : list report_line :=
  match successes rs with
  | [] => []
  | m :: ms =>
      [ RSpeedHeader; RTotalSpeedTests (length rs);
        RSuccessfulTests (length (m :: ms));
        RAverageDownload (average (map fst (m :: ms)));
        RAverageUpload (average (map snd (m :: ms)));
        RMinDownload (py_min (fst m) (map fst ms));
        RMaxDownload (py_max (fst m) (map fst ms)) ]
  end.

(** The three sections over the history of a store. *)
Definition reference_report (s : State) : list report_line :=
  connectivity_lines (probes_of s) ++ disconnection_lines (events_of s)
  ++ speed_lines (records_of s).

(** The status, download and upload fields of a record of the speed test
    series, by position. *)
Definition is_success_record (d : record) : bool :=
  match values d !! 5%nat with Some c => cell_is "success" c | None => false end.

Definition speeds_of_record (d : record) : Q * Q :=
  (match values d !! 1%nat with Some (CNum q) => q | _ => 0%Q end,
   match values d !! 2%nat with Some (CNum q) => q | _ => 0%Q end).

(** A store with a history: five probes of which two failed, one outage
    and two speed tests of which one failed. *)
Definition kept_store : State :=
  set_files
    {[ connectivity_log :=
         connectivity_header
         :: map connectivity_row
              [ ProbeRecord 1000000 "connected" "8.8.8.8" (Some (123 # 10)) "ping";
                ProbeRecord 2000000 "disconnected" "1.1.1.1" None "ping";
                ProbeRecord 3000000 "connected" "https://a.example" (Some (80 # 1)) "http";
                ProbeRecord 31000000 "disconnected" "8.8.8.8" None "ping";
                ProbeRecord 32000000 "connected" "1.1.1.1" (Some (9 # 1)) "ping" ];
       events_log := [events_header; event_row 4000000 22000000];
       speedtest_log :=
         [ speedtest_header;
           success_row 5000000 (Measurement (500 # 1) (40 # 1) (JNum (12 # 1)) (ServerLabel (JStr "a") (JStr "b")));
           failure_row 65000000 FileNotFoundError ] ]}
    (blank true None).

(** ** Typed rows *)

Lemma typed_nonempty f r : row_typed f r -> nonempty_row r = true.
Proof. by destruct f; intros [x Hx]; destruct r. Qed.

Lemma series_typed_header f : series_typed f [header_of f].
Proof. by exists []. Qed.

Lemma store_typed_wf s : store_typed s -> store_wf s.
Proof. intros Hs f. destruct (Hs f) as (rows & Hf & data & -> & _). eauto. Qed.

Lemma files_typed_ok s : files_typed s -> store_ok s.
Proof. intros Hs f rows Hf. destruct (Hs f rows Hf) as (data & -> & _). eauto. Qed.

(** The data of a typed series, and its rows. *)
Lemma store_typed_data s f :
  store_typed s ->
  files s !! f = Some (header_of f :: data_of f s) /\ Forall (row_typed f) (data_of f s).
Proof.
  intros Hs. destruct (Hs f) as (rows & Hf & data & -> & Hd).
  unfold data_of, rows_of. by rewrite Hf.
Qed.

(** ** Stores that stay typed *)

(** A typed store in which every series grew by typed rows is typed. *)
Lemma store_typed_grows s s' :
  store_typed s -> (forall f, grows f (row_typed f) s s') -> store_typed s'.
Proof.
  intros Hs Hg f. destruct (store_typed_data s f Hs) as [Hf Hd].
  destruct (Hg f) as (more & Hr & Hm). unfold rows_of in Hr. rewrite Hf in Hr.
  destruct (files s' !! f) as [rows|]; [|done]. simpl in Hr. subst rows.
  eexists. split; [done|]. exists (data_of f s ++ more). by rewrite Forall_app.
Qed.

(** The data of a series that grew. *)
Lemma data_of_grows f s s' more :
  store_typed s -> rows_of f s' = rows_of f s ++ more ->
  data_of f s' = data_of f s ++ more.
Proof.
  intros Hs Hr. destruct (store_typed_data s f Hs) as [Hf _].
  unfold data_of. rewrite Hr. unfold rows_of. by rewrite Hf.
Qed.

(** The data of a series whose rows were only appended to. *)
Lemma data_of_prefix f s s' : store_le s s' -> data_of f s `prefix_of` data_of f s'.
Proof.
  intros Hle. destruct (Hle f) as [[more Hr] _]. unfold data_of. rewrite Hr.
  destruct (rows_of f s); [apply prefix_nil|by eexists].
Qed.

(** A store with the files of a typed store is typed. *)
Lemma store_typed_same_files s s' : files s' = files s -> store_typed s -> store_typed s'.
Proof. intros Hf Hs f. rewrite Hf. apply Hs. Qed.

(** [_init_csv_files] makes a typed store of a log directory whose
    series are typed, and changes nothing in a typed store. *)
Lemma init_csv_files_typed {E : Environment} s :
  files_typed s -> store_typed (exec _init_csv_files s).
Proof.
  intros Hs f. rewrite init_csv_files_lookup. eexists. split; [done|].
  destruct (files s !! f) as [rows|] eqn:Hf; simpl;
    [by apply Hs|apply series_typed_header].
Qed.

(** ** The sections over typed rows *)

Section Sections.
Context {E : Environment}.

(** [[d for d in ds if d[key] == lit]] when every record has the field. *)
Lemma select_filter key lit (keep : record -> bool) ds :
  Forall (fun d => field_is key lit d = Ok (keep d)) ds ->
  select key lit ds = Ok (filter (fun d => keep d = true) ds).
Proof.
  induction 1 as [|d ds Hd _ IH]; simpl; [done|]. rewrite Hd, IH.
  rewrite filter_cons. by destruct (keep d).
Qed.

Lemma dict_rows_written header rows :
  Forall (fun r => nonempty_row r = true) rows ->
  dict_rows (header :: rows) = map (Rec header) rows.
Proof. intros H. unfold dict_rows. by rewrite filter_Forall_id. Qed.

Lemma dict_rows_typed f rows :
  Forall (row_typed f) rows -> dict_rows (header_of f :: rows) = map (Rec (header_of f)) rows.
Proof.
  intros H. apply dict_rows_written. eapply Forall_impl; [exact H|].
  apply typed_nonempty.
Qed.

(** The records of the connectivity series that failed are the probes
    that failed. *)
Lemma failed_records recs :
  length (filter (fun d => match values d !! 1%nat with
                           | Some c => cell_is "disconnected" c
                           | None => false
                           end = true)
                 (map (Rec connectivity_header) (map connectivity_row recs)))
  = length (filter (fun rec => r_status rec = "disconnected"%string) recs).
Proof.
  induction recs as [|rec recs IH]; [done|]. simpl map. rewrite !filter_cons.
  simpl. destruct (String.eqb_spec (r_status rec) "disconnected") as [Heq|Hne].
  - rewrite decide_True by done. rewrite (decide_True (P := r_status rec = _)) by done.
    simpl. by rewrite IH.
  - rewrite decide_False by done. by rewrite (decide_False (P := r_status rec = _)).
Qed.

Lemma connectivity_summary_rows recs :
  connectivity_summary (dict_rows (connectivity_header :: map connectivity_row recs))
  = Ok (connectivity_lines recs).
Proof.
  rewrite dict_rows_written by (apply Forall_map, Forall_forall; done).
  unfold connectivity_summary, connectivity_lines.
  rewrite (select_filter _ _ (fun d => match values d !! 1%nat with
                                       | Some c => cell_is "disconnected" c
                                       | None => false end))
    by (apply Forall_map, Forall_map, Forall_forall; done).
  by rewrite failed_records, !length_map.
Qed.

Lemma connectivity_summary_typed rows :
  Forall is_probe_row rows ->
  connectivity_summary (dict_rows (connectivity_header :: rows))
  = Ok (connectivity_lines (omap probe_of_row rows)).
Proof.
  intros H. rewrite <- (encode_decoded _ _ probe_of_row_Some rows H) at 1.
  apply connectivity_summary_rows.
Qed.

Lemma disconnection_summary_lines evs :
  disconnection_summary (dict_rows (events_header :: map row_of_event evs))
  = Ok (disconnection_lines evs).
Proof. rewrite disconnection_summary_events. by destruct evs. Qed.

Lemma disconnection_summary_typed rows :
  Forall is_event_row rows ->
  disconnection_summary (dict_rows (events_header :: rows))
  = Ok (disconnection_lines (omap event_of_row rows)).
Proof.
  intros H. rewrite <- (encode_decoded _ _ event_of_row_Some rows H) at 1.
  apply disconnection_summary_lines.
Qed.

(** The fields the speed test section reads in a typed row: the status
    always, the two speeds when the status is ['success']. *)
Lemma speed_record_fields r :
  is_speed_row r ->
  let d := Rec speedtest_header r in
  field_is "status" "success" d = Ok (is_success_record d) /\
  (is_success_record d = true ->
   float_field "download_mbps" d = Ok (fst (speeds_of_record d)) /\
   float_field "upload_mbps" d = Ok (snd (speeds_of_record d))).
Proof.
  by intros [rec [(t & d & u & p & l & -> & _)|(t & e & -> & _)]%record_of_row_Some].
Qed.

(** The speeds of the records with status ['success'] are those of the
    records the rows stand for. *)
Lemma speeds_of_typed rows :
  Forall is_speed_row rows ->
  map speeds_of_record
      (filter (fun d => is_success_record d = true) (map (Rec speedtest_header) rows))
  = successes (omap record_of_row rows).
Proof.
  induction 1 as [|r rows [rec Hr] _ IH]; [done|].
  change (omap record_of_row (r :: rows))
    with (from_option (fun x => x :: omap record_of_row rows)
                      (omap record_of_row rows) (record_of_row r)).
  rewrite Hr. simpl map. rewrite filter_cons.
  destruct (record_of_row_Some _ _ Hr) as [(t & d & u & p & l & -> & ->)|(t & e & -> & ->)];
    simpl; unfold successes in *; simpl; by rewrite IH.
Qed.

(** The two speeds are read in every record with status ['success']. *)
Lemma success_records_fields rows :
  Forall is_speed_row rows ->
  Forall (fun d => float_field "download_mbps" d = Ok (fst (speeds_of_record d)) /\
                   float_field "upload_mbps" d = Ok (snd (speeds_of_record d)))
         (filter (fun d => is_success_record d = true) (map (Rec speedtest_header) rows)).
Proof.
  induction 1 as [|r rows Hr _ IH]; [constructor|]. simpl map. rewrite filter_cons.
  destruct (speed_record_fields r Hr) as [_ Hk]. case_decide; [|done].
  constructor; auto.
Qed.

Lemma speedtest_summary_typed rows :
  Forall is_speed_row rows ->
  speedtest_summary (dict_rows (speedtest_header :: rows))
  = Ok (speed_lines (omap record_of_row rows)).
Proof.
  intros H. rewrite (dict_rows_typed speedtest_log) by done.
  unfold speedtest_summary, speed_lines. simpl header_of.
  rewrite (select_filter _ _ is_success_record)
    by (apply Forall_map; eapply Forall_impl; [exact H|]; apply speed_record_fields).
  rewrite <- (speeds_of_typed rows H), (decoded_length _ rows H), length_map.
  pose proof (success_records_fields rows H) as Hds. set (ds := filter _ _) in *.
  rewrite (float_fields_map _ (fun d => fst (speeds_of_record d)) ds),
          (float_fields_map _ (fun d => snd (speeds_of_record d)) ds)
    by (eapply Forall_impl; [exact Hds|]; by intros d [? ?]).
  destruct ds as [|d ds]; [done|]. simpl. by rewrite !map_map, !length_map.
Qed.
End Sections.

(** ** The report of a typed store *)

Section TypedReport.
Context {E : Environment}.

(** The three analyses of a typed store succeed, and give the sections
    of the specification over its history. *)
Lemma report_body_typed s : store_typed s -> report_body s = (reference_report s, None).
Proof.
  intros Hs. unfold report_body, section_lines, reference_report.
  destruct (store_typed_data s connectivity_log Hs) as [-> Hc].
  destruct (store_typed_data s events_log Hs) as [-> He].
  destruct (store_typed_data s speedtest_log Hs) as [-> Hsp]. cbn [header_of].
  by rewrite (connectivity_summary_typed _ Hc), (disconnection_summary_typed _ He),
             (speedtest_summary_typed _ Hsp).
Qed.

(** The report of a store depends on its files only. *)
Lemma reference_report_files s s' :
  files s' = files s -> reference_report s' = reference_report s.
Proof.
  intros H. unfold reference_report, probes_of, events_of, records_of, data_of, rows_of.
  by rewrite H.
Qed.

(** [generate_report] on a typed store: the name of the file, and the
    lines of the file. *)
Lemma typed_report_run s :
  store_typed s ->
  eval generate_report s = Ok (Some (report_stamp (clock (tick s)))) /\
  report_lines (report_stamp (clock (tick s))) (exec generate_report s)
  = [RTitle; RRule; RGenerated (clock (S (tick s)))] ++ reference_report s.
Proof.
  intros Hs. destruct (generate_report_run s) as [Hl He].
  by rewrite (report_body_typed s Hs) in Hl, He.
Qed.

Lemma generate_report_typed s : store_typed s -> store_typed (exec generate_report s).
Proof.
  apply store_typed_same_files.
  by destruct (respects (R := report_only) (c := generate_report) s) as [-> _].
Qed.

(** C13: the report of a typed store never fails, and it is the report
    of the specification.  In a store whose three series exist, begin with
    their headers and hold only rows that stand for a record of the data
    model, the three analyses of [generate_report] raise nothing, and the
    lines they give are the sections of the specification computed from
    the records the rows stand for: the number of probes, of failed probes
    and the success rate; the number of outages, the total and the average
    downtime (left out without an outage); the number of speed tests and
    of successful ones, the average, least and greatest download speed and
    the average upload speed over the records with status SUCCESS (left
    out without one).  [generate_report] then returns the name of its
    file, which holds the title, the rule and the date before these lines,
    and the store is still typed. *)
Theorem typed_report s :
  store_typed s ->
  report_body s = (reference_report s, None) /\
  eval generate_report s = Ok (Some (report_stamp (clock (tick s)))) /\
  report_lines (report_stamp (clock (tick s))) (exec generate_report s)
  = [RTitle; RRule; RGenerated (clock (S (tick s)))] ++ reference_report s /\
  store_typed (exec generate_report s).
Proof.
  intros Hs. split; [by apply report_body_typed|].
  destruct (typed_report_run s Hs) as [He Hl]. by auto using generate_report_typed.
Qed.
End TypedReport.

(** ** Worked examples *)

Lemma kept_store_typed : store_typed kept_store.
Proof.
  intros f. destruct f; (eexists; split; [reflexivity|]);
    (eexists; split; [reflexivity|]); repeat constructor; by eexists.
Qed.

(** The report of the store with a history. *)
Example report_of_kept_store :
  reference_report kept_store
  = [ RConnectivityHeader; RTotalTests 5; RFailedTests 2; RSuccessRate (300 # 5);
      RDisconnectionHeader; RTotalDisconnections 1;
      RTotalDowntime (18000000 # 1000000) (18000000 # 60000000);
      RAverageDisconnect (18000000 # 1000000);
      RSpeedHeader; RTotalSpeedTests 2; RSuccessfulTests 1;
      RAverageDownload (500 # 1); RAverageUpload (40 # 1);
      RMinDownload (500 # 1); RMaxDownload (500 # 1) ].
Proof. by vm_compute. Qed.

Lemma typed_report_witness :
  let E := answering_env 200 in
  report_body kept_store = (reference_report kept_store, None) /\
  eval generate_report kept_store = Ok (Some (report_stamp (clock (tick kept_store)))) /\
  report_lines (report_stamp (clock (tick kept_store))) (exec generate_report kept_store)
  = [RTitle; RRule; RGenerated (clock (S (tick kept_store)))]
    ++ reference_report kept_store /\
  store_typed (exec generate_report kept_store).
Proof. apply (@typed_report (answering_env 200) kept_store), kept_store_typed. Defined.
