(* ===== verification/Rendered.v ===== *)
(** * Rendered: the report read from the text of the series

    The store keeps the rows of a series as typed cells, and
    [generate_report] is modelled on them.  The program reads text: every
    field [csv.DictReader] gives is a string, compared with the literals of
    the source and converted by [float].  This file reads the series back
    from their text ([Csv]) and shows that, on a typed store, the analyses
    of the report see the same thing in both: the same records are
    selected and the same numbers read, provided a string is written as it
    is, the status of a failed speed test is not written as [success], and
    [float] reads back the numbers that were written. *)

From stdpp Require Import pretty.
From S2P Require Import Prelude Text Config Values Csv World Store StateMachine Probe.
From S2P Require Import Connectivity Report SpeedTest Schema.

(** ** Rows as they are read *)

(** The field [csv.DictReader] gives for a cell: the text it was written
    as, with its line breaks translated. *)
Definition read_cell (str : cell -> string) (c : cell) : cell :=
  CStr (universal (str c)).

(** The row read for a row of the store. *)
Definition as_read (str : cell -> string) (r : row) : row := map (read_cell str) r.

(** The record read for a record of the store. *)
Definition read_record (str : cell -> string) (d : record) : record :=
  Rec (as_read str (fieldnames d)) (as_read str (values d)).

(** How the cells are written, as far as the report depends on it: a
    string as it is (lines 95-107, 201-204, 227, 300), and the status of a
    failed speed test as a text that is not [success] (line 314). *)
Class Rendering (str : cell -> string) : Prop := {
  str_string : forall s, str (CStr s) = s;
  str_failed : forall e, universal (str (CText (FailedWith e))) <> "success"%string;
}.

(** A number that [float] reads back from its text as it was written. *)
Definition cell_read {E : Environment} (str : cell -> string) (c : cell) : Prop :=
  match c with
  | CNum q => float_of_str (universal (str c)) = Ok q
  | _ => True
  end.

(** Every number of the store is read back. *)
Definition numbers_read {E : Environment} (str : cell -> string) (s : State) : Prop :=
  forall f, Forall (Forall (cell_read str)) (rows_of f s).

(** [list(csv.DictReader(csvfile))] over the text that holds [rows]. *)
Definition text_records (str : cell -> string) (rows : list row) : result (list record) :=
  let? texts := read_file (stored str rows) in
  Ok (dict_rows (map (map CStr) texts)).

(** The lines a section contributes when it reads the text of the file. *)
Definition text_section_lines (str : cell -> string) (f : series)
    (summary : list record -> result (list report_line)) (s : State)
    : result (list report_line) :=
  match files s !! f with
  | None => Ok []
  | Some rows => let? data := text_records str rows in summary data
  end.

(** A rendering for the worked examples: numbers as a fraction, times as
    a count of microseconds, and a fixed text for each kind of formatted
    text. *)
Definition plain_str (c : cell) : string :=
  match c with
  | CEmpty => ""
  | CStr s => s
  | CNum q => pretty (Qnum q) +:+ "/" +:+ pretty (Z.pos (Qden q))
  | CTime t => pretty t
  | CText (FailedWith _) => "failed: error"
  | CText (ServerLabel _ _) => "Server - Town, Country"
  | CText _ => "text"
  end.

(** An environment in which [float] reads the numbers of [kept_store]. *)
Definition reading_env : Environment := {|
  clock n := (1000000 * Z.of_nat n)%Z;
  subprocess_run _ _ := Raise FileNotFoundError;
  requests_get _ _ := Raise RequestException;
  float_of_str s :=
    if String.eqb s "123/10" then Ok (123 # 10)
    else if String.eqb s "80/1" then Ok (80 # 1)
    else if String.eqb s "9/1" then Ok (9 # 1)
    else if String.eqb s "18000000/1000000" then Ok (18000000 # 1000000)
    else if String.eqb s "12/1" then Ok (12 # 1)
    else if String.eqb s "500/1" then Ok (500 # 1)
    else if String.eqb s "40/1" then Ok (40 # 1)
    else Raise ValueError;
  json_loads _ := Raise JSONDecodeError;
  time_sleep _ _ := Ok tt;
  expanduser p := Ok p;
|}.

(** ** Records as they are read *)

Section Reading.
Context {E : Environment} (str : cell -> string) `{!Rendering str}.
Implicit Types (r : row) (d : record) (ds : list record).

Lemma as_read_length r : length (as_read str r) = length r.
Proof. apply length_map. Qed.

Lemma as_read_nonempty r : nonempty_row (as_read str r) = nonempty_row r.
Proof. by destruct r. Qed.

(** The field names are read as they were written. *)
Lemma as_read_header f : as_read str (header_of f) = header_of f.
Proof. destruct f; cbn; unfold read_cell; by rewrite !str_string. Qed.

(** The rows the reader gives are the rows of the store, as read. *)
Lemma text_records_read rows :
  text_records str rows = Ok (dict_rows (map (as_read str) rows)).
Proof.
  unfold text_records, stored. rewrite read_translated. cbn [result_bind].
  do 2 f_equal. rewrite !map_map. apply map_ext. intros r.
  unfold as_read, read_cell. by rewrite !map_map.
Qed.

Lemma dict_rows_read rows :
  dict_rows (map (as_read str) rows) = map (read_record str) (dict_rows rows).
Proof.
  destruct rows as [|header data]; [done|]. cbn [map dict_rows].
  rewrite map_map. induction data as [|r data IH]; [done|].
  cbn [map]. rewrite !filter_cons, as_read_nonempty.
  case_decide; cbn [map]; by rewrite IH.
Qed.

Lemma zip_lookup_read key header r :
  zip_lookup key header (as_read str r)
  = read_cell str <$> zip_lookup key header r.
Proof.
  revert r. induction header as [|h header IH]; intros [|c r]; try done.
  cbn [as_read map zip_lookup]. fold (as_read str r). rewrite IH.
  destruct (zip_lookup key header r); [done|]. by destruct (cell_is key h).
Qed.

(** A field of a record as it is read: the field of the record of the
    store, as text. *)
Lemma dict_get_read key header r :
  dict_get (Rec header (as_read str r)) key
  = match dict_get (Rec header r) key with
    | Ok c => Ok (read_cell str <$> c)
    | Raise e => Raise e
    end.
Proof.
  unfold dict_get. cbn [values fieldnames]. rewrite as_read_length, zip_lookup_read.
  destruct (existsb _ _); [done|]. by destruct (zip_lookup key header r).
Qed.

(** Selecting and converting commute with reading when the fields read
    compare and convert alike. *)
Lemma select_read key lit ds :
  Forall (fun d => field_is key lit (read_record str d) = field_is key lit d) ds ->
  select key lit (map (read_record str) ds)
  = match select key lit ds with
    | Ok l => Ok (map (read_record str) l)
    | Raise e => Raise e
    end.
Proof.
  induction 1 as [|d ds Hd _ IH]; [done|]. cbn [map select]. rewrite Hd, IH.
  destruct (field_is key lit d) as [[]|]; [| |done]; by destruct (select key lit ds).
Qed.

Lemma float_fields_read key ds :
  Forall (fun d => float_field key (read_record str d) = float_field key d) ds ->
  float_fields key (map (read_record str) ds) = float_fields key ds.
Proof. induction 1 as [|d ds Hd _ IH]; [done|]. cbn [map float_fields]. by rewrite Hd, IH. Qed.
End Reading.

(** ** The fields the report reads *)

Section Fields.
Context {E : Environment} (str : cell -> string) `{!Rendering str}.
Implicit Types (r : row) (d : record) (ds : list record).

Lemma field_is_read key lit f r :
  field_is key lit (read_record str (Rec (header_of f) r))
  = match dict_get (Rec (header_of f) r) key with
    | Ok (Some c) => Ok (cell_is lit (read_cell str c))
    | Ok None => Ok false
    | Raise e => Raise e
    end.
Proof.
  unfold field_is, read_record. cbn [fieldnames values].
  rewrite as_read_header, dict_get_read by done.
  by destruct (dict_get _ _) as [[c|]|].
Qed.

Lemma float_field_read key f r :
  float_field key (read_record str (Rec (header_of f) r))
  = match dict_get (Rec (header_of f) r) key with
    | Ok (Some c) => py_float (read_cell str c)
    | Ok None => Raise TypeError
    | Raise e => Raise e
    end.
Proof.
  unfold float_field, read_record. cbn [fieldnames values].
  rewrite as_read_header, dict_get_read by done.
  by destruct (dict_get _ _) as [[c|]|].
Qed.

(** The status of an entry of the connectivity series compares alike. *)
Lemma probe_status_read r :
  is_probe_row r ->
  let d := Rec (header_of connectivity_log) r in
  field_is "status" "disconnected" (read_record str d) = field_is "status" "disconnected" d.
Proof.
  intros [rec H] d. subst d. revert H.
  unfold probe_of_row. decode_cases;
    repeat match goal with
           | H : (_ && _)%bool = true |- _ => apply andb_prop in H as [? ?]
           | H : String.eqb _ _ = true |- _ => apply String.eqb_eq in H as ->
           end;
    intros _; rewrite field_is_read; cbn; unfold read_cell; by rewrite str_string.
Qed.

(** The type and the duration of an event are read alike. *)
Lemma event_fields_read r :
  is_event_row r -> Forall (cell_read str) r ->
  let d := Rec (header_of events_log) r in
  field_is "event_type" "disconnect" (read_record str d)
  = field_is "event_type" "disconnect" d /\
  float_field "duration_seconds" (read_record str d) = float_field "duration_seconds" d.
Proof.
  intros [ev ->%event_of_row_Some] Hr d. subst d.
  rewrite field_is_read, float_field_read. cbn. unfold read_cell.
  rewrite str_string. split; [done|].
  by apply Forall_cons in Hr as [_ [_ [Hq _]%Forall_cons]%Forall_cons].
Qed.

(** The status of a speed test is read alike, and so are the speeds of a
    successful one. *)
Lemma speed_fields_read r :
  is_speed_row r -> Forall (cell_read str) r ->
  let d := Rec (header_of speedtest_log) r in
  field_is "status" "success" (read_record str d) = field_is "status" "success" d /\
  (is_success_record d = true ->
   float_field "download_mbps" (read_record str d) = float_field "download_mbps" d /\
   float_field "upload_mbps" (read_record str d) = float_field "upload_mbps" d).
Proof.
  intros [rec H] Hr d. subst d. rewrite field_is_read, !float_field_read.
  destruct (record_of_row_Some _ _ H) as [(t & dn & up & p & l & -> & _)|(t & e & -> & _)];
    cbn; unfold read_cell.
  - rewrite str_string. split; [done|]. intros _.
    by apply Forall_cons in Hr as [_ [Hd [Hu _]%Forall_cons]%Forall_cons].
  - split; [|done]. by rewrite (proj2 (String.eqb_neq _ _) (str_failed e)).
Qed.
End Fields.

(** ** The sections computed from the text *)

Section Sections.
Context {E : Environment} (str : cell -> string) `{!Rendering str}.
Implicit Types (r : row) (d : record) (ds : list record).

(** What holds of every record holds of those selected. *)
Lemma select_Forall (P : record -> Prop) key lit ds l :
  Forall P ds -> select key lit ds = Ok l -> Forall P l.
Proof.
  intros H. revert l. induction H as [|d ds Hd _ IH]; intros l; simpl; [by intros [= <-]|].
  destruct (field_is key lit d) as [keep|]; [|done].
  destruct (select key lit ds) as [rest|]; [|done]. intros [= <-].
  destruct keep; [constructor|]; auto.
Qed.

Lemma connectivity_summary_read rows :
  Forall is_probe_row rows ->
  connectivity_summary (dict_rows (map (as_read str) (connectivity_header :: rows)))
  = connectivity_summary (dict_rows (connectivity_header :: rows)).
Proof.
  intros H. rewrite dict_rows_read, (dict_rows_typed connectivity_log) by done.
  unfold connectivity_summary. rewrite select_read.
  - destruct (select _ _ _); [|done]. by rewrite !length_map.
  - apply Forall_map. eapply Forall_impl; [exact H|]. apply probe_status_read; apply _.
Qed.

Lemma disconnection_summary_read rows :
  Forall is_event_row rows -> Forall (Forall (cell_read str)) rows ->
  disconnection_summary (dict_rows (map (as_read str) (events_header :: rows)))
  = disconnection_summary (dict_rows (events_header :: rows)).
Proof.
  intros H Hn. rewrite dict_rows_read, (dict_rows_typed events_log) by done.
  assert (Forall (fun d =>
            field_is "event_type" "disconnect" (read_record str d)
            = field_is "event_type" "disconnect" d /\
            float_field "duration_seconds" (read_record str d)
            = float_field "duration_seconds" d)
          (map (Rec (header_of events_log)) rows)) as Hd.
  { apply Forall_map. rewrite Forall_forall in H, Hn. apply Forall_forall.
    intros r Hr. by apply event_fields_read; [|apply H|apply Hn]. }
  unfold disconnection_summary. rewrite select_read
    by (eapply Forall_impl; [exact Hd|]; by intros d [? _]).
  destruct (select _ _ _) as [l|] eqn:Hl; [|done].
  rewrite float_fields_read
    by (eapply Forall_impl; [exact (select_Forall _ _ _ _ _ Hd Hl)|]; by intros d [_ ?]).
  destruct l; [done|]. cbn [map]. by rewrite !length_cons, !length_map.
Qed.
Lemma speedtest_summary_read rows :
  Forall is_speed_row rows -> Forall (Forall (cell_read str)) rows ->
  speedtest_summary (dict_rows (map (as_read str) (speedtest_header :: rows)))
  = speedtest_summary (dict_rows (speedtest_header :: rows)).
Proof.
  intros H Hn. rewrite dict_rows_read, (dict_rows_typed speedtest_log) by done.
  set (ds := map (Rec (header_of speedtest_log)) rows).
  assert (forall d, d ∈ ds ->
            field_is "status" "success" d = Ok (is_success_record d) /\
            field_is "status" "success" (read_record str d) = field_is "status" "success" d /\
            (is_success_record d = true ->
             float_field "download_mbps" (read_record str d) = float_field "download_mbps" d /\
             float_field "upload_mbps" (read_record str d) = float_field "upload_mbps" d))
    as Hd.
  { intros d (r & -> & Hr)%list_elem_of_fmap. rewrite Forall_forall in H, Hn.
    split; [by apply speed_record_fields, H|].
    by apply speed_fields_read; [|apply H|apply Hn]. }
  unfold speedtest_summary.
  rewrite select_read by (apply Forall_forall; intros d Hin; by apply Hd).
  rewrite (select_filter _ _ is_success_record)
    by (apply Forall_forall; intros d Hin; by apply Hd).
  set (l := filter _ ds).
  assert (forall d, d ∈ l -> is_success_record d = true /\ d ∈ ds) as Hl
    by (by intros d ?%list_elem_of_filter).
  rewrite !float_fields_read
    by (apply Forall_forall; intros d [Hs Hin]%Hl; by apply Hd).
  destruct l; [done|]. cbn [map]. by rewrite !length_cons, !length_map.
Qed.

(** On a typed series the analysis of a section gives the same lines
    from the text of the file as from the rows of the store. *)
Lemma text_section_typed f summary s :
  (forall rows, Forall (row_typed f) rows -> Forall (Forall (cell_read str)) rows ->
     summary (dict_rows (map (as_read str) (header_of f :: rows)))
     = summary (dict_rows (header_of f :: rows))) ->
  store_typed s -> numbers_read str s ->
  text_section_lines str f summary s = section_lines f summary s.
Proof.
  intros Hsum Hs Hn. unfold text_section_lines, section_lines.
  destruct (store_typed_data s f Hs) as [Hf Hd]. rewrite Hf, text_records_read.
  cbn [result_bind]. apply Hsum; [done|].
  specialize (Hn f). unfold rows_of in Hn. rewrite Hf in Hn.
  by apply Forall_cons in Hn as [_ ?].
Qed.
End Sections.

(** ** The report of a typed store, read from its text *)

Section Report.
Context {E : Environment} (str : cell -> string) `{!Rendering str}.

Lemma section_lines_typed f summary s :
  store_typed s ->
  section_lines f summary s = summary (dict_rows (header_of f :: data_of f s)).
Proof.
  intros Hs. unfold section_lines. by destruct (store_typed_data s f Hs) as [-> _].
Qed.

(** C16: the report read from the text of the series.  On a typed store
    whose numbers [float] reads back as they were written, with strings
    written as they are and the status of a failed speed test never written
    as [success], the three analyses of [generate_report], run on what
    [csv.DictReader] reads in the text of the files (every field a string,
    compared with the literals of the source and converted by [float]),
    raise nothing and give the sections of the specification over the
    history the store holds: the typed rows of the model stand for the
    text of the files. *)
Theorem report_from_text s :
  store_typed s -> numbers_read str s ->
  text_section_lines str connectivity_log connectivity_summary s
  = Ok (connectivity_lines (probes_of s)) /\
  text_section_lines str events_log disconnection_summary s
  = Ok (disconnection_lines (events_of s)) /\
  text_section_lines str speedtest_log speedtest_summary s
  = Ok (speed_lines (records_of s)).
Proof.
  intros Hs Hn. split_and!.
  - rewrite (text_section_typed str connectivity_log), section_lines_typed; try done.
    + apply connectivity_summary_typed, (store_typed_data s connectivity_log Hs).
    + intros rows Hr _. by apply connectivity_summary_read.
  - rewrite (text_section_typed str events_log), section_lines_typed; try done.
    + apply disconnection_summary_typed, (store_typed_data s events_log Hs).
    + intros rows Hr Hq. by apply disconnection_summary_read.
  - rewrite (text_section_typed str speedtest_log), section_lines_typed; try done.
    + apply speedtest_summary_typed, (store_typed_data s speedtest_log Hs).
    + intros rows Hr Hq. by apply speedtest_summary_read.
Qed.
End Report.

(** ** Worked examples *)

#[export] Instance plain_str_rendering : Rendering plain_str.
Proof. by split. Qed.

Lemma kept_store_numbers_read : @numbers_read reading_env plain_str kept_store.
Proof. intros f. destruct f; repeat constructor. Qed.

(** The text of the speed test series of the store with a history. *)
Example kept_store_speed_text :
  file_text plain_str speedtest_log kept_store
  = Some ("timestamp,download_mbps,upload_mbps,ping_ms,server,status" +:+ crlf
          +:+ "5000000,500/1,40/1,12/1,"
          +:+ String quotechar ("Server - Town, Country" +:+ String quotechar ",success")
          +:+ crlf
          +:+ "65000000,,,,,failed: error" +:+ crlf)%string.
Proof. by vm_compute. Qed.

Lemma report_from_text_witness :
  let E := reading_env in
  text_section_lines plain_str connectivity_log connectivity_summary kept_store
  = Ok (connectivity_lines (probes_of kept_store)) /\
  text_section_lines plain_str events_log disconnection_summary kept_store
  = Ok (disconnection_lines (events_of kept_store)) /\
  text_section_lines plain_str speedtest_log speedtest_summary kept_store
  = Ok (speed_lines (records_of kept_store)).
Proof.
  apply (@report_from_text reading_env plain_str _ kept_store);
    [apply kept_store_typed|apply kept_store_numbers_read].
Defined.
