(* ===== verification/Upload.v ===== *)
(** * Upload: copying the files to a remote host

    [upload_logs] of src/internet_monitor.py: the options of the section
    [VPS], the [ssh] command that creates the remote directory, one [scp]
    per series that exists and one for the latest report.  A failure is
    logged and does not reach the caller, with two exceptions: the option
    [enabled] is read before the [try], and the clause for a command that
    failed decodes the standard error it captured, which raises when that
    is not UTF-8. *)

From stdpp Require Import pretty.
From S2P Require Import Prelude Text Config Values World Store.

(** The names of the three series in the log directory. *)
Definition file_name (f : series) : string :=
  match f with
  | connectivity_log => "connectivity.csv"
  | speedtest_log => "speedtest.csv"
  | events_log => "events.csv"
  end.

(** [csv_files], as the series they name. *)
Definition csv_files : list series := [connectivity_log; speedtest_log; events_log].

(** [str(self.log_dir / name)], [log_dir] being the text of the path: a
    name joined to the current directory is the name, and no separator is
    added after the root. *)
Definition local_path (cfg : Config) (name : string) : string :=
  path_join (log_dir cfg) name.

(** The name of a report; the stamp is written as a count of seconds. *)
Definition report_name (stamp : Z) : string :=
  "report_" +:+ pretty stamp +:+ ".txt".

(** [['ssh', '-i', key_file, f'{username}@{hostname}', f'mkdir -p {remote_dir}']] *)
Definition ssh_argv (key_file username hostname remote_dir : string) : list string :=
  ["ssh"; "-i"; key_file; username +:+ "@" +:+ hostname;
   "mkdir -p " +:+ remote_dir]%string.

(** [['scp', '-i', key_file, path, f'{username}@{hostname}:{remote_dir}/']] *)
Definition scp_argv (key_file path username hostname remote_dir : string)
    : list string :=
  ["scp"; "-i"; key_file; path;
   username +:+ "@" +:+ hostname +:+ ":" +:+ remote_dir +:+ "/"]%string.

(** [max(report_files, key=lambda x: x.stat().st_mtime)].  The store keeps
    the stamp of a report and not the time its file was modified: the
    reports are taken to be modified in the order of their stamps, as they
    are when this program wrote them on a clock that does not go backwards,
    so that the latest is the one of the greatest stamp. *)
Definition latest_report (reports : gmap Z (list report_line)) : option Z :=
  foldr (fun k acc => Some (from_option (Z.max k) k acc)) None
        (map fst (map_to_list reports)).

Section Upload.
Context {E : Environment}.

(** The body of the loop over [csv_files]. *)
Definition upload_file (cfg : Config) (key_file username hostname remote_dir : string)
    (f : series) : M State unit :=
  let! present := path_exists f in
  if present then
    check_process (scp_argv key_file (local_path cfg (file_name f))
                            username hostname remote_dir) ;;
    logger DEBUG (Uploaded (file_name f))
  else logger DEBUG (NotFoundLocally (file_name f)).

(** The commands of [upload_logs] (lines 404-425): the remote directory,
    the series, the latest report. *)
Definition upload_commands (cfg : Config) (key_file username hostname remote_dir : string)
    : M State unit :=
  check_process (ssh_argv key_file username hostname remote_dir) ;;
  for_each csv_files (upload_file cfg key_file username hostname remote_dir) ;;
  let! report_files := gets reports in
  match latest_report report_files with
  | Some stamp =>
      check_process (scp_argv key_file (local_path cfg (report_name stamp))
                              username hostname remote_dir) ;;
      logger DEBUG (UploadedReport stamp)
  | None => ret tt
  end.

(** The text after [SCP upload failed:] (line 430): the captured standard
    error decoded when there is one, [str(e)] otherwise. *)
Definition scp_failure (e : exn) (stderr : bytes) : result (string + exn) :=
  if bytes_truth stderr then let? text := decode stderr in Ok (inl text)
  else Ok (inr e).

(** The two [except] clauses of [upload_logs] (lines 429-432); what the
    first raises is not caught by the second. *)
Definition upload_failed (e : exn) : M State unit :=
  match e with
  | CalledProcessError _ stderr =>
      let! detail := lift (scp_failure e stderr) in
      logger ERROR (ScpUploadFailed detail)
  | _ => logger ERROR (LogUploadFailed e)
  end.

(** The suite of the [try] statement (lines 394-427). *)
Definition upload_body (cfg : Config) : M State unit :=
  let! hostname := lift (config_get "VPS" "hostname" (config cfg)) in
  let! username := lift (config_get "VPS" "username" (config cfg)) in
  let! key_path := lift (config_get "VPS" "key_file" (config cfg)) in
  let! key_file := lift (expanduser key_path) in
  let! remote_dir := lift (config_get "VPS" "remote_directory" (config cfg)) in
  logger INFO (UploadingLogs username hostname remote_dir) ;;
  upload_commands cfg key_file username hostname remote_dir ;;
  logger INFO UploadCompleted.

(** The [try] statement of [upload_logs] (lines 393-432). *)
Definition upload_files (cfg : Config) : M State unit :=
  try_except (upload_body cfg)
    (fun e => is_CalledProcessError e || is_Exception e)
    upload_failed.

Definition upload_logs (cfg : Config) : M State unit :=
  let! enabled := lift (vps_enabled cfg) in
  if negb enabled then ret tt else upload_files cfg.

(** What [subprocess.run(argv, check=True)] raises at interaction [n]:
    the exception of the command, or [CalledProcessError] on an exit code
    that is not 0. *)
Definition command_error (n : nat) (argv : list string) : option exn :=
  match subprocess_run n argv with
  | Ok r =>
      if (returncode r =? 0)%Z then None
      else Some (CalledProcessError (returncode r) (stderr r))
  | Raise e => Some e
  end.

(** Commands run one after the other from interaction [n] until one
    fails: how many were run, and the exception of the last if it
    failed. *)
Fixpoint run_plan (n : nat) (plan : list (list string)) : nat * option exn :=
  match plan with
  | [] => (0, None)
  | argv :: plan' =>
      match command_error n argv with
      | None => let r := run_plan (S n) plan' in (S r.1, r.2)
      | Some e => (1, Some e)
      end
  end.
End Upload.

(** The commands an upload is to run in the state [s], in order: the
    remote directory is created, then the series that exist are copied,
    then the latest report if there is one. *)
Definition upload_plan (cfg : Config) (key_file username hostname remote_dir : string)
    (s : State) : list (list string) :=
  ssh_argv key_file username hostname remote_dir
  :: map (fun f => scp_argv key_file (local_path cfg (file_name f))
                            username hostname remote_dir)
         (filter (fun f => is_Some (files s !! f)) csv_files)
  ++ match latest_report (reports s) with
     | Some stamp => [scp_argv key_file (local_path cfg (report_name stamp))
                               username hostname remote_dir]
     | None => []
     end.

(** What leaves a run of commands. *)
Definition plan_result (out : option exn) : result unit :=
  match out with None => Ok tt | Some e => Raise e end.

(** What the [try] statement makes of the exception that stopped the
    commands, if any: the record it logs last and what it returns or
    raises.  A command that failed is logged with its standard error, and
    the [UnicodeDecodeError] of a standard error that is not UTF-8 leaves
    the statement with nothing logged; any other [Exception] is logged; an
    interrupt passes. *)
Definition upload_outcome (out : option exn) : list log_record * result unit :=
  match out with
  | None => ([LogRecord INFO UploadCompleted], Ok tt)
  | Some (CalledProcessError _ stderr as e) =>
      match scp_failure e stderr with
      | Ok detail => ([LogRecord ERROR (ScpUploadFailed detail)], Ok tt)
      | Raise e' => ([], Raise e')
      end
  | Some e =>
      if is_Exception e then ([LogRecord ERROR (LogUploadFailed e)], Ok tt)
      else ([], Raise e)
  end.

(** An environment in which every command exits with [code]. *)
Definition exit_env (code : Z) : Environment := {|
  clock n := (1000000 * Z.of_nat n)%Z;
  subprocess_run _ _ := Ok (Completed code "" (Utf8 ""));
  requests_get _ _ := Raise RequestException;
  float_of_str _ := Raise ValueError;
  json_loads _ := Raise JSONDecodeError;
  time_sleep _ _ := Ok tt;
  expanduser p := Ok p;
|}.

(** The configuration [__init__] writes, with uploads enabled. *)
Definition enabled_ini : ini :=
  {[ "VPS" := {[ "enabled" := "true";
                 "hostname" := "your-vps-hostname.com";
                 "username" := "your-username";
                 "key_file" := "~/.ssh/id_rsa";
                 "remote_directory" := "/opt/internet-monitor";
                 "port" := "22" ]};
     "MONITOR" := {[ "location_name" := "Home Network";
                     "timezone" := "UTC" ]} ]}%string.

Definition uploading : Config :=
  mkConfig (Stored 30%Z) (Stored 3600%Z) (Stored 300%Z) enabled_ini "internet_logs" [] [].

(** The same with an option [enabled] that is no boolean. *)
Definition unreadable : Config :=
  mkConfig (Stored 30%Z) (Stored 3600%Z) (Stored 300%Z) {[ "VPS" := {[ "enabled" := "maybe" ]} ]}%string
           "internet_logs" [] [].

(** An environment in which the home directory is [/home/monitor]. *)
Definition home_env (code : Z) : Environment := {|
  clock n := (1000000 * Z.of_nat n)%Z;
  subprocess_run _ _ := Ok (Completed code "" (Utf8 ""));
  requests_get _ _ := Raise RequestException;
  float_of_str _ := Raise ValueError;
  json_loads _ := Raise JSONDecodeError;
  time_sleep _ _ := Ok tt;
  expanduser p :=
    match strip_prefix "~/" p with
    | Some rest => Ok ("/home/monitor/" +:+ rest)
    | None => Ok p
    end;
|}.

(** An environment in which every command exits with code 1 and leaves
    bytes that are not UTF-8 on its standard error. *)
Definition garbled_stderr_env : Environment := {|
  clock n := (1000000 * Z.of_nat n)%Z;
  subprocess_run _ _ := Ok (Completed 1 "" NotUtf8);
  requests_get _ _ := Raise RequestException;
  float_of_str _ := Raise ValueError;
  json_loads _ := Raise JSONDecodeError;
  time_sleep _ _ := Ok tt;
  expanduser p := Ok p;
|}.

(** An environment in which the third command exits with code 1 and
    writes [Permission denied] on its standard error. *)
Definition third_fails_env : Environment := {|
  clock n := (1000000 * Z.of_nat n)%Z;
  subprocess_run n _ :=
    Ok (if n =? 2 then Completed 1 "" (Utf8 "Permission denied")
        else Completed 0 "" (Utf8 ""));
  requests_get _ _ := Raise RequestException;
  float_of_str _ := Raise ValueError;
  json_loads _ := Raise JSONDecodeError;
  time_sleep _ _ := Ok tt;
  expanduser p := Ok p;
|}.

(** ** What an upload leaves alone and what escapes it *)

Section UploadFrame.
Context {E : Environment}.
Implicit Types (s : State) (cfg : Config).

#[export] Instance upload_file_quiet cfg k u h r f :
  Respects quiet (upload_file cfg k u h r f).
Proof. unfold upload_file. respects. Qed.

#[export] Instance upload_failed_quiet e : Respects quiet (upload_failed e).
Proof. unfold upload_failed. respects. Qed.

#[export] Instance upload_files_quiet cfg : Respects quiet (upload_files cfg).
Proof. unfold upload_files, upload_body, upload_commands. respects. Qed.

#[export] Instance upload_logs_quiet cfg : Respects quiet (upload_logs cfg).
Proof. unfold upload_logs. respects. Qed.

#[export] Instance upload_file_later cfg k u h r f :
  Respects later (upload_file cfg k u h r f).
Proof. unfold upload_file. respects. Qed.

#[export] Instance upload_failed_later e : Respects later (upload_failed e).
Proof. unfold upload_failed. respects. Qed.

#[export] Instance upload_files_later cfg : Respects later (upload_files cfg).
Proof. unfold upload_files, upload_body, upload_commands. respects. Qed.

#[export] Instance upload_logs_later cfg : Respects later (upload_logs cfg).
Proof. unfold upload_logs. respects. Qed.

(** The text of a failure is found unless the standard error is not
    UTF-8. *)
Lemma scp_failure_raises e stderr e' :
  scp_failure e stderr = Raise e' -> e' = UnicodeDecodeError /\ stderr = NotUtf8.
Proof. unfold scp_failure. destruct stderr as [[|]|]; simpl; by try intros [= <-]. Qed.

(** What leaves the clauses is the [UnicodeDecodeError] of a standard
    error that is not UTF-8. *)
Lemma upload_failed_raises e s e' :
  eval (upload_failed e) s = Raise e' ->
  e' = UnicodeDecodeError /\ exists rc, e = CalledProcessError rc NotUtf8.
Proof.
  destruct e; try done. unfold upload_failed, eval, bind, lift.
  destruct (scp_failure _ _) as [detail|e0] eqn:Hd; simpl; [done|]. intros [= <-].
  apply scp_failure_raises in Hd as [-> ->]. eauto.
Qed.

(** What leaves the [try] statement: an interrupt, or the
    [UnicodeDecodeError] of the clause for a command that failed. *)
Lemma upload_files_raises cfg s e :
  eval (upload_files cfg) s = Raise e ->
  e = KeyboardInterrupt \/
  (e = UnicodeDecodeError /\
   exists rc, eval (upload_body cfg) s = Raise (CalledProcessError rc NotUtf8)).
Proof.
  intros [[_ He]|(e0 & H0 & _ & He)]%try_except_raise_inv.
  - left. by destruct e.
  - right. apply upload_failed_raises in He as [-> [rc ->]]. eauto.
Qed.

(** What reading the option [enabled] decides. *)
Lemma upload_logs_run cfg s :
  upload_logs cfg s
  = match vps_enabled cfg with
    | Ok true => upload_files cfg s
    | Ok false => (Ok tt, s)
    | Raise e => (Raise e, s)
    end.
Proof. unfold upload_logs, bind, lift. by destruct (vps_enabled cfg) as [[]|]. Qed.

(** With uploads disabled [upload_logs] does nothing at all. *)
Lemma upload_disabled cfg s : vps_enabled cfg = Ok false -> upload_logs cfg s = (Ok tt, s).
Proof. rewrite upload_logs_run. by intros ->. Qed.

(** C36: what leaves [upload_logs], whatever the commands do and whatever
    the configuration lacks.  It is an interrupt; or the [ValueError] of an
    option [enabled] that is no boolean, which is read before the [try] and
    raised before anything is done; or the [UnicodeDecodeError] of line
    430, when uploads are enabled and a command has failed with a standard
    error that is not UTF-8.  Every other failure is logged and does not
    reach the caller.  No series, no report and no connection field
    changes. *)
Theorem upload_logs_safe cfg s :
  (forall e, eval (upload_logs cfg) s = Raise e ->
     e = KeyboardInterrupt \/
     (e = ValueError /\ vps_enabled cfg = Raise ValueError /\
      exec (upload_logs cfg) s = s) \/
     (e = UnicodeDecodeError /\ vps_enabled cfg = Ok true /\
      exists rc, eval (upload_body cfg) s = Raise (CalledProcessError rc NotUtf8))) /\
  quiet s (exec (upload_logs cfg) s).
Proof.
  split; [|apply upload_logs_quiet].
  intros e. unfold eval, exec. rewrite upload_logs_run.
  destruct (vps_enabled cfg) as [[]|e'] eqn:Hen; [|done|].
  - intros [->|[-> Hrc]]%upload_files_raises; [by left|right; by right].
  - intros [= ->]. right; left.
    by destruct (getboolean_raises _ _ _ _ _ Hen) as [-> _].
Qed.
End UploadFrame.

(** ** The commands an upload runs *)

Section UploadPlan.
Context {E : Environment}.
Implicit Types (s : State) (cfg : Config) (plan : list (list string)).

Lemma run_plan_app n plan plan' :
  run_plan n (plan ++ plan')
  = match (run_plan n plan).2 with
    | None => ((run_plan n plan).1 + (run_plan (n + (run_plan n plan).1) plan').1,
               (run_plan (n + (run_plan n plan).1) plan').2)
    | Some e => run_plan n plan
    end.
Proof.
  revert n. induction plan as [|argv plan IH]; intros n; simpl.
  - rewrite Nat.add_0_r. by destruct (run_plan n plan').
  - destruct (command_error n argv); simpl; [done|]. rewrite IH.
    destruct (run_plan (S n) plan) as [k [e|]]; simpl; [done|].
    by rewrite Nat.add_succ_r.
Qed.

(** When every command succeeds at its turn the whole plan is run. *)
Lemma run_plan_all n plan :
  (forall i argv, plan !! i = Some argv -> command_error (n + i) argv = None) ->
  run_plan n plan = (length plan, None).
Proof.
  revert n. induction plan as [|argv plan IH]; intros n H; [done|]. simpl.
  rewrite <- (Nat.add_0_r n) at 1. rewrite (H 0 argv eq_refl), IH; [done|].
  intros i argv' Hi. rewrite Nat.add_succ_l, <- Nat.add_succ_r. by apply H.
Qed.

(** The commands run are never more than the plan has, and all of them
    when none failed. *)
Lemma run_plan_length n plan :
  (run_plan n plan).1 <= length plan /\
  ((run_plan n plan).2 = None -> (run_plan n plan).1 = length plan).
Proof.
  revert n. induction plan as [|argv plan IH]; intros n; simpl; [done|].
  destruct (command_error n argv); simpl; [split; [lia|done]|].
  destruct (IH (S n)) as [Hle Heq]. split; [lia|]. intros H. by rewrite Heq.
Qed.

(** A command that fails ends the computation; one that succeeds leaves
    one interaction behind. *)
Lemma check_process_then {A} argv (k : M State A) s :
  (check_process argv ;; k) s
  = match command_error (tick s) argv with
    | None => k (bump s)
    | Some e => (Raise e, bump s)
    end.
Proof.
  unfold command_error, check_process, run_process. unfold_monad.
  destruct (subprocess_run (tick s) argv) as [r|e]; [|done].
  simpl. by destruct (returncode r =? 0)%Z.
Qed.

(** One series: copied when its file exists. *)
Lemma upload_file_run cfg k u h r f s :
  upload_file cfg k u h r f s
  = if decide (is_Some (files s !! f))
    then (plan_result (command_error (tick s)
                         (scp_argv k (local_path cfg (file_name f)) u h r)),
          bump s)
    else (Ok tt, s).
Proof.
  unfold upload_file, path_exists. unfold bind at 1. unfold gets.
  case_bool_decide; case_decide; try done.
  rewrite check_process_then. by destruct (command_error _ _).
Qed.

(** The loop over the series runs one [scp] per series that exists. *)
Lemma upload_loop_run cfg k u h r fs s :
  let plan := map (fun f => scp_argv k (local_path cfg (file_name f)) u h r)
                  (filter (fun f => is_Some (files s !! f)) fs) in
  for_each fs (upload_file cfg k u h r) s
  = (plan_result (run_plan (tick s) plan).2, Nat.iter (run_plan (tick s) plan).1 bump s).
Proof.
  revert s. induction fs as [|f fs IH]; intros s; [done|].
  cbn [for_each]. unfold bind. rewrite upload_file_run, filter_cons.
  case_decide; [|apply IH]. cbn [map run_plan].
  destruct (command_error _ _); [done|]. cbn [plan_result fst snd].
  by rewrite IH, iter_bump_bump.
Qed.

(** The commands of an upload are those of its plan, run in order until
    one fails. *)
Lemma upload_commands_run cfg k u h r s :
  let run := run_plan (tick s) (upload_plan cfg k u h r s) in
  upload_commands cfg k u h r s = (plan_result run.2, Nat.iter run.1 bump s).
Proof.
  unfold upload_commands, upload_plan. rewrite check_process_then. cbn [run_plan].
  destruct (command_error _ _); [done|]. cbn [fst snd].
  unfold bind at 1. rewrite upload_loop_run, run_plan_app.
  change (files (bump s)) with (files s). change (tick (bump s)) with (S (tick s)).
  destruct (run_plan (S (tick s)) _) as [n [e|]]; cbn [fst snd plan_result];
    rewrite iter_bump_bump; [done|].
  unfold bind at 1. unfold gets. rewrite reports_iter_bump.
  destruct (latest_report (reports s)) as [stamp|]; [|by rewrite Nat.add_0_r].
  rewrite check_process_then, tick_iter_bump. cbn [run_plan].
  replace (S n + tick s) with (S (tick s) + n) by lia.
  by destruct (command_error _ _); cbn [fst snd plan_result]; rewrite Nat.add_1_r.
Qed.
(** What the clauses make of an exception [e] that stopped the
    commands. *)
Lemma upload_caught_run e s :
  (if is_CalledProcessError e || is_Exception e then upload_failed e s else (Raise e, s))
  = ((upload_outcome (Some e)).2, set_log (log s ++ (upload_outcome (Some e)).1) s).
Proof.
  destruct s, e as [| | |rc [[|]|]| | | | | | | | | | | | | | | |];
    unfold set_log; simpl; by rewrite ?app_nil_r.
Qed.

(** The [try] statement: the options are read, the upload is announced,
    the commands of the plan are run, and the last record says how they
    ended. *)
Lemma upload_files_run cfg s h u k k' r :
  config_get "VPS" "hostname" (config cfg) = Ok h ->
  config_get "VPS" "username" (config cfg) = Ok u ->
  config_get "VPS" "key_file" (config cfg) = Ok k ->
  expanduser k = Ok k' ->
  config_get "VPS" "remote_directory" (config cfg) = Ok r ->
  let run := run_plan (tick s) (upload_plan cfg k' u h r s) in
  upload_files cfg s
  = ((upload_outcome run.2).2,
     set_log (log s ++ LogRecord INFO (UploadingLogs u h r) :: (upload_outcome run.2).1)
             (Nat.iter run.1 bump s)).
Proof.
  intros Hh Hu Hk Hk' Hr. unfold upload_files, upload_body. unfold_monad.
  rewrite Hh, Hu, Hk, Hk', Hr.
  change (logger INFO (UploadingLogs u h r) s)
    with (Ok tt, set_log (log s ++ [LogRecord INFO (UploadingLogs u h r)]) s).
  cbv beta iota. rewrite upload_commands_run. cbn [tick set_log files reports].
  destruct (run_plan _ _) as [n [e|]]; cbn [fst snd plan_result];
    rewrite !iter_bump_state.
  - rewrite upload_caught_run. unfold set_log. simpl. by rewrite <- app_assoc.
  - unfold logger, modify, set_log. simpl. by rewrite <- app_assoc.
Qed.

(** C35: an upload runs its plan.  With uploads enabled and the four
    options of the section VPS present, [upload_logs] runs the commands of
    its plan in order, one interaction each, until one fails: first the
    [ssh] command that creates the remote directory, then one [scp] per
    series whose file exists, then one for the latest report if there is
    one, the reports being modified in the order of their stamps as they
    are on a clock that does not go backwards.  It logs that it uploads,
    and then that it completed, or the failure of the command that stopped
    it; an interrupt reaches the caller, and so does the
    [UnicodeDecodeError] of a command that failed with a standard error
    that is not UTF-8, which is not logged.  Nothing else changes. *)
Theorem upload_runs_plan `{!EnvironmentLaws E} cfg s h u k k' r :
  vps_enabled cfg = Ok true ->
  config_get "VPS" "hostname" (config cfg) = Ok h ->
  config_get "VPS" "username" (config cfg) = Ok u ->
  config_get "VPS" "key_file" (config cfg) = Ok k ->
  expanduser k = Ok k' ->
  config_get "VPS" "remote_directory" (config cfg) = Ok r ->
  let run := run_plan (tick s) (upload_plan cfg k' u h r s) in
  let s' := exec (upload_logs cfg) s in
  eval (upload_logs cfg) s = (upload_outcome run.2).2 /\
  tick s' = tick s + run.1 /\
  log s' = log s ++ LogRecord INFO (UploadingLogs u h r) :: (upload_outcome run.2).1 /\
  quiet s s'.
Proof.
  intros Hen Hh Hu Hk Hk' Hr run s'. split_and!; [..|apply upload_logs_quiet];
    subst s'; unfold eval, exec;
    rewrite upload_logs_run, Hen, (upload_files_run cfg s h u k k' r) by done;
    [done| |done].
  unfold set_log. cbn [snd tick]. rewrite tick_iter_bump. subst run. lia.
Qed.

(** C37: a command of the plan that exits with a code that is not 0 and leaves
    bytes that are not UTF-8 on its standard error ends [upload_logs] with
    a [UnicodeDecodeError]: the clause that was to log the failure raises
    while it decodes the standard error (line 430), the clause after it
    does not apply, and the failure is not logged. *)
Theorem undecodable_stderr_escapes cfg s h u k k' r n rc :
  vps_enabled cfg = Ok true ->
  config_get "VPS" "hostname" (config cfg) = Ok h ->
  config_get "VPS" "username" (config cfg) = Ok u ->
  config_get "VPS" "key_file" (config cfg) = Ok k ->
  expanduser k = Ok k' ->
  config_get "VPS" "remote_directory" (config cfg) = Ok r ->
  run_plan (tick s) (upload_plan cfg k' u h r s)
  = (n, Some (CalledProcessError rc NotUtf8)) ->
  eval (upload_logs cfg) s = Raise UnicodeDecodeError /\
  tick (exec (upload_logs cfg) s) = tick s + n /\
  log (exec (upload_logs cfg) s) = log s ++ [LogRecord INFO (UploadingLogs u h r)].
Proof.
  intros Hen Hh Hu Hk Hk' Hr Hrun. unfold eval, exec.
  rewrite upload_logs_run, Hen, (upload_files_run cfg s h u k k' r), Hrun by done.
  split_and!; [done| |done].
  unfold set_log. cbn [snd tick fst]. rewrite tick_iter_bump. lia.
Qed.

(** When the [ssh] command that creates the remote directory exits with a
    non-zero code and a standard error that decodes, nothing is copied: no
    other command is run, and the failure is logged as an error with the
    text of the standard error, or with the exception when the standard
    error is empty. *)
Theorem upload_stops_at_first_failure cfg s h u k k' r rc out err detail :
  vps_enabled cfg = Ok true ->
  config_get "VPS" "hostname" (config cfg) = Ok h ->
  config_get "VPS" "username" (config cfg) = Ok u ->
  config_get "VPS" "key_file" (config cfg) = Ok k ->
  expanduser k = Ok k' ->
  config_get "VPS" "remote_directory" (config cfg) = Ok r ->
  subprocess_run (tick s) (ssh_argv k' u h r) = Ok (Completed rc out err) ->
  rc <> 0%Z ->
  scp_failure (CalledProcessError rc err) err = Ok detail ->
  eval (upload_logs cfg) s = Ok tt /\
  tick (exec (upload_logs cfg) s) = S (tick s) /\
  log (exec (upload_logs cfg) s)
  = log s ++ [LogRecord INFO (UploadingLogs u h r);
              LogRecord ERROR (ScpUploadFailed detail)].
Proof.
  intros Hen Hh Hu Hk Hk' Hr Hrun Hrc%Z.eqb_neq Hd. unfold eval, exec.
  rewrite upload_logs_run, Hen, (upload_files_run cfg s h u k k' r) by done.
  unfold upload_plan. cbn [run_plan]. unfold command_error.
  rewrite Hrun. cbn [returncode stderr]. rewrite Hrc. cbn [fst snd upload_outcome].
  by rewrite Hd.
Qed.
End UploadPlan.

Section UploadReturns.
Context {E : Environment} {U : Uninterrupted E}.

#[export] Instance config_get_ordinary section key c :
  Ordinary (@lift State _ (config_get section key c)).
Proof.
  apply lift_ordinary. intros e He.
  by destruct (config_get_raises _ _ _ _ He) as [-> | ->].
Qed.

#[export] Instance expanduser_ordinary p : Ordinary (@lift State _ (expanduser p)).
Proof.
  apply lift_ordinary. intros e He. destruct e; try done.
  by apply expanduser_uninterrupted in He.
Qed.

#[export] Instance upload_body_ordinary cfg : Ordinary (upload_body cfg).
Proof. unfold upload_body, upload_commands, upload_file. ordinary. Qed.

Context {D : Decodable E}.

#[export] Instance config_get_decodable section key c :
  Raises (fun e => decodable e = true) (@lift State _ (config_get section key c)).
Proof.
  apply lift_raises. intros e He.
  by destruct (config_get_raises _ _ _ _ He) as [-> | ->].
Qed.

#[export] Instance expanduser_raises_decodable p :
  Raises (fun e => decodable e = true) (@lift State _ (expanduser p)).
Proof. apply lift_raises, expanduser_decodable. Qed.

(** With a standard error that decodes, the commands raise nothing the
    clauses cannot log. *)
#[export] Instance upload_body_decodable cfg :
  Raises (fun e => decodable e = true) (upload_body cfg).
Proof. unfold upload_body, upload_commands, upload_file. raises. Qed.

(** With no interrupt and a standard error that decodes, the [try]
    statement returns. *)
#[export] Instance upload_files_returns cfg : Returns (upload_files cfg).
Proof.
  apply (try_except_returns_when
           (fun e => is_Exception e = true /\ decodable e = true)).
  - apply raises_and; [apply ordinary_raises|]; apply _.
  - by intros e [-> _]; rewrite orb_true_r.
  - intros e [_ He] s. destruct (eval (upload_failed e) s) as [|e'] eqn:Hf; [done|].
    apply upload_failed_raises in Hf as [_ [rc ->]]. done.
Qed.

(** With no interrupt, a readable option and a standard error that
    decodes, [upload_logs] returns. *)
#[export] Instance upload_logs_returns cfg `{!EnabledReadable cfg} :
  Returns (upload_logs cfg).
Proof.
  destruct (enabled_readable (cfg := cfg)) as [b Hb]. intros s.
  unfold eval. rewrite upload_logs_run, Hb.
  destruct b; [apply (returns (c := upload_files cfg))|done].
Qed.
End UploadReturns.

(** ** Worked examples *)

#[export] Instance uploading_readable : EnabledReadable uploading.
Proof. by exists true. Qed.

(** The three series and one report are copied: five commands, with the
    key under the home directory, and the two INFO records. *)
Example upload_everything :
  let s0 := mkState true None 0
              {[ connectivity_log := [connectivity_header];
                 speedtest_log := [speedtest_header];
                 events_log := [events_header] ]}
              {[ 1700000000%Z := [RTitle] ]} [] 0 in
  @upload_logs (home_env 0) uploading s0
  = (Ok tt,
     set_log [ LogRecord INFO (UploadingLogs "your-username" "your-vps-hostname.com"
                                             "/opt/internet-monitor");
               LogRecord INFO UploadCompleted ]
       (Nat.iter 5 bump s0)).
Proof. by vm_compute. Qed.

(** The command that copies the connectivity series. *)
Example scp_of_connectivity :
  scp_argv "/home/monitor/.ssh/id_rsa"
           (local_path uploading (file_name connectivity_log))
           "your-username" "your-vps-hostname.com" "/opt/internet-monitor"
  = ["scp"; "-i"; "/home/monitor/.ssh/id_rsa"; "internet_logs/connectivity.csv";
     "your-username@your-vps-hostname.com:/opt/internet-monitor/"]%string.
Proof. by vm_compute. Qed.

(** In the current directory and in the root no separator is doubled. *)
Example local_paths :
  path_join "." "events.csv" = "events.csv"%string /\
  path_join "/" "events.csv" = "/events.csv"%string /\
  path_join "/var/log" "events.csv" = "/var/log/events.csv"%string.
Proof. by vm_compute. Qed.

(** An option [enabled] that is no boolean leaves [upload_logs] as a
    [ValueError]. *)
Example upload_unreadable :
  @upload_logs (home_env 0) unreadable (blank true None)
  = (Raise ValueError, blank true None).
Proof. by vm_compute. Qed.

(** The first command exits with code 255 and an empty standard error:
    the failure is logged with the exception. *)
Lemma upload_stops_at_first_failure_witness :
  eval (@upload_logs (home_env 255) uploading) (blank true None) = Ok tt /\
  tick (exec (@upload_logs (home_env 255) uploading) (blank true None)) = 1 /\
  log (exec (@upload_logs (home_env 255) uploading) (blank true None))
  = log (blank true None)
    ++ [LogRecord INFO (UploadingLogs "your-username" "your-vps-hostname.com"
                                      "/opt/internet-monitor");
        LogRecord ERROR (ScpUploadFailed (inr (CalledProcessError 255 (Utf8 ""))))].
Proof.
  by apply (@upload_stops_at_first_failure (home_env 255) uploading (blank true None)
              "your-vps-hostname.com" "your-username" "~/.ssh/id_rsa"
              "/home/monitor/.ssh/id_rsa" "/opt/internet-monitor" 255 "" (Utf8 "")).
Defined.

(** A standard error that is not UTF-8 leaves [upload_logs] as a
    [UnicodeDecodeError]; an option [enabled] that is no boolean as a
    [ValueError]. *)
Lemma upload_logs_safe_witness :
  ((forall e, eval (@upload_logs garbled_stderr_env uploading) (blank true None) = Raise e ->
     e = KeyboardInterrupt \/
     (e = ValueError /\ vps_enabled uploading = Raise ValueError /\
      exec (@upload_logs garbled_stderr_env uploading) (blank true None) = blank true None) \/
     (e = UnicodeDecodeError /\ vps_enabled uploading = Ok true /\
      exists rc, eval (@upload_body garbled_stderr_env uploading) (blank true None)
                 = Raise (CalledProcessError rc NotUtf8))) /\
   quiet (blank true None)
         (exec (@upload_logs garbled_stderr_env uploading) (blank true None))) /\
  eval (@upload_logs garbled_stderr_env uploading) (blank true None)
  = Raise UnicodeDecodeError /\
  eval (@upload_logs (home_env 0) unreadable) (blank true None) = Raise ValueError.
Proof.
  split; [|by vm_compute].
  apply (@upload_logs_safe garbled_stderr_env uploading (blank true None)).
Defined.

Lemma undecodable_stderr_escapes_witness :
  eval (@upload_logs garbled_stderr_env uploading) (blank true None)
  = Raise UnicodeDecodeError /\
  tick (exec (@upload_logs garbled_stderr_env uploading) (blank true None)) = 0 + 1 /\
  log (exec (@upload_logs garbled_stderr_env uploading) (blank true None))
  = [LogRecord INFO (UploadingLogs "your-username" "your-vps-hostname.com"
                                   "/opt/internet-monitor")].
Proof.
  by apply (@undecodable_stderr_escapes garbled_stderr_env uploading (blank true None)
              "your-vps-hostname.com" "your-username" "~/.ssh/id_rsa" "~/.ssh/id_rsa"
              "/opt/internet-monitor" 1 1).
Defined.

Lemma third_fails_env_laws : EnvironmentLaws third_fails_env.
Proof.
  split; simpl; try done; [intros i j Hij; lia|by intros s e [= <-]|by intros s e [= <-]].
Qed.

(** Uploads enabled, the three series and one report: the plan has five
    commands; when the third exits with code 1 the upload stops there and
    logs what the command wrote. *)
Lemma upload_runs_plan_witness :
  let E := third_fails_env in
  let s := mkState true None 0
             {[ connectivity_log := [connectivity_header];
                speedtest_log := [speedtest_header];
                events_log := [events_header] ]}
             {[ 1700000000%Z := [RTitle] ]} [] 0 in
  let run := @run_plan E (tick s)
               (upload_plan uploading "~/.ssh/id_rsa" "your-username"
                            "your-vps-hostname.com" "/opt/internet-monitor" s) in
  let s' := exec (@upload_logs E uploading) s in
  (length (upload_plan uploading "~/.ssh/id_rsa" "your-username"
                       "your-vps-hostname.com" "/opt/internet-monitor" s) = 5
   /\ run = (3, Some (CalledProcessError 1 (Utf8 "Permission denied")))
   /\ upload_outcome run.2
      = ([LogRecord ERROR (ScpUploadFailed (inl "Permission denied"%string))], Ok tt)) /\
  eval (@upload_logs E uploading) s = (upload_outcome run.2).2 /\
  tick s' = tick s + run.1 /\
  log s' = log s ++ LogRecord INFO (UploadingLogs "your-username" "your-vps-hostname.com"
                                                  "/opt/internet-monitor")
                    :: (upload_outcome run.2).1 /\
  quiet s s'.
Proof.
  intros E s. split; [by vm_compute|].
  by apply (@upload_runs_plan E third_fails_env_laws uploading s "your-vps-hostname.com"
              "your-username" "~/.ssh/id_rsa" "~/.ssh/id_rsa" "/opt/internet-monitor").
Defined.
