(* ===== verification/Monitor.v ===== *)
(** * Monitor: the scheduler and the main loop

    [run_monitor] of src/internet_monitor.py, with the part of [__init__]
    that sets the series and the connection fields, and the jobs
    of the [schedule] library as the loop uses them: a job holds its
    interval and the time of its next run, [run_pending] runs the jobs that
    are due.  The loop runs for a number of cycles given as fuel; the
    theorems say what a run of any length preserves, under which
    conditions on the intervals and on the environment the loop goes on,
    which exceptions end it when they fail, and what the interrupt
    leaves. *)

From stdpp Require Import sorting.
From S2P Require Import Prelude Text Config Values World Store StateMachine Probe.
From S2P Require Import Connectivity Report SpeedTest Upload.

(** ** Jobs *)

(** The two periodic actions [run_monitor] schedules. *)
Inductive action : Type := SpeedTestJob | UploadJob.

(** A job of the [schedule] library: [interval] in seconds. *)
Record job : Type := Job {
  job_action : action;
  interval : Z;
  next_run : datetime;
}.

(** The microseconds of a period of [interval] seconds. *)
Definition period (interval : Z) : timedelta := (interval * 1000000)%Z.

(** The time of the run after [now] of a job that runs every [seconds]
    seconds, as [Job._schedule_next_run] computes it:
    [now + timedelta(seconds=seconds)], an [OverflowError] when the period
    or the date does not fit. *)
Definition next_run_at (now : datetime) (seconds : Z) : result datetime :=
  let? period := timedelta_of_seconds seconds in
  datetime_add now period.

(** The jobs that are due are run in the order of their next run; the
    sort is stable. *)
Fixpoint insert_job (x : nat * job) (xs : list (nat * job)) : list (nat * job) :=
  match xs with
  | [] => [x]
  | y :: ys =>
      if (next_run (snd x) <=? next_run (snd y))%Z then x :: y :: ys
      else y :: insert_job x ys
  end.

Definition sort_jobs (xs : list (nat * job)) : list (nat * job) :=
  foldr insert_job [] xs.

(** [x] is due no later than [y]: the order [sorted] compares jobs by. *)
Definition job_le (x y : nat * job) : Prop :=
  (next_run (snd x) <= next_run (snd y))%Z.

(** The jobs of a list whose next run is [t], in the order of the list. *)
Definition due_at (t : datetime) (xs : list (nat * job)) : list (nat * job) :=
  filter (fun x => next_run (snd x) = t) xs.

(** What [sorted] is documented to return: the elements in ascending
    order, those that compare equal in their original order. *)
Definition stable_sort_of (xs l : list (nat * job)) : Prop :=
  StronglySorted job_le l /\ forall t, due_at t l = due_at t xs.

(** What a periodic action promises to the loop that runs it: it only
    appends to the series, it keeps a well-formed store well formed, it
    leaves the connection fields and the events series alone, the rows it
    adds to the speed test series are rows of speed tests, and it adds
    nothing to the connectivity series. *)
Class PeriodicAction (c : M State unit) : Prop := {
  action_append_only :: AppendOnly c;
  action_keeps_store :: KeepsStore c;
  action_keeps_connection :: KeepsConnection c;
  action_aside :: Respects aside c;
  action_speed_rows :: Respects (grows speedtest_log is_speed_row) c;
  action_probe_rows P :: Respects (grows connectivity_log P) c;
}.

Section Scheduler.
Context {E : Environment} (run : action -> M State unit).

(** [Job._schedule_next_run] of a job in seconds: the period is built,
    then the clock is read. *)
Definition schedule_next_run (seconds : Z) : M State datetime :=
  let! period := lift (timedelta_of_seconds seconds) in
  let! now := datetime_now in
  lift (datetime_add now period).

(** [schedule.every(interval).seconds.do(f)]: the first run is one
    interval from now; the job joins the list when its next run is set.
    An interval that is a list is the [TypeError] of [timedelta]. *)
Definition every_seconds_do (seconds : arg_value Z) (a : action) (jobs : list job)
    : M State (list job) :=
  match seconds with
  | EmptyList => raise TypeError
  | Stored n =>
      let! next := schedule_next_run n in
      ret (jobs ++ [Job a n next])
  end.

(** [job.should_run] *)
Definition should_run (j : job) : M State bool :=
  let! now := datetime_now in
  ret (next_run j <=? now)%Z.

(** [job.run()]: the action, then the time of the last run and the next
    run, an interval after the action ended. *)
Definition run_job (j : job) : M State job :=
  run (job_action j) ;;
  let! last_run := datetime_now in
  let! next := schedule_next_run (interval j) in
  ret (Job (job_action j) (interval j) next).

(** [(job for job in self.jobs if job.should_run)], with the position of
    each job. *)
Definition due_jobs (jobs : list job) : M State (list (nat * job)) :=
  fold_each (imap pair jobs) []
    (fun due ij =>
       let! b := should_run (snd ij) in
       ret (if b then due ++ [ij] else due)).

(** [schedule.run_pending()] *)
Definition run_pending (jobs : list job) : M State (list job) :=
  let! due := due_jobs jobs in
  fold_each (sort_jobs due) jobs
    (fun jobs ij =>
       let! j' := run_job (snd ij) in
       ret (<[fst ij := j']> jobs)).
End Scheduler.

(** ** The monitor *)

(** How [run_monitor] stands after the cycles it was given: [Stopped] when
    the interrupt came and the handler ran, [Running] when the loop is
    still going. *)
Inductive progress : Type :=
| Stopped
| Running (jobs : list job).

Section Monitor.
Context {E : Environment} (cfg : Config).

(** The end of [__init__] (lines 67-73): the series, then the connection
    fields. *)
Definition init_monitor : M State unit :=
  _init_csv_files ;;
  init_connection.

(** The function a job calls. *)
Definition run_action (a : action) : M State unit :=
  match a with
  | SpeedTestJob => run_speedtest ;; ret tt
  | UploadJob => upload_logs cfg
  end.

(** [run_monitor] up to the loop (lines 436-449): the opening log records,
    the jobs, and the first speed test. *)
Definition startup : M State (list job) :=
  logger INFO MonitorStarting ;;
  logger INFO (PingIntervalIs (ping_interval cfg)) ;;
  logger INFO (SpeedTestIntervalIs (speedtest_interval cfg)) ;;
  let! enabled := lift (vps_enabled cfg) in
  logger INFO (UploadIntervalIs (upload_interval cfg) enabled) ;;
  logger INFO LogsDirectoryIs ;;
  let! jobs := every_seconds_do (speedtest_interval cfg) SpeedTestJob [] in
  let! enabled := lift (vps_enabled cfg) in
  let! jobs :=
    (if enabled
     then every_seconds_do (upload_interval cfg) UploadJob jobs
     else ret jobs) in
  run_speedtest ;;
  ret jobs.

(** One cycle of the loop (lines 453-460). *)
Definition cycle (jobs : list job) : M State (list job) :=
  test_connectivity cfg ;;
  let! jobs := run_pending run_action jobs in
  sleep (ping_interval cfg) ;;
  ret jobs.

(** [while True], for [fuel] cycles. *)
Fixpoint monitor_loop (fuel : nat) (jobs : list job) : M State (list job) :=
  match fuel with
  | 0 => ret jobs
  | S fuel' => let! jobs := cycle jobs in monitor_loop fuel' jobs
  end.

(** The handler of the interrupt (lines 462-464). *)
Definition stop : M State progress :=
  logger INFO MonitoringStopped ;;
  generate_report ;;
  ret Stopped.

Definition run_monitor (fuel : nat) : M State progress :=
  let! jobs := startup in
  try_except
    (let! jobs := monitor_loop fuel jobs in ret (Running jobs))
    is_KeyboardInterrupt
    (fun _ => stop).

End Monitor.

(** The invariant of the monitor: consistent connection fields and a
    well-formed store. *)
Definition monitor_inv (s : State) : Prop := conn_inv s /\ store_wf s.

(** A computation the monitor is made of: it only appends to the series,
    keeps a well-formed store well formed and keeps the connection fields
    consistent. *)
Class Steady {A} (c : M State A) : Prop := {
  steady_append_only :: AppendOnly c;
  steady_keeps_store :: KeepsStore c;
  steady_keeps_conn_inv :: Respects keeps_conn_inv c;
}.

(** An interval the scheduler can hold at every reading of the clock: the
    period fits a [timedelta] and the next run is a date. *)
Definition schedulable {E : Environment} (seconds : Z) : Prop :=
  forall n, is_Ok (next_run_at (clock n) seconds) = true.

(** The same of an interval as the command line stored it: it is an
    integer. *)
Definition schedulable_stored {E : Environment} (seconds : arg_value Z) : Prop :=
  exists n, seconds = Stored n /\ schedulable n.

(** A configuration whose two intervals can be scheduled. *)
Class Schedulable {E : Environment} (cfg : Config) : Prop := {
  speedtest_schedulable : schedulable_stored (speedtest_interval cfg);
  upload_schedulable : schedulable_stored (upload_interval cfg);
}.

(** Jobs the scheduler can run again and again. *)
Definition jobs_schedulable {E : Environment} (jobs : list job) : Prop :=
  Forall (fun j => schedulable (interval j)) jobs.

(** An interrupt that stays pending: from interaction [n0] on, every
    sleep is interrupted. *)
Definition interrupt_pending {E : Environment} (n0 : nat) : Prop :=
  forall n d, n0 <= n -> time_sleep n d = Raise KeyboardInterrupt.

(** ** Environments for the worked examples *)

(** Every host answers, no speed test tool is installed, and the interrupt
    arrives during the sleep of the cycle that starts at interaction
    [stop_at] or later. *)
Definition interrupt_env (stop_at : nat) : Environment := {|
  clock n := (1000000 * Z.of_nat n)%Z;
  subprocess_run _ argv :=
    if bool_decide (head argv = Some "ping"%string)
    then Ok (Completed 0 "reply" (Utf8 "")) else Raise FileNotFoundError;
  requests_get _ _ := Ok 200%Z;
  float_of_str _ := Raise ValueError;
  json_loads _ := Raise JSONDecodeError;
  time_sleep n _ := if (n <? stop_at)%nat then Ok tt else Raise KeyboardInterrupt;
  expanduser p := Ok p;
|}.

(** The same hosts and tools, and no interrupt; the clock stops in the
    year 2100. *)
Definition calm_env : Environment := {|
  clock n := Z.min (1000000 * Z.of_nat n) 4102444800000000;
  subprocess_run _ argv :=
    if bool_decide (head argv = Some "ping"%string)
    then Ok (Completed 0 "reply" (Utf8 "")) else Raise FileNotFoundError;
  requests_get _ _ := Ok 200%Z;
  float_of_str _ := Raise ValueError;
  json_loads _ := Raise JSONDecodeError;
  time_sleep _ _ := Ok tt;
  expanduser p := Ok p;
|}.

(** Every host is unreachable from interaction [down] to interaction [up],
    and the interrupt arrives during the sleep that starts at interaction
    [stop_at] or later. *)
Definition outage_env (down up stop_at : nat) : Environment := {|
  clock n := (1000000 * Z.of_nat n)%Z;
  subprocess_run n argv :=
    if bool_decide (head argv = Some "ping"%string)
    then if (down <=? n)%nat && (n <? up)%nat
         then Ok (Completed 1 "" (Utf8 "")) else Ok (Completed 0 "reply" (Utf8 ""))
    else Raise FileNotFoundError;
  requests_get n _ :=
    if (down <=? n)%nat && (n <? up)%nat then Raise RequestException else Ok 200%Z;
  float_of_str _ := Raise ValueError;
  json_loads _ := Raise JSONDecodeError;
  time_sleep n _ := if (n <? stop_at)%nat then Ok tt else Raise KeyboardInterrupt;
  expanduser p := Ok p;
|}.

(** One target of each kind, a check every 30 seconds, a speed test every
    minute. *)
Definition small_config : Config :=
  mkConfig (Stored 30%Z) (Stored 60%Z) (Stored 300%Z) default_ini "internet_logs"
           ["8.8.8.8"]%string ["https://a.example"]%string.

(** The same with a negative interval between checks. *)
Definition negative_interval_config : Config :=
  mkConfig (Stored (-1)%Z) (Stored 60%Z) (Stored 300%Z) default_ini "internet_logs"
           ["8.8.8.8"]%string ["https://a.example"]%string.

(** Uploads enabled and due every second, a speed test every minute. *)
Definition eager_upload_config : Config :=
  mkConfig (Stored 30%Z) (Stored 60%Z) (Stored 1%Z) enabled_ini "internet_logs"
           ["8.8.8.8"]%string ["https://a.example"]%string.

(** Every host answers, no speed test tool is installed, and [ssh] exits
    with code 255 and leaves bytes that are not UTF-8 on its standard
    error. *)
Definition garbled_ssh_env : Environment := {|
  clock n := (1000000 * Z.of_nat n)%Z;
  subprocess_run _ argv :=
    if bool_decide (head argv = Some "ping"%string) then Ok (Completed 0 "reply" (Utf8 ""))
    else if bool_decide (head argv = Some "ssh"%string) then Ok (Completed 255 "" NotUtf8)
    else Raise FileNotFoundError;
  requests_get _ _ := Ok 200%Z;
  float_of_str _ := Raise ValueError;
  json_loads _ := Raise JSONDecodeError;
  time_sleep _ _ := Ok tt;
  expanduser p := Ok p;
|}.

(** A speed test every 10^14 seconds, more than a [timedelta] holds. *)
Definition huge_interval_config : Config :=
  mkConfig (Stored 30%Z) (Stored 100000000000000%Z) (Stored 300%Z) default_ini "internet_logs"
           ["8.8.8.8"]%string ["https://a.example"]%string.

(** The interval between checks given as [--ping-interval=--]. *)
Definition list_interval_config : Config :=
  mkConfig EmptyList (Stored 60%Z) (Stored 300%Z) default_ini "internet_logs"
           ["8.8.8.8"]%string ["https://a.example"]%string.

(** The state [__init__] leaves when the log directory is empty. *)
Definition fresh {E : Environment} : State := exec init_monitor (blank true None).

Ltac steady := split; respects.

(** ** What the scheduler preserves *)

Section SchedulerFrame.
Context {E : Environment} (run : action -> M State unit).
Context {periodic : forall a, PeriodicAction (run a)}.
Implicit Types (s : State) (j : job) (jobs : list job).

#[export] Instance schedule_next_run_quiet seconds :
  Respects quiet (schedule_next_run seconds).
Proof. unfold schedule_next_run. respects. Qed.

#[export] Instance every_seconds_do_quiet seconds a jobs :
  Respects quiet (every_seconds_do seconds a jobs).
Proof. unfold every_seconds_do. respects. Qed.

#[export] Instance should_run_quiet j : Respects quiet (should_run j).
Proof. unfold should_run. respects. Qed.

#[export] Instance due_jobs_quiet jobs : Respects quiet (due_jobs jobs).
Proof. unfold due_jobs. respects. Qed.

#[export] Instance due_jobs_returns jobs : Returns (due_jobs jobs).
Proof. unfold due_jobs, should_run. returns. Qed.

#[export] Instance run_pending_append_only jobs : AppendOnly (run_pending run jobs).
Proof. unfold run_pending, run_job. respects. Qed.

#[export] Instance run_pending_keeps_store jobs : KeepsStore (run_pending run jobs).
Proof. unfold run_pending, run_job. respects. Qed.

#[export] Instance run_pending_keeps_connection jobs :
  KeepsConnection (run_pending run jobs).
Proof. unfold run_pending, run_job. respects. Qed.

#[export] Instance run_pending_aside jobs : Respects aside (run_pending run jobs).
Proof. unfold run_pending, run_job. respects. Qed.

#[export] Instance run_pending_speed_rows jobs :
  Respects (grows speedtest_log is_speed_row) (run_pending run jobs).
Proof. unfold run_pending, run_job. respects. Qed.

#[export] Instance run_pending_probe_rows P jobs :
  Respects (grows connectivity_log P) (run_pending run jobs).
Proof. unfold run_pending, run_job. respects. Qed.
End SchedulerFrame.

(** ** What the scheduler raises by itself *)

Section SchedulerRaises.
Context {E : Environment}.

(** The next run of a job is one period after the clock is read, when
    both fit. *)
Lemma next_run_at_spec now seconds next :
  next_run_at now seconds = Ok next <->
  (next = now + period seconds /\
   -86400 * timedelta_max_days <= seconds < 86400 * (timedelta_max_days + 1) /\
   datetime_min <= now + period seconds <= datetime_max)%Z.
Proof.
  unfold next_run_at, period.
  destruct (timedelta_of_seconds seconds) as [d|e] eqn:Hd; simpl.
  - apply timedelta_of_seconds_spec in Hd as [-> Hr]. rewrite datetime_add_spec. tauto.
  - split; [done|]. intros (_ & Hr & _).
    pose proof (proj2 (timedelta_of_seconds_spec seconds _) (conj eq_refl Hr)).
    congruence.
Qed.

Lemma next_run_at_raises now seconds e :
  next_run_at now seconds = Raise e -> e = OverflowError.
Proof.
  unfold next_run_at. destruct (timedelta_of_seconds seconds) as [d|e'] eqn:Hd; simpl.
  - apply datetime_add_raises.
  - intros [= <-]. by apply timedelta_of_seconds_raises in Hd.
Qed.

(** Setting the next run reads the clock once when the period fits, and
    not at all when it does not. *)
Lemma schedule_next_run_run seconds s :
  schedule_next_run seconds s
  = match timedelta_of_seconds seconds with
    | Ok _ => (next_run_at (clock (tick s)) seconds, bump s)
    | Raise e => (Raise e, s)
    end.
Proof.
  unfold schedule_next_run, next_run_at, datetime_now. unfold_monad.
  by destruct (timedelta_of_seconds seconds).
Qed.

(** Scheduling a job, by whether the period fits. *)
Lemma every_seconds_do_run n a jobs s :
  every_seconds_do (Stored n) a jobs s
  = match timedelta_of_seconds n with
    | Ok _ => ((fun next => jobs ++ [Job a n next])
                <$> next_run_at (clock (tick s)) n, bump s)
    | Raise e => (Raise e, s)
    end.
Proof.
  unfold every_seconds_do, bind. rewrite schedule_next_run_run.
  destruct (timedelta_of_seconds n); [|done]. by destruct (next_run_at _ _).
Qed.

(** What scheduling a job raises is the exception of an interval that
    cannot be scheduled. *)
Lemma every_seconds_do_raises seconds a jobs s e :
  eval (every_seconds_do seconds a jobs) s = Raise e ->
  (e = OverflowError \/ e = TypeError) /\ ~ schedulable_stored seconds.
Proof.
  destruct seconds as [n|]; [|intros [= <-]; split; [by right|by intros (n & ? & _)]].
  unfold eval. rewrite every_seconds_do_run. intros He.
  assert (e = OverflowError /\ ~ schedulable n) as [-> Hn].
  { destruct (timedelta_of_seconds n) as [d|e'] eqn:Hd; simpl in He.
    - destruct (next_run_at (clock (tick s)) n) as [next|e'] eqn:Hn; [done|].
      simpl in He. injection He as ->. split; [by eapply next_run_at_raises|].
      intros Hs. specialize (Hs (tick s)). by rewrite Hn in Hs.
    - injection He as ->. split; [by eapply timedelta_of_seconds_raises|].
      intros Hs. specialize (Hs 0). unfold next_run_at in Hs. by rewrite Hd in Hs. }
  split; [by left|]. by intros (? & [= <-] & ?).
Qed.

#[export] Instance schedule_next_run_raises seconds :
  Raises (fun e => e = OverflowError) (schedule_next_run seconds).
Proof.
  intros s e. unfold eval. rewrite schedule_next_run_run.
  destruct (timedelta_of_seconds seconds) as [d|e'] eqn:Hd; simpl.
  - apply next_run_at_raises.
  - intros [= <-]. by apply timedelta_of_seconds_raises in Hd.
Qed.

#[export] Instance schedule_next_run_ordinary seconds :
  Ordinary (schedule_next_run seconds).
Proof. intros s e He. by rewrite (schedule_next_run_raises seconds s e He). Qed.
End SchedulerRaises.

(** ** What the monitor preserves *)

Section MonitorFrame.
Context {E : Environment} (cfg : Config).
Implicit Types (s : State) (jobs : list job).

#[export] Instance run_speedtest_keeps_connection : KeepsConnection run_speedtest.
Proof. unfold run_speedtest. respects. Qed.

#[export] Instance run_action_periodic a : PeriodicAction (run_action cfg a).
Proof. destruct a; simpl; (split; respects). Qed.

#[export] Instance generate_report_steady : Steady generate_report.
Proof. steady. Qed.

#[export] Instance init_monitor_steady : Steady (init_monitor).
Proof. unfold init_monitor. steady. Qed.

#[export] Instance startup_steady : Steady (startup cfg).
Proof. unfold startup. steady. Qed.

#[export] Instance cycle_steady jobs : Steady (cycle cfg jobs).
Proof. unfold cycle. steady. Qed.

#[export] Instance monitor_loop_steady fuel jobs : Steady (monitor_loop cfg fuel jobs).
Proof. revert jobs. induction fuel; intros jobs; simpl; steady. Qed.

#[export] Instance stop_steady : Steady stop.
Proof. unfold stop. steady. Qed.

#[export] Instance run_monitor_steady fuel : Steady (run_monitor cfg fuel).
Proof. unfold run_monitor. steady. Qed.

#[export] Instance init_monitor_returns : Returns init_monitor.
Proof. unfold init_monitor, _init_csv_files, init_csv_file, init_connection. returns. Qed.

#[export] Instance startup_aside : Respects aside (startup cfg).
Proof. unfold startup. respects. Qed.

#[export] Instance stop_aside : Respects aside stop.
Proof. unfold stop. respects. Qed.

#[export] Instance startup_probe_rows P : Respects (grows connectivity_log P) (startup cfg).
Proof. unfold startup. respects. Qed.

#[export] Instance stop_probe_rows P : Respects (grows connectivity_log P) stop.
Proof. unfold stop. respects. Qed.

#[export] Instance monitor_loop_speed_rows fuel jobs :
  Respects (grows speedtest_log is_speed_row) (monitor_loop cfg fuel jobs).
Proof. revert jobs. induction fuel; intros jobs; simpl; unfold cycle; respects. Qed.

#[export] Instance monitor_loop_probe_rows fuel jobs :
  Respects (grows connectivity_log is_probe_row) (monitor_loop cfg fuel jobs).
Proof. revert jobs. induction fuel; intros jobs; simpl; unfold cycle; respects. Qed.

#[export] Instance run_monitor_speed_rows fuel :
  Respects (grows speedtest_log is_speed_row) (run_monitor cfg fuel).
Proof. unfold run_monitor, startup, stop. respects. Qed.

#[export] Instance run_monitor_probe_rows fuel :
  Respects (grows connectivity_log is_probe_row) (run_monitor cfg fuel).
Proof. unfold run_monitor, startup, stop. respects. Qed.
End MonitorFrame.

(** ** The count of interactions never goes down *)

Section MonitorLater.
Context {E : Environment} (cfg : Config).

#[export] Instance ping_test_later target : Respects later (ping_test target).
Proof. unfold ping_test. respects. Qed.

#[export] Instance http_test_later url : Respects later (http_test url).
Proof. unfold http_test. respects. Qed.

#[export] Instance handle_later v : Respects later (_handle_connection_state v).
Proof. unfold _handle_connection_state. respects. Qed.

#[export] Instance test_connectivity_later : Respects later (test_connectivity cfg).
Proof. unfold test_connectivity. respects. Qed.

#[export] Instance run_speedtest_later : Respects later run_speedtest.
Proof. unfold run_speedtest, measure, run_fallback. respects. Qed.

#[export] Instance run_action_later a : Respects later (run_action cfg a).
Proof. destruct a; simpl; respects. Qed.

#[export] Instance run_pending_later jobs :
  Respects later (run_pending (run_action cfg) jobs).
Proof. unfold run_pending, due_jobs, should_run, run_job, schedule_next_run. respects. Qed.

(** Nothing but [generate_report] writes a report. *)
#[export] Instance handle_same_reports v : Respects same_reports (_handle_connection_state v).
Proof. unfold _handle_connection_state. respects. Qed.

#[export] Instance test_connectivity_same_reports :
  Respects same_reports (test_connectivity cfg).
Proof. unfold test_connectivity. respects. Qed.

#[export] Instance run_speedtest_same_reports : Respects same_reports run_speedtest.
Proof. unfold run_speedtest. respects. Qed.

#[export] Instance startup_same_reports : Respects same_reports (startup cfg).
Proof. unfold startup. respects. Qed.

#[export] Instance cycle_same_reports jobs : Respects same_reports (cycle cfg jobs).
Proof. unfold cycle, run_pending, run_job. respects; destruct (job_action _); simpl; respects. Qed.

#[export] Instance monitor_loop_same_reports fuel jobs :
  Respects same_reports (monitor_loop cfg fuel jobs).
Proof. revert jobs. induction fuel; intros jobs; simpl; respects. Qed.
End MonitorLater.

(** ** The invariant *)

Section Invariant.
Context {E : Environment} (cfg : Config).
Implicit Types (s : State) (jobs : list job).

(** What a steady computation does to the invariant and to the store. *)
Lemma steady_run {A} (c : M State A) s :
  Steady c -> monitor_inv s -> monitor_inv (exec c s) /\ store_le s (exec c s).
Proof.
  intros Hsteady [Hc Hw]. split; [split|].
  - by apply (respects (R := keeps_conn_inv)).
  - by apply (respects (R := keeps_wf)).
  - apply (respects (R := store_le)).
Qed.

(** [__init__] establishes the invariant over the files it finds. *)
Lemma init_monitor_inv s : store_ok s -> monitor_inv (exec init_monitor s).
Proof.
  intros Hok. unfold init_monitor. rewrite exec_seq by (unfold _init_csv_files, init_csv_file; returns).
  split; [apply init_connection_inv|].
  by apply (respects (R := keeps_wf)), init_csv_files_wf.
Qed.

(** A run of the monitor of any length, in any environment, keeps
    the connection fields consistent and the store well formed, and only
    appends to the series. *)
Theorem run_monitor_keeps_invariant fuel s :
  monitor_inv s ->
  monitor_inv (exec (run_monitor cfg fuel) s) /\
  store_le s (exec (run_monitor cfg fuel) s).
Proof. apply steady_run, _. Qed.

End Invariant.

(** ** The interrupt *)

Section Interrupt.
Context {E : Environment} (cfg : Config).
Implicit Types (s : State) (jobs : list job).

(** A loop that an exception ended is not changed by more fuel. *)
Lemma monitor_loop_raised fuel k jobs s e :
  eval (monitor_loop cfg fuel jobs) s = Raise e ->
  monitor_loop cfg (fuel + k) jobs s = monitor_loop cfg fuel jobs s.
Proof.
  revert jobs s. induction fuel as [|fuel IH]; intros jobs s; simpl; [done|].
  unfold eval, bind. destruct (cycle cfg jobs s) as [[jobs'|e'] s']; [|done].
  apply IH.
Qed.

(** What [run_monitor] does once the jobs are scheduled and the first
    speed test is done. *)
Lemma run_monitor_run fuel s jobs :
  eval (startup cfg) s = Ok jobs ->
  run_monitor cfg fuel s
  = match monitor_loop cfg fuel jobs (exec (startup cfg) s) with
    | (Ok jobs', s') => (Ok (Running jobs'), s')
    | (Raise e, s') => if is_KeyboardInterrupt e then stop s' else (Raise e, s')
    end.
Proof.
  unfold run_monitor, eval, exec, bind at 1, try_except.
  destruct (startup cfg s) as [r s0]. simpl. intros ->. unfold bind.
  by destruct (monitor_loop cfg fuel jobs s0) as [[jobs'|e] s'].
Qed.

(** A run that an exception ended before the loop is the same whatever
    the fuel. *)
Lemma run_monitor_raised_early fuel s e :
  eval (startup cfg) s = Raise e -> run_monitor cfg fuel s = (Raise e, exec (startup cfg) s).
Proof.
  unfold run_monitor, eval, exec, bind.
  by destruct (startup cfg s) as [[jobs|e'] s0]; intros [= ->].
Qed.

(** When the interrupt arrives in the loop, [run_monitor] is [stop] from
    the state the loop left. *)
Lemma run_monitor_interrupted fuel s jobs :
  eval (startup cfg) s = Ok jobs ->
  eval (monitor_loop cfg fuel jobs) (exec (startup cfg) s) = Raise KeyboardInterrupt ->
  let s1 := exec (monitor_loop cfg fuel jobs) (exec (startup cfg) s) in
  exec (run_monitor cfg fuel) s = exec stop s1 /\
  eval (run_monitor cfg fuel) s = eval stop s1.
Proof.
  intros H0 Hl. unfold eval, exec in Hl |- *.
  rewrite (run_monitor_run fuel s jobs H0). unfold exec.
  destruct (monitor_loop cfg fuel jobs _) as [r s1]. simpl in *. by subst r.
Qed.

(** [stop] is the report generated after one log record; it ends the run
    unless the report is interrupted. *)
Lemma stop_run s :
  exec stop s = exec generate_report (exec (logger INFO MonitoringStopped) s) /\
  eval stop s
  = match eval generate_report (exec (logger INFO MonitoringStopped) s) with
    | Ok _ => Ok Stopped
    | Raise e => Raise e
    end.
Proof.
  unfold stop. rewrite exec_seq, eval_seq by apply _. split.
  - by rewrite exec_bind_ret.
  - unfold eval, bind. by destruct (generate_report _) as [[?|?] ?].
Qed.

(** C17: when the interrupt arrives in the loop, [run_monitor] logs that
    it stops and generates one report from the state the loop left, which
    holds the title, the date and the sections; nothing else can end the run
    but a second interrupt during the report. *)
Theorem interrupted_loop_reports fuel s jobs :
  eval (startup cfg) s = Ok jobs ->
  eval (monitor_loop cfg fuel jobs) (exec (startup cfg) s) = Raise KeyboardInterrupt ->
  let s1 := exec (monitor_loop cfg fuel jobs) (exec (startup cfg) s) in
  let s2 := exec (logger INFO MonitoringStopped) s1 in
  exec (run_monitor cfg fuel) s = exec generate_report s2 /\
  report_lines (report_stamp (clock (tick s1))) (exec (run_monitor cfg fuel) s)
  = [RTitle; RRule; RGenerated (clock (S (tick s1)))] ++ fst (report_body s2) /\
  (eval (run_monitor cfg fuel) s = Ok Stopped \/
   eval (run_monitor cfg fuel) s = Raise KeyboardInterrupt).
Proof.
  intros H0 Hl s1 s2.
  destruct (run_monitor_interrupted fuel s jobs H0 Hl) as [-> ->]. fold s1.
  destruct (stop_run s1) as [-> ->]. fold s2.
  destruct (generate_report_run s2) as [Hlines Heval].
  split; [done|]. split; [exact Hlines|].
  destruct (eval generate_report s2) as [stamp|e] eqn:He; [by left|right].
  by rewrite (proj1 (is_Exception_false e) (contained _ _ He)).
Qed.

(** With an option [enabled] that is no boolean, [run_monitor] stops at
    its fourth log record. *)
Lemma startup_unreadable s e :
  vps_enabled cfg = Raise e ->
  eval (startup cfg) s = Raise e /\
  quiet s (exec (startup cfg) s) /\ tick (exec (startup cfg) s) = tick s.
Proof.
  intros He. unfold startup, eval, exec. unfold_effects. unfold_monad.
  by rewrite He.
Qed.

(** With a readable option, what leaves the part of [run_monitor] that
    comes before the loop is an interrupt, or the exception of an interval
    that cannot be scheduled. *)
Lemma startup_raises `{!EnabledReadable cfg} :
  Raises (fun e => e = KeyboardInterrupt \/
                   ((e = OverflowError \/ e = TypeError) /\ ~ Schedulable cfg))
         (startup cfg).
Proof.
  set (P := fun e => e = KeyboardInterrupt \/
                     ((e = OverflowError \/ e = TypeError) /\ ~ Schedulable cfg)).
  assert (forall seconds a jobs, (Schedulable cfg -> schedulable_stored seconds) ->
            Raises P (every_seconds_do seconds a jobs)) as Hev.
  { intros seconds a jobs Hs s e [He Hn]%every_seconds_do_raises. right. auto. }
  assert (Raises P run_speedtest) as Hsp.
  { intros s e He. left. by apply is_Exception_false, (contained _ _ He). }
  destruct (enabled_readable (cfg := cfg)) as [b Hb].
  unfold startup. rewrite Hb. raises; apply Hev; by intros [].
Qed.

(** C21: an interrupt that arrives before the loop, during the first
    speed test, leaves [run_monitor] at once: no report is generated.  With
    a readable option the only other exception that can leave the part
    before the loop is that of an interval the scheduler cannot hold, an
    [OverflowError] or the [TypeError] of a list, and it leaves
    [run_monitor] the same way. *)
Theorem interrupted_startup_no_report `{!EnabledReadable cfg} fuel s e :
  eval (startup cfg) s = Raise e ->
  (e = KeyboardInterrupt \/
   ((e = OverflowError \/ e = TypeError) /\ ~ Schedulable cfg)) /\
  eval (run_monitor cfg fuel) s = Raise e /\
  reports (exec (run_monitor cfg fuel) s) = reports s.
Proof.
  intros H0. split; [by apply (startup_raises s e)|].
  pose proof (respects (R := same_reports) (c := startup cfg) s) as Hr.
  unfold eval at 1, exec at 1. by rewrite (run_monitor_raised_early fuel s e H0).
Qed.

(** C22: an option [enabled] that is no boolean stops the monitor before
    it starts.  The option is read to write the fourth log record of
    [run_monitor], outside any [try]: the [ValueError] leaves [run_monitor]
    after three log records, no job is scheduled, no speed test and no
    check is made, no report is written, whatever the fuel. *)
Theorem unreadable_option_stops_monitor fuel s e :
  vps_enabled cfg = Raise e ->
  e = ValueError /\
  eval (run_monitor cfg fuel) s = Raise ValueError /\
  quiet s (exec (run_monitor cfg fuel) s) /\
  tick (exec (run_monitor cfg fuel) s) = tick s /\
  log (exec (run_monitor cfg fuel) s)
  = log s ++ [ LogRecord INFO MonitorStarting;
               LogRecord INFO (PingIntervalIs (ping_interval cfg));
               LogRecord INFO (SpeedTestIntervalIs (speedtest_interval cfg)) ].
Proof.
  intros He. destruct (getboolean_raises _ _ _ _ _ He) as [-> _].
  split; [done|]. unfold run_monitor, startup, eval, exec.
  unfold_effects. unfold_monad. rewrite He. simpl.
  by rewrite <- !app_assoc.
Qed.
End Interrupt.

(** ** A pending interrupt stops the monitor *)

Section Termination.
Context {E : Environment} (cfg : Config).
Implicit Types (s : State) (jobs : list job).

(** A cycle that completes slept: an interaction passed, and the sleep was
    not interrupted. *)
Lemma cycle_slept n0 jobs s jobs' s' :
  interrupt_pending n0 -> cycle cfg jobs s = (Ok jobs', s') ->
  tick s < tick s' <= n0.
Proof.
  intros Hp. unfold cycle, bind at 1.
  pose proof (respects (R := later) (c := test_connectivity cfg) s) as H1.
  unfold exec in H1. destruct (test_connectivity cfg s) as [[c|e] s1]; [|done].
  unfold bind at 1.
  pose proof (respects (R := later) (c := run_pending (run_action cfg) jobs) s1) as H2.
  unfold exec in H2. destruct (run_pending _ jobs s1) as [[jobs1|e] s2]; [|done].
  unfold bind at 1. unfold later in *.
  destruct (sleep (ping_interval cfg) s2) as [[[]|e] s3] eqn:Hs; [|done].
  apply sleep_ok in Hs as (-> & n & _ & Hn). intros [= _ <-]. simpl.
  destruct (Nat.le_gt_cases n0 (tick s2)) as [Hle|Hgt]; [|simpl in *; lia].
  by rewrite (Hp _ _ Hle) in Hn.
Qed.

(** A loop that completes its cycles completed them before the interrupt
    was pending. *)
Lemma monitor_loop_slept n0 fuel jobs s jobs' s' :
  interrupt_pending n0 -> monitor_loop cfg (S fuel) jobs s = (Ok jobs', s') ->
  tick s + S fuel <= tick s' <= n0.
Proof.
  intros Hp. revert jobs s. induction fuel as [|fuel IH]; intros jobs s.
  - simpl. unfold bind. destruct (cycle cfg jobs s) as [[jobs1|e] s1] eqn:Hc; [|done].
    intros [= _ <-]. apply (cycle_slept n0) in Hc; [lia|done].
  - change (monitor_loop cfg (S (S fuel)) jobs s)
      with ((let! jobs1 := cycle cfg jobs in monitor_loop cfg (S fuel) jobs1) s).
    unfold bind at 1. destruct (cycle cfg jobs s) as [[jobs1|e] s1] eqn:Hc; [|done].
    intros Hl%IH. apply (cycle_slept n0) in Hc; [lia|done].
Qed.

(** With the interrupt pending from interaction [n0] on, a loop of more
    than [n0] cycles is ended by an exception. *)
Lemma monitor_loop_stops n0 fuel jobs s :
  interrupt_pending n0 -> n0 < fuel ->
  exists e, eval (monitor_loop cfg fuel jobs) s = Raise e.
Proof.
  intros Hp Hf. destruct fuel as [|fuel]; [lia|]. unfold eval.
  destruct (monitor_loop cfg (S fuel) jobs s) as [[jobs'|e] s'] eqn:Hl; [|by exists e].
  apply (monitor_loop_slept n0) in Hl; [lia|done].
Qed.

(** C20: an interrupt that stays pending stops the monitor.  When every
    sleep from interaction [n0] on is interrupted, a run of more than [n0]
    cycles has ended: [run_monitor] has returned after its handler, or an
    exception has left it, whatever the probes, the speed tests and the
    uploads do; and the run is the same with any larger number of cycles,
    so that it is the run of the program, whose loop has no bound. *)
Theorem pending_interrupt_stops_monitor n0 fuel k s :
  interrupt_pending n0 -> n0 < fuel ->
  (eval (run_monitor cfg fuel) s = Ok Stopped \/
   exists e, eval (run_monitor cfg fuel) s = Raise e) /\
  run_monitor cfg (fuel + k) s = run_monitor cfg fuel s.
Proof.
  intros Hp Hf. destruct (eval (startup cfg) s) as [jobs|e] eqn:H0.
  - destruct (monitor_loop_stops n0 fuel jobs (exec (startup cfg) s) Hp Hf) as [e He].
    unfold eval at 1 2. rewrite !(run_monitor_run cfg _ s jobs H0).
    rewrite (monitor_loop_raised cfg fuel k _ _ e He). unfold eval in He.
    destruct (monitor_loop cfg fuel jobs _) as [r s1]. simpl in He. subst r.
    split; [|done]. destruct (is_KeyboardInterrupt e); [|right; by exists e].
    destruct (stop_run s1) as [_ Hs]. unfold eval in Hs. rewrite Hs.
    destruct (generate_report _).1 as [stamp|e']; [by left|right; by exists e'].
  - unfold eval. rewrite !(run_monitor_raised_early cfg _ s e H0).
    split; [right; by exists e|done].
Qed.
End Termination.

(** ** Jobs run when they are due *)

Section Scheduling.
Context {E : Environment} (run : action -> M State unit).
Implicit Types (s : State) (j : job) (jobs : list job).

Lemma should_run_not_due (due : list (nat * job)) ij s :
  (clock (tick s) < next_run (snd ij))%Z ->
  (let! b := should_run (snd ij) in ret (if b then due ++ [ij] else due)) s
  = (Ok due, bump s).
Proof.
  intros H0%Z.leb_gt. unfold should_run, datetime_now. unfold_monad. simpl.
  by rewrite H0.
Qed.

Lemma iter_bump_S k s : Nat.iter k bump (bump s) = bump (Nat.iter k bump s).
Proof. induction k; simpl; [done|]. by f_equal. Qed.

(** While no job is due the scheduler only reads the clock, once per
    job. *)
Lemma due_jobs_none (l : list (nat * job)) due s :
  (forall i ij, l !! i = Some ij -> (clock (tick s + i) < next_run (snd ij))%Z) ->
  fold_each l due
    (fun due ij => let! b := should_run (snd ij) in
                   ret (if b then due ++ [ij] else due)) s
  = (Ok due, Nat.iter (length l) bump s).
Proof.
  revert s. induction l as [|ij l IH]; intros s Hl; [done|].
  pose proof (Hl 0 ij eq_refl) as H0. rewrite Nat.add_0_r in H0.
  simpl. unfold bind at 1. rewrite should_run_not_due by done.
  rewrite IH; [by rewrite iter_bump_S|].
  intros i ij' Hi. specialize (Hl (S i) ij' Hi).
  by replace (tick (bump s) + i) with (tick s + S i) by (simpl; lia).
Qed.

Lemma run_pending_none_due jobs s :
  (forall i j, jobs !! i = Some j -> (clock (tick s + i) < next_run j)%Z) ->
  run_pending run jobs s = (Ok jobs, Nat.iter (length jobs) bump s).
Proof.
  intros Hjobs. unfold run_pending, due_jobs, bind at 1.
  rewrite due_jobs_none.
  - by rewrite length_imap.
  - intros i [k j] (j' & Hj & [= -> ->])%list_lookup_imap_Some. by apply (Hjobs i).
Qed.

End Scheduling.

(** ** The order in which due jobs run *)

Section JobOrder.
Implicit Types (x y : nat * job) (xs l : list (nat * job)).

Lemma due_at_cons t x xs :
  due_at t (x :: xs) = if decide (next_run (snd x) = t) then x :: due_at t xs else due_at t xs.
Proof. unfold due_at. by rewrite filter_cons. Qed.

(** Inserting a job moves it past jobs that are due earlier only. *)
Lemma insert_job_due_at t x xs : due_at t (insert_job x xs) = due_at t (x :: xs).
Proof.
  induction xs as [|y ys IH]; simpl; [done|].
  destruct (Z.leb_spec (next_run (snd x)) (next_run (snd y))) as [?|Hlt]; [done|].
  rewrite due_at_cons, IH, !due_at_cons. repeat case_decide; try done; lia.
Qed.

Lemma sort_jobs_due_at t xs : due_at t (sort_jobs xs) = due_at t xs.
Proof.
  induction xs as [|x xs IH]; [done|]. unfold sort_jobs in *. simpl.
  by rewrite insert_job_due_at, !due_at_cons, IH.
Qed.

Lemma insert_job_Forall (P : nat * job -> Prop) x xs :
  P x -> Forall P xs -> Forall P (insert_job x xs).
Proof.
  intros Hx. induction 1 as [|y ys Hy Hys IH]; simpl; [by repeat constructor|].
  case_match; by repeat constructor.
Qed.

Lemma insert_job_sorted x xs :
  StronglySorted job_le xs -> StronglySorted job_le (insert_job x xs).
Proof.
  induction 1 as [|y ys Hs IH Hy]; simpl; [by repeat constructor|].
  destruct (Z.leb_spec (next_run (snd x)) (next_run (snd y))) as [Hle|Hlt].
  - constructor; [by constructor|]. constructor; [done|].
    eapply Forall_impl; [exact Hy|]. unfold job_le. intros z ?. lia.
  - constructor; [done|]. apply insert_job_Forall; [|done]. unfold job_le. lia.
Qed.

Lemma sort_jobs_sorted xs : StronglySorted job_le (sort_jobs xs).
Proof.
  induction xs as [|x xs IH]; [constructor|]. by apply insert_job_sorted.
Qed.

(** The first of a sorted list is due no later than any job that is due
    when one of the list is. *)
Lemma sorted_head_least x l y l' :
  StronglySorted job_le (x :: l) ->
  due_at (next_run (snd y)) (y :: l') = due_at (next_run (snd y)) (x :: l) ->
  job_le x y.
Proof.
  intros [_ Hx]%StronglySorted_inv Hd.
  assert (y ∈ x :: l) as [->|Hy]%elem_of_cons; [|by unfold job_le|].
  - eapply (list_elem_of_filter (fun z => next_run (snd z) = next_run (snd y))).
    unfold due_at in Hd. rewrite <- Hd, filter_cons_True by done. left.
  - rewrite Forall_forall in Hx. by apply Hx.
Qed.

(** Two sorted lists that hold, for each time, the same jobs in the same
    order are equal. *)
Lemma stable_sort_unique l1 l2 :
  StronglySorted job_le l1 -> StronglySorted job_le l2 ->
  (forall t, due_at t l1 = due_at t l2) -> l1 = l2.
Proof.
  revert l2. induction l1 as [|x l1 IH]; intros [|y l2] H1 H2 Hd; [done| | |].
  - specialize (Hd (next_run (snd y))). by rewrite due_at_cons, decide_True in Hd.
  - specialize (Hd (next_run (snd x))). by rewrite due_at_cons, decide_True in Hd.
  - pose proof (sorted_head_least x l1 y l2 H1 (eq_sym (Hd _))) as Hxy.
    pose proof (sorted_head_least y l2 x l1 H2 (Hd _)) as Hyx.
    assert (next_run (snd x) = next_run (snd y)) as Hk by (unfold job_le in *; lia).
    pose proof (Hd (next_run (snd x))) as Hh.
    rewrite !due_at_cons, decide_True, decide_True in Hh by done.
    injection Hh as -> Hh. f_equal.
    apply IH; [by apply StronglySorted_inv in H1 as [? _]|
               by apply StronglySorted_inv in H2 as [? _]|].
    intros t. specialize (Hd t). rewrite !due_at_cons in Hd.
    by case_decide; simplify_eq.
Qed.

(** The due jobs run in the order [sorted] gives them.  The
    insertion of the model computes the stable sort: [sort_jobs xs] is in
    ascending order of next run and keeps the jobs due at the same time in
    the order of [xs], and it is the only list that does. *)
Theorem sort_jobs_stable_sort xs l : stable_sort_of xs l <-> l = sort_jobs xs.
Proof.
  split.
  - intros [Hs Hd]. apply stable_sort_unique; [done|apply sort_jobs_sorted|].
    intros t. by rewrite Hd, sort_jobs_due_at.
  - intros ->. split; [apply sort_jobs_sorted|]. intros t. apply sort_jobs_due_at.
Qed.
End JobOrder.

(** ** When the loop goes on *)

Section SchedulerReturns.
Context {E : Environment} (run : action -> M State unit).
Context {run_returns : forall a, Returns (run a)}.
Implicit Types (s : State) (j : job) (jobs : list job).

(** [job.run()], by the outcome of the action: the clock is read for the
    last run and, when the period fits, for the next. *)
Lemma run_job_run j s :
  run_job run j s
  = match run (job_action j) s with
    | (Ok _, s1) =>
        match timedelta_of_seconds (interval j) with
        | Ok _ => (Job (job_action j) (interval j)
                     <$> next_run_at (clock (S (tick s1))) (interval j),
                   bump (bump s1))
        | Raise e => (Raise e, bump s1)
        end
    | (Raise e, s1) => (Raise e, s1)
    end.
Proof.
  unfold run_job, bind at 1. destruct (run (job_action j) s) as [[[]|e] s1]; [|done].
  unfold bind at 1, datetime_now. unfold bind at 1. rewrite schedule_next_run_run.
  destruct (timedelta_of_seconds (interval j)); [|done]. cbn [tick bump].
  by destruct (next_run_at _ _).
Qed.

(** A job of a schedulable interval runs and is scheduled again, with
    its action and its interval. *)
Lemma run_job_schedulable j s :
  schedulable (interval j) ->
  exists next, eval (run_job run j) s = Ok (Job (job_action j) (interval j) next).
Proof.
  intros Hj. unfold eval. rewrite run_job_run.
  destruct (returns_run (run (job_action j)) s) as [[] ->].
  specialize (Hj (S (tick (exec (run (job_action j)) s)))). unfold next_run_at in *.
  destruct (timedelta_of_seconds (interval j)); [|done]. simpl in *.
  destruct (datetime_add _ _) as [next|]; [by exists next|done].
Qed.

Lemma sort_jobs_Forall (P : nat * job -> Prop) xs : Forall P xs -> Forall P (sort_jobs xs).
Proof. induction 1; [constructor|]. by apply insert_job_Forall. Qed.

(** The loop of [due_jobs] returns, and the jobs it finds are jobs of the
    list. *)
Lemma due_jobs_schedulable jobs s :
  jobs_schedulable jobs ->
  exists due, eval (due_jobs jobs) s = Ok due /\
              Forall (fun ij => schedulable (interval ij.2)) due.
Proof.
  intros Hjobs.
  pose proof (fold_each_inv
    (fun _ (due : list (nat * job)) _ => Forall (fun ij => schedulable (interval ij.2)) due)
    (fun _ => False) (imap pair jobs)
    (fun due ij => let! b := should_run (snd ij) in ret (if b then due ++ [ij] else due)))
    as H.
  assert (forall done x rest due (s0 : State),
            imap pair jobs = done ++ x :: rest ->
            Forall (fun ij => schedulable (interval ij.2)) due ->
            match (let! b := should_run x.2 in ret (if b then due ++ [x] else due)) s0 with
            | (Ok due', _) => Forall (fun ij => schedulable (interval ij.2)) due'
            | (Raise _, _) => False
            end) as Hstep.
  { intros done [i j] rest due s0 Hxs Hdue.
    unfold should_run, datetime_now. unfold_monad. simpl.
    case_match; [|done]. apply Forall_app. split; [done|]. repeat constructor.
    assert (imap pair jobs !! length done = Some (i, j)) as Hl
      by (rewrite Hxs; by apply list_lookup_middle).
    apply list_lookup_imap_Some in Hl as (j' & Hj & [= _ ->]).
    apply (Forall_lookup_1 (fun j => schedulable (interval j)) jobs _ _ Hjobs Hj). }
  specialize (H Hstep [] s (Forall_nil_2 _)). unfold due_jobs, eval.
  destruct (fold_each _ _ _ s) as [[due|e] s1]; [by exists due|done].
Qed.

(** The scheduler returns, and the jobs it returns can be scheduled
    again. *)
Lemma run_pending_schedulable jobs s :
  jobs_schedulable jobs ->
  exists jobs', eval (run_pending run jobs) s = Ok jobs' /\ jobs_schedulable jobs'.
Proof.
  intros Hjobs. unfold run_pending, eval, bind.
  destruct (due_jobs_schedulable jobs s Hjobs) as (due & Hd & Hdue).
  unfold eval in Hd. destruct (due_jobs jobs s) as [r s1]. simpl in Hd. subst r.
  apply sort_jobs_Forall in Hdue. set (l := sort_jobs due) in *.
  pose proof (fold_each_inv (fun _ cur _ => jobs_schedulable cur) (fun _ => False) l
                (fun cur ij => let! j' := run_job run (snd ij) in
                               ret (<[fst ij := j']> cur))) as H.
  assert (forall done x rest cur s0,
            l = done ++ x :: rest -> jobs_schedulable cur ->
            match (let! j' := run_job run x.2 in ret (<[x.1 := j']> cur)) s0 with
            | (Ok cur', _) => jobs_schedulable cur'
            | (Raise _, _) => False
            end) as Hstep.
  { intros done x rest cur s0 Hl Hcur.
    assert (schedulable (interval x.2)) as Hx.
    { rewrite Forall_forall in Hdue. apply Hdue. rewrite Hl, elem_of_app, elem_of_cons. auto. }
    destruct (run_job_schedulable x.2 s0 Hx) as [next Hrun]. unfold eval, bind in *.
    destruct (run_job run x.2 s0) as [r s']. simpl in Hrun. subst r. simpl.
    by apply Forall_insert. }
  specialize (H Hstep jobs s1 Hjobs).
  destruct (fold_each l jobs _ s1) as [[jobs'|e] s2]; [by exists jobs'|done].
Qed.
End SchedulerReturns.

Section LoopReturns.
Context {E : Environment} {U : Uninterrupted E} {D : Decodable E} (cfg : Config).
Context {readable : EnabledReadable cfg} {fits : Schedulable cfg}.
Implicit Types (s : State) (jobs : list job).

#[export] Instance run_action_returns a : Returns (run_action cfg a).
Proof. destruct a; simpl; returns. Qed.

Lemma schedule_next_run_returns seconds :
  schedulable seconds -> Returns (schedule_next_run seconds).
Proof.
  intros Hs s. unfold eval. rewrite schedule_next_run_run.
  specialize (Hs (tick s)). unfold next_run_at in *.
  by destruct (timedelta_of_seconds seconds).
Qed.

(** The part of [run_monitor] before the loop returns jobs that can be
    scheduled again. *)
Lemma startup_schedulable s :
  exists jobs, eval (startup cfg) s = Ok jobs /\ jobs_schedulable jobs.
Proof.
  destruct (speedtest_schedulable (cfg := cfg)) as (n1 & Hn1 & Hs1).
  destruct (upload_schedulable (cfg := cfg)) as (n2 & Hn2 & Hs2).
  pose proof (schedule_next_run_returns _ Hs1) as H1.
  pose proof (schedule_next_run_returns _ Hs2) as H2.
  destruct (enabled_readable (cfg := cfg)) as [b Hb].
  assert (Returns (startup cfg)) as Hr
    by (unfold startup, every_seconds_do; rewrite Hb, Hn1, Hn2; returns).
  destruct (returns_run (startup cfg) s) as [jobs Hs].
  exists jobs. split; [unfold eval; by rewrite Hs|].
  revert Hs. unfold startup, every_seconds_do. rewrite Hb, Hn1, Hn2.
  unfold_effects. unfold_monad.
  simpl. repeat case_match; simplify_eq; intros; simplify_eq; by repeat constructor.
Qed.

(** A cycle with an interval that [time.sleep] accepts returns, and its
    jobs can be scheduled again. *)
Lemma cycle_schedulable jobs s :
  sleepable (ping_interval cfg) -> jobs_schedulable jobs ->
  exists jobs', eval (cycle cfg jobs) s = Ok jobs' /\ jobs_schedulable jobs'.
Proof.
  intros Hi Hjobs. pose proof (sleep_returns _ Hi) as Hsleep. unfold cycle, eval.
  destruct (returns_run (test_connectivity cfg) s) as [c Hc]. unfold bind at 1. rewrite Hc.
  destruct (run_pending_schedulable (run_action cfg) jobs (exec (test_connectivity cfg) s)
              Hjobs) as (jobs' & Hp & Hjobs').
  unfold eval in Hp. unfold bind at 1.
  destruct (run_pending _ jobs _) as [r s2]. simpl in Hp. subst r.
  destruct (returns_run (sleep (ping_interval cfg)) s2) as [[] Hs].
  unfold bind at 1. rewrite Hs. by exists jobs'.
Qed.

Lemma monitor_loop_schedulable fuel jobs s :
  sleepable (ping_interval cfg) -> jobs_schedulable jobs ->
  exists jobs', eval (monitor_loop cfg fuel jobs) s = Ok jobs'.
Proof.
  intros Hi. revert jobs s. induction fuel as [|fuel IH]; intros jobs s Hjobs; simpl.
  - by exists jobs.
  - destruct (cycle_schedulable jobs s Hi Hjobs) as (jobs1 & Hc & Hjobs1).
    unfold eval, bind in *. destruct (cycle cfg jobs s) as [r s1]. simpl in Hc. subst r.
    by apply IH.
Qed.

(** C18: the loop is still running after any number of cycles when no
    interrupt arrives, the option [enabled] is a boolean, the interval
    between checks is one [time.sleep] accepts, the two intervals of the
    scheduler are integers that fit a [timedelta] and lead to dates the
    calendar has, and the standard error of a command that fails is UTF-8:
    no failure of a probe, of a speed test, of an upload or of a report
    stops the monitor. *)
Theorem loop_runs_until_interrupted fuel s :
  sleepable (ping_interval cfg) ->
  exists jobs, eval (run_monitor cfg fuel) s = Ok (Running jobs).
Proof.
  intros Hi. unfold run_monitor.
  destruct (startup_schedulable s) as (jobs0 & H0 & Hjobs0).
  destruct (monitor_loop_schedulable fuel jobs0 (exec (startup cfg) s) Hi Hjobs0)
    as [jobs H1].
  exists jobs. unfold eval, exec, bind, try_except in *.
  destruct (startup cfg s) as [r s0]. simpl in *. subst r.
  destruct (monitor_loop cfg fuel jobs0 s0) as [r s1]. simpl in *. by subst r.
Qed.

(** With an interval that [time.sleep] refuses the loop ends at its first
    sleep. *)
Lemma first_sleep_refused fuel jobs s :
  ~ sleepable (ping_interval cfg) -> jobs_schedulable jobs ->
  exists s1,
    monitor_loop cfg (S fuel) jobs s = (Raise (sleep_error (ping_interval cfg)), s1) /\
    same_reports s s1.
Proof.
  intros Hi Hjobs.
  assert (exists s1, cycle cfg jobs s = (Raise (sleep_error (ping_interval cfg)), s1))
    as [s1 Hc].
  { unfold cycle.
    destruct (returns_run (test_connectivity cfg) s) as [c Hc]. unfold bind at 1. rewrite Hc.
    destruct (run_pending_schedulable (run_action cfg) jobs (exec (test_connectivity cfg) s)
                Hjobs) as (jobs1 & Hp & _).
    unfold eval in Hp. unfold bind at 1.
    destruct (run_pending _ jobs _) as [r s2]. simpl in Hp. subst r.
    unfold bind at 1. rewrite sleep_refused by done. by exists s2. }
  pose proof (respects (R := same_reports) (c := cycle cfg jobs) s) as Hr.
  unfold exec in Hr. exists s1. cbn [monitor_loop]. unfold bind. by rewrite Hc in Hr |- *.
Qed.

(** C26: the command line accepts any integer as the interval between
    checks, and the empty list, and [time.sleep] does not: a negative
    interval is a [ValueError], one that does not fit the count of
    nanoseconds, either side of 0, an [OverflowError], and a list a
    [TypeError].  The loop does not catch them: the monitor ends at the
    first sleep, after one check, with no final report. *)
Theorem negative_interval_stops_monitor fuel s :
  ~ sleepable (ping_interval cfg) ->
  eval (run_monitor cfg (S fuel)) s = Raise (sleep_error (ping_interval cfg)) /\
  reports (exec (run_monitor cfg (S fuel)) s) = reports s.
Proof.
  intros Hi. destruct (startup_schedulable s) as (jobs0 & H0 & Hjobs0).
  pose proof (respects (R := same_reports) (c := startup cfg) s) as Hr0.
  destruct (first_sleep_refused fuel jobs0 (exec (startup cfg) s) Hi Hjobs0)
    as (s1 & Hl & Hr).
  unfold eval, exec. rewrite (run_monitor_run cfg (S fuel) s jobs0 H0), Hl.
  assert (is_KeyboardInterrupt (sleep_error (ping_interval cfg)) = false) as ->
    by (unfold sleep_error; by repeat case_match).
  split; [done|]. etrans; [exact Hr|exact Hr0].
Qed.
End LoopReturns.


(** ** Worked examples *)

(** Three due jobs, two of them due at the same time: the one due first
    runs first, the other two in the order they were scheduled. *)
Example sort_jobs_ties :
  sort_jobs [ (0, Job UploadJob 300 50000000); (1, Job SpeedTestJob 60 20000000);
              (2, Job SpeedTestJob 10 50000000) ]
  = [ (1, Job SpeedTestJob 60 20000000); (0, Job UploadJob 300 50000000);
      (2, Job SpeedTestJob 10 50000000) ].
Proof. reflexivity. Qed.

#[export] Instance calm_env_uninterrupted : Uninterrupted calm_env.
Proof. split; try done. intros n argv. simpl. by case_match. Qed.

#[export] Instance small_config_readable : EnabledReadable small_config.
Proof. by exists false. Qed.

#[export] Instance negative_interval_config_readable :
  EnabledReadable negative_interval_config.
Proof. by exists false. Qed.

#[export] Instance calm_env_decodable : Decodable calm_env.
Proof.
  split; simpl; [intros n argv r; by case_match; intros [= <-]| |done].
  intros n argv e. case_match; [done|by intros [= <-]].
Qed.

(** On a clock that stays within [horizon], the intervals that are not
    negative and lead from the horizon to a date can be scheduled. *)
Lemma schedulable_within {E : Environment} horizon seconds :
  (forall n, datetime_min <= clock n <= horizon)%Z ->
  (0 <= seconds < 86400 * (timedelta_max_days + 1))%Z ->
  (horizon + period seconds <= datetime_max)%Z ->
  schedulable seconds.
Proof.
  intros Hc Hs Hh n. specialize (Hc n).
  rewrite (proj2 (next_run_at_spec (clock n) seconds (clock n + period seconds)));
    [done|].
  unfold period, timedelta_max_days, datetime_min, datetime_max in *.
  split; [done|]. lia.
Qed.

Lemma calm_env_schedulable seconds :
  (0 <= seconds <= 1000000000)%Z -> @schedulable_stored calm_env (Stored seconds).
Proof.
  intros Hs. exists seconds. split; [done|].
  apply (schedulable_within 4102444800000000); simpl;
    unfold period, timedelta_max_days, datetime_min, datetime_max; lia.
Qed.

#[export] Instance small_config_schedulable : @Schedulable calm_env small_config.
Proof. split; by apply calm_env_schedulable. Qed.

#[export] Instance negative_interval_config_schedulable :
  @Schedulable calm_env negative_interval_config.
Proof. split; by apply calm_env_schedulable. Qed.

Lemma fresh_inv {E : Environment} : monitor_inv fresh.
Proof.
  apply init_monitor_inv. intros f rows H. simpl in H. by rewrite lookup_empty in H.
Qed.

(** A session of two cycles ended by the interrupt during the second
    sleep: two checks of two probes, the first speed test and no other
    (the next one is due a minute after the start), one report. *)
Example session_of_two_cycles :
  let s := exec (@run_monitor (interrupt_env 20) small_config 5) (@fresh (interrupt_env 20)) in
  eval (@run_monitor (interrupt_env 20) small_config 5) (@fresh (interrupt_env 20))
  = Ok Stopped /\
  length (rows_of connectivity_log s) = 5 /\
  length (rows_of speedtest_log s) = 2 /\
  rows_of events_log s = [events_header] /\
  size (reports s) = 1 /\
  is_connected s = true.
Proof. by vm_compute. Qed.

Lemma run_monitor_keeps_invariant_witness :
  monitor_inv (exec (@run_monitor calm_env small_config 3) (@fresh calm_env)) /\
  store_le (@fresh calm_env) (exec (@run_monitor calm_env small_config 3) (@fresh calm_env)).
Proof. apply (@run_monitor_keeps_invariant calm_env small_config 3), fresh_inv. Defined.

Lemma loop_runs_until_interrupted_witness :
  exists jobs,
    eval (@run_monitor calm_env small_config 3) (@fresh calm_env) = Ok (Running jobs).
Proof.
  apply (@loop_runs_until_interrupted calm_env calm_env_uninterrupted calm_env_decodable
           small_config small_config_readable small_config_schedulable 3).
  exists 30%Z. split; [done|]. unfold sleep_max. lia.
Defined.

Lemma negative_interval_stops_monitor_witness :
  eval (@run_monitor calm_env negative_interval_config 3) (@fresh calm_env)
  = Raise ValueError /\
  reports (exec (@run_monitor calm_env negative_interval_config 3) (@fresh calm_env))
  = reports (@fresh calm_env).
Proof.
  apply (@negative_interval_stops_monitor calm_env calm_env_uninterrupted
           calm_env_decodable negative_interval_config negative_interval_config_readable
           negative_interval_config_schedulable 2 (@fresh calm_env)).
  intros (n & [= <-] & Hn). lia.
Defined.

Lemma interrupt_env_pending n0 : @interrupt_pending (interrupt_env n0) n0.
Proof. intros n d Hn. simpl. by rewrite (proj2 (Nat.ltb_ge n n0)). Qed.

(** The interrupt is pending from interaction 20 on: a run of 21 cycles
    or more has stopped. *)
Lemma pending_interrupt_stops_monitor_witness :
  (eval (@run_monitor (interrupt_env 20) small_config 21) (@fresh (interrupt_env 20))
   = Ok Stopped \/
   exists e, eval (@run_monitor (interrupt_env 20) small_config 21)
                  (@fresh (interrupt_env 20)) = Raise e) /\
  @run_monitor (interrupt_env 20) small_config (21 + 100) (@fresh (interrupt_env 20))
  = @run_monitor (interrupt_env 20) small_config 21 (@fresh (interrupt_env 20)).
Proof.
  apply (@pending_interrupt_stops_monitor (interrupt_env 20) small_config 20 21 100);
    [apply interrupt_env_pending|lia].
Defined.

(** An interval between speed tests that no [timedelta] holds ends
    [run_monitor] when the job is scheduled, before the first speed test
    and the first check. *)
Example huge_interval_stops_monitor :
  let run := @run_monitor calm_env huge_interval_config 5 (@fresh calm_env) in
  run.1 = Raise OverflowError /\
  rows_of speedtest_log run.2 = [speedtest_header] /\
  rows_of connectivity_log run.2 = [connectivity_header] /\
  tick run.2 = tick (@fresh calm_env).
Proof. by vm_compute. Qed.

(** An interval between checks that is a list ends [run_monitor] at the
    first sleep, after the first speed test and one check. *)
Example list_interval_stops_monitor :
  let run := @run_monitor calm_env list_interval_config 5 (@fresh calm_env) in
  run.1 = Raise TypeError /\
  length (rows_of speedtest_log run.2) = 2 /\
  length (rows_of connectivity_log run.2) = 3 /\
  size (reports run.2) = 0.
Proof. by vm_compute. Qed.

(** An upload is due in the first cycle and [ssh] fails with a standard
    error that is not UTF-8: the [UnicodeDecodeError] of line 430 leaves
    [upload_logs], the scheduler, the loop and [run_monitor]; no report is
    written. *)
Example undecodable_stderr_stops_monitor :
  let run := @run_monitor garbled_ssh_env eager_upload_config 5 (@fresh garbled_ssh_env) in
  run.1 = Raise UnicodeDecodeError /\
  length (rows_of connectivity_log run.2) = 3 /\
  size (reports run.2) = 0.
Proof. by vm_compute. Qed.

Lemma interrupted_loop_reports_witness :
  let s1 := exec (@monitor_loop (interrupt_env 0) small_config 1
                    [Job SpeedTestJob 60 61000000])
                 (exec (@startup (interrupt_env 0) small_config) (@fresh (interrupt_env 0))) in
  let s2 := exec (@logger INFO MonitoringStopped) s1 in
  exec (@run_monitor (interrupt_env 0) small_config 1) (@fresh (interrupt_env 0))
  = exec (@generate_report (interrupt_env 0)) s2 /\
  report_lines (report_stamp (@clock (interrupt_env 0) (tick s1)))
    (exec (@run_monitor (interrupt_env 0) small_config 1) (@fresh (interrupt_env 0)))
  = [RTitle; RRule; RGenerated (@clock (interrupt_env 0) (S (tick s1)))]
    ++ fst (@report_body (interrupt_env 0) s2) /\
  (eval (@run_monitor (interrupt_env 0) small_config 1) (@fresh (interrupt_env 0))
   = Ok Stopped \/
   eval (@run_monitor (interrupt_env 0) small_config 1) (@fresh (interrupt_env 0))
   = Raise KeyboardInterrupt).
Proof.
  apply (@interrupted_loop_reports (interrupt_env 0) small_config 1
           (@fresh (interrupt_env 0)) [Job SpeedTestJob 60 61000000]);
    by vm_compute.
Defined.

Lemma interrupted_startup_no_report_witness :
  (KeyboardInterrupt = KeyboardInterrupt \/
   ((KeyboardInterrupt = OverflowError \/ KeyboardInterrupt = TypeError) /\
    ~ @Schedulable interrupted_tool_env small_config)) /\
  eval (@run_monitor interrupted_tool_env small_config 3) (@fresh interrupted_tool_env)
  = Raise KeyboardInterrupt /\
  reports (exec (@run_monitor interrupted_tool_env small_config 3)
                (@fresh interrupted_tool_env))
  = reports (@fresh interrupted_tool_env).
Proof.
  apply (@interrupted_startup_no_report interrupted_tool_env small_config
           small_config_readable 3 (@fresh interrupted_tool_env)).
  by vm_compute.
Defined.

Lemma unreadable_option_stops_monitor_witness :
  ValueError = ValueError /\
  eval (@run_monitor calm_env unreadable 3) (@fresh calm_env) = Raise ValueError /\
  quiet (@fresh calm_env) (exec (@run_monitor calm_env unreadable 3) (@fresh calm_env)) /\
  tick (exec (@run_monitor calm_env unreadable 3) (@fresh calm_env))
  = tick (@fresh calm_env) /\
  log (exec (@run_monitor calm_env unreadable 3) (@fresh calm_env))
  = log (@fresh calm_env)
    ++ [ LogRecord INFO MonitorStarting;
         LogRecord INFO (PingIntervalIs (ping_interval unreadable));
         LogRecord INFO (SpeedTestIntervalIs (speedtest_interval unreadable)) ].
Proof.
  apply (@unreadable_option_stops_monitor calm_env unreadable 3 (@fresh calm_env)
           ValueError).
  by vm_compute.
Defined.

