(* ===== verification/Spacing.v ===== *)
(** * Spacing: the time between scheduled speed tests

    The scheduler of [run_monitor] runs a job when the clock has reached
    the time of its next run, and sets the next run one interval after the
    job ended.  On a clock that does not go backwards the rows the
    scheduled speed tests leave in the speed test series are therefore at
    least [speedtest_interval] seconds apart, and the first comes at least
    that long after the job was scheduled, whatever the probes, the
    uploads and the speed tests themselves take.  The proof carries an
    invariant of the job list and the series through [run_pending], whose
    loop runs the due jobs in sorted order, through [cycle] and through
    [monitor_loop]. *)

From stdpp Require Import sorting.
From S2P Require Import Prelude Text Config Values World Store StateMachine Probe.
From S2P Require Import Connectivity Report SpeedTest Upload Monitor.

(** ** Spaced rows and the job that writes them *)

(** [spaced gap lo rows]: every row is stamped, the first no earlier than
    [lo], each of the others no earlier than [gap] after the one before. *)
Fixpoint spaced (gap : timedelta) (lo : datetime) (rows : list row) : Prop :=
  match rows with
  | [] => True
  | r :: rows' =>
      exists t, row_time r = Some t /\ (lo <= t)%Z /\ spaced gap (t + gap) rows'
  end.

(** The earliest time at which a row may follow [rows]. *)
Fixpoint bound_after (gap : timedelta) (lo : datetime) (rows : list row) : datetime :=
  match rows with
  | [] => lo
  | r :: rows' =>
      bound_after gap (from_option (fun t => t + gap)%Z lo (row_time r)) rows'
  end.

(** [jobs] holds exactly one job of the action [a], which is [j]. *)
Definition only_job (a : action) (j : job) (jobs : list job) : Prop :=
  exists i, jobs !! i = Some j /\ job_action j = a /\
            forall i' j', jobs !! i' = Some j' -> job_action j' = a -> i' = i.

(** Since the state [s0] the speed test series grew by rows spaced by
    [seconds] from [lo] on. *)
Definition rows_spaced (seconds : Z) (s0 : State) (lo : datetime) (s : State) : Prop :=
  exists more,
    rows_of speedtest_log s = rows_of speedtest_log s0 ++ more /\
    spaced (period seconds) lo more.

(** The invariant of the loop: the rows are spaced, and the one job that
    runs speed tests, of interval [seconds], is due no earlier than a row
    may follow them. *)
Definition speed_spaced (seconds : Z) (s0 : State) (lo : datetime)
    (jobs : list job) (s : State) : Prop :=
  exists j more,
    only_job SpeedTestJob j jobs /\ interval j = seconds /\
    rows_of speedtest_log s = rows_of speedtest_log s0 ++ more /\
    spaced (period seconds) lo more /\
    (bound_after (period seconds) lo more <= next_run j)%Z.

(** The jobs found due, before they run: each is a job of the list, at a
    position of its own, and the clock has reached its next run. *)
Definition due_now {E : Environment} (jobs : list job) (s : State)
    (due : list (nat * job)) : Prop :=
  NoDup due.*1 /\
  Forall (fun ij => jobs !! ij.1 = Some ij.2 /\ (next_run ij.2 <= clock (tick s))%Z) due.

(** The invariant of the loop of [due_jobs] started in [s]: the jobs found
    due so far are among those looked at, in their order, the clock has
    reached their next run, and no file changed. *)
Definition found_due {E : Environment} (s : State) (done due : list (nat * job))
    (s' : State) : Prop :=
  files s' = files s /\ later s s' /\ due `sublist_of` done /\
  Forall (fun ij => (next_run ij.2 <= clock (tick s'))%Z) due.

(** The invariant of the loop of [run_pending] over the due jobs [l],
    started in [s1]: the jobs still to run are in the list as they were
    found, and the invariant of the monitor loop holds. *)
Definition running (seconds : Z) (s0 : State) (lo : datetime) (l : list (nat * job))
    (s1 : State) (done : list (nat * job)) (cur : list job) (s' : State) : Prop :=
  later s1 s' /\
  (forall ij, ij ∈ l -> ij.1 ∉ done.*1 -> cur !! ij.1 = Some ij.2) /\
  speed_spaced seconds s0 lo cur s'.

(** One target of each kind, a check every 30 seconds, a speed test every
    20 seconds. *)
Definition brisk_config : Config :=
  mkConfig (Stored 30%Z) (Stored 20%Z) (Stored 300%Z) default_ini "internet_logs"
           ["8.8.8.8"]%string ["https://a.example"]%string.

(** The clock advances by one second per interaction; the speed test
    tools are missing during the first five interactions, and from then on
    the primary tool prints a document that is no JSON. *)
Definition slow_start_env : Environment := {|
  clock n := (1000000 * Z.of_nat n)%Z;
  subprocess_run n argv :=
    if bool_decide (head argv = Some "ping"%string) then Ok (Completed 0 "reply" (Utf8 ""))
    else if bool_decide (n < 6) then Raise FileNotFoundError
    else Ok (Completed 0 "{}" (Utf8 ""));
  requests_get _ _ := Ok 200%Z;
  float_of_str _ := Raise ValueError;
  json_loads _ := Raise JSONDecodeError;
  time_sleep _ _ := Ok tt;
  expanduser p := Ok p;
|}.

(** ** Spaced rows *)

Lemma spaced_snoc gap lo rows r t :
  spaced gap lo rows -> row_time r = Some t -> (bound_after gap lo rows <= t)%Z ->
  spaced gap lo (rows ++ [r]) /\ bound_after gap lo (rows ++ [r]) = (t + gap)%Z.
Proof.
  revert lo. induction rows as [|r0 rows IH]; intros lo Hs Hr Hb; simpl in *.
  - rewrite Hr. split; [by exists t|done].
  - destruct Hs as (t0 & Ht0 & Hlo & Hs). rewrite Ht0 in Hb |- *. simpl in *.
    destruct (IH _ Hs Hr Hb) as [Hs' Hb']. split; [by exists t0|done].
Qed.

Lemma speed_spaced_rows seconds s0 lo jobs s :
  speed_spaced seconds s0 lo jobs s -> rows_spaced seconds s0 lo s.
Proof. intros (j & more & _ & _ & Hr & Hs & _). by exists more. Qed.

(** A computation that adds no row to the speed test series keeps the
    invariant. *)
Lemma speed_spaced_same seconds s0 lo jobs s s' :
  rows_of speedtest_log s' = rows_of speedtest_log s ->
  speed_spaced seconds s0 lo jobs s -> speed_spaced seconds s0 lo jobs s'.
Proof. intros Hr (j & more & ? & ? & ? & ?). exists j, more. by rewrite Hr. Qed.

Lemma rows_spaced_same seconds s0 lo s s' :
  rows_of speedtest_log s' = rows_of speedtest_log s ->
  rows_spaced seconds s0 lo s -> rows_spaced seconds s0 lo s'.
Proof. intros Hr (more & ? & ?). exists more. by rewrite Hr. Qed.

(** ** The one job of an action, when a job is replaced *)

Lemma only_job_lookup a j jobs i j' :
  only_job a j jobs -> jobs !! i = Some j' -> job_action j' = a -> j' = j.
Proof.
  intros (i0 & Hi0 & _ & Hu) Hi Ha. rewrite (Hu i j' Hi Ha) in Hi. congruence.
Qed.

(** The job of the action ran: it is replaced by a job of the action. *)
Lemma only_job_insert a j jobs i j' :
  only_job a j jobs -> jobs !! i = Some j -> job_action j' = a ->
  only_job a j' (<[i := j']> jobs).
Proof.
  intros (i0 & Hi0 & Ha & Hu) Hi Ha'. assert (i = i0) as -> by by apply (Hu i j).
  exists i0. split; [apply list_lookup_insert_eq; by eapply lookup_lt_Some|].
  split; [done|]. intros i' j'' Hi' Ha''.
  destruct (decide (i' = i0)) as [->|Hne]; [done|].
  rewrite list_lookup_insert_ne in Hi' by done. by apply (Hu i' j'').
Qed.

(** Another job ran: it is replaced by a job of its own action. *)
Lemma only_job_insert_other a j jobs i j1 j1' :
  only_job a j jobs -> jobs !! i = Some j1 -> job_action j1 <> a ->
  job_action j1' = job_action j1 ->
  only_job a j (<[i := j1']> jobs).
Proof.
  intros (i0 & Hi0 & Ha & Hu) Hi Hne Ha'.
  assert (i <> i0) as Hii by (intros ->; congruence).
  exists i0. split; [by rewrite list_lookup_insert_ne|]. split; [done|].
  intros i' j'' Hi' Ha''. destruct (decide (i' = i)) as [->|Hne'].
  - rewrite list_lookup_insert_eq in Hi' by by eapply lookup_lt_Some.
    congruence.
  - rewrite list_lookup_insert_ne in Hi' by done. by apply (Hu i' j'').
Qed.

(** ** The order of the due jobs is a permutation *)

Lemma insert_job_perm x xs : insert_job x xs ≡ₚ x :: xs.
Proof.
  induction xs as [|y ys IH]; simpl; [done|]. case_match; [done|].
  rewrite IH. apply Permutation_swap.
Qed.

Lemma sort_jobs_perm xs : sort_jobs xs ≡ₚ xs.
Proof.
  induction xs as [|x xs IH]; [done|]. unfold sort_jobs in *. simpl.
  by rewrite insert_job_perm, IH.
Qed.

Lemma due_now_sorted {E : Environment} jobs s due :
  due_now jobs s due -> due_now jobs s (sort_jobs due).
Proof. unfold due_now. by rewrite sort_jobs_perm. Qed.

(** ** The jobs found due *)

Section Due.
Context {E : Environment} {L : EnvironmentLaws E}.
Implicit Types (s : State) (j : job) (jobs : list job).

Lemma due_now_later jobs s s' due :
  later s s' -> due_now jobs s due -> due_now jobs s' due.
Proof.
  intros Hl [Hn Hd]. split; [done|]. eapply Forall_impl; [exact Hd|].
  intros ij [Hj Ht]. split; [done|]. etrans; [exact Ht|]. by apply clock_mono.
Qed.

Lemma positions_NoDup jobs : NoDup (imap pair jobs).*1.
Proof.
  rewrite fmap_imap.
  change (imap _ jobs) with (imap (fun (n : nat) (_ : job) => n) jobs).
  rewrite (imap_seq_0 jobs (fun n => n)), list_fmap_id. apply NoDup_seq.
Qed.

Lemma found_due_step s done x due s' :
  found_due s done due s' ->
  match (let! b := should_run (snd x) in ret (if b then due ++ [x] else due)) s' with
  | (Ok due', s'') => found_due s (done ++ [x]) due' s''
  | (Raise _, _) => False
  end.
Proof.
  intros (Hf & Hl & Hs & Ha). unfold should_run, datetime_now. unfold_monad. simpl.
  assert (Forall (fun ij => (next_run ij.2 <= clock (S (tick s')))%Z) due) as Ha'.
  { eapply Forall_impl; [exact Ha|]. intros ij ?. simpl in *.
    etrans; [done|]. apply clock_mono. lia. }
  split; [done|]. split; [unfold later in *; simpl; lia|].
  destruct (Z.leb_spec (next_run x.2) (clock (tick s'))) as [Hx|_].
  - split; [by apply sublist_app|]. apply Forall_app. split; [done|].
    repeat constructor. etrans; [exact Hx|]. apply clock_mono. simpl. lia.
  - split; [by apply sublist_inserts_r|done].
Qed.

(** [due_jobs] only reads the clock, and the jobs it finds are due. *)
Lemma due_jobs_due jobs s :
  exists due s1,
    due_jobs jobs s = (Ok due, s1) /\ files s1 = files s /\ later s s1 /\
    due_now jobs s1 due.
Proof.
  pose proof (fold_each_inv (found_due s) (fun _ => False) (imap pair jobs)
                (fun due ij => let! b := should_run (snd ij) in
                               ret (if b then due ++ [ij] else due))
                (fun done x rest due s' _ => found_due_step s done x due s') [] s) as H.
  unfold due_jobs. destruct (fold_each _ _ _ s) as [[due|e] s1];
    [|destruct H; by repeat split].
  destruct H as (Hf & Hl & Hsub & Hall); [by repeat split|].
  exists due, s1. repeat split; try done.
  - eapply sublist_NoDup; [apply (positions_NoDup jobs)|]. by apply fmap_sublist.
  - apply Forall_forall. intros [i j] Hij. split.
    + eapply elem_of_sublist in Hij; [|exact Hsub].
      apply list_elem_of_lookup in Hij as [k Hk].
      by apply list_lookup_imap_Some in Hk as (j' & Hj & [= -> ->]).
    + rewrite Forall_forall in Hall. by apply (Hall (i, j)).
Qed.
End Due.

(** ** A job that runs *)

Section Jobs.
Context {E : Environment} {L : EnvironmentLaws E} (cfg : Config).
Implicit Types (s : State) (j : job) (jobs : list job).

(** The speed test job, run when it is due: the row it leaves is stamped
    no earlier than the job was due, and the job is due again no earlier
    than one interval after the stamp.  The row is there also when the
    next run cannot be set. *)
Lemma run_speed_job j s :
  job_action j = SpeedTestJob -> (next_run j <= clock (tick s))%Z ->
  match run_job (run_action cfg) j s with
  | (r, s') =>
      later s s' /\
      ((rows_of speedtest_log s' = rows_of speedtest_log s /\ is_Ok r = false) \/
       exists row t,
         rows_of speedtest_log s' = rows_of speedtest_log s ++ [row] /\
         row_time row = Some t /\ (next_run j <= t)%Z /\
         forall j', r = Ok j' ->
           job_action j' = SpeedTestJob /\ interval j' = interval j /\
           (t + period (interval j) <= next_run j')%Z)
  end.
Proof.
  intros Ha Hdue. rewrite run_job_run, Ha. simpl. unfold bind.
  pose proof (run_speedtest_stamped s) as Hrow.
  pose proof (run_speedtest_tick s) as Ht.
  unfold eval, exec in *. destruct (run_speedtest s) as [[b|e] s1]; simpl in *;
    [|split; [unfold later; lia|by left]].
  destruct Hrow as (r & t & Hr & Hrt & Hlo & Hhi).
  assert (forall res s', rows_of speedtest_log s' = rows_of speedtest_log s1 ->
            (forall j', res = Ok j' ->
               job_action j' = SpeedTestJob /\ interval j' = interval j /\
               (clock (S (tick s1)) + period (interval j) <= next_run j')%Z) ->
            (rows_of speedtest_log s' = rows_of speedtest_log s /\ is_Ok res = false) \/
            exists row t,
              rows_of speedtest_log s' = rows_of speedtest_log s ++ [row] /\
              row_time row = Some t /\ (next_run j <= t)%Z /\
              forall j', res = Ok j' ->
                job_action j' = SpeedTestJob /\ interval j' = interval j /\
                (t + period (interval j) <= next_run j')%Z) as Hcase.
  { intros res s' Hs' Hres. right. exists r, t. rewrite Hs'.
    repeat split; [done|done|lia|..]; try by apply Hres.
    destruct (Hres j' H) as (_ & _ & Hn). etrans; [|exact Hn].
    apply Z.add_le_mono_r. etrans; [exact Hhi|]. apply clock_mono. lia. }
  destruct (timedelta_of_seconds (interval j)) as [d|e];
    (split; [unfold later; simpl; lia|]); apply Hcase; try done.
  intros j'. destruct (next_run_at _ _) as [next|e] eqn:Hn; [|done].
  intros [= <-]. apply next_run_at_spec in Hn as [-> _]. by simpl.
Qed.

(** The upload job adds nothing to the speed test series. *)
Lemma run_upload_job j s :
  job_action j = UploadJob ->
  match run_job (run_action cfg) j s with
  | (r, s') =>
      later s s' /\ rows_of speedtest_log s' = rows_of speedtest_log s /\
      forall j', r = Ok j' -> job_action j' = UploadJob
  end.
Proof.
  intros Ha. rewrite run_job_run, Ha. simpl.
  pose proof (respects (R := later) (c := upload_logs cfg) s) as Hl.
  destruct (respects (R := quiet) (c := upload_logs cfg) s) as (_ & _ & _ & Hf & _).
  unfold exec, later, rows_of in *.
  destruct (upload_logs cfg s) as [[[]|e] s1]; simpl in *; rewrite <- Hf;
    [|by repeat split].
  destruct (timedelta_of_seconds (interval j)); simpl; (split; [lia|]);
    (split; [done|]); [|done].
  intros j'. by destruct (next_run_at _ _); intros [= <-].
Qed.

(** One due job runs: the invariant of the loop of [run_pending]. *)
Lemma running_step seconds s0 lo l s1 done x rest cur s' :
  NoDup l.*1 ->
  Forall (fun ij => (next_run ij.2 <= clock (tick s1))%Z) l ->
  l = done ++ x :: rest ->
  running seconds s0 lo l s1 done cur s' ->
  match (let! j' := run_job (run_action cfg) (snd x) in ret (<[fst x := j']> cur)) s' with
  | (Ok cur', s'') => running seconds s0 lo l s1 (done ++ [x]) cur' s''
  | (Raise _, s'') => rows_spaced seconds s0 lo s''
  end.
Proof.
  intros Hnd Hdue Hl (Hlater & Hcur & Hsp). destruct x as [i j].
  assert ((i, j) ∈ l) as Hin by (rewrite Hl, elem_of_app, elem_of_cons; auto).
  assert (i ∉ done.*1) as Hi.
  { rewrite Hl, fmap_app, fmap_cons in Hnd. apply NoDup_app in Hnd as (_ & Hnd & _).
    intros Hd. apply (Hnd i Hd). left. }
  pose proof (Hcur _ Hin Hi) as Hj. simpl in Hj.
  assert (next_run j <= clock (tick s'))%Z as Hnow.
  { rewrite Forall_forall in Hdue. etrans; [apply (Hdue _ Hin)|]. by apply clock_mono. }
  assert (forall j' s'', later s' s'' ->
            forall ij, ij ∈ l -> ij.1 ∉ (done ++ [(i, j)]).*1 ->
                       <[i := j']> cur !! ij.1 = Some ij.2) as Hrest.
  { intros j' s'' _ ij Hij Hn. rewrite fmap_app, not_elem_of_app in Hn.
    destruct Hn as [Hn1 Hn2]. rewrite list_lookup_insert_ne; [by apply Hcur|].
    intros Heq. apply Hn2. rewrite <- Heq. left. }
  unfold bind. simpl fst. simpl snd.
  destruct Hsp as (j0 & more & Hj0 & <- & Hrows & Hs & Hb).
  destruct (job_action j) eqn:Ha.
  - assert (j = j0) as -> by by eapply only_job_lookup.
    pose proof (run_speed_job j0 s' Ha Hnow) as Hrun.
    destruct (run_job (run_action cfg) j0 s') as [res s''].
    destruct Hrun as (Hl' & [[Hr Hres]|(r & t & Hr & Ht & Hlo & Hnext)]).
    + destruct res as [j'|e]; [done|]. exists more. split; [congruence|done].
    + destruct (spaced_snoc _ _ _ r t Hs Ht ltac:(lia)) as [Hs' Hb'].
      destruct res as [j'|e]; [|exists (more ++ [r]); by rewrite Hr, Hrows, app_assoc].
      destruct (Hnext j' eq_refl) as (Ha' & Hiv' & Hhi).
      split; [by etrans|]. split; [by eapply Hrest|].
      exists j', (more ++ [r]). rewrite Hb', Hr, Hrows, app_assoc.
      repeat split; [by eapply only_job_insert|done..].
  - pose proof (run_upload_job j s' Ha) as Hrun.
    destruct (run_job (run_action cfg) j s') as [[j'|e] s'']; destruct Hrun as (Hl' & Hr & Ha').
    + split; [by etrans|]. split; [by eapply Hrest|].
      exists j0, more. rewrite Hr. repeat split; try done.
      eapply only_job_insert_other; [done|done|congruence|]. by rewrite (Ha' j').
    + exists more. split; [congruence|done].
Qed.
End Jobs.

(** ** The scheduler, the cycle and the loop *)

Section Loop.
Context {E : Environment} {L : EnvironmentLaws E} (cfg : Config).
Implicit Types (s : State) (j : job) (jobs : list job).

(** [run_pending] keeps the invariant; when a job raises, the rows are
    spaced all the same. *)
Lemma run_pending_spaced seconds s0 lo jobs s :
  speed_spaced seconds s0 lo jobs s ->
  match run_pending (run_action cfg) jobs s with
  | (Ok jobs', s') => speed_spaced seconds s0 lo jobs' s'
  | (Raise _, s') => rows_spaced seconds s0 lo s'
  end.
Proof.
  intros Hsp. unfold run_pending, bind at 1.
  destruct (due_jobs_due jobs s) as (due & s1 & -> & Hf & _ & Hdue).
  apply due_now_sorted in Hdue as [Hnd Hdue]. set (l := sort_jobs due) in *.
  assert (Forall (fun ij => (next_run ij.2 <= clock (tick s1))%Z) l) as Hnow
    by (eapply Forall_impl; [exact Hdue|]; by intros ij [_ ?]).
  pose proof (fold_each_inv (running seconds s0 lo l s1) (rows_spaced seconds s0 lo) l
                (fun jobs ij => let! j' := run_job (run_action cfg) (snd ij) in
                                ret (<[fst ij := j']> jobs))
                (fun done x rest cur s' =>
                   running_step cfg seconds s0 lo l s1 done x rest cur s' Hnd Hnow)
                jobs s1) as H.
  assert (running seconds s0 lo l s1 [] jobs s1) as Hinit.
  { split; [done|]. split.
    - intros ij Hij _. rewrite Forall_forall in Hdue. by apply (Hdue ij Hij).
    - eapply speed_spaced_same; [|exact Hsp]. unfold rows_of. by rewrite Hf. }
  specialize (H Hinit).
  destruct (fold_each l jobs _ s1) as [[jobs'|e] s']; [by destruct H as (_ & _ & ?)|done].
Qed.

(** A computation that adds nothing to the speed test series, before or
    after the scheduler. *)
Lemma rows_kept {A} (c : M State A) `{!Respects (grows speedtest_log (fun _ => False)) c} s :
  rows_of speedtest_log (c s).2 = rows_of speedtest_log s.
Proof. apply grows_nothing, (respects (c := c)). Qed.

Lemma cycle_spaced seconds s0 lo jobs s :
  speed_spaced seconds s0 lo jobs s ->
  match cycle cfg jobs s with
  | (Ok jobs', s') => speed_spaced seconds s0 lo jobs' s'
  | (Raise _, s') => rows_spaced seconds s0 lo s'
  end.
Proof.
  intros Hsp. unfold cycle, bind at 1.
  pose proof (rows_kept (test_connectivity cfg) s) as H1.
  destruct (test_connectivity cfg s) as [[c|e] s1]; simpl in H1;
    [|by eapply rows_spaced_same, speed_spaced_rows].
  apply (speed_spaced_same _ _ _ _ _ _ H1) in Hsp. unfold bind at 1.
  pose proof (run_pending_spaced seconds s0 lo jobs s1 Hsp) as H2.
  destruct (run_pending (run_action cfg) jobs s1) as [[jobs'|e] s2]; [|done].
  unfold bind. pose proof (rows_kept (sleep (ping_interval cfg)) s2) as H3.
  destruct (sleep (ping_interval cfg) s2) as [[[]|e] s3]; simpl in H3.
  - by eapply speed_spaced_same.
  - by eapply rows_spaced_same, speed_spaced_rows.
Qed.

Lemma monitor_loop_spaced seconds s0 lo fuel jobs s :
  speed_spaced seconds s0 lo jobs s ->
  match monitor_loop cfg fuel jobs s with
  | (Ok jobs', s') => speed_spaced seconds s0 lo jobs' s'
  | (Raise _, s') => rows_spaced seconds s0 lo s'
  end.
Proof.
  revert jobs s. induction fuel as [|fuel IH]; intros jobs s Hsp; simpl; [done|].
  unfold bind. pose proof (cycle_spaced seconds s0 lo jobs s Hsp) as H.
  destruct (cycle cfg jobs s) as [[jobs'|e] s']; [by apply IH|done].
Qed.
End Loop.

(** ** The monitor *)

Section Monitor.
Context {E : Environment} {L : EnvironmentLaws E} (cfg : Config).
Implicit Types (s : State) (j : job) (jobs : list job).

(** The first speed test leaves at most one row, and the job scheduled
    before it is due no earlier than [lo]. *)
Lemma first_speedtest_spaced seconds lo j0 jobs s sy :
  rows_of speedtest_log sy = rows_of speedtest_log s ->
  only_job SpeedTestJob j0 jobs -> interval j0 = seconds -> (lo <= next_run j0)%Z ->
  match (run_speedtest ;; ret jobs) sy with
  | (r, s1) =>
      (exists first,
          rows_of speedtest_log s1 = rows_of speedtest_log s ++ first /\
          length first <= 1) /\
      forall jobs', r = Ok jobs' -> speed_spaced seconds s1 lo jobs' s1
  end.
Proof.
  intros Hsy Hj Hi Hlo. unfold bind.
  pose proof (run_speedtest_stamped sy) as Hrow. unfold eval, exec in Hrow.
  destruct (run_speedtest sy) as [[b|e] s1]; simpl in *.
  - destruct Hrow as (r & t & Hr & _). rewrite Hsy in Hr. split; [by exists [r]|].
    intros jobs' [= <-]. exists j0, []. rewrite app_nil_r. by repeat split.
  - rewrite Hsy in Hrow. split; [|done]. exists []. rewrite app_nil_r.
    split; [done|simpl; lia].
Qed.

(** The speed test job alone, or followed by the upload job. *)
Lemma only_speed_job j0 more :
  job_action j0 = SpeedTestJob -> Forall (fun j => job_action j = UploadJob) more ->
  only_job SpeedTestJob j0 (j0 :: more).
Proof.
  intros H0 Hm. exists 0. repeat split; [done|]. intros [|i] j' Hj Ha; [done|].
  simpl in Hj. rewrite Forall_lookup in Hm. by rewrite (Hm i j' Hj) in Ha.
Qed.

(** What [run_monitor] does before its loop: the speed test job is
    scheduled one interval from now, and the first speed test leaves at
    most one row. *)
Lemma startup_scheduled s :
  match startup cfg s with
  | (r, s1) =>
      (exists first,
          rows_of speedtest_log s1 = rows_of speedtest_log s ++ first /\
          length first <= 1) /\
      forall jobs, r = Ok jobs ->
        exists seconds, speedtest_interval cfg = Stored seconds /\
          speed_spaced seconds s1 (clock (tick s) + period seconds) jobs s1
  end.
Proof.
  assert (forall s1, rows_of speedtest_log s1 = rows_of speedtest_log s ->
            exists first, rows_of speedtest_log s1 = rows_of speedtest_log s ++ first
                          /\ length first <= 1) as Hsame
    by (intros s1 ->; exists []; split; [by rewrite app_nil_r|simpl; lia]).
  unfold startup. cbv [bind logger modify lift]. simpl.
  destruct (vps_enabled cfg) as [enabled|e]; [|split; [by apply Hsame|done]].
  destruct (speedtest_interval cfg) as [seconds|]; [|split; [by apply Hsame|done]].
  rewrite every_seconds_do_run.
  destruct (timedelta_of_seconds seconds) as [d|e]; [|split; [by apply Hsame|done]].
  simpl. destruct (next_run_at _ seconds) as [next|e] eqn:Hn;
    [|split; [by apply Hsame|done]].
  apply next_run_at_spec in Hn as [-> _]. simpl.
  set (j0 := Job SpeedTestJob seconds (clock (tick s) + period seconds)).
  assert (forall jobs sy,
            rows_of speedtest_log sy = rows_of speedtest_log s ->
            only_job SpeedTestJob j0 jobs ->
            match (run_speedtest ;; ret jobs) sy with
            | (r, s1) =>
                (exists first,
                    rows_of speedtest_log s1 = rows_of speedtest_log s ++ first /\
                    length first <= 1) /\
                forall jobs', r = Ok jobs' ->
                  exists n, Stored seconds = Stored n /\
                    speed_spaced n s1 (clock (tick s) + period n) jobs' s1
            end) as Hfirst.
  { intros jobs sy Hsy Hj.
    pose proof (first_speedtest_spaced seconds (clock (tick s) + period seconds)
                  j0 jobs s sy Hsy Hj eq_refl (Z.le_refl _)) as H.
    destruct ((run_speedtest ;; ret jobs) sy) as [r s1]. destruct H as [H1 H2].
    split; [done|]. intros jobs' Hr. exists seconds. split; [done|by apply H2]. }
  destruct enabled; [destruct (upload_interval cfg) as [n|]; [rewrite every_seconds_do_run|]|];
    [destruct (timedelta_of_seconds n);
       [simpl; destruct (next_run_at _ n)|]| |]; simpl;
    try (split; [by apply Hsame|done]);
    apply Hfirst; try done; apply only_speed_job; by repeat constructor.
Qed.

#[export] Instance stop_keeps_speed_rows P : Respects (grows speedtest_log P) stop.
Proof. unfold stop. respects. Qed.

(** C19: scheduled speed tests keep their distance.  On a clock that does
    not go backwards, whatever the environment does and however the run
    ends, the rows [run_monitor] adds to the speed test series are the row
    of the first speed test, if it was not interrupted, and then the rows
    of the scheduled ones, each stamped at least [speedtest_interval]
    seconds after the one before, the first of them at least
    [speedtest_interval] seconds after the start: neither a slow probe, an
    upload or a speed test, nor a second job due at the same time makes
    the scheduler run the speed test early.  With an interval that is a
    list no speed test is scheduled. *)
Theorem scheduled_speedtests_spaced fuel s :
  exists first more,
    rows_of speedtest_log (exec (run_monitor cfg fuel) s)
    = rows_of speedtest_log s ++ first ++ more /\
    length first <= 1 /\
    match speedtest_interval cfg with
    | Stored seconds => spaced (period seconds) (clock (tick s) + period seconds) more
    | EmptyList => more = []
    end.
Proof.
  unfold run_monitor, exec, bind.
  pose proof (startup_scheduled s) as H0.
  destruct (startup cfg s) as [[jobs|e] s1]; destruct H0 as [(first & Hr & Hl) Hsp];
    [|exists first, []; rewrite !app_nil_r; by destruct (speedtest_interval cfg)].
  destruct (Hsp jobs eq_refl) as (seconds & -> & Hsp'). unfold try_except, bind.
  pose proof (monitor_loop_spaced cfg _ _ _ fuel jobs s1 Hsp') as Hloop.
  destruct (monitor_loop cfg fuel jobs s1) as [[jobs'|e] s2]; simpl.
  - apply speed_spaced_rows in Hloop as (more & Hrows & Hs).
    exists first, more. by rewrite Hrows, Hr, app_assoc.
  - destruct Hloop as (more & Hrows & Hs). exists first, more.
    split; [|done]. rewrite app_assoc, <- Hr, <- Hrows.
    destruct (is_KeyboardInterrupt e); [apply (rows_kept stop)|done].
Qed.
End Monitor.

(** ** Worked examples *)

Lemma calm_env_laws : EnvironmentLaws calm_env.
Proof.
  split; simpl; [intros i j Hij; lia|by intros s e [= <-]|by intros s e [= <-]|done|done].
Qed.

(** Eight cycles with a speed test every 20 seconds on a clock that
    advances by one second per interaction, the job being scheduled at
    second 1: the first speed test, then three scheduled ones, the first
    after second 21 and each 32 seconds after the one before. *)
Example speedtests_every_20_seconds :
  omap row_time (rows_of speedtest_log (exec (@run_monitor calm_env brisk_config 8)
                                             (@fresh calm_env)))
  = [4000000; 24000000; 56000000; 88000000]%Z.
Proof. by vm_compute. Qed.

(** The first test is not counted: the job is scheduled before the first
    test runs and the rows are stamped when a test ends, so that a first
    test that takes longer than the next one leaves two rows closer than
    the interval; here 19 seconds for an interval of 20. *)
Example first_scheduled_speedtest_early :
  omap row_time (rows_of speedtest_log (exec (@run_monitor slow_start_env brisk_config 3)
                                             (@fresh slow_start_env)))
  = [4000000; 23000000]%Z.
Proof. by vm_compute. Qed.

Lemma scheduled_speedtests_spaced_witness :
  let E := calm_env in
  let s := @fresh E in
  exists first more,
    rows_of speedtest_log (exec (@run_monitor E brisk_config 8) s)
    = rows_of speedtest_log s ++ first ++ more /\
    length first <= 1 /\
    spaced (period 20) (@clock E (tick s) + period 20) more.
Proof. apply (@scheduled_speedtests_spaced calm_env calm_env_laws brisk_config 8). Defined.
