(* ===== verification/Startup.v ===== *)
(** * Startup: the process from its command line to its end

    [main] and the beginning of [__init__] of src/internet_monitor.py: the
    command line is parsed, the configuration file is read, or written with
    its defaults when it does not exist, the monitor is built, and one of
    three things runs: the switch that enables uploads in the configuration
    file, the report alone, or the monitor.  A process is the monitor
    together with the configuration files on disk, by the path they were
    named with, and what was printed.  A configuration file holds the
    configuration the parser reads from it, or the exception the parser
    raises on it. *)

From S2P Require Import Prelude Text Config Cli Values World Store StateMachine.
From S2P Require Import Probe Connectivity Report SpeedTest Upload Monitor.

(** ** The process *)

Record Process : Type := mkProcess {
  config_files : gmap string (result ini);
  printed : list string;
  monitor : State;
}.

Definition set_config_files (fs : gmap string (result ini)) (p : Process) : Process :=
  mkProcess fs (printed p) (monitor p).

Definition set_printed (out : list string) (p : Process) : Process :=
  mkProcess (config_files p) out (monitor p).

Definition set_monitor (s : State) (p : Process) : Process :=
  mkProcess (config_files p) (printed p) s.

(** A method of the monitor, run in the process. *)
Definition on_monitor {A} (c : M State A) : M Process A :=
  fun p => let '(r, s) := c (monitor p) in (r, set_monitor s p).

(** [print(line)] *)
Definition print (line : string) : M Process unit :=
  modify (fun p => set_printed (printed p ++ [line]) p).

(** [with open(path, 'w') as f: config.write(f)] *)
Definition write_config (path : string) (c : ini) : M Process unit :=
  modify (fun p => set_config_files (<[path := Ok c]> (config_files p)) p).

(** How the process ends: with an exit code, or still in its loop when
    the fuel is spent. *)
Inductive ending : Type :=
| Exited (code : Z)
| StillRunning (jobs : list job).

Definition ending_of (r : progress) : ending :=
  match r with
  | Stopped => Exited 0
  | Running jobs => StillRunning jobs
  end.

(** [Path(value)] and [open(value, 'w')]: a list is a [TypeError]. *)
Definition path_of (v : arg_value string) : result string :=
  match v with Stored text => Ok text | EmptyList => Raise TypeError end.

(** The attributes [__init__] sets from its arguments (lines 22-27 and
    76-86) and from the configuration it read; [dir] is the text of the
    log directory. *)
Definition config_of (a : Args) (dir : string) (c : ini) : Config := {|
  ping_interval := arg_ping_interval a;
  speedtest_interval := arg_speedtest_interval a;
  upload_interval := arg_upload_interval a;
  config := c;
  log_dir := path_text dir;
  ping_targets := ping_targets default_config;
  http_targets := http_targets default_config;
|}.

Section Startup.
Context {E : Environment}.

(** The configuration of [__init__] (lines 29-49): the file is read when
    it exists; otherwise the defaults are set and written to it. *)
Definition read_config (path : string) : M Process ini :=
  let! disk := gets config_files in
  match disk !! path with
  | Some content => lift content
  | None =>
      write_config path default_ini ;;
      ret default_ini
  end.

(** [InternetMonitor(log_dir, ping_interval, speedtest_interval,
    upload_interval, config_file)]: the path of the log directory (line
    22), the path of the configuration file (line 31), the configuration,
    the series and the connection fields; the attributes are those of
    [config_of].  The intervals are stored as they are. *)
Definition __init__ (a : Args) : M Process Config :=
  let! dir := lift (path_of (arg_log_dir a)) in
  let! path := lift (path_of (arg_config a)) in
  let! c := read_config path in
  on_monitor init_monitor ;;
  ret (config_of a dir c).

(** The process when [__init__] returns, the configuration file being
    [path]. *)
Definition built (path : string) (p : Process) : Process :=
  set_monitor (exec init_monitor (monitor p)) (exec (read_config path) p).

Definition vps_enabled_message (path : string) : string :=
  "VPS uploads enabled. Edit " +:+ path +:+ " with your server details.".

(** The branch [--setup-vps] of [main] (lines 493-499). *)
Definition setup_vps (a : Args) (cfg : Config) : M Process unit :=
  let! c := lift (config_set "VPS" "enabled" "true" (config cfg)) in
  let! path := lift (path_of (arg_config a)) in
  write_config path c ;;
  print (vps_enabled_message path).

(** What [main] runs once the monitor is built (lines 493-502). *)
Definition run_mode (a : Args) (cfg : Config) (fuel : nat) : M Process ending :=
  if arg_setup_vps a then setup_vps a cfg ;; ret (Exited 0)
  else if arg_report a then on_monitor generate_report ;; ret (Exited 0)
  else
    let! r := on_monitor (run_monitor cfg fuel) in
    ret (ending_of r).

(** [main()], on the arguments after the program name. *)
Definition main (argv : list string) (fuel : nat) : M Process ending :=
  match parse_args argv with
  | ParseExit code => ret (Exited code)
  | Parsed a =>
      let! cfg := __init__ a in
      run_mode a cfg fuel
  end.
End Startup.

(** A process that starts in an empty directory. *)
Definition new_process : Process := mkProcess ∅ [] (blank true None).

(** A configuration file without the section [VPS], and a process that
    starts beside it. *)
Definition bare_ini : ini := {[ "MONITOR"%string := ∅ ]}.

Definition bare_process : Process :=
  mkProcess {[ "monitor_config.ini"%string := Ok bare_ini ]} [] (blank true None).

(** ** Running a method of the monitor in the process *)

Section OnMonitor.
Context {A : Type} (c : M State A).
Implicit Types (p : Process).

Lemma on_monitor_run p :
  on_monitor c p = (eval c (monitor p), set_monitor (exec c (monitor p)) p).
Proof. unfold on_monitor, eval, exec. by destruct (c (monitor p)). Qed.

Lemma on_monitor_eval p : eval (on_monitor c) p = eval c (monitor p).
Proof. unfold eval at 1. by rewrite on_monitor_run. Qed.

Lemma on_monitor_exec p :
  exec (on_monitor c) p = set_monitor (exec c (monitor p)) p.
Proof. unfold exec at 1. by rewrite on_monitor_run. Qed.

#[export] Instance on_monitor_returns `{!Returns c} : Returns (on_monitor c).
Proof. intros p. rewrite on_monitor_eval. apply returns. Qed.

#[export] Instance on_monitor_contained `{!Contained c} : Contained (on_monitor c).
Proof. intros p e. rewrite on_monitor_eval. apply contained. Qed.
End OnMonitor.

(** ** What [main] does, by the command line and the configuration file *)

Section Main.
Context {E : Environment}.
Implicit Types (p : Process) (a : Args) (argv : list string).

(** Reading the configuration: the content of the file, or the defaults,
    which are then on disk. *)
Lemma read_config_run path p :
  read_config path p
  = match config_files p !! path with
    | Some content => (content, p)
    | None => (Ok default_ini,
               set_config_files (<[path := Ok default_ini]> (config_files p)) p)
    end.
Proof. unfold read_config. unfold_monad. by destruct (config_files p !! path). Qed.

Lemma read_config_monitor path p : monitor (exec (read_config path) p) = monitor p.
Proof. unfold exec. rewrite read_config_run. by destruct (config_files p !! path). Qed.

Lemma read_config_printed path p : printed (exec (read_config path) p) = printed p.
Proof. unfold exec. rewrite read_config_run. by destruct (config_files p !! path). Qed.

(** What was written is what the next start reads. *)
Lemma read_config_again path p c :
  eval (read_config path) p = Ok c ->
  read_config path (exec (read_config path) p) = (Ok c, exec (read_config path) p).
Proof.
  unfold eval, exec. rewrite !read_config_run.
  destruct (config_files p !! path) as [content|] eqn:Hp; simpl.
  - intros ->. by rewrite Hp.
  - intros [= <-]. by rewrite lookup_insert_eq.
Qed.

(** In an empty directory the defaults are read. *)
Lemma read_config_new path : eval (read_config path) new_process = Ok default_ini.
Proof. unfold eval. rewrite read_config_run. simpl. by rewrite lookup_empty. Qed.

Lemma init_monitor_eval s : eval init_monitor s = Ok tt.
Proof.
  destruct (returns_run init_monitor s) as [[] H]. unfold eval. by rewrite H.
Qed.

(** [__init__]: nothing is done when the configuration file cannot be
    read; otherwise the series and the connection fields are set. *)
Lemma init_run a dir path p :
  arg_log_dir a = Stored dir -> arg_config a = Stored path ->
  __init__ a p
  = match eval (read_config path) p with
    | Ok c => (Ok (config_of a dir c), built path p)
    | Raise e => (Raise e, p)
    end.
Proof.
  intros Hd Hp. unfold __init__, built, eval, exec. rewrite Hd, Hp.
  unfold bind at 1 2 3, lift, path_of. rewrite read_config_run.
  destruct (config_files p !! path) as [[c|e]|]; cbn [fst snd]; [|done|];
    unfold bind; by rewrite on_monitor_run, init_monitor_eval.
Qed.

(** A path that is a list ends [__init__] with a [TypeError] before
    anything is read or written. *)
Lemma init_path_list a p :
  arg_log_dir a = EmptyList \/ arg_config a = EmptyList ->
  __init__ a p = (Raise TypeError, p).
Proof.
  unfold __init__, bind, lift, path_of.
  by intros [->| ->]; [|destruct (arg_log_dir a)].
Qed.

(** [main] once the command line is read and the monitor is built. *)
Lemma main_run argv fuel p a dir path c :
  parse_args argv = Parsed a ->
  arg_log_dir a = Stored dir -> arg_config a = Stored path ->
  eval (read_config path) p = Ok c ->
  main argv fuel p = run_mode a (config_of a dir c) fuel (built path p).
Proof.
  intros Ha Hd Hp Hc. unfold main. rewrite Ha. unfold bind at 1.
  by rewrite (init_run a dir path), Hc.
Qed.

Lemma main_exec argv fuel p a dir path c :
  parse_args argv = Parsed a ->
  arg_log_dir a = Stored dir -> arg_config a = Stored path ->
  eval (read_config path) p = Ok c ->
  exec (main argv fuel) p = exec (run_mode a (config_of a dir c) fuel) (built path p) /\
  eval (main argv fuel) p = eval (run_mode a (config_of a dir c) fuel) (built path p).
Proof.
  intros Ha Hd Hp Hc. unfold eval, exec.
  by rewrite (main_run argv fuel p a dir path c Ha Hd Hp Hc).
Qed.

Lemma setup_vps_monitor a cfg p : monitor (exec (setup_vps a cfg) p) = monitor p.
Proof.
  unfold setup_vps, exec, write_config, print, path_of. unfold_monad.
  destruct (config_set _ _ _ _); [|done]. by destruct (arg_config a).
Qed.

(** What each mode does to the monitor of the process. *)
Lemma run_mode_monitor a cfg fuel p :
  monitor (exec (run_mode a cfg fuel) p)
  = if arg_setup_vps a then monitor p
    else if arg_report a then exec generate_report (monitor p)
    else exec (run_monitor cfg fuel) (monitor p).
Proof.
  unfold run_mode. destruct (arg_setup_vps a); [|destruct (arg_report a)];
    rewrite exec_bind_ret.
  - apply setup_vps_monitor.
  - by rewrite on_monitor_exec.
  - by rewrite on_monitor_exec.
Qed.

(** Each mode is steady on the monitor. *)
Lemma run_mode_steady a cfg fuel p :
  exists c : M State unit,
    Steady c /\ monitor (exec (run_mode a cfg fuel) p) = exec c (monitor p).
Proof.
  rewrite run_mode_monitor. destruct (arg_setup_vps a); [|destruct (arg_report a)].
  - exists (ret tt). split; [steady|done].
  - exists (generate_report ;; ret tt). split; [steady|by rewrite exec_bind_ret].
  - exists (run_monitor cfg fuel ;; ret tt). split; [steady|by rewrite exec_bind_ret].
Qed.

(** Whatever the command line asks for, [main] only appends to the
    series; and when it gets past the command line and the configuration
    file, it leaves consistent connection fields and a well-formed store,
    provided the series that existed began with their header. *)
Theorem main_establishes_invariant argv fuel p a dir path c :
  store_ok (monitor p) ->
  store_le (monitor p) (monitor (exec (main argv fuel) p)) /\
  (parse_args argv = Parsed a ->
   arg_log_dir a = Stored dir -> arg_config a = Stored path ->
   eval (read_config path) p = Ok c ->
   monitor_inv (monitor (exec (main argv fuel) p))).
Proof.
  intros Hok.
  assert (forall a dir path c, parse_args argv = Parsed a ->
            arg_log_dir a = Stored dir -> arg_config a = Stored path ->
            eval (read_config path) p = Ok c ->
            monitor_inv (monitor (exec (main argv fuel) p)) /\
            store_le (monitor p) (monitor (exec (main argv fuel) p))) as Hrun.
  { intros a' dir' path' c' Ha Hd Hp Hc. unfold exec.
    rewrite (main_run argv fuel p a' dir' path' c' Ha Hd Hp Hc).
    destruct (run_mode_steady a' (config_of a' dir' c') fuel (built path' p))
      as (m & Hm & Heq).
    unfold exec in Heq. rewrite Heq.
    destruct (steady_run m (monitor (built path' p)) Hm) as [Hinv Hle];
      [by apply init_monitor_inv|].
    split; [done|]. etransitivity; [|exact Hle].
    apply (respects (R := store_le) (c := init_monitor)). }
  split; [|intros Ha Hd Hp Hc; by destruct (Hrun a dir path c Ha Hd Hp Hc)].
  destruct (parse_args argv) as [a'|code] eqn:Ha; [|unfold main; by rewrite Ha].
  destruct (arg_log_dir a') as [dir'|] eqn:Hd;
    [|unfold main, exec; rewrite Ha; unfold bind; by rewrite init_path_list by auto].
  destruct (arg_config a') as [path'|] eqn:Hp;
    [|unfold main, exec; rewrite Ha; unfold bind; by rewrite init_path_list by auto].
  destruct (eval (read_config path') p) as [c'|e] eqn:Hc;
    [by destruct (Hrun a' dir' path' c' eq_refl Hd Hp Hc)|].
  unfold main, exec. rewrite Ha. unfold bind. by rewrite (init_run a' dir' path'), Hc.
Qed.

(** C23: an error of the command line, or the help, ends the process
    before anything is touched: no file is created, nothing is printed by
    [main], the monitor is not built, and the exit code is 2 or 0. *)
Theorem command_line_exit argv fuel p code :
  parse_args argv = ParseExit code ->
  main argv fuel p = (Ok (Exited code), p) /\ (code = 0 \/ code = 2)%Z.
Proof.
  intros Ha. split; [unfold main; by rewrite Ha|by eapply parse_args_exit].
Qed.

(** A configuration file the parser rejects ends the process with its
    exception, before the series are created. *)
Theorem unreadable_config_file argv fuel p a dir path e :
  parse_args argv = Parsed a ->
  arg_log_dir a = Stored dir -> arg_config a = Stored path ->
  config_files p !! path = Some (Raise e) ->
  main argv fuel p = (Raise e, p).
Proof.
  intros Ha Hd Hp He. unfold main. rewrite Ha. unfold bind.
  by rewrite (init_run a dir path) by done; unfold eval; rewrite read_config_run, He.
Qed.

(** A path given as [--] with [=] is stored as the empty list, which
    [Path] rejects: the process ends with a [TypeError] before anything is
    touched. *)
Theorem list_path_ends_main argv fuel p a :
  parse_args argv = Parsed a ->
  arg_log_dir a = EmptyList \/ arg_config a = EmptyList ->
  main argv fuel p = (Raise TypeError, p).
Proof.
  intros Ha Hl. unfold main. rewrite Ha. unfold bind. by rewrite init_path_list.
Qed.

(** C24: [--setup-vps] switches uploads on for the next start.  When
    the configuration has a section [VPS], read from the file or just
    written with the defaults, [main] exits with code 0 and leaves a file in
    which [enabled] reads as true and every other option is as before; the
    next start reads that file. *)
Theorem setup_vps_enables argv fuel p a dir path c :
  parse_args argv = Parsed a ->
  arg_log_dir a = Stored dir -> arg_config a = Stored path ->
  arg_setup_vps a = true ->
  eval (read_config path) p = Ok c ->
  is_Some (c !! "VPS"%string) ->
  exists c',
    eval (main argv fuel) p = Ok (Exited 0) /\
    eval (read_config path) (exec (main argv fuel) p) = Ok c' /\
    getboolean "VPS" "enabled" false c' = Ok true /\
    (forall section option, (section, option) <> ("VPS", "enabled")%string ->
       config_get section option c' = config_get section option c) /\
    printed (exec (main argv fuel) p)
    = printed p ++ [vps_enabled_message path].
Proof.
  intros Ha Hd Hp Hv Hc [opts Hs].
  destruct (config_set "VPS" "enabled" "true" c) as [c'|] eqn:Hset;
    [|unfold config_set in Hset; by rewrite Hs in Hset].
  exists c'. unfold eval at 1, exec.
  rewrite (main_run argv fuel p a dir path c Ha Hd Hp Hc).
  unfold run_mode. rewrite Hv.
  unfold setup_vps, write_config, print. rewrite Hp. unfold path_of.
  unfold_monad. simpl. rewrite Hset. simpl.
  unfold eval. rewrite read_config_run. simpl. rewrite lookup_insert_eq.
  split; [done|]. split; [done|]. split; [|split].
  - unfold getboolean. by rewrite (config_get_set _ _ _ _ _ Hset).
  - intros section option Hne. by eapply config_get_set_ne.
  - by rewrite <- (read_config_printed path p).
Qed.

(** C25: [--setup-vps] on a configuration file without a section [VPS]
    ends with a [NoSectionError]: the file is left as it was and nothing is
    printed, but the series have been created. *)
Theorem setup_vps_without_section argv fuel p a dir path c :
  parse_args argv = Parsed a ->
  arg_log_dir a = Stored dir -> arg_config a = Stored path ->
  arg_setup_vps a = true ->
  config_files p !! path = Some (Ok c) ->
  c !! "VPS"%string = None ->
  eval (main argv fuel) p = Raise (NoSectionError "VPS") /\
  config_files (exec (main argv fuel) p) = config_files p /\
  printed (exec (main argv fuel) p) = printed p /\
  monitor (exec (main argv fuel) p) = exec init_monitor (monitor p).
Proof.
  intros Ha Hd Hp Hv Hf Hs.
  assert (eval (read_config path) p = Ok c) as Hc
    by (unfold eval; by rewrite read_config_run, Hf).
  unfold eval, exec. rewrite (main_run argv fuel p a dir path c Ha Hd Hp Hc).
  unfold run_mode. rewrite Hv.
  unfold setup_vps, config_set. simpl. rewrite Hs. unfold_monad. simpl.
  unfold exec at 1 2. by rewrite read_config_run, Hf.
Qed.
End Main.

(** ** Worked examples *)

(** The first start in an empty directory writes the configuration file
    and the three headers. *)
Example first_start :
  let p := exec (@main calm_env ["--report"]%string 0) new_process in
  config_files p !! "monitor_config.ini"%string = Some (Ok default_ini) /\
  rows_of connectivity_log (monitor p) = [connectivity_header] /\
  rows_of speedtest_log (monitor p) = [speedtest_header] /\
  rows_of events_log (monitor p) = [events_header] /\
  size (reports (monitor p)) = 1.
Proof.
  destruct (main_exec (E := calm_env) ["--report"]%string 0 new_process
              (mkArgs (Stored 30%Z) (Stored 3600%Z) (Stored 300%Z)
                      (Stored "internet_logs") (Stored "monitor_config.ini") true false)
              "internet_logs" "monitor_config.ini"
              default_ini eq_refl eq_refl eq_refl (read_config_new _)) as [-> _].
  cbv zeta. rewrite run_mode_monitor. split; [|by vm_compute].
  unfold run_mode. cbn [arg_setup_vps arg_report].
  rewrite exec_bind_ret, on_monitor_exec. cbn [set_monitor config_files built].
  unfold exec. rewrite read_config_run. cbn [new_process config_files].
  rewrite lookup_empty. cbn [snd set_config_files config_files arg_config].
  apply lookup_insert_eq.
Qed.

(** A log directory given as [--log-dir=--] ends the process with a
    [TypeError]; nothing is written. *)
Example list_log_dir :
  @main calm_env ["--log-dir=--"]%string 3 new_process = (Raise TypeError, new_process).
Proof.
  apply (list_path_ends_main _ _ _
           (mkArgs (Stored 30%Z) (Stored 3600%Z) (Stored 300%Z) EmptyList
                   (Stored "monitor_config.ini") false false)); [by vm_compute|by left].
Qed.

Lemma main_establishes_invariant_witness :
  store_le (monitor new_process) (monitor (exec (@main calm_env [] 3) new_process)) /\
  (parse_args [] = Parsed default_args ->
   arg_log_dir default_args = Stored "internet_logs"%string ->
   arg_config default_args = Stored "monitor_config.ini"%string ->
   eval (@read_config "monitor_config.ini") new_process = Ok default_ini ->
   monitor_inv (monitor (exec (@main calm_env [] 3) new_process))).
Proof.
  apply (@main_establishes_invariant calm_env [] 3 new_process default_args
           "internet_logs" "monitor_config.ini" default_ini).
  intros f rows H. simpl in H. by rewrite lookup_empty in H.
Defined.

Lemma command_line_exit_witness :
  @main calm_env ["--ping-interval"; "soon"]%string 3 new_process
  = (Ok (Exited 2), new_process) /\ (2 = 0 \/ 2 = 2)%Z.
Proof.
  apply (@command_line_exit calm_env ["--ping-interval"; "soon"]%string 3 new_process 2).
  by vm_compute.
Defined.

Lemma setup_vps_enables_witness :
  exists c',
    eval (@main calm_env ["--setup-vps"]%string 3) new_process = Ok (Exited 0) /\
    eval (@read_config "monitor_config.ini")
         (exec (@main calm_env ["--setup-vps"]%string 3) new_process) = Ok c' /\
    getboolean "VPS" "enabled" false c' = Ok true /\
    (forall section option, (section, option) <> ("VPS", "enabled")%string ->
       config_get section option c' = config_get section option default_ini) /\
    printed (exec (@main calm_env ["--setup-vps"]%string 3) new_process)
    = printed new_process ++ [vps_enabled_message "monitor_config.ini"].
Proof.
  apply (@setup_vps_enables calm_env ["--setup-vps"]%string 3 new_process
           (mkArgs (Stored 30%Z) (Stored 3600%Z) (Stored 300%Z)
                   (Stored "internet_logs") (Stored "monitor_config.ini") false true)
           "internet_logs" "monitor_config.ini" default_ini);
    [by vm_compute|done|done|done|apply read_config_new|].
  unfold default_ini. rewrite lookup_insert_eq. by eexists.
Defined.

Lemma setup_vps_without_section_witness :
  eval (@main calm_env ["--setup-vps"]%string 3) bare_process
  = Raise (NoSectionError "VPS") /\
  config_files (exec (@main calm_env ["--setup-vps"]%string 3) bare_process)
  = config_files bare_process /\
  printed (exec (@main calm_env ["--setup-vps"]%string 3) bare_process)
  = printed bare_process /\
  monitor (exec (@main calm_env ["--setup-vps"]%string 3) bare_process)
  = exec (@init_monitor calm_env) (monitor bare_process).
Proof.
  apply (@setup_vps_without_section calm_env ["--setup-vps"]%string 3 bare_process
           (mkArgs (Stored 30%Z) (Stored 3600%Z) (Stored 300%Z)
                   (Stored "internet_logs") (Stored "monitor_config.ini") false true)
           "internet_logs" "monitor_config.ini" bare_ini);
    [by vm_compute|done|done|done|apply lookup_singleton_eq
    |apply lookup_singleton_ne; done].
Defined.

Lemma unreadable_config_file_witness :
  let p := mkProcess {[ "monitor_config.ini"%string := Raise ValueError ]} []
                     (blank true None) in
  @main calm_env [] 3 p = (Raise ValueError, p).
Proof.
  apply (@unreadable_config_file calm_env [] 3
           (mkProcess {[ "monitor_config.ini"%string := Raise ValueError ]} []
                      (blank true None))
           default_args "internet_logs" "monitor_config.ini" ValueError);
    [done|done|done|apply lookup_singleton_eq].
Defined.
