(* ===== verification/Session.v ===== *)
(** * Session: a run of the monitor as a whole

    What a session leaves, whatever the environment does and however the
    run ends: the connection fields and the events series are those of the
    specification's state machine on the checks of the session; a typed
    store stays typed and its history only grows; and the report computed
    from the three series is the report of the specification over the
    history (the probes, the outages and the speed tests of the earlier
    runs and of this one), which never fails on what the monitor wrote
    itself. *)

From S2P Require Import Prelude Text Config Values World Store StateMachine Probe.
From S2P Require Import Connectivity Report SpeedTest Schema Upload Monitor Cli Startup.

(** ** The session and the transition table *)

Section Session.
Context {E : Environment} (cfg : Config).
Implicit Types (s : State) (jobs : list job).

(** A cycle is at most one audited check, and one when it ends. *)
Lemma cycle_audited jobs s :
  conn_inv s ->
  exists bs, length bs <= 1 /\ audited cfg bs s (exec (cycle cfg jobs) s) /\
    (forall jobs', eval (cycle cfg jobs) s = Ok jobs' -> length bs = 1).
Proof.
  intros Hs. destruct (test_connectivity_audited cfg s Hs) as (bs & Ht & Hc).
  exists bs. unfold cycle. rewrite exec_bind_cases.
  destruct (eval (test_connectivity cfg) s) as [c|e] eqn:He.
  - destruct Hc as (chk & -> & _). split; [simpl; lia|]. split; [|done].
    eapply audited_aside; [done|apply (respects (R := aside))|
                           apply (respects (R := grows connectivity_log _))].
  - subst bs. split; [simpl; lia|]. split; [done|].
    intros jobs'. by rewrite (eval_bind_raise _ _ _ _ He).
Qed.

(** A run of the loop is at most one audited check per cycle, and one per
    cycle when it is still going. *)
Lemma monitor_loop_audited fuel jobs s :
  conn_inv s ->
  exists bs,
    length bs <= fuel /\ audited cfg bs s (exec (monitor_loop cfg fuel jobs) s) /\
    (forall jobs', eval (monitor_loop cfg fuel jobs) s = Ok jobs' -> length bs = fuel).
Proof.
  revert jobs s. induction fuel as [|fuel IH]; intros jobs s Hs.
  { exists []. split; [done|]. split; [|done].
    by apply audited_nil; [|done|apply grows_files]. }
  simpl. rewrite exec_bind_cases.
  destruct (cycle_audited jobs s Hs) as (bs1 & Hl1 & Ht1 & Hn1).
  destruct (eval (cycle cfg jobs) s) as [jobs'|e] eqn:He.
  - destruct (IH jobs' _ (proj2 (proj2 (proj1 Ht1)))) as (bs2 & Hl2 & Ht2 & Hn2).
    exists (bs1 ++ bs2). split; [rewrite length_app; lia|].
    split; [by eapply audited_app|]. intros jobs2.
    rewrite (eval_bind _ _ _ _ He), length_app, (Hn1 jobs' eq_refl).
    intros H. by rewrite (Hn2 _ H).
  - exists bs1. split; [lia|]. split; [done|].
    intros jobs'. by rewrite (eval_bind_raise _ _ _ _ He).
Qed.

(** The same for [run_monitor]: the first speed test, the handler of the
    interrupt and the final report add no check. *)
Lemma run_monitor_audited fuel s :
  conn_inv s ->
  exists bs,
    length bs <= fuel /\ audited cfg bs s (exec (run_monitor cfg fuel) s) /\
    (forall jobs, eval (run_monitor cfg fuel) s = Ok (Running jobs) -> length bs = fuel).
Proof.
  intros Hs.
  pose proof (respects (R := aside) (c := startup cfg) s) as H0.
  pose proof (respects (R := grows connectivity_log (fun _ => False))
                (c := startup cfg) s) as G0.
  destruct (eval (startup cfg) s) as [jobs|e] eqn:He; cycle 1.
  { exists []. unfold run_monitor. rewrite exec_bind_cases, He.
    split; [simpl; lia|]. split; [by apply audited_nil|].
    intros jobs. by rewrite (eval_bind_raise _ _ _ _ He). }
  assert (conn_inv (exec (startup cfg) s)) as Hs0
    by (apply (same_connection_keeps_conn_inv s); [apply H0|done]).
  destruct (monitor_loop_audited fuel jobs _ Hs0) as (bs & Hl & Ht & Hn).
  exists bs. split; [done|]. unfold eval, exec in Hn, Ht |- *.
  rewrite (run_monitor_run cfg fuel s jobs He).
  destruct (monitor_loop cfg fuel jobs _) as [[jobs'|e] s1]; simpl in *.
  - split; [by apply (aside_audited _ _ _ _ _ H0 G0)|]. intros _ _. by eapply Hn.
  - destruct (is_KeyboardInterrupt e).
    + split; [|intros jobs' Hx; destruct (stop_run s1) as [_ Hstop];
               unfold eval in Hstop; rewrite Hstop in Hx; by case_match].
      apply (aside_audited _ _ _ _ _ H0 G0).
      eapply audited_aside; [done|apply (respects (R := aside))|
                             apply (respects (R := grows connectivity_log _))].
    + split; [by apply (aside_audited _ _ _ _ _ H0 G0)|done].
Qed.

(** C11: the session refines the state machine of the specification on
    the checks its connectivity series records.  From a consistent state,
    whatever the environment does and however the run ends, there is a
    sequence of checks, at most one per cycle, each with one entry per
    configured target, such that the connectivity series grew by exactly
    the rows of their entries, the connection fields after the run stand
    for the state of the transition table after the majority verdicts of
    these checks, the events series grew by exactly the rows of the events
    the table emits on them, and the state is consistent: speed tests,
    uploads, sleeps and the final report never touch the connection fields
    or these two series.  A run that is still going made exactly one check
    per cycle. *)
Theorem session_refines_state_machine fuel s :
  conn_inv s ->
  let s' := exec (run_monitor cfg fuel) s in
  exists bs,
    length bs <= fuel /\
    Forall (fun chk => map r_target chk.1 = ping_targets cfg ++ http_targets cfg) bs /\
    rows_of connectivity_log s'
    = rows_of connectivity_log s ++ concat (map batch_rows bs) /\
    abs_conn s' = fst (spec_run (abs_conn s) (map check_of bs)) /\
    rows_of events_log s'
    = rows_of events_log s
      ++ map row_of_event (snd (spec_run (abs_conn s) (map check_of bs))) /\
    conn_inv s' /\
    (forall jobs, eval (run_monitor cfg fuel) s = Ok (Running jobs) -> length bs = fuel).
Proof.
  intros Hs s'.
  destruct (run_monitor_audited fuel s Hs)
    as (bs & Hl & ((Ha & He & Hi) & Hr & Hb) & Hn).
  exists bs. split; [done|]. split; [|done].
  eapply Forall_impl; [exact Hb|]. by intros chk [? _].
Qed.

End Session.

(** ** Typed stores and their history across a session *)

Section TypedSession.
Context {E : Environment} (cfg : Config).
Implicit Types (s : State) (jobs : list job).

(** Between two states of which the second has the rows of the first, then
    the rows of the checks [bs], the rows of the events of the table on
    their verdicts and rows of speed tests: a typed store stays typed and
    its history grew by the entries of the checks, the outages the table
    completes and the speed tests run. *)
Lemma session_history bs s s' :
  store_typed s ->
  audited cfg bs s s' ->
  grows speedtest_log is_speed_row s s' ->
  store_typed s' /\
  exists rs,
    probes_of s' = probes_of s ++ concat (map fst bs) /\
    events_of s' = events_of s ++ snd (spec_run (abs_conn s) (map check_of bs)) /\
    records_of s' = records_of s ++ rs.
Proof.
  intros Hs (Ht & Hc & Hb) (rs & Hsp & Hrs).
  destruct (tracks_grows _ _ _ Ht) as (evs & He & Hevs).
  split.
  { apply (store_typed_grows s); [done|]. intros []; [|by eexists..].
    eexists. split; [exact Hc|]. apply Forall_concat, Forall_map.
    eapply Forall_impl; [exact Hb|]. intros chk [_ Hchk]. apply Forall_map.
    eapply Forall_impl; [exact Hchk|]. intros rec Hrec.
    simpl in *. by exists rec. }
  destruct Ht as (_ & He' & _).
  unfold probes_of, events_of, records_of.
  rewrite (data_of_grows _ _ _ _ Hs Hc), (data_of_grows _ _ _ _ Hs He'),
          (data_of_grows _ _ _ _ Hs Hsp), !omap_app.
  rewrite (decode_encoded _ _ event_of_row_of_event), (decode_batches cfg bs Hb). eauto.
Qed.

(** What [__init__] leaves of a log directory whose series are typed: a
    typed store with the same history, and consistent connection fields. *)
Lemma init_monitor_typed s :
  files_typed s ->
  conn_inv (exec init_monitor s) /\ store_typed (exec init_monitor s) /\
  forall f, data_of f (exec init_monitor s) = data_of f s.
Proof.
  intros Hs. unfold init_monitor.
  rewrite exec_seq by (unfold _init_csv_files, init_csv_file; returns).
  split; [apply init_connection_inv|].
  change (files (exec init_connection ?s')) with (files s').
  split; [by apply init_csv_files_typed|]. intros f. unfold data_of, rows_of.
  change (files (exec init_connection ?s')) with (files s').
  rewrite init_csv_files_lookup. by destruct (files s !! f).
Qed.

(** A session keeps the store typed, and the history only grows: the
    records read from the series after [run_monitor] are those read before
    the run, followed by the entries of the probes made, by the events the
    transition table of the specification emits on the checks of the
    session, and by the records of the speed tests run. *)
Lemma run_monitor_history fuel s :
  conn_inv s -> store_typed s ->
  let s' := exec (run_monitor cfg fuel) s in
  store_typed s' /\
  exists bs rs,
    length bs <= fuel /\
    probes_of s' = probes_of s ++ concat (map fst bs) /\
    events_of s' = events_of s ++ snd (spec_run (abs_conn s) (map check_of bs)) /\
    records_of s' = records_of s ++ rs.
Proof.
  intros Hi Hs s'. destruct (run_monitor_audited cfg fuel s Hi) as (bs & Hl & Ht & _).
  destruct (session_history bs s s' Hs Ht) as (Hs' & rs & H);
    [apply (respects (c := run_monitor cfg fuel))|].
  split; [done|]. by exists bs, rs.
Qed.

(** The report of a run interrupted in the loop, started with a typed
    store. *)
Lemma interrupted_run_report fuel s jobs :
  conn_inv s -> store_typed s ->
  eval (startup cfg) s = Ok jobs ->
  eval (monitor_loop cfg fuel jobs) (exec (startup cfg) s) = Raise KeyboardInterrupt ->
  let s1 := exec (monitor_loop cfg fuel jobs) (exec (startup cfg) s) in
  let s' := exec (run_monitor cfg fuel) s in
  eval (run_monitor cfg fuel) s = Ok Stopped /\
  report_lines (report_stamp (clock (tick s1))) s'
  = [RTitle; RRule; RGenerated (clock (S (tick s1)))] ++ reference_report s'.
Proof.
  intros Hi Hs H0 Hl s1 s'. subst s'.
  destruct (run_monitor_history fuel s Hi Hs) as [Hs' _].
  destruct (run_monitor_interrupted cfg fuel s jobs H0 Hl) as [Hx Hv].
  fold s1 in Hx, Hv. destruct (stop_run s1) as [Hx' Hv'].
  rewrite Hv, Hv', Hx, Hx' in *.
  set (s2 := exec (logger INFO MonitoringStopped) s1) in *.
  destruct (respects (R := report_only) (c := generate_report) s2) as [Hf _].
  destruct (typed_report_run s2 (store_typed_same_files _ _ (eq_sym Hf) Hs'))
    as [He Hlines].
  change (tick s2) with (tick s1) in He, Hlines.
  by rewrite He, Hlines, (reference_report_files _ _ Hf).
Qed.
End TypedSession.

Section ProcessReport.
Context {E : Environment}.

(** [main] without flags is [__init__], then [run_monitor]. *)
Lemma main_monitoring argv fuel p a dir path c :
  parse_args argv = Parsed a ->
  arg_log_dir a = Stored dir -> arg_config a = Stored path ->
  arg_setup_vps a = false -> arg_report a = false ->
  eval (read_config path) p = Ok c ->
  eval (main argv fuel) p
  = ending_of <$> eval (run_monitor (config_of a dir c) fuel)
                       (exec init_monitor (monitor p)) /\
  monitor (exec (main argv fuel) p)
  = exec (run_monitor (config_of a dir c) fuel) (exec init_monitor (monitor p)).
Proof.
  intros Ha Hd Hpath Hv Hr Hc.
  destruct (main_exec argv fuel p a dir path c Ha Hd Hpath Hc) as [-> ->].
  rewrite run_mode_monitor, Hv, Hr. split; [|done].
  unfold run_mode, eval at 1. rewrite Hv, Hr. unfold bind. rewrite on_monitor_run.
  by destruct (eval (run_monitor _ _) _).
Qed.

(** C14: the program keeps the log directory typed.  Started in a
    directory whose series, where they exist, begin with their headers and
    hold only rows that stand for a record of the data model, with a
    command line that parses, the two paths being texts, and a
    configuration file that is read, the program leaves a typed store in
    each of its three modes: the three series exist, and no row of an
    earlier run was removed or changed; and the connection variables it
    ends with are consistent: an outage has a start time exactly while the
    state is disconnected. *)
Theorem main_keeps_typed argv fuel p a dir path c :
  parse_args argv = Parsed a ->
  arg_log_dir a = Stored dir -> arg_config a = Stored path ->
  eval (read_config path) p = Ok c ->
  files_typed (monitor p) ->
  let s' := monitor (exec (main argv fuel) p) in
  store_typed s' /\ conn_inv s' /\
  forall f, data_of f (monitor p) `prefix_of` data_of f s'.
Proof.
  intros Ha Hdir Hpath Hc Hp s'.
  destruct (init_monitor_typed (monitor p) Hp) as (Hi & Hs & Hd).
  destruct (main_exec argv fuel p a dir path c Ha Hdir Hpath Hc) as [Hx _]. subst s'.
  rewrite Hx, run_mode_monitor.
  change (monitor (built path p)) with (exec init_monitor (monitor p)).
  destruct (arg_setup_vps a); [|destruct (arg_report a)].
  - split_and!; [done..|]. intros f. by rewrite Hd.
  - split_and!; [by apply generate_report_typed| |].
    + by apply (respects (R := keeps_conn_inv) (c := generate_report)).
    + intros f. rewrite <- Hd. unfold data_of, rows_of.
      by destruct (respects (R := report_only) (c := generate_report)
                     (exec init_monitor (monitor p))) as [-> _].
  - destruct (run_monitor_history (config_of a dir c) fuel _ Hi Hs) as [Hs' _].
    split_and!; [done| |].
    + by apply (respects (R := keeps_conn_inv) (c := run_monitor (config_of a dir c) fuel)).
    + intros f. rewrite <- Hd. apply data_of_prefix.
      apply (respects (R := store_le) (c := run_monitor (config_of a dir c) fuel)).
Qed.

(** C12: the report of a session is the report of the specification over
    the history, and it is always complete.  In a log directory whose
    series, where they exist, are typed, the program started without
    [--report] and [--setup-vps] and interrupted in its loop exits with
    code 0 and leaves a report that holds the title, the rule and the date,
    then the connectivity section over the probes of the earlier runs and
    the entries of the checks made, the disconnection section over the
    outages of the earlier runs and those that the transition table of the
    specification completes on the majority verdicts of these checks, at
    most one check per cycle (left out when there is none), and the
    speed test section over the speed tests of the earlier runs and those
    run (left out when none succeeded): no analysis raises on the rows the
    monitor wrote itself, in this run or before. *)
Theorem session_report argv fuel p a dir path c jobs :
  parse_args argv = Parsed a ->
  arg_log_dir a = Stored dir -> arg_config a = Stored path ->
  arg_setup_vps a = false -> arg_report a = false ->
  eval (read_config path) p = Ok c ->
  files_typed (monitor p) ->
  let cfg := config_of a dir c in
  let s0 := exec init_monitor (monitor p) in
  eval (startup cfg) s0 = Ok jobs ->
  eval (monitor_loop cfg fuel jobs) (exec (startup cfg) s0) = Raise KeyboardInterrupt ->
  let s1 := exec (monitor_loop cfg fuel jobs) (exec (startup cfg) s0) in
  exists bs rs,
    length bs <= fuel /\
    eval (main argv fuel) p = Ok (Exited 0) /\
    report_lines (report_stamp (clock (tick s1))) (monitor (exec (main argv fuel) p))
    = [RTitle; RRule; RGenerated (clock (S (tick s1)))]
      ++ connectivity_lines (probes_of (monitor p) ++ concat (map fst bs))
      ++ disconnection_lines
           (events_of (monitor p) ++ snd (spec_run (abs_conn s0) (map check_of bs)))
      ++ speed_lines (records_of (monitor p) ++ rs).
Proof.
  intros Ha Hdir Hpath Hv Hr Hc Hp cfg s0 H0 Hl s1.
  destruct (init_monitor_typed (monitor p) Hp) as (Hi & Hs & Hd).
  destruct (main_monitoring argv fuel p a dir path c Ha Hdir Hpath Hv Hr Hc) as [-> ->].
  destruct (interrupted_run_report cfg fuel s0 jobs Hi Hs H0 Hl) as [He Hlines].
  destruct (run_monitor_history cfg fuel s0 Hi Hs)
    as (_ & bs & rs & Hn & Hpr & Hev & Hrs).
  exists bs, rs. fold cfg s0 s1 in Hlines |- *. rewrite He, Hlines.
  unfold reference_report. rewrite Hpr, Hev, Hrs.
  unfold probes_of, events_of, records_of. by rewrite !Hd.
Qed.
End ProcessReport.

(** ** Worked examples *)
(** A session with an outage: the hosts are unreachable during the second
    check and part of the third; the interrupt arrives after the fourth.
    The events series holds one outage of 18 seconds, and the final report
    counts it. *)
Example session_with_outage :
  let E := outage_env 14 23 35 in
  let s := exec (@run_monitor E small_config 10) (@fresh E) in
  eval (@run_monitor E small_config 10) (@fresh E) = Ok Stopped /\
  rows_of events_log s = [events_header; event_row 19000000 37000000] /\
  report_lines 40 s
  = [ RTitle; RRule; RGenerated 41000000;
      RConnectivityHeader; RTotalTests 8; RFailedTests 3; RSuccessRate (500 # 8);
      RDisconnectionHeader; RTotalDisconnections 1;
      RTotalDowntime (18000000 # 1000000) (18000000 # 60000000);
      RAverageDisconnect (18000000 # 1000000) ].
Proof. by vm_compute. Qed.

Lemma session_refines_state_machine_witness :
  let E := outage_env 14 23 35 in
  let s := @fresh E in
  let s' := exec (@run_monitor E small_config 10) s in
  exists bs,
    length bs <= 10 /\
    Forall (fun chk => map r_target chk.1
                       = ping_targets small_config ++ http_targets small_config) bs /\
    rows_of connectivity_log s'
    = rows_of connectivity_log s ++ concat (map batch_rows bs) /\
    abs_conn s' = fst (spec_run (abs_conn s) (map check_of bs)) /\
    rows_of events_log s'
    = rows_of events_log s
      ++ map row_of_event (snd (spec_run (abs_conn s) (map check_of bs))) /\
    conn_inv s' /\
    (forall jobs, eval (@run_monitor E small_config 10) s = Ok (Running jobs) ->
                  length bs = 10).
Proof.
  apply (@session_refines_state_machine (outage_env 14 23 35) small_config 10).
  apply fresh_inv.
Defined.

Lemma main_keeps_typed_witness :
  let E := outage_env 14 23 35 in
  let s' := monitor (exec (@main E ["--report"]%string 10) new_process) in
  store_typed s' /\ conn_inv s' /\
  forall f, data_of f (monitor new_process) `prefix_of` data_of f s'.
Proof.
  apply (@main_keeps_typed (outage_env 14 23 35) ["--report"]%string 10 new_process
           (mkArgs (Stored 30%Z) (Stored 3600%Z) (Stored 300%Z) (Stored "internet_logs")
                   (Stored "monitor_config.ini") true false)
           "internet_logs" "monitor_config.ini" default_ini);
    [by vm_compute|done|done|apply read_config_new|].
  intros f rows H. simpl in H. by rewrite lookup_empty in H.
Defined.

Lemma session_report_witness :
  let E := outage_env 14 23 35 in
  let argv := ["--ping-interval=30"; "--speedtest"; "60"]%string in
  let cfg := config_of (mkArgs (Stored 30%Z) (Stored 60%Z) (Stored 300%Z)
                               (Stored "internet_logs") (Stored "monitor_config.ini")
                               false false)
                       "internet_logs" default_ini in
  let s0 := exec (@init_monitor E) (monitor new_process) in
  let jobs := [Job SpeedTestJob 60 61000000] in
  let s1 := exec (@monitor_loop E cfg 10 jobs) (exec (@startup E cfg) s0) in
  exists bs rs,
    length bs <= 10 /\
    eval (@main E argv 10) new_process = Ok (Exited 0) /\
    report_lines (report_stamp (@clock E (tick s1)))
                 (monitor (exec (@main E argv 10) new_process))
    = [RTitle; RRule; RGenerated (@clock E (S (tick s1)))]
      ++ connectivity_lines (probes_of (monitor new_process) ++ concat (map fst bs))
      ++ disconnection_lines (events_of (monitor new_process)
                              ++ snd (spec_run (abs_conn s0) (map check_of bs)))
      ++ speed_lines (records_of (monitor new_process) ++ rs).
Proof.
  apply (@session_report (outage_env 14 23 35)
           ["--ping-interval=30"; "--speedtest"; "60"]%string 10 new_process
           (mkArgs (Stored 30%Z) (Stored 60%Z) (Stored 300%Z) (Stored "internet_logs")
                   (Stored "monitor_config.ini") false false)
           "internet_logs" "monitor_config.ini" default_ini [Job SpeedTestJob 60 61000000]);
    [by vm_compute|done|done|done|done|apply read_config_new| |by vm_compute..].
  intros f rows H. simpl in H. by rewrite lookup_empty in H.
Defined.
